(** * Distribution-Center bot: a shallow embedding of the conversation
      handlers and of the sheet utilities, with the properties of the
      specification that they satisfy (or fail).

    Conventions of the embedding.
    - A Python [str] is a [string]; a character is a code point in
      U+0000..U+00FF.  Every constant of [config.py] is ASCII.
    - A Python [float] is an IEEE-754 binary64 value ([spec_float] with
      precision 53 and maximal exponent 1024), rounded to nearest-even.
    - [context.user_data] is a record with one optional field per key the
      handlers use; [None] means that the key is absent.
    - A handler is a computation over a [world] that either returns the
      next conversation state or raises. *)

From Stdlib Require Import ZArith List String Ascii Bool Lia Permutation.
From Stdlib Require Import Floats.SpecFloat Numbers.DecimalString.
From Stdlib Require Numbers.DecimalPos.
Import ListNotations.
Open Scope string_scope.
Open Scope list_scope.
Open Scope nat_scope.

(* ------------------------------------------------------------------ *)
(** * Python strings *)

Module PyStr.

Definition code (c : ascii) : nat := nat_of_ascii c.

Definition is_upper (c : ascii) : bool := (65 <=? code c) && (code c <=? 90).
Definition is_lower (c : ascii) : bool := (97 <=? code c) && (code c <=? 122).
(** [a-zA-Z] *)
Definition is_alpha (c : ascii) : bool := is_upper c || is_lower c.
(** [0-9], which is also what [\d] matches below U+0100 *)
Definition is_digit (c : ascii) : bool := (48 <=? code c) && (code c <=? 57).
(** [\s] of [re] on [str], [str.isspace], and the separators of
    [str.split()] and [str.strip()]: below U+0100 these are TAB..CR,
    FS..US, SPACE, NEL and NBSP. *)
Definition is_space (c : ascii) : bool :=
  ((9 <=? code c) && (code c <=? 13)) || ((28 <=? code c) && (code c <=? 32))
  || (code c =? 133) || (code c =? 160).

(** The case mappings are those of the ASCII letters: the handlers apply
    them to the names of the configuration and to what the regular
    expression of the insights has left, which are ASCII. *)
Definition to_upper (c : ascii) : ascii :=
  if is_lower c then ascii_of_nat (code c - 32) else c.
Definition to_lower (c : ascii) : ascii :=
  if is_upper c then ascii_of_nat (code c + 32) else c.

Fixpoint map_chars (f : ascii -> ascii) (s : string) : string :=
  match s with
  | EmptyString => EmptyString
  | String c s' => String (f c) (map_chars f s')
  end.

Fixpoint filter_chars (p : ascii -> bool) (s : string) : string :=
  match s with
  | EmptyString => EmptyString
  | String c s' => if p c then String c (filter_chars p s') else filter_chars p s'
  end.

Fixpoint all_chars (p : ascii -> bool) (s : string) : bool :=
  match s with
  | EmptyString => true
  | String c s' => p c && all_chars p s'
  end.

(** [str.lower()] *)
Definition lower (s : string) : string := map_chars to_lower s.

(** [str.title()]: a letter that follows a cased character is lowered,
    any other letter is raised. *)
Fixpoint title_from (previous_is_cased : bool) (s : string) : string :=
  match s with
  | EmptyString => EmptyString
  | String c s' =>
      String (if previous_is_cased then to_lower c else to_upper c)
             (title_from (is_alpha c) s')
  end.
Definition title (s : string) : string := title_from false s.

(** [str.replace(old, new)]: non-overlapping occurrences, left to right.
    [skip] counts the characters of a matched occurrence still to drop. *)
Fixpoint replace_from (old new : string) (skip : nat) (s : string) : string :=
  match s with
  | EmptyString => EmptyString
  | String c s' =>
      match skip with
      | S k => replace_from old new k s'
      | O =>
          if prefix old s
          then (new ++ replace_from old new (String.length old - 1) s')%string
          else String c (replace_from old new 0 s')
      end
  end.

Fixpoint intersperse (new : string) (s : string) : string :=
  match s with
  | EmptyString => new
  | String c s' => (new ++ String c (intersperse new s'))%string
  end.

Definition replace (old new s : string) : string :=
  match old with
  | EmptyString => intersperse new s
  | _ => replace_from old new 0 s
  end.

(** [str.split()] with no argument. *)
Fixpoint split_ws (cur : string) (s : string) : list string :=
  match s with
  | EmptyString => match cur with EmptyString => [] | _ => [cur] end
  | String c s' =>
      if is_space c
      then match cur with EmptyString => split_ws "" s' | _ => cur :: split_ws "" s' end
      else split_ws (cur ++ String c "")%string s'
  end.
Definition split (s : string) : list string := split_ws "" s.

(** [sep.join(parts)] *)
Definition join (sep : string) (parts : list string) : string := concat sep parts.

(** [str.split(sep)] for a one-character separator. *)
Fixpoint split_on (sep : ascii) (cur : string) (s : string) : list string :=
  match s with
  | EmptyString => [cur]
  | String c s' =>
      if Ascii.eqb c sep then cur :: split_on sep "" s'
      else split_on sep (cur ++ String c "")%string s'
  end.

Fixpoint lstrip (s : string) : string :=
  match s with
  | EmptyString => EmptyString
  | String c s' => if is_space c then lstrip s' else s
  end.

Definition rev (s : string) : string :=
  string_of_list_ascii (List.rev (list_ascii_of_string s)).

(** [str.strip()] *)
Definition strip (s : string) : string := rev (lstrip (rev (lstrip s))).

(** [str.isdigit()]: below U+0100 the digit characters are 0-9 and the
    superscripts two, three and one. *)
Definition is_digit_char (c : ascii) : bool :=
  is_digit c || (code c =? 178) || (code c =? 179) || (code c =? 185).
Definition isdigit (s : string) : bool :=
  match s with
  | EmptyString => false
  | _ => all_chars is_digit_char s
  end.

Definition digit_value (c : ascii) : Z := Z.of_nat (code c - 48).

Fixpoint digits_value (acc : Z) (s : string) : Z :=
  match s with
  | EmptyString => acc
  | String c s' => digits_value (10 * acc + digit_value c)%Z s'
  end.

(** [int(s)] on a string that satisfies [isdigit]: the superscript digits
    are refused with [ValueError]. *)
Definition int_of_digits (s : string) : option Z :=
  if all_chars is_digit s then Some (digits_value 0%Z s) else None.

(** [str(n)] for an [int]. *)
Definition str_of_int (n : Z) : string := NilZero.string_of_int (Z.to_int n).

End PyStr.

(* ------------------------------------------------------------------ *)
(** * Python floats (binary64) *)

Module PyFloat.

Import PyStr.

Definition prec : Z := 53.
Definition emax : Z := 1024.

Definition float : Type := spec_float.

Definition zero : float := S754_zero false.

(** [x + y], [x / y] and [x <= y] on floats. *)
Definition add (x y : float) : float := SFadd prec emax x y.
Definition div (x y : float) : float := SFdiv prec emax x y.
Definition leb (x y : float) : bool := SFleb x y.
Definition ltb (x y : float) : bool := SFltb x y.

Definition is_nan (x : float) : bool :=
  match x with S754_nan => true | _ => false end.

(** The double nearest to [m * 10^e] (ties to even), with sign [neg]:
    what the decimal-to-binary conversion of [float(str)] returns. *)
Definition of_decimal (neg : bool) (m : Z) (e : Z) : float :=
  match m with
  | Zpos p =>
      if (0 <=? e)%Z
      then binary_round prec emax neg (Z.to_pos (Zpos p * 10 ^ e)) 0
      else
        let '(q, e', l) := SFdiv_core_binary prec emax (Zpos p) 0 (10 ^ (- e)) 0 in
        binary_round_aux prec emax neg q e' l
  | _ => S754_zero neg
  end.

(** [float(n)] for an [int] (an [int] too large for a double raises
    [OverflowError] in Python; the handlers only convert counts). *)
Definition of_int (n : Z) : float :=
  of_decimal (n <? 0)%Z (Z.abs n) 0.

(** ** [float(str)] *)

(** Underscores may only stand between two digits; they are removed. *)
Fixpoint drop_underscores (prev : option ascii) (s : string) : option string :=
  match s with
  | EmptyString =>
      match prev with
      | Some "_"%char => None
      | _ => Some EmptyString
      end
  | String c s' =>
      if Ascii.eqb c "_" then
        match prev with
        | Some p => if is_digit p then drop_underscores (Some c) s' else None
        | None => None
        end
      else
        match prev with
        | Some "_"%char =>
            if is_digit c
            then option_map (String c) (drop_underscores (Some c) s')
            else None
        | _ => option_map (String c) (drop_underscores (Some c) s')
        end
  end.

(** The longest prefix of digits, and the rest. *)
Fixpoint span_digits (s : string) : string * string :=
  match s with
  | String c s' =>
      if is_digit c
      then let '(d, r) := span_digits s' in (String c d, r)
      else (EmptyString, s)
  | EmptyString => (EmptyString, EmptyString)
  end.

Definition split_sign (s : string) : bool * string :=
  match s with
  | String "-" s' => (true, s')
  | String "+" s' => (false, s')
  | _ => (false, s)
  end.

(** The exponent part: empty, or [e] or [E], an optional sign and at least
    one digit, up to the end of the text. *)
Definition parse_exponent (s : string) : option Z :=
  match s with
  | EmptyString => Some 0%Z
  | String c s' =>
      if Ascii.eqb (to_lower c) "e" then
        let '(neg, t) := split_sign s' in
        let '(d, r) := span_digits t in
        match d, r with
        | String _ _, EmptyString =>
            Some (if neg then (- digits_value 0 d)%Z else digits_value 0%Z d)
        | _, _ => None
        end
      else None
  end.

Definition parse_decimal (neg : bool) (s : string) : option float :=
  let '(ip, r1) := span_digits s in
  let '(fp, r2) :=
    match r1 with
    | String "." r => span_digits r
    | _ => (EmptyString, r1)
    end in
  match (ip ++ fp)%string with
  | EmptyString => None
  | digits =>
      match parse_exponent r2 with
      | Some ex =>
          Some (of_decimal neg (digits_value 0%Z digits)
                           (ex - Z.of_nat (String.length fp)))
      | None => None
      end
  end.

(** The whitespace that [float] drops at both ends of its argument: the
    ASCII whitespace TAB..CR and SPACE, and the spaces above U+007F, which
    it reads as SPACE (NEL and NBSP below U+0100).  FS..US, which
    [str.strip] drops, are left in place and make the text invalid. *)
Definition is_float_space (c : ascii) : bool :=
  ((9 <=? code c) && (code c <=? 13)) || (code c =? 32)
  || (code c =? 133) || (code c =? 160).

Fixpoint lstrip_spaces (s : string) : string :=
  match s with
  | String c s' => if is_float_space c then lstrip_spaces s' else s
  | EmptyString => EmptyString
  end.

Definition strip_spaces (s : string) : string :=
  rev (lstrip_spaces (rev (lstrip_spaces s))).

(** [float(s)]: [None] stands for [ValueError]. *)
Definition of_string (s : string) : option float :=
  match drop_underscores None (strip_spaces s) with
  | None => None
  | Some t =>
      let '(neg, body) := split_sign t in
      let l := lower body in
      if (l =? "inf")%string || (l =? "infinity")%string then Some (S754_infinity neg)
      else if (l =? "nan")%string then Some S754_nan
      else parse_decimal neg body
  end.

(** ** [round(x, 2)] *)

(** Nearest integer to [n / d], ties to even ([0 <= n], [0 < d]). *)
Definition div_nearest_even (n d : Z) : Z :=
  let q := (n / d)%Z in
  let r := (n mod d)%Z in
  match (2 * r ?= d)%Z with
  | Lt => q
  | Gt => (q + 1)%Z
  | Eq => if Z.even q then q else (q + 1)%Z
  end.

(** [|x| * 10^k] for a finite [x = m * 2^e] and [0 <= k], rounded to the
    nearest integer on the exact value. *)
Definition scaled_nearest (m : positive) (e : Z) (k : Z) : Z :=
  if (0 <=? e)%Z then (Zpos m * 2 ^ e * 10 ^ k)%Z
  else div_nearest_even (Zpos m * 10 ^ k) (2 ^ (- e)).

(** [round(x, 2)]: the decimal with two places nearest to the exact value
    of [x], converted back to a double; infinities and NaN are returned
    unchanged. *)
Definition round2 (x : float) : float :=
  match x with
  | S754_finite s m e => of_decimal s (scaled_nearest m e 2) (-2)
  | _ => x
  end.

(** [format(x, '.2f')] *)
Definition format_2f (x : float) : string :=
  let body n :=
    let frac := (n mod 100)%Z in
    (str_of_int (n / 100)%Z ++ "."
       ++ (if (frac <? 10)%Z then "0" else "") ++ str_of_int frac)%string in
  match x with
  | S754_nan => "nan"
  | S754_infinity s => if s then "-inf" else "inf"
  | S754_zero s => if s then "-0.00" else "0.00"
  | S754_finite s m e =>
      let text := body (scaled_nearest m e 2) in
      if s then String "-" text else text
  end.

(** ** [repr(x)], which is also [str(x)] *)

(** Whether [m * 2^e < 10^j]. *)
Definition below_pow10 (m : positive) (e : Z) (j : Z) : bool :=
  (Zpos m * 2 ^ (Z.max e 0) * 10 ^ (Z.max (- j) 0)
   <? 2 ^ (Z.max (- e) 0) * 10 ^ (Z.max j 0))%Z.

(** The least [j], searched upwards from [j0], with [m * 2^e < 10^j]. *)
Fixpoint decimal_point (fuel : nat) (m : positive) (e : Z) (j0 : Z) : Z :=
  match fuel with
  | O => j0
  | S fuel' =>
      if below_pow10 m e j0 then j0 else decimal_point fuel' m e (j0 + 1)%Z
  end.

Fixpoint strip_zeros (fuel : nat) (n : Z) (q : Z) : Z * Z :=
  match fuel with
  | O => (n, q)
  | S fuel' =>
      if ((n mod 10 =? 0) && negb (n =? 0))%Z
      then strip_zeros fuel' (n / 10)%Z (q + 1)%Z
      else (n, q)
  end.

(** With [p] significant digits: the decimal [n * 10^q] that reads back as
    [x = m * 2^e] and is nearest to it, if there is one. *)
Definition candidate (m : positive) (e : Z) (dp : Z) (p : Z) : option (Z * Z) :=
  let q := (dp - p)%Z in
  let num := (Zpos m * 2 ^ (Z.max e 0) * 10 ^ (Z.max (- q) 0))%Z in
  let den := (2 ^ (Z.max (- e) 0) * 10 ^ (Z.max q 0))%Z in
  let lo := (num / den)%Z in
  let r := (num mod den)%Z in
  let x := S754_finite false m e in
  let ok n := SFeqb (of_decimal false n q) x in
  let hi := (lo + 1)%Z in
  match ok lo, ok hi with
  | true, true =>
      match (2 * r ?= den)%Z with
      | Lt => Some (lo, q)
      | Gt => Some (hi, q)
      | Eq => Some (if Z.even lo then lo else hi, q)
      end
  | true, false => Some (lo, q)
  | false, true => Some (hi, q)
  | false, false => None
  end.

Fixpoint shortest (fuel : nat) (m : positive) (e : Z) (dp : Z) (p : Z) : Z * Z :=
  match fuel with
  | O => (Zpos m, 0%Z)
  | S fuel' =>
      match candidate m e dp p with
      | Some nq => nq
      | None => shortest fuel' m e dp (p + 1)%Z
      end
  end.

Fixpoint zeros (n : nat) : string :=
  match n with O => EmptyString | S n' => String "0" (zeros n') end.

Definition two_digits (n : Z) : string :=
  if (n <? 10)%Z then String "0" (str_of_int n) else str_of_int n.

(** The layout of [repr]: exponent form when the decimal point falls
    outside [-4 < decpt <= 16], and a trailing [.0] on integers. *)
Definition layout (digits : string) (decpt : Z) : string :=
  let n := Z.of_nat (String.length digits) in
  if ((decpt <=? -4) || (16 <? decpt))%Z then
    let mant :=
      match digits with
      | String d EmptyString => digits
      | String d rest => String d (String "." rest)
      | EmptyString => EmptyString
      end in
    let ex := (decpt - 1)%Z in
    (mant ++ "e" ++ (if (ex <? 0)%Z then "-" else "+") ++ two_digits (Z.abs ex))%string
  else if (decpt <=? 0)%Z then
    ("0." ++ zeros (Z.to_nat (- decpt)) ++ digits)%string
  else if (decpt <? n)%Z then
    (substring 0 (Z.to_nat decpt) digits ++ "."
       ++ substring (Z.to_nat decpt) (Z.to_nat (n - decpt)) digits)%string
  else
    (digits ++ zeros (Z.to_nat (decpt - n)) ++ ".0")%string.

Definition repr (x : float) : string :=
  match x with
  | S754_nan => "nan"
  | S754_infinity s => if s then "-inf" else "inf"
  | S754_zero s => if s then "-0.0" else "0.0"
  | S754_finite s m e =>
      let dp := decimal_point 700 m e (-330)%Z in
      let '(n, q) := shortest 17 m e dp 1%Z in
      let '(n', q') := strip_zeros 400 n q in
      let digits := str_of_int n' in
      let body := layout digits (Z.of_nat (String.length digits) + q')%Z in
      if s then String "-" body else body
  end.

End PyFloat.

(* ------------------------------------------------------------------ *)
(** * config.py *)

Module config.

Definition ID_FIELD := "id".
Definition TIMESTAMP_FIELD := "timestamp".
Definition EMAIL_FIELD := "email_address".
Definition PRODUCT_FIELD := "product_list".
Definition PRICE_FIELD := "buying_price".
Definition LOCATION_FIELD := "location".
Definition REMARK_FIELD := "production_remark".

Definition DEFAULT_HEADERS : list string :=
  [ID_FIELD; TIMESTAMP_FIELD; EMAIL_FIELD; PRODUCT_FIELD; PRICE_FIELD;
   LOCATION_FIELD; REMARK_FIELD].

Definition PRODUCTS : list string :=
  ["Red Onion Grade A Restaurant quality"; "Red Onion Grade B"; "Red Onion Grade C";
   "Red Onion Elfora"; "Potatoes"; "Potatoes Restaurant Quality";
   "Tomatoes Grade B"; "Tomatoes Grade A"; "Carrot"; "Chilly Green";
   "Chilly Green (Elfora)"; "White Cabbage"; "White Cabbage (Small)";
   "White Cabbage (Large)"; "Avocado"; "Strawberry"; "Papaya"; "Courgette";
   "Cucumber"; "Garlic"; "Ginger"; "Pineapple"; "Apple Mango"; "Lemon";
   "Apple"; "Valencia Orange"; "Yerer Orange"; "Avocado Shekaraw";
   "Beet root"; "Corn"; "Orange"; "Green Beans"; "Salad"; "Broccoli"].

Definition LOCATIONS : list string :=
  ["Distribution Center 1 Gerji";
   "Distribution Center 2 Garment";
   "Distribution Center 3 02";
   "Distribution Center Lemi Kura/Alem Bank"].

(** A conversation state is a Python [int]. *)
Definition state : Type := Z.

(** [_generate_unique_states(count)] with the module counter threaded:
    the fresh states and the counter afterwards. *)
Definition _generate_unique_states (count : nat) (counter : Z) : list state * Z :=
  (map (fun i => (counter + Z.of_nat i)%Z) (seq 0 count),
   (counter + Z.of_nat count)%Z).

Definition create_states := _generate_unique_states 11 0.
Definition update_states := _generate_unique_states 4 (snd create_states).
Definition delete_states := _generate_unique_states 2 (snd update_states).
Definition view_states := _generate_unique_states 3 (snd delete_states).
Definition menu_states := _generate_unique_states 1 (snd view_states).
Definition insights_states := _generate_unique_states 3 (snd menu_states).

Definition unpack (l : list state * Z) (i : nat) : state :=
  Eval cbv beta in nth i (fst l) (-1)%Z.

Definition CREATE_CHOOSE_ENTRY_TYPE : state := Eval vm_compute in unpack create_states 0.
Definition CREATE_BATCH_SELECT_LOCATION : state := Eval vm_compute in unpack create_states 1.
Definition CREATE_BATCH_ENTER_REMARK : state := Eval vm_compute in unpack create_states 2.
Definition CREATE_BATCH_TOGGLE_PRODUCTS : state := Eval vm_compute in unpack create_states 3.
Definition CREATE_BATCH_ENTER_PRICE : state := Eval vm_compute in unpack create_states 4.
Definition CREATE_BATCH_CONFIRM_SUBMISSION : state := Eval vm_compute in unpack create_states 5.
Definition CREATE_SINGLE_SELECT_PRODUCT : state := Eval vm_compute in unpack create_states 6.
Definition CREATE_SINGLE_ENTER_PRICE : state := Eval vm_compute in unpack create_states 7.
Definition CREATE_SINGLE_SELECT_LOCATION : state := Eval vm_compute in unpack create_states 8.
Definition CREATE_SINGLE_ENTER_REMARK : state := Eval vm_compute in unpack create_states 9.
Definition CREATE_SINGLE_CONFIRM_SUBMISSION : state := Eval vm_compute in unpack create_states 10.

Definition UPDATE_ASK_ID : state := Eval vm_compute in unpack update_states 0.
Definition UPDATE_SELECT_FIELDS_TOGGLE : state := Eval vm_compute in unpack update_states 1.
Definition UPDATE_ENTER_MULTIPLE_VALUES : state := Eval vm_compute in unpack update_states 2.
Definition UPDATE_CONFIRM_MULTIPLE : state := Eval vm_compute in unpack update_states 3.

Definition DELETE_ASK_ID : state := Eval vm_compute in unpack delete_states 0.
Definition DELETE_CONFIRM : state := Eval vm_compute in unpack delete_states 1.

Definition VIEW_AWAITING_MENU_CHOICE : state := Eval vm_compute in unpack view_states 0.
Definition VIEW_AWAITING_ID_INPUT : state := Eval vm_compute in unpack view_states 1.
Definition VIEW_PAGINATING_ENTRIES : state := Eval vm_compute in unpack view_states 2.

Definition MENU_MAIN_DISPLAYED : state := Eval vm_compute in unpack menu_states 0.

Definition INSIGHTS_MENU_DISPLAYED : state := Eval vm_compute in unpack insights_states 0.
Definition INSIGHTS_AWAITING_PRODUCT : state := Eval vm_compute in unpack insights_states 1.
Definition INSIGHTS_AWAITING_LOCATION : state := Eval vm_compute in unpack insights_states 2.

Definition CB_MAIN_MENU_PREFIX := "menu_nav_".
Definition CB_OPEN_MENU_FROM_START := "menu_open_from_start".

Definition CB_CREATE_CHOOSE_TYPE_SINGLE := "create_choose_single".
Definition CB_CREATE_CHOOSE_TYPE_BATCH := "create_choose_batch".
Definition CB_CREATE_CANCEL_ENTIRE := "create_op_cancel_all".

Definition CB_CREATE_BATCH_COMMON_LOCATION_PREFIX := "create_b_loc_".
Definition CB_CREATE_BATCH_PRODUCT_TOGGLE_PREFIX := "create_b_prod_toggle_".
Definition CB_CREATE_BATCH_PRODUCTS_DONE := "create_b_prod_done".
Definition CB_CREATE_BATCH_SUBMIT_FINAL := "create_b_submit_final".
Definition CB_CREATE_BATCH_CANCEL_CONFIRM := "create_b_cancel_conf".

Definition CB_CREATE_SINGLE_PRODUCT_PREFIX := "create_s_prod_".
Definition CB_CREATE_SINGLE_LOCATION_PREFIX := "create_s_loc_".
Definition CB_CREATE_SINGLE_SUBMIT_FINAL := "create_s_submit_final".
Definition CB_CREATE_SINGLE_CANCEL_CONFIRM := "create_s_cancel_conf".

Definition CB_UPDATE_FIELD_TOGGLE_PREFIX := "update_field_".
Definition CB_UPDATE_PROCEED_WITH_SELECTION := "update_proceed_sel".
Definition CB_UPDATE_CANCEL_FIELD_SELECTION := "update_cancel_sel".
Definition CB_UPDATE_NEWVAL_PRODUCT_PREFIX := "update_val_prod_".
Definition CB_UPDATE_NEWVAL_LOCATION_PREFIX := "update_val_loc_".
Definition CB_UPDATE_EXECUTE_CONFIRMED := "update_execute_now".
Definition CB_UPDATE_CANCEL_FINAL_CONFIRM := "update_cancel_final".

Definition CB_DELETE_CONFIRM_YES := "delete_do_yes".
Definition CB_DELETE_CONFIRM_NO := "delete_do_no".

Definition CB_VIEW_LAST_N_PREFIX := "view_last_".
Definition CB_VIEW_BY_ID_PROMPT_ACTION := "view_by_id_ask".
Definition CB_VIEW_CANCEL_ACTION := "view_op_cancel".
Definition CB_VIEW_BACK_TO_MENU_ACTION := "view_back_to_main_menu".

Definition CB_INSIGHTS_PREFIX := "insights_action_".
Definition CB_INSIGHTS_BACK_TO_MAIN := "insights_back_main".
Definition CB_INSIGHTS_CANCEL := "insights_op_cancel".

Definition DEFAULT_ENTRIES_PER_PAGE_VIEW : nat := 5.

End config.

(** [ConversationHandler.END] *)
Definition END : config.state := (-1)%Z.

(* ------------------------------------------------------------------ *)
(** * Values, updates, session data and the world of a handler *)

(** The Python values that travel between the handlers and the sheet. *)
Inductive pyval : Type :=
| PyNone
| PyStr (s : string)
| PyInt (n : Z)
| PyFloat (x : PyFloat.float).

(** [str(v)] *)
Definition py_str (v : pyval) : string :=
  match v with
  | PyNone => "None"
  | PyStr s => s
  | PyInt n => PyStr.str_of_int n
  | PyFloat x => PyFloat.repr x
  end.

(** Truth value of [v], as [not v] and [if v] test it. *)
Definition truthy (v : pyval) : bool :=
  match v with
  | PyNone => false
  | PyStr s => negb (s =? "")%string
  | PyInt n => negb (n =? 0)%Z
  | PyFloat x => match x with S754_zero _ => false | _ => true end
  end.

(** A value of [datetime.now()]: its instant, and the text that
    [isoformat()] gives for it. *)
Record datetime : Type := { instant : Z; isoformat : string }.

(** [update.effective_user] / [query.from_user] *)
Record User : Type := { user_id : Z; username : option string; first_name : string }.

(** An inbound update, as Telegram delivers it: a text message that does
    not start with a command, a message that starts with the command
    [/name] (as typed, without the slash and the bot's name), or a press on
    an inline button.  Which of the first two a text is, Telegram decides
    (the [bot_command] entity), not the bot. *)
Inductive Update : Type :=
| Message (from_user : User) (text : string)
| Command (from_user : User) (name : string)
| CallbackQuery (from_user : User) (data : string).

Definition effective_user (u : Update) : User :=
  match u with
  | Message f _ | Command f _ | CallbackQuery f _ => f
  end.

(** Dictionaries whose order of insertion is observable. *)
Section Dict.
Context {V : Type}.

Fixpoint dict_get (k : string) (d : list (string * V)) : option V :=
  match d with
  | [] => None
  | (k', v) :: d' => if (k' =? k)%string then Some v else dict_get k d'
  end.

(** [d[k] = v]: an existing key keeps its position. *)
Fixpoint dict_set (k : string) (v : V) (d : list (string * V)) : list (string * V) :=
  match d with
  | [] => [(k, v)]
  | (k', v') :: d' =>
      if (k' =? k)%string then (k, v) :: d' else (k', v') :: dict_set k v d'
  end.

(** [dict(pairs)] *)
Definition dict_of (pairs : list (string * V)) : list (string * V) :=
  fold_left (fun d kv => dict_set (fst kv) (snd kv) d) pairs [].
End Dict.

(** The dictionaries [current_entry] and [entry_data]: an absent key is
    [None]. *)
Record Entry : Type := {
  product : option string;
  price : option PyFloat.float;
  location : option string;
  remark : option string
}.

Definition empty_entry : Entry :=
  {| product := None; price := None; location := None; remark := None |}.

(** [context.user_data] *)
Record UserData : Type := {
  current_entry : option Entry;
  batch_entries : option (list Entry);
  batch_selected_products : option (list string);
  batch_common_location : option string;
  batch_common_remark : option string;
  batch_price_queue : option (list string);
  batch_current_product_for_price : option string;
  update_entry_id : option string;
  update_row_num : option nat;
  update_original_data : option (list (string * pyval));
  fields_to_update_selected_keys : option (list string);
  new_values_for_update_map : option (list (string * pyval));
  update_fields_queue : option (list string);
  current_field_being_updated_key : option string;
  delete_entry_id : option string;
  delete_row_num : option nat
}.

(** [context.user_data.clear()] leaves this. *)
Definition empty_user_data : UserData :=
  {| current_entry := None; batch_entries := None;
     batch_selected_products := None; batch_common_location := None;
     batch_common_remark := None; batch_price_queue := None;
     batch_current_product_for_price := None; update_entry_id := None;
     update_row_num := None; update_original_data := None;
     fields_to_update_selected_keys := None;
     new_values_for_update_map := None; update_fields_queue := None;
     current_field_being_updated_key := None; delete_entry_id := None;
     delete_row_num := None |}.

(** Assignment to one key of [user_data] ([Some v]) or its removal
    ([None]). *)
Definition set_current_entry (v : option Entry) (ud : UserData) : UserData :=
  {| current_entry := v; batch_entries := batch_entries ud;
     batch_selected_products := batch_selected_products ud;
     batch_common_location := batch_common_location ud; batch_common_remark
     := batch_common_remark ud; batch_price_queue := batch_price_queue ud;
     batch_current_product_for_price := batch_current_product_for_price ud;
     update_entry_id := update_entry_id ud; update_row_num := update_row_num
     ud; update_original_data := update_original_data ud;
     fields_to_update_selected_keys := fields_to_update_selected_keys ud;
     new_values_for_update_map := new_values_for_update_map ud;
     update_fields_queue := update_fields_queue ud;
     current_field_being_updated_key := current_field_being_updated_key ud;
     delete_entry_id := delete_entry_id ud; delete_row_num := delete_row_num
     ud |}.
Definition set_batch_entries (v : option (list Entry)) (ud : UserData) : UserData :=
  {| current_entry := current_entry ud; batch_entries := v;
     batch_selected_products := batch_selected_products ud;
     batch_common_location := batch_common_location ud; batch_common_remark
     := batch_common_remark ud; batch_price_queue := batch_price_queue ud;
     batch_current_product_for_price := batch_current_product_for_price ud;
     update_entry_id := update_entry_id ud; update_row_num := update_row_num
     ud; update_original_data := update_original_data ud;
     fields_to_update_selected_keys := fields_to_update_selected_keys ud;
     new_values_for_update_map := new_values_for_update_map ud;
     update_fields_queue := update_fields_queue ud;
     current_field_being_updated_key := current_field_being_updated_key ud;
     delete_entry_id := delete_entry_id ud; delete_row_num := delete_row_num
     ud |}.
Definition set_batch_selected_products (v : option (list string)) (ud : UserData) : UserData :=
  {| current_entry := current_entry ud; batch_entries := batch_entries ud;
     batch_selected_products := v; batch_common_location :=
     batch_common_location ud; batch_common_remark := batch_common_remark
     ud; batch_price_queue := batch_price_queue ud;
     batch_current_product_for_price := batch_current_product_for_price ud;
     update_entry_id := update_entry_id ud; update_row_num := update_row_num
     ud; update_original_data := update_original_data ud;
     fields_to_update_selected_keys := fields_to_update_selected_keys ud;
     new_values_for_update_map := new_values_for_update_map ud;
     update_fields_queue := update_fields_queue ud;
     current_field_being_updated_key := current_field_being_updated_key ud;
     delete_entry_id := delete_entry_id ud; delete_row_num := delete_row_num
     ud |}.
Definition set_batch_common_location (v : option string) (ud : UserData) : UserData :=
  {| current_entry := current_entry ud; batch_entries := batch_entries ud;
     batch_selected_products := batch_selected_products ud;
     batch_common_location := v; batch_common_remark := batch_common_remark
     ud; batch_price_queue := batch_price_queue ud;
     batch_current_product_for_price := batch_current_product_for_price ud;
     update_entry_id := update_entry_id ud; update_row_num := update_row_num
     ud; update_original_data := update_original_data ud;
     fields_to_update_selected_keys := fields_to_update_selected_keys ud;
     new_values_for_update_map := new_values_for_update_map ud;
     update_fields_queue := update_fields_queue ud;
     current_field_being_updated_key := current_field_being_updated_key ud;
     delete_entry_id := delete_entry_id ud; delete_row_num := delete_row_num
     ud |}.
Definition set_batch_common_remark (v : option string) (ud : UserData) : UserData :=
  {| current_entry := current_entry ud; batch_entries := batch_entries ud;
     batch_selected_products := batch_selected_products ud;
     batch_common_location := batch_common_location ud; batch_common_remark
     := v; batch_price_queue := batch_price_queue ud;
     batch_current_product_for_price := batch_current_product_for_price ud;
     update_entry_id := update_entry_id ud; update_row_num := update_row_num
     ud; update_original_data := update_original_data ud;
     fields_to_update_selected_keys := fields_to_update_selected_keys ud;
     new_values_for_update_map := new_values_for_update_map ud;
     update_fields_queue := update_fields_queue ud;
     current_field_being_updated_key := current_field_being_updated_key ud;
     delete_entry_id := delete_entry_id ud; delete_row_num := delete_row_num
     ud |}.
Definition set_batch_price_queue (v : option (list string)) (ud : UserData) : UserData :=
  {| current_entry := current_entry ud; batch_entries := batch_entries ud;
     batch_selected_products := batch_selected_products ud;
     batch_common_location := batch_common_location ud; batch_common_remark
     := batch_common_remark ud; batch_price_queue := v;
     batch_current_product_for_price := batch_current_product_for_price ud;
     update_entry_id := update_entry_id ud; update_row_num := update_row_num
     ud; update_original_data := update_original_data ud;
     fields_to_update_selected_keys := fields_to_update_selected_keys ud;
     new_values_for_update_map := new_values_for_update_map ud;
     update_fields_queue := update_fields_queue ud;
     current_field_being_updated_key := current_field_being_updated_key ud;
     delete_entry_id := delete_entry_id ud; delete_row_num := delete_row_num
     ud |}.
Definition set_batch_current_product_for_price (v : option string) (ud : UserData) : UserData :=
  {| current_entry := current_entry ud; batch_entries := batch_entries ud;
     batch_selected_products := batch_selected_products ud;
     batch_common_location := batch_common_location ud; batch_common_remark
     := batch_common_remark ud; batch_price_queue := batch_price_queue ud;
     batch_current_product_for_price := v; update_entry_id :=
     update_entry_id ud; update_row_num := update_row_num ud;
     update_original_data := update_original_data ud;
     fields_to_update_selected_keys := fields_to_update_selected_keys ud;
     new_values_for_update_map := new_values_for_update_map ud;
     update_fields_queue := update_fields_queue ud;
     current_field_being_updated_key := current_field_being_updated_key ud;
     delete_entry_id := delete_entry_id ud; delete_row_num := delete_row_num
     ud |}.
Definition set_update_entry_id (v : option string) (ud : UserData) : UserData :=
  {| current_entry := current_entry ud; batch_entries := batch_entries ud;
     batch_selected_products := batch_selected_products ud;
     batch_common_location := batch_common_location ud; batch_common_remark
     := batch_common_remark ud; batch_price_queue := batch_price_queue ud;
     batch_current_product_for_price := batch_current_product_for_price ud;
     update_entry_id := v; update_row_num := update_row_num ud;
     update_original_data := update_original_data ud;
     fields_to_update_selected_keys := fields_to_update_selected_keys ud;
     new_values_for_update_map := new_values_for_update_map ud;
     update_fields_queue := update_fields_queue ud;
     current_field_being_updated_key := current_field_being_updated_key ud;
     delete_entry_id := delete_entry_id ud; delete_row_num := delete_row_num
     ud |}.
Definition set_update_row_num (v : option nat) (ud : UserData) : UserData :=
  {| current_entry := current_entry ud; batch_entries := batch_entries ud;
     batch_selected_products := batch_selected_products ud;
     batch_common_location := batch_common_location ud; batch_common_remark
     := batch_common_remark ud; batch_price_queue := batch_price_queue ud;
     batch_current_product_for_price := batch_current_product_for_price ud;
     update_entry_id := update_entry_id ud; update_row_num := v;
     update_original_data := update_original_data ud;
     fields_to_update_selected_keys := fields_to_update_selected_keys ud;
     new_values_for_update_map := new_values_for_update_map ud;
     update_fields_queue := update_fields_queue ud;
     current_field_being_updated_key := current_field_being_updated_key ud;
     delete_entry_id := delete_entry_id ud; delete_row_num := delete_row_num
     ud |}.
Definition set_update_original_data (v : option (list (string * pyval))) (ud : UserData) : UserData :=
  {| current_entry := current_entry ud; batch_entries := batch_entries ud;
     batch_selected_products := batch_selected_products ud;
     batch_common_location := batch_common_location ud; batch_common_remark
     := batch_common_remark ud; batch_price_queue := batch_price_queue ud;
     batch_current_product_for_price := batch_current_product_for_price ud;
     update_entry_id := update_entry_id ud; update_row_num := update_row_num
     ud; update_original_data := v; fields_to_update_selected_keys :=
     fields_to_update_selected_keys ud; new_values_for_update_map :=
     new_values_for_update_map ud; update_fields_queue :=
     update_fields_queue ud; current_field_being_updated_key :=
     current_field_being_updated_key ud; delete_entry_id := delete_entry_id
     ud; delete_row_num := delete_row_num ud |}.
Definition set_fields_to_update_selected_keys (v : option (list string)) (ud : UserData) : UserData :=
  {| current_entry := current_entry ud; batch_entries := batch_entries ud;
     batch_selected_products := batch_selected_products ud;
     batch_common_location := batch_common_location ud; batch_common_remark
     := batch_common_remark ud; batch_price_queue := batch_price_queue ud;
     batch_current_product_for_price := batch_current_product_for_price ud;
     update_entry_id := update_entry_id ud; update_row_num := update_row_num
     ud; update_original_data := update_original_data ud;
     fields_to_update_selected_keys := v; new_values_for_update_map :=
     new_values_for_update_map ud; update_fields_queue :=
     update_fields_queue ud; current_field_being_updated_key :=
     current_field_being_updated_key ud; delete_entry_id := delete_entry_id
     ud; delete_row_num := delete_row_num ud |}.
Definition set_new_values_for_update_map (v : option (list (string * pyval))) (ud : UserData) : UserData :=
  {| current_entry := current_entry ud; batch_entries := batch_entries ud;
     batch_selected_products := batch_selected_products ud;
     batch_common_location := batch_common_location ud; batch_common_remark
     := batch_common_remark ud; batch_price_queue := batch_price_queue ud;
     batch_current_product_for_price := batch_current_product_for_price ud;
     update_entry_id := update_entry_id ud; update_row_num := update_row_num
     ud; update_original_data := update_original_data ud;
     fields_to_update_selected_keys := fields_to_update_selected_keys ud;
     new_values_for_update_map := v; update_fields_queue :=
     update_fields_queue ud; current_field_being_updated_key :=
     current_field_being_updated_key ud; delete_entry_id := delete_entry_id
     ud; delete_row_num := delete_row_num ud |}.
Definition set_update_fields_queue (v : option (list string)) (ud : UserData) : UserData :=
  {| current_entry := current_entry ud; batch_entries := batch_entries ud;
     batch_selected_products := batch_selected_products ud;
     batch_common_location := batch_common_location ud; batch_common_remark
     := batch_common_remark ud; batch_price_queue := batch_price_queue ud;
     batch_current_product_for_price := batch_current_product_for_price ud;
     update_entry_id := update_entry_id ud; update_row_num := update_row_num
     ud; update_original_data := update_original_data ud;
     fields_to_update_selected_keys := fields_to_update_selected_keys ud;
     new_values_for_update_map := new_values_for_update_map ud;
     update_fields_queue := v; current_field_being_updated_key :=
     current_field_being_updated_key ud; delete_entry_id := delete_entry_id
     ud; delete_row_num := delete_row_num ud |}.
Definition set_current_field_being_updated_key (v : option string) (ud : UserData) : UserData :=
  {| current_entry := current_entry ud; batch_entries := batch_entries ud;
     batch_selected_products := batch_selected_products ud;
     batch_common_location := batch_common_location ud; batch_common_remark
     := batch_common_remark ud; batch_price_queue := batch_price_queue ud;
     batch_current_product_for_price := batch_current_product_for_price ud;
     update_entry_id := update_entry_id ud; update_row_num := update_row_num
     ud; update_original_data := update_original_data ud;
     fields_to_update_selected_keys := fields_to_update_selected_keys ud;
     new_values_for_update_map := new_values_for_update_map ud;
     update_fields_queue := update_fields_queue ud;
     current_field_being_updated_key := v; delete_entry_id :=
     delete_entry_id ud; delete_row_num := delete_row_num ud |}.
Definition set_delete_entry_id (v : option string) (ud : UserData) : UserData :=
  {| current_entry := current_entry ud; batch_entries := batch_entries ud;
     batch_selected_products := batch_selected_products ud;
     batch_common_location := batch_common_location ud; batch_common_remark
     := batch_common_remark ud; batch_price_queue := batch_price_queue ud;
     batch_current_product_for_price := batch_current_product_for_price ud;
     update_entry_id := update_entry_id ud; update_row_num := update_row_num
     ud; update_original_data := update_original_data ud;
     fields_to_update_selected_keys := fields_to_update_selected_keys ud;
     new_values_for_update_map := new_values_for_update_map ud;
     update_fields_queue := update_fields_queue ud;
     current_field_being_updated_key := current_field_being_updated_key ud;
     delete_entry_id := v; delete_row_num := delete_row_num ud |}.
Definition set_delete_row_num (v : option nat) (ud : UserData) : UserData :=
  {| current_entry := current_entry ud; batch_entries := batch_entries ud;
     batch_selected_products := batch_selected_products ud;
     batch_common_location := batch_common_location ud; batch_common_remark
     := batch_common_remark ud; batch_price_queue := batch_price_queue ud;
     batch_current_product_for_price := batch_current_product_for_price ud;
     update_entry_id := update_entry_id ud; update_row_num := update_row_num
     ud; update_original_data := update_original_data ud;
     fields_to_update_selected_keys := fields_to_update_selected_keys ud;
     new_values_for_update_map := new_values_for_update_map ud;
     update_fields_queue := update_fields_queue ud;
     current_field_being_updated_key := current_field_being_updated_key ud;
     delete_entry_id := delete_entry_id ud; delete_row_num := v |}.

(** ** The transport *)

Record InlineKeyboardButton : Type := { label : string; callback_data : string }.

(** [InlineKeyboardMarkup(rows)] *)
Definition InlineKeyboardMarkup : Type := list (list InlineKeyboardButton).

Inductive ParseMode : Type := MARKDOWN_V2.

(** The calls a handler makes on the chat transport. *)
Inductive output : Type :=
| answer (text : option string) (show_alert : bool)
| edit_message_text (text : string) (reply_markup : option InlineKeyboardMarkup)
                    (parse_mode : option ParseMode)
| reply_text (text : string) (reply_markup : option InlineKeyboardMarkup)
             (parse_mode : option ParseMode).

(** ** The sheet behind [gsheet_utils.worksheet] *)

(** The remote grid (row 1 is the header row) and whether the sheet
    service answers: a call on an unreachable service raises. *)
Record Worksheet : Type := { grid : list (list pyval); reachable : bool }.

(** ** The world *)

Record world : Type := {
  user_data : UserData;
  (* the globals of gsheet_utils *)
  GSHEET_CONNECTED : bool;
  worksheet : option Worksheet;
  HEADERS : list string;
  (* whether the installed gspread defines [gspread.exceptions.CellNotFound]
     (gspread 6 does not): the library is not part of the repository *)
  cell_not_found_defined : bool;
  (* what the handler has sent so far, oldest first *)
  outbox : list output;
  (* the wall clock while the update is handled *)
  clock : datetime;
  (* the successive results of str(uuid.uuid4()), and how many were drawn *)
  uuid4 : nat -> string;
  uuid_calls : nat
}.

Definition with_user_data (ud : UserData) (w : world) : world :=
  {| user_data := ud; GSHEET_CONNECTED := GSHEET_CONNECTED w;
     worksheet := worksheet w; HEADERS := HEADERS w;
     cell_not_found_defined := cell_not_found_defined w; outbox := outbox w;
     clock := clock w; uuid4 := uuid4 w; uuid_calls := uuid_calls w |}.

Definition with_worksheet (ws : option Worksheet) (w : world) : world :=
  {| user_data := user_data w; GSHEET_CONNECTED := GSHEET_CONNECTED w;
     worksheet := ws; HEADERS := HEADERS w;
     cell_not_found_defined := cell_not_found_defined w; outbox := outbox w;
     clock := clock w; uuid4 := uuid4 w; uuid_calls := uuid_calls w |}.

Definition with_outbox (o : list output) (w : world) : world :=
  {| user_data := user_data w; GSHEET_CONNECTED := GSHEET_CONNECTED w;
     worksheet := worksheet w; HEADERS := HEADERS w;
     cell_not_found_defined := cell_not_found_defined w; outbox := o;
     clock := clock w; uuid4 := uuid4 w; uuid_calls := uuid_calls w |}.

Definition with_clock (t : datetime) (w : world) : world :=
  {| user_data := user_data w; GSHEET_CONNECTED := GSHEET_CONNECTED w;
     worksheet := worksheet w; HEADERS := HEADERS w;
     cell_not_found_defined := cell_not_found_defined w; outbox := outbox w;
     clock := t; uuid4 := uuid4 w; uuid_calls := uuid_calls w |}.

Definition with_uuid_calls (n : nat) (w : world) : world :=
  {| user_data := user_data w; GSHEET_CONNECTED := GSHEET_CONNECTED w;
     worksheet := worksheet w; HEADERS := HEADERS w;
     cell_not_found_defined := cell_not_found_defined w; outbox := outbox w;
     clock := clock w; uuid4 := uuid4 w; uuid_calls := n |}.

(** ** Computations that may raise *)

Inductive exn : Type :=
| KeyError (key : string)
| ValueError
| IndexError
| AttributeError
| APIError.

Inductive result (A : Type) : Type :=
| Return (a : A)
| Raise (e : exn).
Arguments Return {A} a.
Arguments Raise {A} e.

(** A computation runs from a world to a result and the world it leaves;
    what was done before an exception stays done. *)
Definition M (A : Type) : Type := world -> result A * world.

Definition ret {A} (a : A) : M A := fun w => (Return a, w).

Definition raise {A} (e : exn) : M A := fun w => (Raise e, w).

Definition bind {A B} (m : M A) (k : A -> M B) : M B :=
  fun w =>
    match m w with
    | (Return a, w') => k a w'
    | (Raise e, w') => (Raise e, w')
    end.

(** [try: m except: h] *)
Definition try_except {A} (m : M A) (h : exn -> M A) : M A :=
  fun w =>
    match m w with
    | (Return a, w') => (Return a, w')
    | (Raise e, w') => h e w'
    end.

Declare Scope py_scope.
Delimit Scope py_scope with py.
Notation "x <- m ;; k" := (bind m (fun x => k))
  (at level 61, m at next level, right associativity) : py_scope.
Notation "m ;; k" := (bind m (fun _ => k))
  (at level 61, right associativity) : py_scope.
Open Scope py_scope.

Definition get_user_data : M UserData := fun w => (Return (user_data w), w).

Definition modify_user_data (f : UserData -> UserData) : M unit :=
  fun w => (Return tt, with_user_data (f (user_data w)) w).

(** [context.user_data.clear()] *)
Definition clear_user_data : M unit := modify_user_data (fun _ => empty_user_data).

(** [d[key]] on a key that may be absent. *)
Definition item {A} (key : string) (v : option A) : M A :=
  match v with
  | Some a => ret a
  | None => raise (KeyError key)
  end.

Definition send (o : output) : M unit :=
  fun w => (Return tt, with_outbox (outbox w ++ [o]) w).

(** [datetime.now()] *)
Definition datetime_now : M datetime := fun w => (Return (clock w), w).

(** [str(uuid.uuid4())] *)
Definition uuid_uuid4 : M string :=
  fun w => (Return (uuid4 w (uuid_calls w)), with_uuid_calls (S (uuid_calls w)) w).

Fixpoint for_each {A B} (f : A -> M B) (l : list A) : M (list B) :=
  match l with
  | [] => ret []
  | a :: l' => b <- f a ;; bs <- for_each f l' ;; ret (b :: bs)
  end.

(** A newline, and the stand-in for one pictograph of a message literal
    (the pictographs lie outside the characters of the model). *)
Definition nl : string := String (ascii_of_nat 10) "".
Definition pic : string := "?".

(* ------------------------------------------------------------------ *)
(** * keyboards.py *)

(** The local helpers [_escape_markdown], [_escape_markdown_v2_read],
    [_escape_markdown_v2_insights] and [_escape_markdown_v2_keyboards] are
    this one function. *)
Definition escape_chars : string := "_*[]()~`>#+-=|{}.!".

Fixpoint char_in (c : ascii) (s : string) : bool :=
  match s with
  | EmptyString => false
  | String c' s' => Ascii.eqb c' c || char_in c s'
  end.

Fixpoint escape_markdown_v2 (text : string) : string :=
  match text with
  | EmptyString => EmptyString
  | String c s' =>
      if char_in c escape_chars
      then String "\" (String c (escape_markdown_v2 s'))
      else String c (escape_markdown_v2 s')
  end.

Module keyboards.

Import PyStr.

Definition clean_and_format_for_display (raw_string : string) : string :=
  title (replace "_" " " raw_string).

Definition build_post_action_keyboard : InlineKeyboardMarkup :=
  [[ {| label := (pic ++ " New Entry")%string;
        callback_data := (config.CB_MAIN_MENU_PREFIX ++ "new")%string |};
     {| label := (pic ++ " Main Menu")%string;
        callback_data := (config.CB_MAIN_MENU_PREFIX ++ "menu")%string |} ]].

(** The loop of [build_keyboard] with [suffix_from_item] and no custom
    callback data: [i] is the index of the head of [items], [n] the number
    of items in all. *)
Fixpoint build_rows (prefix : string) (items_per_row : nat) (n : nat) (i : nat)
    (current_row : list InlineKeyboardButton) (items : list string)
    : InlineKeyboardMarkup :=
  match items with
  | [] => []
  | item_text :: rest =>
      let callback_suffix := lower (replace " " "_" item_text) in
      let row := current_row ++
                 [{| label := item_text;
                     callback_data := (prefix ++ callback_suffix)%string |}] in
      if (List.length row =? items_per_row) || (i =? n - 1)
      then row :: build_rows prefix items_per_row n (S i) [] rest
      else build_rows prefix items_per_row n (S i) row rest
  end.

(** [build_keyboard(items, prefix=prefix)] *)
Definition build_keyboard (items : list string) (prefix : string) : InlineKeyboardMarkup :=
  build_rows prefix 1 (List.length items) 0 [] items.

Definition _escape_markdown_v2_keyboards : string -> string := escape_markdown_v2.

(** [format_entry_details_markdown(entry_data_dict, title)] *)
Definition format_entry_details_markdown (entry_data_dict : list (string * pyval))
    (title : string) : string :=
  let details_parts :=
    (match title with
     | EmptyString => []
     | _ => [("*" ++ _escape_markdown_v2_keyboards title ++ ":*")%string]
     end) ++
    map (fun kv =>
           let display_header := clean_and_format_for_display (fst kv) in
           ("  *" ++ _escape_markdown_v2_keyboards display_header ++ ":* `"
              ++ _escape_markdown_v2_keyboards (py_str (snd kv)) ++ "`")%string)
        entry_data_dict in
  join nl details_parts.

End keyboards.

(* ------------------------------------------------------------------ *)
(** * gsheet_utils.py *)

Module gsheet_utils.

Import PyStr.

(** [_clean_and_capitalize_text]: drop what is not [a-zA-Z0-9\s], title
    case, and join the words with single spaces. *)
Definition keep_char (c : ascii) : bool := is_alpha c || is_digit c || is_space c.

Definition _clean_and_capitalize_text (text : pyval) : string :=
  let text := match text with PyStr s => s | v => py_str v end in
  let cleaned_text := filter_chars keep_char text in
  let capitalized_text := title cleaned_text in
  join " " (split capitalized_text).

(** ** The sheet service, as gspread presents it *)

(** The text of a cell; an empty cell shows nothing. *)
Definition cell_text (v : pyval) : string :=
  match v with PyNone => "" | _ => py_str v end.

Definition empty_cell : pyval := PyStr "".

(** The cell in column [col] of a row, columns counted from 1. *)
Definition cell_at (col : nat) (row : list pyval) : pyval :=
  nth (col - 1) row empty_cell.

(** [worksheet.find(query, in_column=col)]: the number of the first row
    whose cell in that column shows [query]. *)
Fixpoint find_from (query : string) (col : nat) (row_number : nat)
    (g : list (list pyval)) : option nat :=
  match g with
  | [] => None
  | row :: g' =>
      if (cell_text (cell_at col row) =? query)%string then Some row_number
      else find_from query col (S row_number) g'
  end.
Definition find (query : string) (col : nat) (g : list (list pyval)) : option nat :=
  find_from query col 1 g.

Fixpoint drop_trailing_empty (row : list pyval) : list pyval :=
  match row with
  | [] => []
  | v :: row' =>
      match drop_trailing_empty row' with
      | [] => if (cell_text v =? "")%string then [] else [v]
      | l => v :: l
      end
  end.

(** [worksheet.row_values(row)]: the row without its trailing empty cells. *)
Definition row_values (row_number : nat) (g : list (list pyval)) : list pyval :=
  drop_trailing_empty (nth (row_number - 1) g []).

(** Writing cell [col] of a row, which is lengthened with empty cells when
    it is too short. *)
Fixpoint set_nth (i : nat) (v : pyval) (row : list pyval) : list pyval :=
  match i, row with
  | O, [] => [v]
  | O, _ :: row' => v :: row'
  | S i', [] => empty_cell :: set_nth i' v []
  | S i', x :: row' => x :: set_nth i' v row'
  end.

Fixpoint set_cell_from (i : nat) (col : nat) (v : pyval) (g : list (list pyval))
    : list (list pyval) :=
  match i, g with
  | O, [] => [set_nth (col - 1) v []]
  | O, row :: g' => set_nth (col - 1) v row :: g'
  | S i', [] => [] :: set_cell_from i' col v []
  | S i', row :: g' => row :: set_cell_from i' col v g'
  end.

(** The grid after cell ([row_number], [col]) receives [v]. *)
Definition set_cell (row_number col : nat) (v : pyval) (g : list (list pyval))
    : list (list pyval) :=
  set_cell_from (row_number - 1) col v g.

(** One entry of the argument of [worksheet.batch_update]: the range is the
    A1 name of cell ([op_row], [op_col]) and the values are [[op_value]]. *)
Record update_op : Type := { op_row : nat; op_col : nat; op_value : pyval }.

Definition apply_updates (ops : list update_op) (g : list (list pyval))
    : list (list pyval) :=
  fold_left (fun g op => set_cell (op_row op) (op_col op) (op_value op) g) ops g.

Fixpoint remove_nth {A} (i : nat) (l : list A) : list A :=
  match i, l with
  | _, [] => []
  | O, _ :: l' => l'
  | S i', x :: l' => x :: remove_nth i' l'
  end.

Definition width (g : list (list pyval)) : nat :=
  fold_right (fun row n => Nat.max (List.length row) n) 0 g.

Definition pad_row (n : nat) (row : list pyval) : list pyval :=
  row ++ repeat empty_cell (n - List.length row).

(** [worksheet.get_all_values()]: the texts of a rectangular grid. *)
Definition all_values (g : list (list pyval)) : list (list string) :=
  map (fun row => map cell_text (pad_row (width g) row)) g.

(** What reading a cell gives back: an empty cell is the empty string. *)
Definition read_cell (v : pyval) : pyval :=
  match v with PyNone => empty_cell | _ => v end.

(** [worksheet.get_all_records()]: one dictionary per row under the header
    row, keyed by the header texts. *)
Definition all_records (g : list (list pyval)) : list (list (string * pyval)) :=
  match g with
  | [] => []
  | header :: rows =>
      let keys := map cell_text header in
      map (fun row =>
             dict_of (combine keys (map read_cell (pad_row (List.length keys) row))))
          rows
  end.

(** A call on the worksheet object: [AttributeError] when the global is
    [None], an API error when the service does not answer. *)
Definition call_worksheet {A} (f : list (list pyval) -> A * list (list pyval)) : M A :=
  fun w =>
    match worksheet w with
    | None => (Raise AttributeError, w)
    | Some ws =>
        if reachable ws then
          let '(a, g') := f (grid ws) in
          (Return a, with_worksheet (Some {| grid := g'; reachable := true |}) w)
        else (Raise APIError, w)
    end.

Definition worksheet_get_all_values : M (list (list string)) :=
  call_worksheet (fun g => (all_values g, g)).
Definition worksheet_get_all_records : M (list (list (string * pyval))) :=
  call_worksheet (fun g => (all_records g, g)).
Definition worksheet_find (query : string) (in_column : nat) : M (option nat) :=
  call_worksheet (fun g => (find query in_column g, g)).
Definition worksheet_row_values (row_number : nat) : M (list pyval) :=
  call_worksheet (fun g => (row_values row_number g, g)).
Definition worksheet_append_rows (rows : list (list pyval)) : M unit :=
  call_worksheet (fun g => (tt, g ++ rows)).
Definition worksheet_update_cell (row_number col : nat) (v : pyval) : M unit :=
  call_worksheet (fun g => (tt, set_cell row_number col v g)).
Definition worksheet_delete_rows (row_number : nat) : M unit :=
  call_worksheet (fun g => (tt, remove_nth (row_number - 1) g)).
(** [batch_update] returns the (non-empty) response of the service. *)
Definition worksheet_batch_update (ops : list update_op) : M bool :=
  call_worksheet (fun g => (true, apply_updates ops g)).

Definition get_globals : M (bool * option Worksheet * list string) :=
  fun w => (Return (GSHEET_CONNECTED w, worksheet w, HEADERS w), w).

Definition get_HEADERS : M (list string) := fun w => (Return (HEADERS w), w).

(** [HEADERS.index(field)] *)
Fixpoint index (field : string) (l : list string) : option nat :=
  match l with
  | [] => None
  | h :: l' =>
      if (h =? field)%string then Some 0
      else option_map S (index field l')
  end.

Definition is_some {A} (o : option A) : bool :=
  match o with Some _ => true | None => false end.

(** The readiness test [GSHEET_CONNECTED and worksheet]. *)
Definition connected (w : world) : bool :=
  GSHEET_CONNECTED w && is_some (worksheet w).

(** The readiness test [GSHEET_CONNECTED and worksheet and HEADERS]. *)
Definition initialized (w : world) : bool :=
  connected w && negb (List.length (HEADERS w) =? 0).

(** The name [gspread.exceptions.CellNotFound], which Python looks up when
    it tests the first [except] clause of [find_row_by_id] against an
    exception: a library without the name makes the lookup raise
    [AttributeError], and that error leaves the [try] statement. *)
Definition gspread_exceptions_CellNotFound : M unit :=
  fun w =>
    if cell_not_found_defined w then (Return tt, w) else (Raise AttributeError, w).

Definition find_row_by_id (entry_id_to_find : string)
    : M (option nat * option (list pyval)) :=
  fun w =>
    if negb (initialized w) then (Return (None, None), w)
    else if (entry_id_to_find =? "")%string then (Return (None, None), w)
    else
      match index config.ID_FIELD (HEADERS w) with
      | None => (Return (None, None), w)
      | Some i =>
          let id_column_index := i + 1 in
          try_except
            (cell <- worksheet_find entry_id_to_find id_column_index ;;
             match cell with
             | Some cell_row =>
                 row_values <- worksheet_row_values cell_row ;;
                 ret (Some cell_row, Some row_values)
             | None => ret (None, None)
             end)
            (fun _ =>
               (* except gspread.exceptions.CellNotFound: ... / except Exception: ...
                  (either clause returns None, None) *)
               gspread_exceptions_CellNotFound ;;
               ret (None, None)) w
      end.

Definition append_rows_to_sheet (rows_data : list (list pyval)) : M bool :=
  fun w =>
    if negb (connected w) then (Return false, w)
    else
      match rows_data with
      | [] => (Return true, w)
      | _ =>
          try_except (worksheet_append_rows rows_data ;; ret true)
                     (fun _ => ret false) w
      end.

Definition update_cell_in_sheet (row_number col_number : nat) (new_value : pyval)
    : M bool :=
  fun w =>
    if negb (connected w) then (Return false, w)
    else
      try_except (worksheet_update_cell row_number col_number new_value ;; ret true)
                 (fun _ => ret false) w.

Definition delete_row_from_sheet (row_number : nat) : M bool :=
  fun w =>
    if negb (connected w) then (Return false, w)
    else
      try_except (worksheet_delete_rows row_number ;; ret true)
                 (fun _ => ret false) w.

(** ** Insights *)

(** An element of [processed_insights_data]. *)
Record InsightItem : Type := {
  item_product : string;
  item_location : string;
  item_price : PyFloat.float
}.

(** [float(str(price_raw).strip().replace(',', ''))] *)
Definition price_of_raw (price_raw : pyval) : option PyFloat.float :=
  PyFloat.of_string (replace "," "" (strip (py_str price_raw))).

(** The body of the loop of [get_all_data_for_insights] on one record:
    [None] when the record is skipped. *)
Definition process_record (record_dict : list (string * pyval)) : option InsightItem :=
  let product := dict_get config.PRODUCT_FIELD record_dict in
  let location := dict_get config.LOCATION_FIELD record_dict in
  let price_raw := dict_get config.PRICE_FIELD record_dict in
  match product, location, price_raw with
  | Some product, Some location, Some price_raw =>
      if negb (truthy product) || negb (truthy location)
         || match price_raw with PyNone => true | _ => false end
      then None
      else
        match price_of_raw price_raw with
        | None => None
        | Some price_float =>
            if PyFloat.leb price_float PyFloat.zero then None
            else
              Some {| item_product := _clean_and_capitalize_text product;
                      item_location := _clean_and_capitalize_text location;
                      item_price := price_float |}
        end
  | _, _, _ => None
  end.

Fixpoint filter_map {A B} (f : A -> option B) (l : list A) : list B :=
  match l with
  | [] => []
  | a :: l' =>
      match f a with
      | Some b => b :: filter_map f l'
      | None => filter_map f l'
      end
  end.

Definition get_all_data_for_insights : M (list InsightItem) :=
  fun w =>
    if negb (initialized w) then (Return [], w)
    else
      let required_insight_headers :=
        [config.PRODUCT_FIELD; config.PRICE_FIELD; config.LOCATION_FIELD] in
      if negb (forallb (fun h => is_some (index h (HEADERS w))) required_insight_headers)
      then (Return [], w)
      else
        try_except
          (all_records_from_sheet <- worksheet_get_all_records ;;
           ret (filter_map process_record all_records_from_sheet))
          (fun _ => ret []) w.

(** [group_by_key]: one key name, or a tuple of them. *)
Inductive group_by : Type :=
| by_key (key : string)
| by_keys (keys : list string).

(** A key of the accumulator: a string, or a tuple of strings. *)
Inductive group_key : Type :=
| key_str (s : string)
| key_tuple (parts : list string).

Fixpoint list_eqb (l1 l2 : list string) : bool :=
  match l1, l2 with
  | [], [] => true
  | a :: l1', b :: l2' => (a =? b)%string && list_eqb l1' l2'
  | _, _ => false
  end.

Definition group_key_eqb (a b : group_key) : bool :=
  match a, b with
  | key_str s, key_str t => (s =? t)%string
  | key_tuple p, key_tuple q => list_eqb p q
  | _, _ => false
  end.

(** [str(item_data.get(key, "N/A")).strip()] *)
Definition item_get (key : string) (item_data : InsightItem) : string :=
  strip
    (if (key =? "product")%string then item_product item_data
     else if (key =? "location")%string then item_location item_data
     else if (key =? "price")%string then PyFloat.repr (item_price item_data)
     else "N/A").

Definition composite_key (group_by_key : group_by) (item_data : InsightItem) : group_key :=
  match group_by_key with
  | by_keys keys => key_tuple (map (fun key_part => item_get key_part item_data) keys)
  | by_key key => key_str (item_get key item_data)
  end.

(** A value of [averages_accumulator]. *)
Record Accumulated : Type := { total_price : PyFloat.float; count : nat }.

(** A value of [final_averages]. *)
Record Average : Type := {
  avg_total_price : PyFloat.float;
  avg_count : nat;
  average : PyFloat.float
}.

Fixpoint accumulate (k : group_key) (price_val : PyFloat.float)
    (acc : list (group_key * Accumulated)) : list (group_key * Accumulated) :=
  match acc with
  | [] =>
      [(k, {| total_price := PyFloat.add PyFloat.zero price_val; count := 0 + 1 |})]
  | (k', d) :: acc' =>
      if group_key_eqb k' k
      then (k', {| total_price := PyFloat.add (total_price d) price_val;
                   count := count d + 1 |}) :: acc'
      else (k', d) :: accumulate k price_val acc'
  end.

Definition finalize (kd : group_key * Accumulated) : option (group_key * Average) :=
  let '(key, data) := kd in
  if 0 <? count data then
    let avg := PyFloat.div (total_price data) (PyFloat.of_int (Z.of_nat (count data))) in
    Some (key, {| avg_total_price := total_price data;
                  avg_count := count data;
                  average := PyFloat.round2 avg |})
  else None.

Definition calculate_average_prices (insights_data : list InsightItem)
    (group_by_key : group_by) : list (group_key * Average) :=
  match insights_data with
  | [] => []
  | _ =>
      let averages_accumulator :=
        fold_left (fun acc item_data =>
                     accumulate (composite_key group_by_key item_data)
                                (item_price item_data) acc)
                  insights_data [] in
      filter_map finalize averages_accumulator
  end.

End gsheet_utils.

(* ------------------------------------------------------------------ *)
(** * The handlers *)

(** [update.callback_query]: its sender and its data. *)
Definition callback_query (u : Update) : option (User * string) :=
  match u with
  | CallbackQuery f d => Some (f, d)
  | _ => None
  end.

(** [update.message.text] *)
Definition message_text (u : Update) : option string :=
  match u with
  | Message _ t => Some t
  | Command _ name => Some ("/" ++ name)%string
  | CallbackQuery _ _ => None
  end.

(** An attribute of an object that may be [None]. *)
Definition attr {A} (o : option A) : M A :=
  match o with
  | Some a => ret a
  | None => raise AttributeError
  end.

(** Stand-ins for the two marks of a checklist. *)
Definition checked : string := "[x]".
Definition unchecked : string := "[ ]".

Definition in_list (s : string) (l : list string) : bool :=
  existsb (fun x => (x =? s)%string) l.

(** [l.remove(s)]: the first occurrence goes. *)
Fixpoint remove_first (s : string) (l : list string) : list string :=
  match l with
  | [] => []
  | x :: l' => if (x =? s)%string then l' else x :: remove_first s l'
  end.

(** The toggle of a checklist: [if s in l: l.remove(s) else: l.append(s)]. *)
Definition toggle (s : string) (l : list string) : list string :=
  if in_list s l then remove_first s l else l ++ [s].

(** [query.from_user.username if query.from_user.username else
    str(query.from_user.id)] *)
Definition user_identifier_of (f : User) : string :=
  match username f with
  | Some n => if (n =? "")%string then PyStr.str_of_int (user_id f) else n
  | None => PyStr.str_of_int (user_id f)
  end.

Definition opt_str (o : option string) : pyval :=
  match o with Some s => PyStr s | None => PyNone end.
Definition opt_float (o : option PyFloat.float) : pyval :=
  match o with Some x => PyFloat x | None => PyNone end.

(** ** handlers/menu.py *)

Definition main_menu_command_simple (update : Update) : M unit :=
  let button text target :=
    [{| label := text; callback_data := (config.CB_MAIN_MENU_PREFIX ++ target)%string |}] in
  let keyboard :=
    [button (pic ++ " New Entry")%string "new";
     button (pic ++ " Update Entry")%string "update";
     button (pic ++ " Delete Entry")%string "delete";
     button (pic ++ " View Entries")%string "view";
     button (pic ++ " Price Insights")%string "insights"] in
  let message_text := "Welcome! Select an option:" in
  match update with
  | CallbackQuery _ _ =>
      send (answer None false) ;;
      send (edit_message_text message_text (Some keyboard) None)
  | _ => send (reply_text message_text (Some keyboard) None)
  end.

(** ** common_handlers.py, first part *)

Definition cancel_conversation (update : Update) : M config.state :=
  let text_to_send := "Operation canceled. What would you like to do next?" in
  let reply_markup := keyboards.build_post_action_keyboard in
  match update with
  | CallbackQuery _ _ =>
      send (answer None false) ;;
      send (edit_message_text text_to_send (Some reply_markup) None)
  | _ => send (reply_text text_to_send (Some reply_markup) None)
  end ;;
  clear_user_data ;;
  ret END.

(** ** handlers/create.py *)

Definition _get_current_entry_data : M Entry :=
  ud <- get_user_data ;;
  match current_entry ud with
  | Some e => ret e
  | None => modify_user_data (set_current_entry (Some empty_entry)) ;; ret empty_entry
  end.

(** A store into the dictionary that [_get_current_entry_data] returned. *)
Definition set_current_entry_item (f : Entry -> Entry) : M unit :=
  modify_user_data
    (fun ud => set_current_entry
                 (Some (f match current_entry ud with
                          | Some e => e
                          | None => empty_entry
                          end)) ud).

Definition _clear_current_entry_data : M unit :=
  modify_user_data (set_current_entry None).

Definition _send_or_edit (update : Update) (text : string)
    (reply_markup : option InlineKeyboardMarkup) : M unit :=
  match update with
  | CallbackQuery _ _ => send (edit_message_text text reply_markup None)
  | _ => send (reply_text text reply_markup None)
  end.

Definition start_new_entry (update : Update) : M config.state :=
  clear_user_data ;;
  let keyboard :=
    [[{| label := (pic ++ " Add Single Product")%string;
         callback_data := config.CB_CREATE_CHOOSE_TYPE_SINGLE |}];
     [{| label := (pic ++ " Add Batch of Products")%string;
         callback_data := config.CB_CREATE_CHOOSE_TYPE_BATCH |}];
     [{| label := (pic ++ " Cancel")%string;
         callback_data := config.CB_CREATE_CANCEL_ENTIRE |}]] in
  _send_or_edit update "How would you like to add new data?" (Some keyboard) ;;
  ret config.CREATE_CHOOSE_ENTRY_TYPE.

Definition ask_batch_common_location (update : Update) : M config.state :=
  let keyboard :=
    keyboards.build_keyboard config.LOCATIONS config.CB_CREATE_BATCH_COMMON_LOCATION_PREFIX in
  _send_or_edit update
    ("--- Batch Entry ---" ++ nl ++ "Please select a common LOCATION for this batch:")%string
    (Some keyboard) ;;
  ret config.CREATE_BATCH_SELECT_LOCATION.

Definition ask_single_entry_product (update : Update) : M config.state :=
  _clear_current_entry_data ;;
  let keyboard :=
    keyboards.build_keyboard config.PRODUCTS config.CB_CREATE_SINGLE_PRODUCT_PREFIX in
  _send_or_edit update
    ("--- Single Product Entry ---" ++ nl ++ "Please select the Product:")%string
    (Some keyboard) ;;
  ret config.CREATE_SINGLE_SELECT_PRODUCT.

Definition handle_entry_type_selection (update : Update) : M config.state :=
  query <- attr (callback_query update) ;;
  send (answer None false) ;;
  let choice := snd query in
  if (choice =? config.CB_CREATE_CHOOSE_TYPE_SINGLE)%string then
    ask_single_entry_product update
  else if (choice =? config.CB_CREATE_CHOOSE_TYPE_BATCH)%string then
    modify_user_data (set_batch_entries (Some [])) ;;
    modify_user_data (set_batch_selected_products (Some [])) ;;
    ask_batch_common_location update
  else if (choice =? config.CB_CREATE_CANCEL_ENTIRE)%string then
    cancel_conversation update
  else ret config.CREATE_CHOOSE_ENTRY_TYPE.

Definition batch_common_location_selection (update : Update) : M config.state :=
  query <- attr (callback_query update) ;;
  send (answer None false) ;;
  let raw_location_slug :=
    PyStr.replace config.CB_CREATE_BATCH_COMMON_LOCATION_PREFIX "" (snd query) in
  let selected_location := keyboards.clean_and_format_for_display raw_location_slug in
  modify_user_data (set_batch_common_location (Some selected_location)) ;;
  send (edit_message_text
          (pic ++ " Batch Location: " ++ selected_location ++ nl ++ nl
             ++ "Now, please enter common remarks for this batch, or use /skip_remark_batch.")%string
          None None) ;;
  ret config.CREATE_BATCH_ENTER_REMARK.

(** The pairs of [buttons[i:i + 2] for i in range(0, len(buttons), 2)]. *)
Fixpoint in_twos {A} (l : list A) : list (list A) :=
  match l with
  | [] => []
  | [a] => [[a]]
  | a :: b :: l' => [a; b] :: in_twos l'
  end.

Definition ask_batch_products_selection (update : Update) : M config.state :=
  ud <- get_user_data ;;
  selected_products <-
    match batch_selected_products ud with
    | Some l => ret l
    | None => modify_user_data (set_batch_selected_products (Some [])) ;; ret []
    end ;;
  let buttons :=
    map (fun product =>
           let status_emoji := if in_list product selected_products then checked else unchecked in
           let product_slug := PyStr.lower (PyStr.replace " " "_" product) in
           {| label := (status_emoji ++ " " ++ product)%string;
              callback_data :=
                (config.CB_CREATE_BATCH_PRODUCT_TOGGLE_PREFIX ++ product_slug)%string |})
        config.PRODUCTS in
  let keyboard_rows :=
    in_twos buttons ++
    [[{| label := (pic ++ " Done Selecting Products")%string;
         callback_data := config.CB_CREATE_BATCH_PRODUCTS_DONE |}]] in
  let num_selected := List.length selected_products in
  ud <- get_user_data ;;
  batch_location <- item "batch_common_location" (batch_common_location ud) ;;
  let message_text :=
    ("--- Batch Product Selection ---" ++ nl
       ++ "Location: " ++ batch_location ++ nl ++ nl
       ++ "Select all products for this batch. You have selected "
       ++ PyStr.str_of_int (Z.of_nat num_selected) ++ " product(s)." ++ nl
       ++ "Click 'Done' when you are finished.")%string in
  _send_or_edit update message_text (Some keyboard_rows) ;;
  ret config.CREATE_BATCH_TOGGLE_PRODUCTS.

Definition batch_common_remark_entry (update : Update) : M config.state :=
  text <- attr (message_text update) ;;
  modify_user_data (set_batch_common_remark (Some text)) ;;
  send (reply_text (pic ++ " Batch Remark set.")%string None None) ;;
  ask_batch_products_selection update.

Definition batch_skip_common_remark (update : Update) : M config.state :=
  modify_user_data (set_batch_common_remark (Some "")) ;;
  attr (message_text update) ;;
  send (reply_text (pic ++ " Batch Remark skipped.")%string None None) ;;
  ask_batch_products_selection update.

Definition toggle_batch_product_selection (update : Update) : M config.state :=
  query <- attr (callback_query update) ;;
  send (answer None false) ;;
  let raw_product_slug :=
    PyStr.replace config.CB_CREATE_BATCH_PRODUCT_TOGGLE_PREFIX "" (snd query) in
  let product_name := keyboards.clean_and_format_for_display raw_product_slug in
  modify_user_data
    (fun ud =>
       let selected_products :=
         match batch_selected_products ud with Some l => l | None => [] end in
       set_batch_selected_products (Some (toggle product_name selected_products)) ud) ;;
  ask_batch_products_selection update.

Definition cancel_no_entries (update : Update) : M config.state :=
  _send_or_edit update "No entries were created. Operation canceled." None ;;
  cancel_conversation update.

Definition show_batch_confirmation (update : Update) : M config.state :=
  ud <- get_user_data ;;
  match batch_entries ud with
  | None | Some [] => cancel_no_entries update
  | Some entries =>
      batch_location <- item "batch_common_location" (batch_common_location ud) ;;
      let remark_shown :=
        match batch_common_remark ud with
        | Some r => if (r =? "")%string then "None" else r
        | None => "None"
        end in
      lines <-
        for_each (fun ie : nat * Entry =>
                    p <- item "product" (product (snd ie)) ;;
                    x <- item "price" (price (snd ie)) ;;
                    ret (PyStr.str_of_int (Z.of_nat (fst ie + 1)) ++ ". " ++ p
                           ++ ": **" ++ PyFloat.repr x ++ "**")%string)
                 (combine (seq 0 (List.length entries)) entries) ;;
      let summary_parts :=
        ["--- Confirm Batch Submission ---";
         ("**Location:** " ++ batch_location)%string;
         ("**Remark:** " ++ remark_shown ++ nl)%string;
         "**Products & Prices:**"]
        ++ lines ++ [(nl ++ "Submit this batch to the sheet?")%string] in
      let keyboard :=
        [[{| label := (pic ++ " Yes, Submit Batch")%string;
             callback_data := config.CB_CREATE_BATCH_SUBMIT_FINAL |}];
         [{| label := (pic ++ " No, Cancel")%string;
             callback_data := config.CB_CREATE_BATCH_CANCEL_CONFIRM |}]] in
      _send_or_edit update (PyStr.join nl summary_parts) (Some keyboard) ;;
      ret config.CREATE_BATCH_CONFIRM_SUBMISSION
  end.

Definition ask_next_price_for_batch (update : Update) : M config.state :=
  ud <- get_user_data ;;
  match batch_price_queue ud with
  | None | Some [] => show_batch_confirmation update
  | Some (current_product :: _) =>
      modify_user_data (set_batch_current_product_for_price (Some current_product)) ;;
      _send_or_edit update
        ("Please enter the buying price for: *" ++ current_product ++ "*")%string None ;;
      ret config.CREATE_BATCH_ENTER_PRICE
  end.

Definition batch_products_selection_done (update : Update) : M config.state :=
  ud <- get_user_data ;;
  match batch_selected_products ud with
  | None | Some [] =>
      attr (callback_query update) ;;
      send (answer (Some "Please select at least one product before proceeding.") true) ;;
      ret config.CREATE_BATCH_TOGGLE_PRODUCTS
  | Some selected_products =>
      modify_user_data (set_batch_price_queue (Some selected_products)) ;;
      modify_user_data (set_batch_entries (Some [])) ;;
      ask_next_price_for_batch update
  end.

(** [price = float(text)] followed by [if price <= 0: raise ValueError]:
    the price, or [None] when the [except (ValueError, TypeError)] branch
    is taken. *)
Definition parse_price (text : string) : option PyFloat.float :=
  match PyFloat.of_string text with
  | Some price => if PyFloat.leb price PyFloat.zero then None else Some price
  | None => None
  end.

Definition batch_price_entry (update : Update) : M config.state :=
  text <- attr (message_text update) ;;
  match parse_price text with
  | None =>
      send (reply_text
              (pic ++ " Invalid price. Please enter a positive number (e.g., 120.50):")%string
              None None) ;;
      ret config.CREATE_BATCH_ENTER_PRICE
  | Some price_value =>
      ud <- get_user_data ;;
      let product_name := batch_current_product_for_price ud in
      modify_user_data (set_batch_current_product_for_price None) ;;
      match product_name with
      | None | Some EmptyString =>
          send (reply_text "An error occurred. Please start over." None None) ;;
          cancel_conversation update
      | Some product_name =>
          modify_user_data
            (fun ud =>
               match batch_price_queue ud with
               | Some (_ :: rest) => set_batch_price_queue (Some rest) ud
               | _ => ud
               end) ;;
          ud <- get_user_data ;;
          batch_location <- item "batch_common_location" (batch_common_location ud) ;;
          let entry_data :=
            {| product := Some product_name;
               price := Some price_value;
               location := Some batch_location;
               remark := Some match batch_common_remark ud with
                              | Some r => r
                              | None => ""
                              end |} in
          entries <- item "batch_entries" (batch_entries ud) ;;
          modify_user_data (set_batch_entries (Some (entries ++ [entry_data]))) ;;
          ask_next_price_for_batch update
      end
  end.

(** [[row_data.get(h, "") for h in gsheet_utils.HEADERS]] *)
Definition row_of (row_data : list (string * pyval)) (headers : list string) : list pyval :=
  map (fun h => match dict_get h row_data with Some v => v | None => PyStr "" end) headers.

(** The dictionary [row_data] of the two submit handlers;
    [remark_default] is what [.get('remark', ...)] gives for an absent
    remark. *)
Definition make_row_data (entry_id : string) (now : datetime)
    (user_identifier : string) (remark_default : pyval) (entry_data : Entry)
    : list (string * pyval) :=
  dict_of
    [(config.ID_FIELD, PyStr entry_id);
     (config.TIMESTAMP_FIELD, PyStr (isoformat now));
     (config.EMAIL_FIELD, PyStr user_identifier);
     (config.PRODUCT_FIELD, opt_str (product entry_data));
     (config.PRICE_FIELD, opt_float (price entry_data));
     (config.LOCATION_FIELD, opt_str (location entry_data));
     (config.REMARK_FIELD,
      match remark entry_data with Some r => PyStr r | None => remark_default end)].

Definition submit_batch_data (update : Update) : M config.state :=
  query <- attr (callback_query update) ;;
  send (answer None false) ;;
  send (edit_message_text
          (pic ++ " Submitting batch entries... This may take a moment.")%string None None) ;;
  ud <- get_user_data ;;
  let batch_entries_data := match batch_entries ud with Some l => l | None => [] end in
  let user_identifier := user_identifier_of (fst query) in
  rows_to_append <-
    for_each (fun entry_data =>
                entry_id <- uuid_uuid4 ;;
                now <- datetime_now ;;
                let row_data := make_row_data entry_id now user_identifier PyNone entry_data in
                headers <- gsheet_utils.get_HEADERS ;;
                ret (row_of row_data headers))
             batch_entries_data ;;
  success <- gsheet_utils.append_rows_to_sheet rows_to_append ;;
  let final_message :=
    if success : bool
    then (pic ++ " Batch with " ++ PyStr.str_of_int (Z.of_nat (List.length rows_to_append))
            ++ " entries submitted successfully.")%string
    else (pic ++ " Batch submission failed. Please contact an admin.")%string in
  let final_message := (final_message ++ nl ++ nl ++ "What would you like to do next?")%string in
  send (edit_message_text final_message (Some keyboards.build_post_action_keyboard) None) ;;
  clear_user_data ;;
  ret END.

Definition single_entry_product_selection (update : Update) : M config.state :=
  query <- attr (callback_query update) ;;
  send (answer None false) ;;
  let raw_product_slug :=
    PyStr.replace config.CB_CREATE_SINGLE_PRODUCT_PREFIX "" (snd query) in
  let selected_product := keyboards.clean_and_format_for_display raw_product_slug in
  _get_current_entry_data ;;
  set_current_entry_item
    (fun e => {| product := Some selected_product; price := price e;
                 location := location e; remark := remark e |}) ;;
  send (edit_message_text
          ("Product: " ++ selected_product ++ nl ++ nl
             ++ "Please enter the buying price (e.g., 120.50):")%string None None) ;;
  ret config.CREATE_SINGLE_ENTER_PRICE.

Definition single_entry_price_entry (update : Update) : M config.state :=
  price_text <- attr (message_text update) ;;
  _get_current_entry_data ;;
  match parse_price price_text with
  | Some price_value =>
      set_current_entry_item
        (fun e => {| product := product e; price := Some price_value;
                     location := location e; remark := remark e |}) ;;
      let keyboard :=
        keyboards.build_keyboard config.LOCATIONS config.CB_CREATE_SINGLE_LOCATION_PREFIX in
      current_entry <- _get_current_entry_data ;;
      p <- item "product" (product current_entry) ;;
      send (reply_text
              ("Product: " ++ p ++ nl ++ "Price: " ++ PyFloat.repr price_value ++ nl ++ nl
                 ++ "Please select the Location:")%string
              (Some keyboard) None) ;;
      ret config.CREATE_SINGLE_SELECT_LOCATION
  | None =>
      send (reply_text (pic ++ " Invalid price. Please enter a positive number:")%string
                       None None) ;;
      ret config.CREATE_SINGLE_ENTER_PRICE
  end.

Definition single_entry_location_selection (update : Update) : M config.state :=
  query <- attr (callback_query update) ;;
  send (answer None false) ;;
  let raw_location_slug :=
    PyStr.replace config.CB_CREATE_SINGLE_LOCATION_PREFIX "" (snd query) in
  let selected_location := keyboards.clean_and_format_for_display raw_location_slug in
  _get_current_entry_data ;;
  set_current_entry_item
    (fun e => {| product := product e; price := price e;
                 location := Some selected_location; remark := remark e |}) ;;
  current_entry <- _get_current_entry_data ;;
  p <- item "product" (product current_entry) ;;
  x <- item "price" (price current_entry) ;;
  send (edit_message_text
          ("Product: " ++ p ++ nl ++ "Price: " ++ PyFloat.repr x ++ nl
             ++ "Location: " ++ selected_location ++ nl ++ nl
             ++ "Please enter remarks, or use /skip_remark_single.")%string None None) ;;
  ret config.CREATE_SINGLE_ENTER_REMARK.

Definition show_single_entry_confirmation (update : Update) : M config.state :=
  current_entry <- _get_current_entry_data ;;
  let summary :=
    ("--- Confirm Single Entry ---" ++ nl ++ nl
       ++ "Product: " ++ py_str (opt_str (product current_entry)) ++ nl
       ++ "Price: " ++ py_str (opt_float (price current_entry)) ++ nl
       ++ "Location: " ++ py_str (opt_str (location current_entry)) ++ nl
       ++ "Remark: "
       ++ match remark current_entry with
          | Some r => if (r =? "")%string then "None" else r
          | None => "None"
          end ++ nl ++ nl
       ++ "Submit this entry?")%string in
  let keyboard :=
    [[{| label := (pic ++ " Yes, Submit")%string;
         callback_data := config.CB_CREATE_SINGLE_SUBMIT_FINAL |}];
     [{| label := (pic ++ " No, Cancel")%string;
         callback_data := config.CB_CREATE_SINGLE_CANCEL_CONFIRM |}]] in
  _send_or_edit update summary (Some keyboard) ;;
  ret config.CREATE_SINGLE_CONFIRM_SUBMISSION.

Definition single_entry_remark_entry (update : Update) : M config.state :=
  _get_current_entry_data ;;
  text <- attr (message_text update) ;;
  set_current_entry_item
    (fun e => {| product := product e; price := price e;
                 location := location e; remark := Some text |}) ;;
  send (reply_text (pic ++ " Remark set.")%string None None) ;;
  show_single_entry_confirmation update.

Definition single_skip_remark_entry (update : Update) : M config.state :=
  _get_current_entry_data ;;
  set_current_entry_item
    (fun e => {| product := product e; price := price e;
                 location := location e; remark := Some "" |}) ;;
  attr (message_text update) ;;
  send (reply_text (pic ++ " Remark skipped.")%string None None) ;;
  show_single_entry_confirmation update.

Definition submit_single_entry_data (update : Update) : M config.state :=
  query <- attr (callback_query update) ;;
  send (answer None false) ;;
  send (edit_message_text (pic ++ " Submitting entry...")%string None None) ;;
  entry_data <- _get_current_entry_data ;;
  let user_identifier := user_identifier_of (fst query) in
  entry_id <- uuid_uuid4 ;;
  now <- datetime_now ;;
  let row_data := make_row_data entry_id now user_identifier (PyStr "") entry_data in
  headers <- gsheet_utils.get_HEADERS ;;
  let row_values := row_of row_data headers in
  success <- gsheet_utils.append_rows_to_sheet [row_values] ;;
  let final_message :=
    if success : bool
    then (pic ++ " Entry submitted successfully." ++ nl ++ "ID: " ++ entry_id)%string
    else (pic ++ " Entry submission failed. Please contact an admin.")%string in
  let final_message := (final_message ++ nl ++ nl ++ "What would you like to do next?")%string in
  send (edit_message_text final_message (Some keyboards.build_post_action_keyboard) None) ;;
  clear_user_data ;;
  ret END.

(** ** common_handlers.py, second part *)

Definition post_conversation_callback_handler (update : Update) : M config.state :=
  query <- attr (callback_query update) ;;
  send (answer None false) ;;
  clear_user_data ;;
  if (snd query =? config.CB_MAIN_MENU_PREFIX ++ "menu")%string then
    main_menu_command_simple update ;;
    ret END
  else if (snd query =? config.CB_MAIN_MENU_PREFIX ++ "new")%string then
    start_new_entry update
  else ret END.

(** ** handlers/update.py *)

Definition UPDATABLE_FIELDS_MAP : list (string * string) :=
  [("product", config.PRODUCT_FIELD);
   ("price", config.PRICE_FIELD);
   ("location", config.LOCATION_FIELD);
   ("remark", config.REMARK_FIELD)].

Definition UPDATABLE_FIELDS_DISPLAY_ORDER : list string :=
  ["product"; "price"; "location"; "remark"].

Definition _send_or_edit_update (update : Update) (text : string)
    (reply_markup : option InlineKeyboardMarkup) (parse_mode : option ParseMode) : M unit :=
  match update with
  | CallbackQuery _ _ => send (edit_message_text text reply_markup parse_mode)
  | _ => send (reply_text text reply_markup parse_mode)
  end.

Definition _escape_markdown : string -> string := escape_markdown_v2.

(** [original_data.get(field, "N/A")] *)
Definition get_or_na (field : string) (d : list (string * pyval)) : pyval :=
  match dict_get field d with Some v => v | None => PyStr "N/A" end.

Definition start_update_entry (update : Update) : M config.state :=
  send (reply_text (pic ++ " Please enter the ID of the entry you wish to update:")%string
                   None None) ;;
  ret config.UPDATE_ASK_ID.

Definition show_field_selection_for_update (update : Update) : M config.state :=
  ud <- get_user_data ;;
  original_data <- item "update_original_data" (update_original_data ud) ;;
  let selected_keys :=
    match fields_to_update_selected_keys ud with Some l => l | None => [] end in
  rows <-
    for_each (fun key =>
                field <- item key (dict_get key UPDATABLE_FIELDS_MAP) ;;
                let value := py_str (get_or_na field original_data) in
                let display_value :=
                  if 15 <? String.length value
                  then (substring 0 15 value ++ "...")%string else value in
                let emoji := if in_list key selected_keys then checked else unchecked in
                ret [{| label := (emoji ++ " " ++ PyStr.title key ++ ": " ++ display_value)%string;
                        callback_data := (config.CB_UPDATE_FIELD_TOGGLE_PREFIX ++ key)%string |}])
             UPDATABLE_FIELDS_DISPLAY_ORDER ;;
  let rows :=
    rows ++
    [[{| label := (pic ++ " Proceed with Selection")%string;
         callback_data := config.CB_UPDATE_PROCEED_WITH_SELECTION |}];
     [{| label := (pic ++ " Cancel Update")%string;
         callback_data := config.CB_UPDATE_CANCEL_FIELD_SELECTION |}]] in
  let formatted_entry := keyboards.format_entry_details_markdown original_data "Entry Details" in
  entry_id <- item "update_entry_id" (update_entry_id ud) ;;
  let message_text :=
    (pic ++ " *Updating Entry ID: `" ++ entry_id ++ "`*" ++ nl ++ nl
       ++ formatted_entry ++ nl ++ nl
       ++ "Select fields to update, then click 'Proceed'.")%string in
  _send_or_edit_update update message_text (Some rows) (Some MARKDOWN_V2) ;;
  ret config.UPDATE_SELECT_FIELDS_TOGGLE.

Definition ask_id_received (update : Update) : M config.state :=
  text <- attr (message_text update) ;;
  let entry_id := PyStr.strip text in
  found <- gsheet_utils.find_row_by_id entry_id ;;
  match found with
  | (row_num, Some ((_ :: _) as entry_data_list)) =>
      headers <- gsheet_utils.get_HEADERS ;;
      modify_user_data
        (fun ud =>
           set_new_values_for_update_map (Some [])
             (set_fields_to_update_selected_keys (Some [])
                (set_update_original_data
                   (Some (dict_of (combine headers entry_data_list)))
                   (set_update_row_num row_num
                      (set_update_entry_id (Some entry_id) ud))))) ;;
      show_field_selection_for_update update
  | _ =>
      send (reply_text
              (pic ++ " No entry found with ID: `" ++ entry_id
                 ++ "`. Please try again, or /cancel.")%string
              None (Some MARKDOWN_V2)) ;;
      ret config.UPDATE_ASK_ID
  end.

Definition toggle_field_selection_callback (update : Update) : M config.state :=
  query <- attr (callback_query update) ;;
  send (answer None false) ;;
  let key := PyStr.replace config.CB_UPDATE_FIELD_TOGGLE_PREFIX "" (snd query) in
  modify_user_data
    (fun ud =>
       match fields_to_update_selected_keys ud with
       | Some selected => set_fields_to_update_selected_keys (Some (toggle key selected)) ud
       | None => ud
       end) ;;
  show_field_selection_for_update update.

Definition confirm_multiple_changes (update : Update) : M config.state :=
  ud <- get_user_data ;;
  new_values <- item "new_values_for_update_map" (new_values_for_update_map ud) ;;
  match new_values with
  | [] =>
      let text :=
        ("No changes were made. Update canceled." ++ nl ++ nl
           ++ "What would you like to do next?")%string in
      _send_or_edit_update update text (Some keyboards.build_post_action_keyboard) None ;;
      clear_user_data ;;
      ret END
  | _ =>
      lines <-
        for_each (fun fv : string * pyval =>
                    let field_name := keyboards.clean_and_format_for_display (fst fv) in
                    original_data <- item "update_original_data" (update_original_data ud) ;;
                    let original := get_or_na (fst fv) original_data in
                    ret ("  - *" ++ field_name ++ ":* `" ++ _escape_markdown (py_str original)
                           ++ "` " ++ pic ++ " `" ++ _escape_markdown (py_str (snd fv))
                           ++ "`")%string)
                 new_values ;;
      let summary := ["*Confirm Changes:*"] ++ lines ++ [(nl ++ "Apply these updates?")%string] in
      let markup :=
        [[{| label := (pic ++ " Yes, Apply Updates")%string;
             callback_data := config.CB_UPDATE_EXECUTE_CONFIRMED |}];
         [{| label := (pic ++ " No, Cancel")%string;
             callback_data := config.CB_UPDATE_CANCEL_FINAL_CONFIRM |}]] in
      _send_or_edit_update update (PyStr.join nl summary) (Some markup) (Some MARKDOWN_V2) ;;
      ret config.UPDATE_CONFIRM_MULTIPLE
  end.

Definition ask_for_next_field_value (update : Update) : M config.state :=
  ud <- get_user_data ;;
  match update_fields_queue ud with
  | None | Some [] => confirm_multiple_changes update
  | Some (key :: _) =>
      modify_user_data (set_current_field_being_updated_key (Some key)) ;;
      original_data <- item "update_original_data" (update_original_data ud) ;;
      field <- item key (dict_get key UPDATABLE_FIELDS_MAP) ;;
      let original_value := get_or_na field original_data in
      let escaped_original := _escape_markdown (py_str original_value) in
      let '(text, markup) :=
        if (key =? "product")%string then
          (("Select new *Product* (current: `" ++ escaped_original ++ "`):")%string,
           Some (keyboards.build_keyboard config.PRODUCTS config.CB_UPDATE_NEWVAL_PRODUCT_PREFIX))
        else if (key =? "location")%string then
          (("Select new *Location* (current: `" ++ escaped_original ++ "`):")%string,
           Some (keyboards.build_keyboard config.LOCATIONS config.CB_UPDATE_NEWVAL_LOCATION_PREFIX))
        else if (key =? "price")%string then
          (("Enter new *Price* (current: `" ++ escaped_original ++ "`):")%string, None)
        else if (key =? "remark")%string then
          (("Enter new *Remark* (current: `" ++ escaped_original ++ "`)" ++ nl
              ++ "or use /skip_remark_update.")%string, None)
        else ("", None) in
      _send_or_edit_update update text markup (Some MARKDOWN_V2) ;;
      ret config.UPDATE_ENTER_MULTIPLE_VALUES
  end.

Definition proceed_with_selected_fields_callback (update : Update) : M config.state :=
  attr (callback_query update) ;;
  send (answer None false) ;;
  ud <- get_user_data ;;
  match fields_to_update_selected_keys ud with
  | None | Some [] =>
      send (answer (Some "Please select at least one field to update.") true) ;;
      ret config.UPDATE_SELECT_FIELDS_TOGGLE
  | Some selected_keys =>
      modify_user_data
        (set_update_fields_queue
           (Some (filter (fun key => in_list key selected_keys)
                         UPDATABLE_FIELDS_DISPLAY_ORDER))) ;;
      ask_for_next_field_value update
  end.

(** [context.user_data['new_values_for_update_map'][UPDATABLE_FIELDS_MAP[key]]
    = new_value] and then [context.user_data['update_fields_queue'].pop(0)]. *)
Definition store_new_value (field : M string) (new_value : pyval) : M unit :=
  ud <- get_user_data ;;
  new_values <- item "new_values_for_update_map" (new_values_for_update_map ud) ;;
  f <- field ;;
  modify_user_data (set_new_values_for_update_map (Some (dict_set f new_value new_values))) ;;
  queue <- item "update_fields_queue" (update_fields_queue ud) ;;
  match queue with
  | [] => raise IndexError
  | _ :: rest => modify_user_data (set_update_fields_queue (Some rest))
  end.

Definition new_value_for_product_or_location_callback (update : Update) : M config.state :=
  query <- attr (callback_query update) ;;
  send (answer None false) ;;
  ud <- get_user_data ;;
  key <- item "current_field_being_updated_key" (current_field_being_updated_key ud) ;;
  let prefix :=
    if (key =? "product")%string then config.CB_UPDATE_NEWVAL_PRODUCT_PREFIX
    else config.CB_UPDATE_NEWVAL_LOCATION_PREFIX in
  let slug := PyStr.replace prefix "" (snd query) in
  let new_value := keyboards.clean_and_format_for_display slug in
  store_new_value (item key (dict_get key UPDATABLE_FIELDS_MAP)) (PyStr new_value) ;;
  ask_for_next_field_value update.

Definition new_value_for_text_field_received (update : Update) : M config.state :=
  ud <- get_user_data ;;
  key <- item "current_field_being_updated_key" (current_field_being_updated_key ud) ;;
  text <- attr (message_text update) ;;
  let store new_value :=
    store_new_value (item key (dict_get key UPDATABLE_FIELDS_MAP)) new_value ;;
    ask_for_next_field_value update in
  if (key =? "price")%string then
    match parse_price text with
    | Some new_value => store (PyFloat new_value)
    | None =>
        send (reply_text (pic ++ " Invalid price. Please enter a positive number.")%string
                         None None) ;;
        ret config.UPDATE_ENTER_MULTIPLE_VALUES
    end
  else store (PyStr text).

Definition skip_remark_update_command (update : Update) : M config.state :=
  ud <- get_user_data ;;
  match current_field_being_updated_key ud with
  | Some "remark" =>
      store_new_value (ret config.REMARK_FIELD) (PyStr "") ;;
      ask_for_next_field_value update
  | _ =>
      attr (message_text update) ;;
      send (reply_text "This command is only for the remark field." None None) ;;
      ret config.UPDATE_ENTER_MULTIPLE_VALUES
  end.

Definition execute_multiple_updates (update : Update) : M config.state :=
  attr (callback_query update) ;;
  send (answer None false) ;;
  send (edit_message_text (pic ++ " Applying updates...")%string None None) ;;
  ud <- get_user_data ;;
  row_num <- item "update_row_num" (update_row_num ud) ;;
  new_values <- item "new_values_for_update_map" (new_values_for_update_map ud) ;;
  headers <- gsheet_utils.get_HEADERS ;;
  let update_ops :=
    gsheet_utils.filter_map
      (fun fv : string * pyval =>
         match gsheet_utils.index (fst fv) headers with
         | Some i =>
             Some {| gsheet_utils.op_row := row_num;
                     gsheet_utils.op_col := i + 1;
                     gsheet_utils.op_value := snd fv |}
         | None => None
         end)
      new_values in
  now <- datetime_now ;;
  let update_ops :=
    match gsheet_utils.index config.TIMESTAMP_FIELD headers with
    | Some i =>
        update_ops ++
        [{| gsheet_utils.op_row := row_num;
            gsheet_utils.op_col := i + 1;
            gsheet_utils.op_value := PyStr (isoformat now) |}]
    | None => update_ops
    end in
  success <-
    match update_ops with
    | [] => ret false
    | _ => gsheet_utils.worksheet_batch_update update_ops
    end ;;
  entry_id <- item "update_entry_id" (update_entry_id ud) ;;
  let final_message :=
    if success : bool
    then (pic ++ " Entry ID `" ++ _escape_markdown entry_id ++ "` updated successfully.")%string
    else (pic ++ " Error! Could not update entry ID `" ++ _escape_markdown entry_id ++ "`.")%string in
  let final_message := (final_message ++ nl ++ nl ++ "What would you like to do next?")%string in
  send (edit_message_text final_message (Some keyboards.build_post_action_keyboard)
                          (Some MARKDOWN_V2)) ;;
  clear_user_data ;;
  ret END.

Definition cancel_update_operation_callback (update : Update) : M config.state :=
  attr (callback_query update) ;;
  send (answer None false) ;;
  let text :=
    ("Update operation has been canceled." ++ nl ++ nl
       ++ "What would you like to do next?")%string in
  send (edit_message_text text (Some keyboards.build_post_action_keyboard) None) ;;
  clear_user_data ;;
  ret END.

(** ** handlers/delete.py *)

Definition start_delete_entry (update : Update) : M config.state :=
  send (reply_text "Please enter the ID of the entry you want to delete:" None None) ;;
  ret config.DELETE_ASK_ID.

Definition ask_id_received_for_delete (update : Update) : M config.state :=
  text <- attr (message_text update) ;;
  let entry_id := PyStr.strip text in
  found <- gsheet_utils.find_row_by_id entry_id ;;
  match found with
  | (row_num, Some ((_ :: _) as entry_data_list)) =>
      modify_user_data (set_delete_entry_id (Some entry_id)) ;;
      modify_user_data (set_delete_row_num row_num) ;;
      headers <- gsheet_utils.get_HEADERS ;;
      let entry_data_dict := dict_of (combine headers entry_data_list) in
      let formatted_details :=
        keyboards.format_entry_details_markdown entry_data_dict "Entry Details" in
      let keyboard_layout :=
        [[{| label := (pic ++ " Yes, Delete it")%string;
             callback_data := config.CB_DELETE_CONFIRM_YES |}];
         [{| label := (pic ++ " No, Keep it")%string;
             callback_data := config.CB_DELETE_CONFIRM_NO |}]] in
      send (reply_text
              ("Found entry:" ++ nl ++ formatted_details ++ nl ++ nl ++ pic
                 ++ " **ARE YOU SURE** you want to delete this entry? This action cannot be undone.")%string
              (Some keyboard_layout) (Some MARKDOWN_V2)) ;;
      ret config.DELETE_CONFIRM
  | _ =>
      send (reply_text
              ("No entry found with ID: " ++ entry_id ++ ". Please try again or /cancel.")%string
              None None) ;;
      ret config.DELETE_ASK_ID
  end.

Definition confirm_delete_callback (update : Update) : M config.state :=
  query <- attr (callback_query update) ;;
  send (answer None false) ;;
  let action := snd query in
  final_message <-
    (if (action =? config.CB_DELETE_CONFIRM_YES)%string then
       ud <- get_user_data ;;
       row_num <- item "delete_row_num" (delete_row_num ud) ;;
       entry_id <- item "delete_entry_id" (delete_entry_id ud) ;;
       success <- gsheet_utils.delete_row_from_sheet row_num ;;
       if success : bool then
         let escaped_id := keyboards._escape_markdown_v2_keyboards entry_id in
         ret (pic ++ " Entry ID `" ++ escaped_id ++ "` has been deleted.")%string
       else ret (pic ++ " Error deleting entry from Google Sheet.")%string
     else ret "Deletion canceled.") ;;
  let final_message := (final_message ++ nl ++ nl ++ "What would you like to do next?")%string in
  send (edit_message_text (keyboards._escape_markdown_v2_keyboards final_message)
                          (Some keyboards.build_post_action_keyboard) (Some MARKDOWN_V2)) ;;
  clear_user_data ;;
  ret END.

(** ** handlers/read.py *)

Definition _send_or_edit_read (update : Update) (text : string)
    (reply_markup : option InlineKeyboardMarkup) : M unit :=
  match update with
  | CallbackQuery _ _ => send (edit_message_text text reply_markup (Some MARKDOWN_V2))
  | _ => send (reply_text text reply_markup (Some MARKDOWN_V2))
  end.

Definition _escape_markdown_v2_read : string -> string := escape_markdown_v2.

Definition view_entries_command (update : Update) : M config.state :=
  clear_user_data ;;
  let keyboard :=
    [[{| label := (pic ++ " View Last "
                     ++ PyStr.str_of_int (Z.of_nat config.DEFAULT_ENTRIES_PER_PAGE_VIEW)
                     ++ " Entries")%string;
         callback_data := (config.CB_VIEW_LAST_N_PREFIX ++ "0")%string |}];
     [{| label := (pic ++ " View Entry by ID")%string;
         callback_data := config.CB_VIEW_BY_ID_PROMPT_ACTION |}];
     [{| label := (pic ++ " Cancel View")%string;
         callback_data := config.CB_VIEW_CANCEL_ACTION |}]] in
  _send_or_edit_read update
    (_escape_markdown_v2_read "How would you like to view entries?") (Some keyboard) ;;
  ret config.VIEW_AWAITING_MENU_CHOICE.

Definition prompt_for_id_callback (update : Update) : M config.state :=
  attr (callback_query update) ;;
  send (answer None false) ;;
  send (edit_message_text
          (_escape_markdown_v2_read "Please send the ID of the entry you want to view:")
          None None) ;;
  ret config.VIEW_AWAITING_ID_INPUT.

Definition handle_id_for_view (update : Update) : M config.state :=
  text <- attr (message_text update) ;;
  let entry_id := PyStr.strip text in
  found <- gsheet_utils.find_row_by_id entry_id ;;
  let nav_keyboard := keyboards.build_post_action_keyboard in
  final_message <-
    match found with
    | (_, Some ((_ :: _) as entry_data_list)) =>
        headers <- gsheet_utils.get_HEADERS ;;
        let entry_data_dict := dict_of (combine headers entry_data_list) in
        let formatted_details :=
          keyboards.format_entry_details_markdown entry_data_dict "Entry Details" in
        ret (formatted_details ++ nl ++ nl ++ "What would you like to do next?")%string
    | _ =>
        let escaped_id := _escape_markdown_v2_read entry_id in
        ret (pic ++ " No entry found with ID: `" ++ escaped_id ++ "`" ++ nl ++ nl
               ++ "What would you like to do next?")%string
    end ;;
  send (reply_text final_message (Some nav_keyboard) (Some MARKDOWN_V2)) ;;
  clear_user_data ;;
  ret END.

(** [data_rows[start_index:end_index]] *)
Definition slice {A} (start_index end_index : nat) (l : list A) : list A :=
  firstn (end_index - start_index) (skipn start_index l).

(** The page number carried by the callback data: the digits after the
    last underscore, or 0. *)
Definition page_of (data : string) : M nat :=
  let action_parts := PyStr.split_on "_" "" data in
  let last_part := last action_parts "" in
  if (2 <=? List.length action_parts) && PyStr.isdigit last_part then
    match PyStr.int_of_digits last_part with
    | Some n => ret (Z.to_nat n)
    | None => raise ValueError
    end
  else ret 0.

Definition view_last_entries_callback (update : Update) : M config.state :=
  query <- attr (callback_query update) ;;
  send (answer None false) ;;
  current_page <- page_of (snd query) ;;
  send (edit_message_text (_escape_markdown_v2_read (pic ++ " Fetching entries...")%string)
                          None None) ;;
  try_except
    (all_values <- gsheet_utils.worksheet_get_all_values ;;
     if List.length all_values <=? 1 then
       send (edit_message_text
               (_escape_markdown_v2_read
                  (pic ++ " The sheet has no data entries." ++ nl ++ nl
                     ++ "What would you like to do next?")%string)
               (Some keyboards.build_post_action_keyboard) None) ;;
       ret END
     else
       header <- gsheet_utils.get_HEADERS ;;
       let data_rows := List.rev (tl all_values) in
       let total_entries := List.length data_rows in
       let per_page := config.DEFAULT_ENTRIES_PER_PAGE_VIEW in
       let start_index := current_page * per_page in
       let end_index := (current_page + 1) * per_page in
       let page_entries := slice start_index end_index data_rows in
       match page_entries with
       | [] =>
           send (answer (Some (pic ++ " No more entries to display.")%string) true) ;;
           ret config.VIEW_PAGINATING_ENTRIES
       | _ =>
           let text_parts :=
             [_escape_markdown_v2_read
                ("Displaying Entries (Page "
                   ++ PyStr.str_of_int (Z.of_nat (current_page + 1)) ++ ")")%string]
             ++ flat_map
                  (fun ir : nat * list string =>
                     let entry_num := total_entries - (start_index + fst ir) in
                     let entry_dict :=
                       dict_of (combine header (map PyStr (snd ir))) in
                     [_escape_markdown_v2_read
                        (nl ++ "--- Entry " ++ PyStr.str_of_int (Z.of_nat entry_num)
                           ++ " ---")%string;
                      keyboards.format_entry_details_markdown entry_dict ""])
                  (combine (seq 0 (List.length page_entries)) page_entries) in
           let nav_row :=
             (if 0 <? current_page
              then [{| label := (pic ++ " Prev")%string;
                       callback_data :=
                         (config.CB_VIEW_LAST_N_PREFIX
                            ++ PyStr.str_of_int (Z.of_nat (current_page - 1)))%string |}]
              else [])
             ++
             (if end_index <? total_entries
              then [{| label := ("Next " ++ pic)%string;
                       callback_data :=
                         (config.CB_VIEW_LAST_N_PREFIX
                            ++ PyStr.str_of_int (Z.of_nat (current_page + 1)))%string |}]
              else []) in
           let markup :=
             [nav_row;
              [{| label := (pic ++ " Back to View Options")%string;
                  callback_data := config.CB_VIEW_BACK_TO_MENU_ACTION |}]] in
           _send_or_edit_read update (PyStr.join nl text_parts) (Some markup) ;;
           ret config.VIEW_PAGINATING_ENTRIES
       end)
    (fun _ =>
       send (edit_message_text
               (_escape_markdown_v2_read
                  (pic ++ " An error occurred while fetching data.")%string)
               (Some keyboards.build_post_action_keyboard) None) ;;
       ret END).

Definition navigate_back_to_view_menu (update : Update) : M config.state :=
  attr (callback_query update) ;;
  send (answer None false) ;;
  view_entries_command update.

Definition cancel_view_callback (update : Update) : M config.state :=
  attr (callback_query update) ;;
  send (answer None false) ;;
  let text :=
    ("View operation canceled." ++ nl ++ nl ++ "What would you like to do next?")%string in
  send (edit_message_text text (Some keyboards.build_post_action_keyboard) None) ;;
  clear_user_data ;;
  ret END.

(** ** handlers/insights.py *)

Definition _escape_markdown_v2_insights : string -> string := escape_markdown_v2.

Definition _send_or_edit_insights (update : Update) (text : string)
    (reply_markup : option InlineKeyboardMarkup) : M unit :=
  match update with
  | CallbackQuery _ _ => send (edit_message_text text reply_markup (Some MARKDOWN_V2))
  | _ => send (reply_text text reply_markup (Some MARKDOWN_V2))
  end.

Definition start_insights_menu (update : Update) : M config.state :=
  clear_user_data ;;
  let button text action :=
    [{| label := text; callback_data := (config.CB_INSIGHTS_PREFIX ++ action)%string |}] in
  let keyboard :=
    [button (pic ++ " Avg Price by Product")%string "by_product";
     button (pic ++ " Avg Price by Location")%string "by_location";
     button (pic ++ " Avg Price by Product & Location")%string "by_prod_loc";
     button (pic ++ " Cancel Insights")%string "cancel"] in
  let text :=
    (pic ++ " *Price Insights Menu:*" ++ nl
       ++ "Select the type of insight you want to see\.")%string in
  _send_or_edit_insights update text (Some keyboard) ;;
  ret config.INSIGHTS_MENU_DISPLAYED.

(** The order of [sorted] on the keys of the averages. *)
Fixpoint list_leb (l1 l2 : list string) : bool :=
  match l1, l2 with
  | [], _ => true
  | _ :: _, [] => false
  | a :: l1', b :: l2' =>
      match String.compare a b with
      | Lt => true
      | Gt => false
      | Eq => list_leb l1' l2'
      end
  end.

Definition group_key_leb (a b : gsheet_utils.group_key) : bool :=
  match a, b with
  | gsheet_utils.key_str s, gsheet_utils.key_str t => String.leb s t
  | gsheet_utils.key_tuple p, gsheet_utils.key_tuple q => list_leb p q
  | gsheet_utils.key_str _, gsheet_utils.key_tuple _ => true
  | gsheet_utils.key_tuple _, gsheet_utils.key_str _ => false
  end.

Fixpoint insert_sorted {V} (kv : gsheet_utils.group_key * V)
    (l : list (gsheet_utils.group_key * V)) : list (gsheet_utils.group_key * V) :=
  match l with
  | [] => [kv]
  | kv' :: l' =>
      if group_key_leb (fst kv) (fst kv') then kv :: l
      else kv' :: insert_sorted kv l'
  end.

(** [sorted(calculated_averages.items())] *)
Definition sorted_items {V} (l : list (gsheet_utils.group_key * V))
    : list (gsheet_utils.group_key * V) :=
  fold_right insert_sorted [] l.

(** [str(key)] for a key that is a string. *)
Definition key_text (k : gsheet_utils.group_key) : string :=
  match k with
  | gsheet_utils.key_str s => s
  | gsheet_utils.key_tuple _ => ""
  end.

Definition average_line (k : gsheet_utils.group_key)
    (data : gsheet_utils.Average) : string :=
  ("  " ++ pic ++ " *" ++ _escape_markdown_v2_insights (key_text k) ++ ":* `"
     ++ PyFloat.format_2f (gsheet_utils.average data) ++ "` \(from "
     ++ PyStr.str_of_int (Z.of_nat (gsheet_utils.avg_count data)) ++ " entries\)")%string.

(** [grouped_by_prod_display[product_key].append(line)], a new product
    coming last. *)
Fixpoint add_detail (product_key : string) (line : string)
    (d : list (string * list string)) : list (string * list string) :=
  match d with
  | [] => [(product_key, [line])]
  | (p, lines) :: d' =>
      if (p =? product_key)%string then (p, lines ++ [line]) :: d'
      else (p, lines) :: add_detail product_key line d'
  end.

Definition product_location_lines
    (averages : list (gsheet_utils.group_key * gsheet_utils.Average)) : list string :=
  let grouped_by_prod_display :=
    fold_left
      (fun d kv =>
         match fst kv with
         | gsheet_utils.key_tuple [product_key; location_key] =>
             let escaped_location := _escape_markdown_v2_insights location_key in
             add_detail product_key
               ("    " ++ pic ++ " _" ++ escaped_location ++ ":_ `"
                  ++ PyFloat.format_2f (gsheet_utils.average (snd kv)) ++ "` \("
                  ++ PyStr.str_of_int (Z.of_nat (gsheet_utils.avg_count (snd kv)))
                  ++ " entries\)")%string d
         | _ => d
         end)
      (sorted_items averages) [] in
  flat_map
    (fun pd : string * list string =>
       let escaped_product := _escape_markdown_v2_insights (fst pd) in
       (nl ++ "  " ++ pic ++ " *" ++ escaped_product ++ ":*")%string :: snd pd)
    grouped_by_prod_display.

(** The lines of the report for one of the three groupings, [None] for any
    other action. *)
Definition report_lines (action : string) (insights_data : list gsheet_utils.InsightItem)
    : option (list string) :=
  if (action =? "by_product")%string then
    Some (map (fun kv => average_line (fst kv) (snd kv))
              (sorted_items
                 (gsheet_utils.calculate_average_prices insights_data
                    (gsheet_utils.by_key "product"))))
  else if (action =? "by_location")%string then
    Some (map (fun kv => average_line (fst kv) (snd kv))
              (sorted_items
                 (gsheet_utils.calculate_average_prices insights_data
                    (gsheet_utils.by_key "location"))))
  else if (action =? "by_prod_loc")%string then
    Some (product_location_lines
            (gsheet_utils.calculate_average_prices insights_data
               (gsheet_utils.by_keys ["product"; "location"])))
  else None.

Definition insights_menu_callback (update : Update) : M config.state :=
  query <- attr (callback_query update) ;;
  send (answer None false) ;;
  let action := PyStr.replace config.CB_INSIGHTS_PREFIX "" (snd query) in
  let nav_keyboard := keyboards.build_post_action_keyboard in
  if (action =? "cancel")%string then
    send (edit_message_text
            ("Insights operation canceled." ++ nl ++ nl
               ++ "What would you like to do next?")%string
            (Some nav_keyboard) None) ;;
    clear_user_data ;;
    ret END
  else
    send (edit_message_text
            (_escape_markdown_v2_insights (pic ++ " Calculating insights, please wait...")%string)
            None None) ;;
    insights_data <- gsheet_utils.get_all_data_for_insights ;;
    match insights_data with
    | [] =>
        send (edit_message_text
                (pic ++ " No data available for insights." ++ nl ++ nl
                   ++ "What would you like to do next?")%string
                (Some nav_keyboard) None) ;;
        clear_user_data ;;
        ret END
    | _ =>
        match report_lines action insights_data with
        | None =>
            send (edit_message_text
                    (_escape_markdown_v2_insights
                       (pic ++ " Invalid insight selection. Please try again.")%string)
                    None None) ;;
            ret config.INSIGHTS_MENU_DISPLAYED
        | Some lines =>
            let result_text_parts := ("*Average Price Insights:*" ++ nl)%string :: lines in
            let final_result_text :=
              (PyStr.join nl result_text_parts ++ nl ++ nl
                 ++ "What would you like to do next?")%string in
            (if 4000 <? String.length final_result_text then
               let long_message :=
                 _escape_markdown_v2_insights
                   (pic ++ " Insights generated successfully, but the result is too long to display directly."
                      ++ nl ++ nl ++ "What would you like to do next?")%string in
               send (edit_message_text long_message (Some nav_keyboard) None)
             else
               send (edit_message_text final_result_text (Some nav_keyboard) None)) ;;
            clear_user_data ;;
            ret END
        end
    end.

(* ------------------------------------------------------------------ *)
(** * The conversation handlers *)

(** The regular expressions of the callback patterns, matched from the
    start of the data as [re.match] does; [$] also matches before a final
    newline. *)
Inductive pattern : Type :=
| exactly (alternatives : list string)      (* ^(a|b)$ *)
| starting (alternatives : list string)     (* ^(a|b).* *)
| digits_after (prefix : string)            (* ^prefix\d+$ *)
| anything.                                 (* no pattern *)

Definition at_end (rest : string) : bool :=
  (rest =? "")%string || (rest =? nl)%string.

(** What is left of [data] after [prefix]. *)
Fixpoint after_prefix (prefix data : string) : option string :=
  match prefix, data with
  | EmptyString, _ => Some data
  | String a p', String b d' => if Ascii.eqb a b then after_prefix p' d' else None
  | String _ _, EmptyString => None
  end.

Definition pattern_matches (p : pattern) (data : string) : bool :=
  match p with
  | exactly alternatives =>
      existsb (fun a => match after_prefix a data with
                        | Some rest => at_end rest
                        | None => false
                        end) alternatives
  | starting alternatives =>
      existsb (fun a => match after_prefix a data with
                        | Some _ => true
                        | None => false
                        end) alternatives
  | digits_after prefix =>
      match after_prefix prefix data with
      | Some rest =>
          let '(d, r) := PyFloat.span_digits rest in
          negb (d =? "")%string && at_end r
      | None => false
      end
  | anything => true
  end.

(** The three kinds of handler the dialogs register. *)
Inductive trigger : Type :=
| CommandHandler (command : string)
| MessageHandler                  (* filters.TEXT & ~filters.COMMAND *)
| CallbackQueryHandler (p : pattern).

Definition check_update (t : trigger) (u : Update) : bool :=
  match t, u with
  | CommandHandler command, Command _ name => (PyStr.lower name =? command)%string
  | MessageHandler, Message _ _ => true
  | CallbackQueryHandler p, CallbackQuery _ data => pattern_matches p data
  | _, _ => false
  end.

(** The callbacks that the dialogs register. *)
Inductive callback : Type :=
| cb_start_new_entry | cb_handle_entry_type_selection
| cb_batch_common_location_selection | cb_batch_skip_common_remark
| cb_batch_common_remark_entry | cb_toggle_batch_product_selection
| cb_batch_products_selection_done | cb_batch_price_entry | cb_submit_batch_data
| cb_single_entry_product_selection | cb_single_entry_price_entry
| cb_single_entry_location_selection | cb_single_skip_remark_entry
| cb_single_entry_remark_entry | cb_submit_single_entry_data
| cb_cancel_conversation | cb_post_conversation_callback_handler
| cb_view_entries_command | cb_prompt_for_id_callback
| cb_view_last_entries_callback | cb_cancel_view_callback | cb_handle_id_for_view
| cb_navigate_back_to_view_menu
| cb_start_update_entry | cb_ask_id_received | cb_toggle_field_selection_callback
| cb_proceed_with_selected_fields_callback | cb_cancel_update_operation_callback
| cb_new_value_for_product_or_location_callback | cb_skip_remark_update_command
| cb_new_value_for_text_field_received | cb_execute_multiple_updates
| cb_start_delete_entry | cb_ask_id_received_for_delete | cb_confirm_delete_callback
| cb_start_insights_menu | cb_insights_menu_callback.

Definition run (c : callback) : Update -> M config.state :=
  match c with
  | cb_start_new_entry => start_new_entry
  | cb_handle_entry_type_selection => handle_entry_type_selection
  | cb_batch_common_location_selection => batch_common_location_selection
  | cb_batch_skip_common_remark => batch_skip_common_remark
  | cb_batch_common_remark_entry => batch_common_remark_entry
  | cb_toggle_batch_product_selection => toggle_batch_product_selection
  | cb_batch_products_selection_done => batch_products_selection_done
  | cb_batch_price_entry => batch_price_entry
  | cb_submit_batch_data => submit_batch_data
  | cb_single_entry_product_selection => single_entry_product_selection
  | cb_single_entry_price_entry => single_entry_price_entry
  | cb_single_entry_location_selection => single_entry_location_selection
  | cb_single_skip_remark_entry => single_skip_remark_entry
  | cb_single_entry_remark_entry => single_entry_remark_entry
  | cb_submit_single_entry_data => submit_single_entry_data
  | cb_cancel_conversation => cancel_conversation
  | cb_post_conversation_callback_handler => post_conversation_callback_handler
  | cb_view_entries_command => view_entries_command
  | cb_prompt_for_id_callback => prompt_for_id_callback
  | cb_view_last_entries_callback => view_last_entries_callback
  | cb_cancel_view_callback => cancel_view_callback
  | cb_handle_id_for_view => handle_id_for_view
  | cb_navigate_back_to_view_menu => navigate_back_to_view_menu
  | cb_start_update_entry => start_update_entry
  | cb_ask_id_received => ask_id_received
  | cb_toggle_field_selection_callback => toggle_field_selection_callback
  | cb_proceed_with_selected_fields_callback => proceed_with_selected_fields_callback
  | cb_cancel_update_operation_callback => cancel_update_operation_callback
  | cb_new_value_for_product_or_location_callback =>
      new_value_for_product_or_location_callback
  | cb_skip_remark_update_command => skip_remark_update_command
  | cb_new_value_for_text_field_received => new_value_for_text_field_received
  | cb_execute_multiple_updates => execute_multiple_updates
  | cb_start_delete_entry => start_delete_entry
  | cb_ask_id_received_for_delete => ask_id_received_for_delete
  | cb_confirm_delete_callback => confirm_delete_callback
  | cb_start_insights_menu => start_insights_menu
  | cb_insights_menu_callback => insights_menu_callback
  end.

Record ConversationHandler : Type := {
  entry_points : list (trigger * callback);
  states : list (config.state * list (trigger * callback));
  fallbacks : list (trigger * callback)
}.

Definition create_conv_handler : ConversationHandler :=
  {| entry_points :=
       [(CommandHandler "new", cb_start_new_entry);
        (CallbackQueryHandler (exactly [(config.CB_MAIN_MENU_PREFIX ++ "new")%string]),
         cb_start_new_entry)];
     states :=
       [(config.CREATE_CHOOSE_ENTRY_TYPE,
         [(CallbackQueryHandler
             (exactly [config.CB_CREATE_CHOOSE_TYPE_SINGLE;
                       config.CB_CREATE_CHOOSE_TYPE_BATCH;
                       config.CB_CREATE_CANCEL_ENTIRE]),
           cb_handle_entry_type_selection)]);
        (config.CREATE_BATCH_SELECT_LOCATION,
         [(CallbackQueryHandler (starting [config.CB_CREATE_BATCH_COMMON_LOCATION_PREFIX]),
           cb_batch_common_location_selection)]);
        (config.CREATE_BATCH_ENTER_REMARK,
         [(CommandHandler "skip_remark_batch", cb_batch_skip_common_remark);
          (MessageHandler, cb_batch_common_remark_entry)]);
        (config.CREATE_BATCH_TOGGLE_PRODUCTS,
         [(CallbackQueryHandler (starting [config.CB_CREATE_BATCH_PRODUCT_TOGGLE_PREFIX]),
           cb_toggle_batch_product_selection);
          (CallbackQueryHandler (exactly [config.CB_CREATE_BATCH_PRODUCTS_DONE]),
           cb_batch_products_selection_done)]);
        (config.CREATE_BATCH_ENTER_PRICE,
         [(MessageHandler, cb_batch_price_entry)]);
        (config.CREATE_BATCH_CONFIRM_SUBMISSION,
         [(CallbackQueryHandler (exactly [config.CB_CREATE_BATCH_SUBMIT_FINAL]),
           cb_submit_batch_data);
          (CallbackQueryHandler (exactly [config.CB_CREATE_BATCH_CANCEL_CONFIRM]),
           cb_cancel_conversation)]);
        (config.CREATE_SINGLE_SELECT_PRODUCT,
         [(CallbackQueryHandler (starting [config.CB_CREATE_SINGLE_PRODUCT_PREFIX]),
           cb_single_entry_product_selection)]);
        (config.CREATE_SINGLE_ENTER_PRICE,
         [(MessageHandler, cb_single_entry_price_entry)]);
        (config.CREATE_SINGLE_SELECT_LOCATION,
         [(CallbackQueryHandler (starting [config.CB_CREATE_SINGLE_LOCATION_PREFIX]),
           cb_single_entry_location_selection)]);
        (config.CREATE_SINGLE_ENTER_REMARK,
         [(CommandHandler "skip_remark_single", cb_single_skip_remark_entry);
          (MessageHandler, cb_single_entry_remark_entry)]);
        (config.CREATE_SINGLE_CONFIRM_SUBMISSION,
         [(CallbackQueryHandler (exactly [config.CB_CREATE_SINGLE_SUBMIT_FINAL]),
           cb_submit_single_entry_data);
          (CallbackQueryHandler (exactly [config.CB_CREATE_SINGLE_CANCEL_CONFIRM]),
           cb_cancel_conversation)])];
     fallbacks :=
       [(CommandHandler "cancel", cb_cancel_conversation);
        (CallbackQueryHandler (exactly [config.CB_CREATE_CANCEL_ENTIRE]),
         cb_cancel_conversation);
        (CallbackQueryHandler anything, cb_post_conversation_callback_handler)] |}.

Definition read_conv_handler : ConversationHandler :=
  {| entry_points :=
       [(CommandHandler "view", cb_view_entries_command);
        (CallbackQueryHandler (exactly [(config.CB_MAIN_MENU_PREFIX ++ "view")%string]),
         cb_view_entries_command)];
     states :=
       [(config.VIEW_AWAITING_MENU_CHOICE,
         [(CallbackQueryHandler (exactly [config.CB_VIEW_BY_ID_PROMPT_ACTION]),
           cb_prompt_for_id_callback);
          (CallbackQueryHandler (digits_after config.CB_VIEW_LAST_N_PREFIX),
           cb_view_last_entries_callback);
          (CallbackQueryHandler (exactly [config.CB_VIEW_CANCEL_ACTION]),
           cb_cancel_view_callback)]);
        (config.VIEW_AWAITING_ID_INPUT,
         [(MessageHandler, cb_handle_id_for_view)]);
        (config.VIEW_PAGINATING_ENTRIES,
         [(CallbackQueryHandler (digits_after config.CB_VIEW_LAST_N_PREFIX),
           cb_view_last_entries_callback);
          (CallbackQueryHandler (exactly [config.CB_VIEW_BACK_TO_MENU_ACTION]),
           cb_navigate_back_to_view_menu);
          (CallbackQueryHandler (exactly [config.CB_VIEW_CANCEL_ACTION]),
           cb_cancel_view_callback)])];
     fallbacks :=
       [(CommandHandler "cancel", cb_cancel_conversation);
        (CallbackQueryHandler (exactly [config.CB_VIEW_CANCEL_ACTION]),
         cb_cancel_view_callback);
        (CallbackQueryHandler anything, cb_post_conversation_callback_handler)] |}.

Definition update_conv_handler : ConversationHandler :=
  {| entry_points :=
       [(CommandHandler "update", cb_start_update_entry);
        (CallbackQueryHandler (exactly [(config.CB_MAIN_MENU_PREFIX ++ "update")%string]),
         cb_start_update_entry)];
     states :=
       [(config.UPDATE_ASK_ID, [(MessageHandler, cb_ask_id_received)]);
        (config.UPDATE_SELECT_FIELDS_TOGGLE,
         [(CallbackQueryHandler (starting [config.CB_UPDATE_FIELD_TOGGLE_PREFIX]),
           cb_toggle_field_selection_callback);
          (CallbackQueryHandler (exactly [config.CB_UPDATE_PROCEED_WITH_SELECTION]),
           cb_proceed_with_selected_fields_callback);
          (CallbackQueryHandler (exactly [config.CB_UPDATE_CANCEL_FIELD_SELECTION]),
           cb_cancel_update_operation_callback)]);
        (config.UPDATE_ENTER_MULTIPLE_VALUES,
         [(CallbackQueryHandler
             (starting [config.CB_UPDATE_NEWVAL_PRODUCT_PREFIX;
                        config.CB_UPDATE_NEWVAL_LOCATION_PREFIX]),
           cb_new_value_for_product_or_location_callback);
          (CommandHandler "skip_remark_update", cb_skip_remark_update_command);
          (MessageHandler, cb_new_value_for_text_field_received)]);
        (config.UPDATE_CONFIRM_MULTIPLE,
         [(CallbackQueryHandler (exactly [config.CB_UPDATE_EXECUTE_CONFIRMED]),
           cb_execute_multiple_updates);
          (CallbackQueryHandler (exactly [config.CB_UPDATE_CANCEL_FINAL_CONFIRM]),
           cb_cancel_conversation)])];
     fallbacks :=
       [(CommandHandler "cancel", cb_cancel_conversation);
        (CallbackQueryHandler anything, cb_post_conversation_callback_handler)] |}.

Definition delete_conv_handler : ConversationHandler :=
  {| entry_points :=
       [(CommandHandler "delete", cb_start_delete_entry);
        (CallbackQueryHandler (exactly [(config.CB_MAIN_MENU_PREFIX ++ "delete")%string]),
         cb_start_delete_entry)];
     states :=
       [(config.DELETE_ASK_ID, [(MessageHandler, cb_ask_id_received_for_delete)]);
        (config.DELETE_CONFIRM,
         [(CallbackQueryHandler
             (exactly [config.CB_DELETE_CONFIRM_YES; config.CB_DELETE_CONFIRM_NO]),
           cb_confirm_delete_callback)])];
     fallbacks :=
       [(CommandHandler "cancel", cb_cancel_conversation);
        (CallbackQueryHandler anything, cb_post_conversation_callback_handler)] |}.

Definition insights_conv_handler : ConversationHandler :=
  {| entry_points :=
       [(CommandHandler "insights", cb_start_insights_menu);
        (CallbackQueryHandler (exactly [(config.CB_MAIN_MENU_PREFIX ++ "insights")%string]),
         cb_start_insights_menu)];
     states :=
       [(config.INSIGHTS_MENU_DISPLAYED,
         [(CallbackQueryHandler (starting [config.CB_INSIGHTS_PREFIX]),
           cb_insights_menu_callback)])];
     fallbacks :=
       [(CommandHandler "cancel", cb_cancel_conversation);
        (CallbackQueryHandler (exactly [(config.CB_INSIGHTS_PREFIX ++ "cancel")%string]),
         cb_insights_menu_callback);
        (CallbackQueryHandler anything, cb_post_conversation_callback_handler)] |}.

(** The five dialogs, in the order in which [bot.py] registers them. *)
Definition dialogs : list ConversationHandler :=
  [create_conv_handler; read_conv_handler; update_conv_handler;
   delete_conv_handler; insights_conv_handler].

(** The first handler of a list that accepts the update. *)
Fixpoint first_match (l : list (trigger * callback)) (u : Update) : option callback :=
  match l with
  | [] => None
  | (t, c) :: l' => if check_update t u then Some c else first_match l' u
  end.

Fixpoint handlers_of (s : config.state)
    (l : list (config.state * list (trigger * callback))) : list (trigger * callback) :=
  match l with
  | [] => []
  | (s', hs) :: l' => if (s' =? s)%Z then hs else handlers_of s l'
  end.

(** The handler that a dialog selects: an entry point when the dialog is
    not active ([None]), otherwise a handler of the current state and,
    failing that, a fallback. *)
Definition resolve (c : ConversationHandler) (st : option config.state) (u : Update)
    : option callback :=
  match st with
  | None => first_match (entry_points c) u
  | Some s =>
      match first_match (handlers_of s (states c)) u with
      | Some h => Some h
      | None => first_match (fallbacks c) u
      end
  end.

(** The state of the dialog after a handler returned [new_state]. *)
Definition next_state (new_state : config.state) : option config.state :=
  if (new_state =? END)%Z then None else Some new_state.

(** [ConversationHandler.handle_update]: one update through one dialog,
    taken alone.  An update that no handler of the dialog accepts is not
    for this dialog, and a handler that raises leaves the state of the
    dialog as it was.  Which dialog an update of the bot goes to is
    decided by [process_update] below. *)
Definition handle_update (c : ConversationHandler) (u : Update)
    (sw : option config.state * world) : option config.state * world :=
  let '(st, w) := sw in
  match resolve c st u with
  | None => (st, w)
  | Some h =>
      match run h u w with
      | (Return new_state, w') => (next_state new_state, w')
      | (Raise _, w') => (st, w')
      end
  end.

(** An update that arrives when the wall clock shows [t]. *)
Definition handle_update_at (c : ConversationHandler) (sw : option config.state * world)
    (tu : datetime * Update) : option config.state * world :=
  handle_update c (snd tu) (fst sw, with_clock (fst tu) (snd sw)).

Definition handle_updates (c : ConversationHandler) (sw : option config.state * world)
    (timeline : list (datetime * Update)) : option config.state * world :=
  fold_left (handle_update_at c) timeline sw.

(* ------------------------------------------------------------------ *)
(** * bot.py: the handlers of the application *)

(** ** common_handlers.py, the handlers outside the dialogs *)

Definition generic_start_command (update : Update) : M unit :=
  main_menu_command_simple update.

Definition start_menu_callback (update : Update) : M unit :=
  attr (callback_query update) ;;
  send (answer None false) ;;
  main_menu_command_simple update.

Inductive plain_callback : Type :=
| cb_generic_start_command | cb_main_menu_command_simple | cb_start_menu_callback.

Definition run_plain (c : plain_callback) : Update -> M unit :=
  match c with
  | cb_generic_start_command => generic_start_command
  | cb_main_menu_command_simple => main_menu_command_simple
  | cb_start_menu_callback => start_menu_callback
  end.

(** The handlers that [main] adds after the five dialogs, in its order. *)
Definition plain_handlers : list (trigger * plain_callback) :=
  [(CommandHandler "start", cb_generic_start_command);
   (CommandHandler "help", cb_generic_start_command);
   (CommandHandler "menu", cb_main_menu_command_simple);
   (CallbackQueryHandler (exactly [config.CB_OPEN_MENU_FROM_START]),
    cb_start_menu_callback)].

Fixpoint first_plain (l : list (trigger * plain_callback)) (u : Update)
    : option plain_callback :=
  match l with
  | [] => None
  | (t, h) :: l' => if check_update t u then Some h else first_plain l' u
  end.

(** ** The dispatch *)

(** All handlers are added to the one default group, the dialogs first:
    [Application.process_update] gives an update to the first handler of
    the group that accepts it, and to no other.  A dialog accepts an
    update when, in the state it is in, one of its handlers does
    ([resolve]).  [sts] are the states of the dialogs, in the order of
    [dialogs]. *)
Fixpoint process_in (cs : list ConversationHandler) (sts : list (option config.state))
    (u : Update) (w : world) : option (list (option config.state) * world) :=
  match cs, sts with
  | c :: cs', st :: sts' =>
      match resolve c st u with
      | Some _ =>
          let '(st', w') := handle_update c u (st, w) in Some (st' :: sts', w')
      | None =>
          match process_in cs' sts' u w with
          | Some (sts'', w') => Some (st :: sts'', w')
          | None => None
          end
      end
  | _, _ => None
  end.

Definition process_update (u : Update) (app : list (option config.state) * world)
    : list (option config.state) * world :=
  let '(sts, w) := app in
  match process_in dialogs sts u w with
  | Some r => r
  | None =>
      match first_plain plain_handlers u with
      | Some h => (sts, snd (run_plain h u w))
      | None => (sts, w)
      end
  end.

(** The dialog (by its place in [dialogs]) and the callback that take an
    update, when a dialog does. *)
Fixpoint taken_in (cs : list ConversationHandler) (sts : list (option config.state))
    (u : Update) (place : nat) : option (nat * callback) :=
  match cs, sts with
  | c :: cs', st :: sts' =>
      match resolve c st u with
      | Some h => Some (place, h)
      | None => taken_in cs' sts' u (S place)
      end
  | _, _ => None
  end.

Definition taken_by (u : Update) (sts : list (option config.state))
    : option (nat * callback) :=
  taken_in dialogs sts u 0.

(* ------------------------------------------------------------------ *)
(** * Vocabulary of the statements, and sample data *)

(** The selection of the batch checklist ([batch_selected_products]). *)
Definition selection (w : world) : list string :=
  match batch_selected_products (user_data w) with Some l => l | None => [] end.

(** The rows of the sheet, when there is a worksheet. *)
Definition sheet_rows (w : world) : list (list pyval) :=
  match worksheet w with Some ws => grid ws | None => [] end.

(** The sheet answers: the globals are set and the service is reachable. *)
Definition sheet_up (w : world) : Prop :=
  GSHEET_CONNECTED w = true
  /\ exists g, worksheet w = Some {| grid := g; reachable := true |}.

Definition abebe : User :=
  {| user_id := 7; username := None; first_name := "Abebe" |}.

Definition sara : User :=
  {| user_id := 12; username := Some "sara_dc"; first_name := "Sara" |}.

(** Sample instants; the texts stand for what [isoformat()] prints. *)
Definition at_time (n : Z) : datetime :=
  {| instant := n;
     isoformat := ("2025-06-01T10:00:" ++ PyStr.str_of_int n)%string |}.

Definition sample_uuid4 (n : nat) : string :=
  ("3f2b8c1e-0000-4000-8000-" ++ PyStr.str_of_int (Z.of_nat n))%string.

Definition header_row : list pyval := map PyStr config.DEFAULT_HEADERS.

(** A sheet with the default header row and two entries. *)
Definition sample_grid : list (list pyval) :=
  [header_row;
   [PyStr "e-1"; PyStr "2025-05-30T09:00:00"; PyStr "sara_dc"; PyStr "Carrot";
    PyInt 40; PyStr "Distribution Center 1 Gerji"; PyStr ""];
   [PyStr "e-2"; PyStr "2025-05-31T09:30:00"; PyStr "7"; PyStr "Garlic";
    PyFloat (PyFloat.of_decimal false 1205 (-1));
    PyStr "Distribution Center 3 02"; PyStr "small bulbs"]].

Definition world_with (ud : UserData) (connected : bool) (ws : option Worksheet) : world :=
  {| user_data := ud; GSHEET_CONNECTED := connected; worksheet := ws;
     HEADERS := if connected then config.DEFAULT_HEADERS else [];
     cell_not_found_defined := false;
     outbox := []; clock := at_time 0; uuid4 := sample_uuid4; uuid_calls := 0 |}.

(** The bot connected to the sample sheet, no session. *)
Definition sample_world : world :=
  world_with empty_user_data true (Some {| grid := sample_grid; reachable := true |}).

(** The bot whose connection to the sheet failed at start-up. *)
Definition offline_world : world := world_with empty_user_data false None.

(** What a handler that only talks to the user leaves alone: the globals
    of the sheet and the source of identifiers. *)
Definition same_sheet (w w' : world) : Prop :=
  GSHEET_CONNECTED w' = GSHEET_CONNECTED w
  /\ worksheet w' = worksheet w
  /\ HEADERS w' = HEADERS w
  /\ uuid4 w' = uuid4 w
  /\ uuid_calls w' = uuid_calls w.

(** A press on the button of the batch checklist whose slug is the third
    component, by the user and at the time given with it. *)
Definition toggle_press (x : datetime * User * string) : datetime * Update :=
  (fst (fst x),
   CallbackQuery (snd (fst x)) (config.CB_CREATE_BATCH_PRODUCT_TOGGLE_PREFIX ++ snd x)%string).

(** The selection after the presses, from the checklist state. *)
Definition selection_after (w : world) (presses : list (datetime * User * string))
    : list string :=
  selection (snd (handle_updates create_conv_handler
                    (Some config.CREATE_BATCH_TOGGLE_PRODUCTS, w)
                    (map toggle_press presses))).

(** The product name that the handler computes for a slug. *)
Definition toggled_name (slug : string) : string :=
  keyboards.clean_and_format_for_display
    (PyStr.replace config.CB_CREATE_BATCH_PRODUCT_TOGGLE_PREFIX ""
       (config.CB_CREATE_BATCH_PRODUCT_TOGGLE_PREFIX ++ slug)%string).

Definition toggles (names : list string) (l : list string) : list string :=
  fold_left (fun l n => toggle n l) names l.

(** A batch session in which carrot and corn are ticked. *)
Definition checklist_world : world :=
  world_with
    (set_batch_common_location (Some "Distribution Center 3 02")
       (set_batch_selected_products (Some ["Carrot"; "Corn"]) empty_user_data))
    true (Some {| grid := sample_grid; reachable := true |}).

(** The press on the "new entry" button of the post-action keyboard. *)
Definition new_entry_press (from : User) : Update :=
  CallbackQuery from (config.CB_MAIN_MENU_PREFIX ++ "new")%string.

(** No handler registered for a state of the dialog accepts the update. *)
Definition no_state_handler_accepts (c : ConversationHandler) (u : Update) : bool :=
  forallb (fun shs => match first_match (snd shs) u with
                      | None => true
                      | Some _ => false
                      end) (states c).

(** The first prompt of the create dialog. *)
Definition create_first_prompt : output :=
  edit_message_text "How would you like to add new data?"
    (Some
       [[{| label := (pic ++ " Add Single Product")%string;
            callback_data := config.CB_CREATE_CHOOSE_TYPE_SINGLE |}];
        [{| label := (pic ++ " Add Batch of Products")%string;
            callback_data := config.CB_CREATE_CHOOSE_TYPE_BATCH |}];
        [{| label := (pic ++ " Cancel")%string;
            callback_data := config.CB_CREATE_CANCEL_ENTIRE |}]])
    None.

(** A bot without a sheet, in the middle of an update. *)
Definition mid_update_world : world :=
  world_with (set_update_entry_id (Some "e-1") empty_user_data) false None.

(** The callback of the create dialog that takes the press on "new
    entry": its entry point when the dialog is idle, the shared fallback
    when it is in a state. *)
Definition taker_of_new_entry (create_state : option config.state) : callback :=
  match create_state with
  | None => cb_start_new_entry
  | Some _ => cb_post_conversation_callback_handler
  end.

(** What the user gets on the press: the first prompt of the create
    dialog, after the answer to the press when the fallback took it. *)
Definition new_entry_outputs (create_state : option config.state) : list output :=
  match create_state with
  | None => [create_first_prompt]
  | Some _ => [answer None false; create_first_prompt]
  end.

(** The dialogs when the update dialog waits for an identifier and the
    others are idle. *)
Definition update_asks_id : list (option config.state) :=
  [None; None; Some config.UPDATE_ASK_ID; None; None].

(** The text is not a positive number: it does not parse as a number
    ([float] raises [ValueError]), or it parses to a value that is not
    greater than zero, which is zero, a negative number, minus infinity
    or the value that is not a number. *)
Definition not_a_positive_number (text : string) : Prop :=
  match PyFloat.of_string text with
  | None => True
  | Some x => PyFloat.ltb PyFloat.zero x = false
  end.

(** The value that [float] gives for the text [nan]. *)
Definition not_a_number : PyFloat.float := S754_nan.

(** What the three price prompts answer to such a text. *)
Definition single_price_reprompt : output :=
  reply_text (pic ++ " Invalid price. Please enter a positive number:")%string None None.
Definition batch_price_reprompt : output :=
  reply_text (pic ++ " Invalid price. Please enter a positive number (e.g., 120.50):")%string
             None None.
Definition update_price_reprompt : output :=
  reply_text (pic ++ " Invalid price. Please enter a positive number.")%string None None.

(** The world [w] after one more output and nothing else. *)
Definition after_output (o : output) (w : world) : world :=
  with_outbox (outbox w ++ [o]) w.

(** A single-entry session that waits for the price of carrots. *)
Definition single_price_world : world :=
  world_with
    (set_current_entry
       (Some {| product := Some "Carrot"; price := None;
                location := None; remark := None |}) empty_user_data)
    true (Some {| grid := sample_grid; reachable := true |}).

(** A batch session that waits for the price of corn. *)
Definition batch_price_world : world :=
  world_with
    (set_batch_entries (Some [])
       (set_batch_current_product_for_price (Some "Corn")
          (set_batch_price_queue (Some ["Corn"; "Garlic"])
             (set_batch_common_remark (Some "")
                (set_batch_common_location (Some "Distribution Center 3 02")
                   (set_batch_selected_products (Some ["Corn"; "Garlic"])
                      empty_user_data))))))
    true (Some {| grid := sample_grid; reachable := true |}).

(** An update session on entry e-1 that waits for the new price. *)
Definition update_price_world : world :=
  world_with
    (set_current_field_being_updated_key (Some "price")
       (set_update_fields_queue (Some ["price"; "location"])
          (set_new_values_for_update_map (Some [])
             (set_fields_to_update_selected_keys (Some ["price"; "location"])
                (set_update_original_data
                   (Some (dict_of (combine config.DEFAULT_HEADERS
                                     (nth 1 sample_grid []))))
                   (set_update_row_num (Some 2)
                      (set_update_entry_id (Some "e-1") empty_user_data)))))))
    true (Some {| grid := sample_grid; reachable := true |}).

(** The slug that [build_keyboard] derives from the text of a button. *)
Definition slug_of (item_text : string) : string :=
  PyStr.lower (PyStr.replace " " "_" item_text).

(** The presses on the product button [P] and on the location button [L]
    of the single-entry dialog. *)
Definition product_press (from : User) (P : string) : Update :=
  CallbackQuery from (config.CB_CREATE_SINGLE_PRODUCT_PREFIX ++ slug_of P)%string.
Definition location_press (from : User) (L : string) : Update :=
  CallbackQuery from (config.CB_CREATE_SINGLE_LOCATION_PREFIX ++ slug_of L)%string.

(** The names that the two selection handlers compute for these presses. *)
Definition stored_product (P : string) : string :=
  keyboards.clean_and_format_for_display
    (PyStr.replace config.CB_CREATE_SINGLE_PRODUCT_PREFIX ""
       (config.CB_CREATE_SINGLE_PRODUCT_PREFIX ++ slug_of P)%string).
Definition stored_location (L : string) : string :=
  keyboards.clean_and_format_for_display
    (PyStr.replace config.CB_CREATE_SINGLE_LOCATION_PREFIX ""
       (config.CB_CREATE_SINGLE_LOCATION_PREFIX ++ slug_of L)%string).

(** The seven moments of a single-entry dialog. *)
Record single_times : Type := {
  t_start : datetime; t_type : datetime; t_product : datetime; t_price : datetime;
  t_location : datetime; t_remark : datetime; t_submit : datetime
}.

Definition in_order (ts : single_times) : Prop :=
  (instant (t_start ts) <= instant (t_type ts)
   /\ instant (t_type ts) <= instant (t_product ts)
   /\ instant (t_product ts) <= instant (t_price ts)
   /\ instant (t_price ts) <= instant (t_location ts)
   /\ instant (t_location ts) <= instant (t_remark ts)
   /\ instant (t_remark ts) <= instant (t_submit ts))%Z.

(** The complete single-entry dialog: [/new], "single", the product [P],
    the price, the location [L], the remark [R], submit. *)
Definition single_entry_dialog (from : User) (ts : single_times)
    (P price_text L R : string) : list (datetime * Update) :=
  [(t_start ts, Command from "new");
   (t_type ts, CallbackQuery from config.CB_CREATE_CHOOSE_TYPE_SINGLE);
   (t_product ts, product_press from P);
   (t_price ts, Message from price_text);
   (t_location ts, location_press from L);
   (t_remark ts, Message from R);
   (t_submit ts, CallbackQuery from config.CB_CREATE_SINGLE_SUBMIT_FINAL)].

(** The record that the dialog commits. *)
Definition committed_record (entry_id : string) (now : datetime) (from : User)
    (product_name : string) (x : PyFloat.float) (location_name R : string)
    : list (string * pyval) :=
  [(config.ID_FIELD, PyStr entry_id);
   (config.TIMESTAMP_FIELD, PyStr (isoformat now));
   (config.EMAIL_FIELD, PyStr (user_identifier_of from));
   (config.PRODUCT_FIELD, PyStr product_name);
   (config.PRICE_FIELD, PyFloat x);
   (config.LOCATION_FIELD, PyStr location_name);
   (config.REMARK_FIELD, PyStr R)].

(** 12.5 *)
Definition twelve_and_a_half : PyFloat.float := PyFloat.of_decimal false 125 (-1).

Definition sample_times : single_times :=
  {| t_start := at_time 10; t_type := at_time 12; t_product := at_time 15;
     t_price := at_time 21; t_location := at_time 24; t_remark := at_time 30;
     t_submit := at_time 33 |}.

(** The outputs of [view_last_entries_callback] at the two boundaries. *)
Definition fetching_notice : output :=
  edit_message_text (_escape_markdown_v2_read (pic ++ " Fetching entries...")%string)
                    None None.

Definition no_entries_render : output :=
  edit_message_text
    (_escape_markdown_v2_read
       (pic ++ " The sheet has no data entries." ++ nl ++ nl
          ++ "What would you like to do next?")%string)
    (Some keyboards.build_post_action_keyboard) None.

Definition fetch_error_render : output :=
  edit_message_text
    (_escape_markdown_v2_read (pic ++ " An error occurred while fetching data.")%string)
    (Some keyboards.build_post_action_keyboard) None.

Definition no_more_entries_alert : output :=
  answer (Some (pic ++ " No more entries to display.")%string) true.

(** Whether an output is an answer that pops up as an alert. *)
Definition is_alert (o : output) : bool :=
  match o with
  | answer _ show_alert => show_alert
  | _ => false
  end.

(** The number of entries of a grid: its rows under the header row. *)
Definition entries (g : list (list pyval)) : nat := List.length g - 1.

(** A sheet that has its header row only. *)
Definition empty_sheet_world : world :=
  world_with empty_user_data true (Some {| grid := [header_row]; reachable := true |}).

(** The cell in row [row_number] and column [col] of a grid, both counted
    from 1; a cell that the grid does not hold is empty. *)
Definition get_cell (row_number col : nat) (g : list (list pyval)) : pyval :=
  gsheet_utils.cell_at col (nth (row_number - 1) g []).

(** The press on the button of field [key] in the checklist of the update
    dialog, and on the location button [L] of its keyboard of new values. *)
Definition field_press (from : User) (key : string) : Update :=
  CallbackQuery from (config.CB_UPDATE_FIELD_TOGGLE_PREFIX ++ key)%string.
Definition new_location_press (from : User) (L : string) : Update :=
  CallbackQuery from (config.CB_UPDATE_NEWVAL_LOCATION_PREFIX ++ slug_of L)%string.

(** The name that the update dialog stores for the location button [L]. *)
Definition updated_location (L : string) : string :=
  keyboards.clean_and_format_for_display
    (PyStr.replace config.CB_UPDATE_NEWVAL_LOCATION_PREFIX ""
       (config.CB_UPDATE_NEWVAL_LOCATION_PREFIX ++ slug_of L)%string).

(** The update dialog from the field checklist on: tick [first] and
    [second], proceed, type the new price, choose the new location [L],
    confirm.  [times] gives the moment of each of the six updates. *)
Definition price_and_location_update (from : User) (times : nat -> datetime)
    (first second price_text L : string) : list (datetime * Update) :=
  [(times 0, field_press from first);
   (times 1, field_press from second);
   (times 2, CallbackQuery from config.CB_UPDATE_PROCEED_WITH_SELECTION);
   (times 3, Message from price_text);
   (times 4, new_location_press from L);
   (times 5, CallbackQuery from config.CB_UPDATE_EXECUTE_CONFIRMED)].

(** The session as [ask_id_received] leaves it when the entry is found. *)
Definition session_after_lookup (entry_id : string) (row_num : nat)
    (original_data : list (string * pyval)) (ud : UserData) : UserData :=
  set_new_values_for_update_map (Some [])
    (set_fields_to_update_selected_keys (Some [])
       (set_update_original_data (Some original_data)
          (set_update_row_num (Some row_num)
             (set_update_entry_id (Some entry_id) ud)))).

(** The bot connected to the sample sheet, after the lookup of entry e-2
    (row 3) in the update dialog. *)
Definition update_world : world :=
  world_with
    (session_after_lookup "e-2" 3
       (dict_of (combine config.DEFAULT_HEADERS (nth 2 sample_grid [])))
       empty_user_data)
    true (Some {| grid := sample_grid; reachable := true |}).

(** 135.0 *)
Definition new_price : PyFloat.float := PyFloat.of_decimal false 135 0.

(** The moment of the [n]-th update of a sample timeline. *)
Definition at_time_of (n : nat) : datetime := at_time (Z.of_nat (40 + 3 * n)).

(** The update session of entry e-2 at the final confirmation, with a new
    price and a new location pending. *)
Definition pending_update : UserData :=
  set_current_field_being_updated_key (Some "location")
    (set_update_fields_queue (Some [])
       (set_new_values_for_update_map
          (Some [(config.PRICE_FIELD, PyFloat new_price);
                 (config.LOCATION_FIELD, PyStr "Distribution Center 2 Garment")])
          (set_fields_to_update_selected_keys (Some ["price"; "location"])
             (session_after_lookup "e-2" 3
                (dict_of (combine config.DEFAULT_HEADERS (nth 2 sample_grid [])))
                empty_user_data)))).

(** The same session when the sheet service has stopped answering: the
    write of the confirmation fails. *)
Definition failing_write_world : world :=
  world_with pending_update true (Some {| grid := sample_grid; reachable := false |}).

(** The press on the final confirmation of the update dialog. *)
Definition execute_press : Update :=
  CallbackQuery sara config.CB_UPDATE_EXECUTE_CONFIRMED.

(** A handler result that ends the dialog with an empty session. *)
Definition ends_and_clears (r : result config.state * world) : Prop :=
  fst r = Return END /\ user_data (snd r) = empty_user_data.

(** The text of an output, and of the last one that the bot rendered. *)
Definition text_of (o : output) : option string :=
  match o with
  | answer t _ => t
  | edit_message_text t _ _ => Some t
  | reply_text t _ _ => Some t
  end.

Definition last_text (w : world) : option string :=
  match outbox w with
  | [] => None
  | o :: _ => text_of (last (outbox w) o)
  end.

(** What a handler that runs while the store is not ready leaves alone:
    the connection flag and the worksheet. *)
Definition store_untouched (w w' : world) : Prop :=
  GSHEET_CONNECTED w' = GSHEET_CONNECTED w /\ worksheet w' = worksheet w.

(** A handler result that ends the dialog with an empty session, leaves
    the store alone and whose last render is [text]. *)
Definition ends_with (text : string) (w : world) (r : result config.state * world) : Prop :=
  fst r = Return END
  /\ user_data (snd r) = empty_user_data
  /\ store_untouched w (snd r)
  /\ last_text (snd r) = Some text.

Definition next_prompt : string := (nl ++ nl ++ "What would you like to do next?")%string.

(** The renders of the handlers when the operation they rely on reports a
    failure. *)
Definition single_submit_failed : string :=
  (pic ++ " Entry submission failed. Please contact an admin." ++ next_prompt)%string.
Definition batch_submit_failed : string :=
  (pic ++ " Batch submission failed. Please contact an admin." ++ next_prompt)%string.
Definition delete_failed : string :=
  keyboards._escape_markdown_v2_keyboards
    (pic ++ " Error deleting entry from Google Sheet." ++ next_prompt)%string.
Definition view_not_found (entry_id : string) : string :=
  (pic ++ " No entry found with ID: `" ++ _escape_markdown_v2_read entry_id ++ "`"
     ++ next_prompt)%string.
Definition no_insights_data : string :=
  (pic ++ " No data available for insights." ++ next_prompt)%string.
Definition update_not_found (entry_id : string) : output :=
  reply_text (pic ++ " No entry found with ID: `" ++ entry_id
                ++ "`. Please try again, or /cancel.")%string
             None (Some MARKDOWN_V2).
Definition delete_not_found (entry_id : string) : output :=
  reply_text ("No entry found with ID: " ++ entry_id ++ ". Please try again or /cancel.")%string
             None None.

(** An element of the cleaned data. *)
Definition insight (p l : string) (x : Z) : gsheet_utils.InsightItem :=
  {| gsheet_utils.item_product := p;
     gsheet_utils.item_location := l;
     gsheet_utils.item_price := PyFloat.of_int x |}.

(** The records [(P1,L1,10), (P1,L1,20), (P2,L1,5)]. *)
Definition example_records : list gsheet_utils.InsightItem :=
  [insight "P1" "L1" 10; insight "P1" "L1" 20; insight "P2" "L1" 5].

(** The prices of the records of group [k], in the order of the data. *)
Definition prices_of (g : gsheet_utils.group_by) (k : gsheet_utils.group_key)
    (data : list gsheet_utils.InsightItem) : list PyFloat.float :=
  map gsheet_utils.item_price
      (filter (fun it => gsheet_utils.group_key_eqb (gsheet_utils.composite_key g it) k)
              data).

(** The sum that the accumulator holds: [0.0 + p1 + p2 + ...]. *)
Definition float_sum (prices : list PyFloat.float) : PyFloat.float :=
  fold_left PyFloat.add prices PyFloat.zero.

(** The entry of a group: its total, its count, and the mean rounded to
    two decimals. *)
Definition summary (prices : list PyFloat.float) : gsheet_utils.Average :=
  {| gsheet_utils.avg_total_price := float_sum prices;
     gsheet_utils.avg_count := List.length prices;
     gsheet_utils.average :=
       PyFloat.round2
         (PyFloat.div (float_sum prices) (PyFloat.of_int (Z.of_nat (List.length prices)))) |}.

(** What [averages_accumulator] holds for a group after the loop. *)
Definition accumulated (ps : list PyFloat.float) : option gsheet_utils.Accumulated :=
  match ps with
  | [] => None
  | _ => Some {| gsheet_utils.total_price := float_sum ps;
                 gsheet_utils.count := List.length ps |}
  end.

(** [d.get(k)] on a dictionary kept as a list of items. *)
Fixpoint lookup {A} (k : gsheet_utils.group_key) (d : list (gsheet_utils.group_key * A))
    : option A :=
  match d with
  | [] => None
  | (k', a) :: d' => if gsheet_utils.group_key_eqb k' k then Some a else lookup k d'
  end.

(** The sample sheet with one more entry of carrots, whose price cell
    reads [nan]. *)
Definition nan_grid : list (list pyval) :=
  sample_grid ++
  [[PyStr "e-3"; PyStr "2025-05-31T11:00:00"; PyStr "7"; PyStr "Carrot";
    PyStr "nan"; PyStr "Distribution Center 1 Gerji"; PyStr ""]].

Definition nan_world : world :=
  world_with empty_user_data true (Some {| grid := nan_grid; reachable := true |}).

(** The record of that entry, as [get_all_records] returns it. *)
Definition nan_record : list (string * pyval) :=
  nth 2 (gsheet_utils.all_records nan_grid) [].

(** A letter or a digit: [a-zA-Z0-9]. *)
Definition alnum (c : ascii) : bool := PyStr.is_alpha c || PyStr.is_digit c.

(** The text of a stored name: the cell itself when it is a string, what
    [str] prints otherwise. *)
Definition name_text (v : pyval) : string :=
  match v with PyStr s => s | _ => py_str v end.

(** Two names differ only in case or punctuation: once the characters that
    are not letters, digits or whitespace are deleted and the letters are
    lowered, they are the same text. *)
Definition same_up_to_case_and_punctuation (a b : string) : Prop :=
  PyStr.lower (PyStr.filter_chars gsheet_utils.keep_char a)
  = PyStr.lower (PyStr.filter_chars gsheet_utils.keep_char b).

(** Words of letters and digits with one space between two words, none in
    front and none behind. *)
Fixpoint single_spaced (after_space : bool) (s : string) : bool :=
  match s with
  | EmptyString => negb after_space
  | String c s' =>
      if Ascii.eqb c " " then negb after_space && single_spaced true s'
      else alnum c && single_spaced false s'
  end.

Definition clean_name (s : string) : bool :=
  match s with
  | EmptyString => true
  | _ => single_spaced true s
  end.

(** A word of letters and digits. *)
Definition word (w : string) : Prop :=
  w <> "" /\ PyStr.all_chars alnum w = true.

(** The text [cur] is in title case, and a letter that follows it is
    lowered exactly when [b] holds. *)
Definition titled (cur : string) (b : bool) : Prop :=
  forall rest,
    PyStr.title_from false (cur ++ rest)%string = (cur ++ PyStr.title_from b rest)%string.

(** Two entries of fresh carrots as [get_all_records] returns them, the
    names written in two ways. *)
Definition record_of_entry (entry_id product : string) (price : pyval) (location : string)
    : list (string * pyval) :=
  dict_of
    [(config.ID_FIELD, PyStr entry_id);
     (config.TIMESTAMP_FIELD, PyStr "2025-05-30T09:00:00");
     (config.EMAIL_FIELD, PyStr "sara_dc");
     (config.PRODUCT_FIELD, PyStr product);
     (config.PRICE_FIELD, price);
     (config.LOCATION_FIELD, PyStr location);
     (config.REMARK_FIELD, PyStr "")].

Definition fresh_carrots_1 : list (string * pyval) :=
  record_of_entry "e-7" "carrot (fresh)!" (PyInt 40) "distribution center-1, gerji".
Definition fresh_carrots_2 : list (string * pyval) :=
  record_of_entry "e-8" "Carrot Fresh" (PyInt 50) "Distribution Center1 Gerji".

(** What [process_record] makes of both. *)
Definition fresh_carrots (x : Z) : gsheet_utils.InsightItem :=
  insight "Carrot Fresh" "Distribution Center1 Gerji" x.

(** The command [/cancel] and the press on the "main menu" button of the
    post-action keyboard. *)
Definition cancel_command (from : User) : Update := Command from "cancel".
Definition main_menu_press (from : User) : Update :=
  CallbackQuery from (config.CB_MAIN_MENU_PREFIX ++ "menu")%string.

(** What [cancel_conversation] replies to a command. *)
Definition canceled_reply : output :=
  reply_text "Operation canceled. What would you like to do next?"
             (Some keyboards.build_post_action_keyboard) None.

(** The main menu, as [main_menu_command_simple] edits it into the message
    of a pressed button. *)
Definition main_menu_render : output :=
  edit_message_text "Welcome! Select an option:"
    (Some
       [[{| label := (pic ++ " New Entry")%string;
            callback_data := (config.CB_MAIN_MENU_PREFIX ++ "new")%string |}];
        [{| label := (pic ++ " Update Entry")%string;
            callback_data := (config.CB_MAIN_MENU_PREFIX ++ "update")%string |}];
        [{| label := (pic ++ " Delete Entry")%string;
            callback_data := (config.CB_MAIN_MENU_PREFIX ++ "delete")%string |}];
        [{| label := (pic ++ " View Entries")%string;
            callback_data := (config.CB_MAIN_MENU_PREFIX ++ "view")%string |}];
        [{| label := (pic ++ " Price Insights")%string;
            callback_data := (config.CB_MAIN_MENU_PREFIX ++ "insights")%string |}]])
    None.

(** The world after a handler cleared the session and sent [outputs]. *)
Definition cleared_after (outputs : list output) (w : world) : world :=
  with_user_data empty_user_data (with_outbox (outbox w ++ outputs) w).

(** The dialog registers handlers for state [s]. *)
Definition registered (c : ConversationHandler) (s : config.state) : bool :=
  existsb (fun shs => (fst shs =? s)%Z) (states c).

(** Every value that the computation can return satisfies [P]. *)
Definition returns {A} (P : A -> Prop) (m : M A) : Prop :=
  forall w a w', m w = (Return a, w') -> P a.

(** The states that the source of each callback names in a [return]. *)
Definition may_return (h : callback) : list config.state :=
  match h with
  | cb_start_new_entry => [config.CREATE_CHOOSE_ENTRY_TYPE]
  | cb_handle_entry_type_selection =>
      [config.CREATE_SINGLE_SELECT_PRODUCT; config.CREATE_BATCH_SELECT_LOCATION; END;
       config.CREATE_CHOOSE_ENTRY_TYPE]
  | cb_batch_common_location_selection => [config.CREATE_BATCH_ENTER_REMARK]
  | cb_batch_skip_common_remark | cb_batch_common_remark_entry
  | cb_toggle_batch_product_selection => [config.CREATE_BATCH_TOGGLE_PRODUCTS]
  | cb_batch_products_selection_done =>
      [config.CREATE_BATCH_TOGGLE_PRODUCTS; config.CREATE_BATCH_ENTER_PRICE;
       config.CREATE_BATCH_CONFIRM_SUBMISSION; END]
  | cb_batch_price_entry =>
      [config.CREATE_BATCH_ENTER_PRICE; config.CREATE_BATCH_CONFIRM_SUBMISSION; END]
  | cb_submit_batch_data => [END]
  | cb_single_entry_product_selection => [config.CREATE_SINGLE_ENTER_PRICE]
  | cb_single_entry_price_entry =>
      [config.CREATE_SINGLE_SELECT_LOCATION; config.CREATE_SINGLE_ENTER_PRICE]
  | cb_single_entry_location_selection => [config.CREATE_SINGLE_ENTER_REMARK]
  | cb_single_skip_remark_entry | cb_single_entry_remark_entry =>
      [config.CREATE_SINGLE_CONFIRM_SUBMISSION]
  | cb_submit_single_entry_data => [END]
  | cb_cancel_conversation => [END]
  | cb_post_conversation_callback_handler => [END; config.CREATE_CHOOSE_ENTRY_TYPE]
  | cb_view_entries_command | cb_navigate_back_to_view_menu =>
      [config.VIEW_AWAITING_MENU_CHOICE]
  | cb_prompt_for_id_callback => [config.VIEW_AWAITING_ID_INPUT]
  | cb_view_last_entries_callback => [END; config.VIEW_PAGINATING_ENTRIES]
  | cb_cancel_view_callback | cb_handle_id_for_view => [END]
  | cb_start_update_entry => [config.UPDATE_ASK_ID]
  | cb_ask_id_received => [config.UPDATE_ASK_ID; config.UPDATE_SELECT_FIELDS_TOGGLE]
  | cb_toggle_field_selection_callback => [config.UPDATE_SELECT_FIELDS_TOGGLE]
  | cb_proceed_with_selected_fields_callback =>
      [config.UPDATE_SELECT_FIELDS_TOGGLE; END; config.UPDATE_CONFIRM_MULTIPLE;
       config.UPDATE_ENTER_MULTIPLE_VALUES]
  | cb_cancel_update_operation_callback | cb_execute_multiple_updates => [END]
  | cb_new_value_for_product_or_location_callback | cb_skip_remark_update_command
  | cb_new_value_for_text_field_received =>
      [END; config.UPDATE_CONFIRM_MULTIPLE; config.UPDATE_ENTER_MULTIPLE_VALUES]
  | cb_start_delete_entry => [config.DELETE_ASK_ID]
  | cb_ask_id_received_for_delete => [config.DELETE_ASK_ID; config.DELETE_CONFIRM]
  | cb_confirm_delete_callback => [END]
  | cb_start_insights_menu => [config.INSIGHTS_MENU_DISPLAYED]
  | cb_insights_menu_callback => [END; config.INSIGHTS_MENU_DISPLAYED]
  end.

(** The state of a dialog is one it can handle: the dialog is not active,
    or it registers handlers for the state, or the state is the first
    state of the create dialog, where the hand-over to that dialog leaves
    every dialog. *)
Definition within (c : ConversationHandler) (st : option config.state) : Prop :=
  match st with
  | None => True
  | Some s => registered c s = true \/ s = config.CREATE_CHOOSE_ENTRY_TYPE
  end.

(** A press on a button of an earlier message: the cancel button of the
    view dialog, while the update dialog waits for new values. *)
Definition stale_press (from : User) : Update :=
  CallbackQuery from config.CB_VIEW_CANCEL_ACTION.

(** The callbacks that a dialog registers, and the test that none of them
    names a state outside [within]. *)
Definition callbacks_of (c : ConversationHandler) : list callback :=
  map snd (entry_points c)
  ++ flat_map (fun shs => map snd (snd shs)) (states c)
  ++ map snd (fallbacks c).

Definition stays_within (c : ConversationHandler) (h : callback) : bool :=
  forallb (fun s => (s =? END)%Z || registered c s
                    || (s =? config.CREATE_CHOOSE_ENTRY_TYPE)%Z)
          (may_return h).

(** A morning of the view dialog: open it, page through, go back, cancel. *)
Definition view_session : list (datetime * Update) :=
  [(at_time 1, Command sara "view");
   (at_time 2, CallbackQuery sara (config.CB_VIEW_LAST_N_PREFIX ++ "0")%string);
   (at_time 3, CallbackQuery sara (config.CB_VIEW_LAST_N_PREFIX ++ "1")%string);
   (at_time 4, CallbackQuery sara config.CB_VIEW_BACK_TO_MENU_ACTION)].

(** The cell of column [col] of a row shows the text [query]. *)
Definition shows (col : nat) (query : string) (row : list pyval) : bool :=
  (gsheet_utils.cell_text (gsheet_utils.cell_at col row) =? query)%string.

(** The sheet answers, holds the grid [g], and the headers are loaded. *)
Definition ready_with (g : list (list pyval)) (w : world) : Prop :=
  GSHEET_CONNECTED w = true
  /\ worksheet w = Some {| grid := g; reachable := true |}
  /\ HEADERS w <> [].

(** The world whose sheet holds the grid [g] instead. *)
Definition with_grid (g : list (list pyval)) (w : world) : world :=
  with_worksheet (Some {| grid := g; reachable := true |}) w.

(** A new row for the sample sheet. *)
Definition new_row : list pyval :=
  [PyStr "e-9"; PyStr "2025-06-01T10:00:07"; PyStr "sara_dc"; PyStr "Lemon";
   PyFloat (PyFloat.of_decimal false 625 (-1)); PyStr "Distribution Center 2 Garment";
   PyStr ""].

(** The computation leaves the globals of the sheet and the source of
    identifiers as they are, whatever it returns or raises. *)
Definition keeps_sheet {A} (m : M A) : Prop :=
  forall w, same_sheet w (snd (m w)).

(** The callbacks that write to the sheet. *)
Definition commits (h : callback) : bool :=
  match h with
  | cb_submit_single_entry_data | cb_submit_batch_data
  | cb_execute_multiple_updates | cb_confirm_delete_callback => true
  | _ => false
  end.

(** The sheet service answers a call. *)
Definition answers (w : world) : bool :=
  match worksheet w with
  | Some ws => reachable ws
  | None => false
  end.

(** The sample sheet when the service has stopped answering. *)
Definition silent_world : world :=
  world_with empty_user_data true (Some {| grid := sample_grid; reachable := false |}).

(** The number of records that the groups of a result count together. *)
Definition counts_total (r : list (gsheet_utils.group_key * gsheet_utils.Average)) : nat :=
  list_sum (map (fun kv => gsheet_utils.avg_count (snd kv)) r).

(** The items are in the order of their keys, as [sorted] leaves them. *)
Fixpoint in_key_order {V} (l : list (gsheet_utils.group_key * V)) : bool :=
  match l with
  | a :: (b :: _) as l' => group_key_leb (fst a) (fst b) && in_key_order l'
  | _ => true
  end.

(** An item as the insights use it: a price that passed the test, and a
    product and a location in normalized form. *)
Definition valid_item (it : gsheet_utils.InsightItem) : bool :=
  negb (PyFloat.leb (gsheet_utils.item_price it) PyFloat.zero)
  && clean_name (gsheet_utils.item_product it)
  && clean_name (gsheet_utils.item_location it).

(** ** keyboards.py, [build_keyboard] with all its arguments *)

(** The callback data of the button of item [i]: the custom value when a
    non-empty [custom_callback_data] is given, else the prefix followed by
    the slug of the item or by its index. *)
Definition callback_val (prefix : string) (suffix_from_item : bool)
    (custom_callback_data : option (list string)) (i : nat) (item_text : string) : string :=
  match custom_callback_data with
  | Some ((_ :: _) as custom) => nth i custom ""
  | _ =>
      if suffix_from_item
      then (prefix ++ PyStr.lower (PyStr.replace " " "_" item_text))%string
      else (prefix ++ PyStr.str_of_int (Z.of_nat i))%string
  end.

Definition button_of (prefix : string) (suffix_from_item : bool)
    (custom_callback_data : option (list string)) (i : nat) (item_text : string)
    : InlineKeyboardButton :=
  {| label := item_text;
     callback_data := callback_val prefix suffix_from_item custom_callback_data i item_text |}.

(** The loop over [enumerate(items)]: [i] is the index of the head of
    [items] and [n] is [len(items)]. *)
Fixpoint rows_from (prefix : string) (items_per_row : Z) (suffix_from_item : bool)
    (custom_callback_data : option (list string)) (n i : nat)
    (current_row : list InlineKeyboardButton) (items : list string)
    : InlineKeyboardMarkup :=
  match items with
  | [] => []
  | item_text :: rest =>
      let row :=
        current_row ++ [button_of prefix suffix_from_item custom_callback_data i item_text] in
      if (Z.of_nat (List.length row) =? items_per_row)%Z || (i =? n - 1)
      then row :: rows_from prefix items_per_row suffix_from_item custom_callback_data
                            n (S i) [] rest
      else rows_from prefix items_per_row suffix_from_item custom_callback_data
                     n (S i) row rest
  end.

Definition build_keyboard_general (items : list string) (prefix : string)
    (items_per_row : Z) (suffix_from_item : bool)
    (custom_callback_data : option (list string)) : result InlineKeyboardMarkup :=
  let rows :=
    rows_from prefix items_per_row suffix_from_item custom_callback_data
              (List.length items) 0 [] items in
  match custom_callback_data with
  | Some ((_ :: _) as custom) =>
      if negb (List.length custom =? List.length items) then Raise ValueError
      else Return rows
  | _ => Return rows
  end.

(** The buttons of the items from index [i] on. *)
Definition buttons_from (prefix : string) (suffix_from_item : bool)
    (custom_callback_data : option (list string)) (i : nat) (items : list string)
    : list InlineKeyboardButton :=
  map (fun ix => button_of prefix suffix_from_item custom_callback_data (fst ix) (snd ix))
      (combine (seq i (List.length items)) items).

(** The number of characters of a text that MarkdownV2 reserves. *)
Fixpoint reserved_count (s : string) : nat :=
  match s with
  | EmptyString => 0
  | String c s' => (if char_in c escape_chars then 1 else 0) + reserved_count s'
  end.

(** The slug that [build_keyboard] makes of an item. *)
Definition slug (item_text : string) : string :=
  PyStr.lower (PyStr.replace " " "_" item_text).

(** The callback data of the button that asks for page [n] of the last
    entries. *)
Definition page_data (n : nat) : string :=
  (config.CB_VIEW_LAST_N_PREFIX ++ PyStr.str_of_int (Z.of_nat n))%string.

(** The two navigation buttons of a page. *)
Definition prev_button (page : nat) : InlineKeyboardButton :=
  {| label := (pic ++ " Prev")%string; callback_data := page_data (page - 1) |}.
Definition next_button (page : nat) : InlineKeyboardButton :=
  {| label := ("Next " ++ pic)%string; callback_data := page_data (page + 1) |}.
Definition back_button : InlineKeyboardButton :=
  {| label := (pic ++ " Back to View Options")%string;
     callback_data := config.CB_VIEW_BACK_TO_MENU_ACTION |}.

(** The rows that page [page] shows: the data rows, newest first, five to
    a page. *)
Definition page_rows (g : list (list pyval)) (page : nat) : list (list string) :=
  slice (page * config.DEFAULT_ENTRIES_PER_PAGE_VIEW)
        ((page + 1) * config.DEFAULT_ENTRIES_PER_PAGE_VIEW)
        (List.rev (tl (gsheet_utils.all_values g))).

(** A sheet with the header row and twelve entries. *)
Definition long_grid : list (list pyval) :=
  header_row ::
  map (fun n => [PyStr ("e-" ++ PyStr.str_of_int (Z.of_nat n))%string;
                 PyStr "2025-05-30T09:00:00"; PyStr "sara_dc"; PyStr "Carrot";
                 PyInt (Z.of_nat (40 + n)); PyStr "Distribution Center 1 Gerji";
                 PyStr ""])
      (seq 1 12).

Definition long_world : world :=
  world_with empty_user_data true (Some {| grid := long_grid; reachable := true |}).

(* ------------------------------------------------------------------ *)
(** * The batch dialog: from the checklist to the sheet *)

(** The press on "Done Selecting Products", and a price typed at [t]. *)
Definition done_press (from : User) : Update :=
  CallbackQuery from config.CB_CREATE_BATCH_PRODUCTS_DONE.
Definition price_message (from : User) (ts : datetime * string) : datetime * Update :=
  (fst ts, Message from (snd ts)).
Definition batch_submit_press (from : User) : Update :=
  CallbackQuery from config.CB_CREATE_BATCH_SUBMIT_FINAL.

(** The remark of the batch, as [.get('batch_common_remark', '')] reads
    it. *)
Definition common_remark (w : world) : string :=
  match batch_common_remark (user_data w) with Some r => r | None => "" end.

(** The entry that the dialog stores for a product and its price. *)
Definition priced (batch_location batch_remark : string)
    (px : string * PyFloat.float) : Entry :=
  {| product := Some (fst px); price := Some (snd px);
     location := Some batch_location; remark := Some batch_remark |}.

(** The entries that wait for the submit. *)
Definition pending_entries (w : world) : list Entry :=
  match batch_entries (user_data w) with Some l => l | None => [] end.

(** The identifiers that the next [n] calls of uuid4 give. *)
Definition drawn_ids (w : world) (n : nat) : list string :=
  map (uuid4 w) (seq (uuid_calls w) n).

(** The row that the submit builds for an entry, from its identifier and
    the time read for it. *)
Definition batch_row (w : world) (from : User) (x : string * datetime * Entry)
    : list pyval :=
  row_of (make_row_data (fst (fst x)) (snd (fst x)) (user_identifier_of from) PyNone
            (snd x))
         (HEADERS w).

Definition submitting_notice : output :=
  edit_message_text
    (pic ++ " Submitting batch entries... This may take a moment.")%string None None.

Definition batch_submitted (n : nat) : output :=
  edit_message_text
    ((pic ++ " Batch with " ++ PyStr.str_of_int (Z.of_nat n)
        ++ " entries submitted successfully.")
       ++ nl ++ nl ++ "What would you like to do next?")%string
    (Some keyboards.build_post_action_keyboard) None.

(** The dialog while the prices are asked: the products still to price,
    the one that is asked for, and the entries made so far. *)
Definition pricing (w : world) (queue : list string) (made : list Entry)
    (batch_location : string) : Prop :=
  batch_price_queue (user_data w) = Some queue
  /\ batch_current_product_for_price (user_data w) = hd_error queue
  /\ batch_entries (user_data w) = Some made
  /\ batch_common_location (user_data w) = Some batch_location.

(** Where the dialog is after the prices typed so far: at the next price,
    or at the summary when every product has its price. *)
Definition asked_after (products : list string) (prices : list PyFloat.float)
    : config.state :=
  if List.length prices <? List.length products
  then config.CREATE_BATCH_ENTER_PRICE
  else config.CREATE_BATCH_CONFIRM_SUBMISSION.

(** An entry that has its product and its price. *)
Definition complete (e : Entry) : Prop :=
  product e <> None /\ price e <> None.

(** A session with three products ticked, after the common location and
    remark. *)
Definition three_ticked : world :=
  world_with
    (set_batch_common_remark (Some "morning market")
       (set_batch_common_location (Some "Distribution Center 3 02")
          (set_batch_selected_products (Some ["Carrot"; "Beet Root"; "Corn"])
             empty_user_data)))
    true (Some {| grid := sample_grid; reachable := true |}).

Definition three_prices : list (datetime * string) :=
  [(at_time 2, "40"); (at_time 3, "12.5"); (at_time 4, "7e1")].

(** The number that a valid price text stands for. *)
Definition price_value (text : string) : PyFloat.float :=
  match parse_price text with Some x => x | None => PyFloat.zero end.

Definition three_values : list PyFloat.float :=
  map (fun ts : datetime * string => price_value (snd ts)) three_prices.

(** The session at the summary of the three products. *)
Definition three_priced : world :=
  world_with
    (set_batch_entries
       (Some (map (priced "Distribution Center 3 02" "morning market")
                  (combine ["Carrot"; "Beet Root"; "Corn"] three_values)))
       (set_batch_common_remark (Some "morning market")
          (set_batch_common_location (Some "Distribution Center 3 02")
             empty_user_data)))
    true (Some {| grid := sample_grid; reachable := true |}).

(* ------------------------------------------------------------------ *)
(** * The update dialog: the checklist of fields *)

(** A press on the button of a field at the time given with it, and the
    press on "Proceed with Selection". *)
Definition field_press_at (from : User) (tk : datetime * string) : datetime * Update :=
  (fst tk, field_press from (snd tk)).
Definition proceed_press (from : User) : Update :=
  CallbackQuery from config.CB_UPDATE_PROCEED_WITH_SELECTION.

(** The fields that are ticked after the presses on [keys], from an empty
    checklist, and the queue that "Proceed" makes of them. *)
Definition ticked (keys : list string) : list string := toggles keys [].
Definition fields_queue (keys : list string) : list string :=
  filter (fun key => in_list key (ticked keys)) UPDATABLE_FIELDS_DISPLAY_ORDER.

(** The update dialog at its checklist: the entry was looked up, and
    [selected] are the fields ticked so far. *)
Definition selecting (w : world) (selected : list string) : Prop :=
  fields_to_update_selected_keys (user_data w) = Some selected
  /\ update_original_data (user_data w) <> None
  /\ update_entry_id (user_data w) <> None.

Definition select_a_field_alert : output :=
  answer (Some "Please select at least one field to update.") true.

(** Where the dialog is after "Proceed". *)
Definition asked_first (queue : list string) : config.state :=
  match queue with
  | [] => config.UPDATE_SELECT_FIELDS_TOGGLE
  | _ => config.UPDATE_ENTER_MULTIPLE_VALUES
  end.

(** Remark, price, remark again, product, location and price again. *)
Definition sample_ticks : list (datetime * string) :=
  [(at_time 1, "remark"); (at_time 2, "price"); (at_time 3, "remark");
   (at_time 4, "product"); (at_time 5, "location"); (at_time 6, "price")].

(** What the update dialog stores for a text typed while [key] is asked
    for: the number for a price, the text as typed for the other fields;
    nothing for a price that is not a positive number. *)
Definition typed_value (key text : string) : option pyval :=
  if (key =? "price")%string then option_map PyFloat (parse_price text)
  else Some (PyStr text).

(** Where the dialog is when the fields of [queue] are still to ask. *)
Definition asked_next (queue : list string) : config.state :=
  match queue with
  | [] => config.UPDATE_CONFIRM_MULTIPLE
  | _ => config.UPDATE_ENTER_MULTIPLE_VALUES
  end.

(** The update dialog while the new values are asked: the fields still to
    ask, the first of which is the one asked for, and the values given so
    far. *)
Definition entering (w : world) (queue : list string)
    (new_values : list (string * pyval)) : Prop :=
  update_fields_queue (user_data w) = Some queue
  /\ current_field_being_updated_key (user_data w) = hd_error queue
  /\ new_values_for_update_map (user_data w) = Some new_values
  /\ update_original_data (user_data w) <> None.

(** The sample update after "Proceed" with product and location ticked. *)
Definition product_asked : world :=
  world_with
    (set_current_field_being_updated_key (Some "product")
       (set_update_fields_queue (Some ["product"; "location"])
          (set_fields_to_update_selected_keys (Some ["product"; "location"])
             (session_after_lookup "e-2" 3
                (dict_of (combine config.DEFAULT_HEADERS (nth 2 sample_grid [])))
                empty_user_data))))
    true (Some {| grid := sample_grid; reachable := true |}).

(* ------------------------------------------------------------------ *)
(** * Properties *)

(** ** Lists of strings *)

Lemma in_list_In s l : in_list s l = true <-> In s l.
Proof.
  unfold in_list. rewrite existsb_exists. split.
  - intros [x [Hx He]]. apply String.eqb_eq in He. now subst.
  - intros H. exists s. split; [assumption | apply String.eqb_refl].
Qed.

Lemma in_list_false s l : in_list s l = false <-> ~ In s l.
Proof.
  rewrite <- in_list_In. destruct (in_list s l); split; congruence.
Qed.

Lemma after_prefix_app p s : after_prefix p (p ++ s)%string = Some s.
Proof.
  induction p as [|a p IH]; [reflexivity|].
  simpl. now rewrite Ascii.eqb_refl.
Qed.

(** ** Running a handler *)

(** Unfold the plumbing of the computations, then project the records. *)
Ltac exec :=
  cbv beta iota zeta delta
    [bind ret raise try_except send get_user_data modify_user_data
     clear_user_data attr item datetime_now uuid_uuid4 callback_query
     message_text _send_or_edit _send_or_edit_update _send_or_edit_read
     _send_or_edit_insights _get_current_entry_data set_current_entry_item
     _clear_current_entry_data gsheet_utils.get_HEADERS
     gsheet_utils.get_globals];
  cbn [current_entry batch_entries batch_selected_products
       batch_common_location batch_common_remark batch_price_queue
       batch_current_product_for_price update_entry_id update_row_num
       update_original_data fields_to_update_selected_keys
       new_values_for_update_map update_fields_queue
       current_field_being_updated_key delete_entry_id delete_row_num
       set_current_entry set_batch_entries set_batch_selected_products
       set_batch_common_location set_batch_common_remark
       set_batch_price_queue set_batch_current_product_for_price
       set_update_entry_id set_update_row_num set_update_original_data
       set_fields_to_update_selected_keys set_new_values_for_update_map
       set_update_fields_queue set_current_field_being_updated_key
       set_delete_entry_id set_delete_row_num user_data GSHEET_CONNECTED
       worksheet HEADERS cell_not_found_defined outbox clock uuid4 uuid_calls with_user_data
       with_worksheet with_outbox with_clock with_uuid_calls product price
       location remark grid reachable fst snd
       empty_user_data negb andb orb gsheet_utils.is_some].

(** Decide the comparisons of two constant strings. *)
Ltac eval_eqb :=
  repeat match goal with
    | |- context [String.eqb ?a ?b] =>
        let v := eval vm_compute in (String.eqb a b) in
        match v with
        | true => change (String.eqb a b) with true
        | false => change (String.eqb a b) with false
        end
    end.

Lemma same_sheet_refl w : same_sheet w w.
Proof. repeat split. Qed.

Lemma same_sheet_trans w1 w2 w3 :
  same_sheet w1 w2 -> same_sheet w2 w3 -> same_sheet w1 w3.
Proof.
  unfold same_sheet. intros (a1 & a2 & a3 & a4 & a5) (b1 & b2 & b3 & b4 & b5).
  repeat split; congruence.
Qed.

(** [exec], using the equation [H] wherever it applies. *)
Ltac exec_with H := exec; repeat (progress (rewrite ?H; exec)).

(** [exec] together with the loops and the dictionaries of the handlers,
    on constant keys. *)
Ltac go_with H :=
  repeat (progress
            (exec; rewrite ?H; eval_eqb;
             cbn [for_each dict_get dict_set dict_of fold_left filter in_list existsb
                  toggle remove_first app map combine seq List.length
                  gsheet_utils.filter_map UPDATABLE_FIELDS_MAP
                  UPDATABLE_FIELDS_DISPLAY_ORDER])).

(* ------------------------------------------------------------------ *)
(** ** The checklist of the batch dialog *)

Module BatchSelection.

#[local] Opaque String.append PyStr.replace PyStr.lower PyStr.title PyStr.join
  PyStr.strip PyStr.str_of_int PyFloat.repr PyFloat.of_string
  keyboards.build_keyboard keyboards.clean_and_format_for_display
  config.PRODUCTS config.LOCATIONS String.eqb.

Lemma remove_first_In_neq a x l :
  x <> a -> (In x (remove_first a l) <-> In x l).
Proof.
  intros Hne. induction l as [|y l IH]; [tauto|]. simpl.
  destruct (String.eqb_spec y a) as [->|Hya]; simpl; [|tauto].
  split; [auto | intros [H|H]; [congruence | assumption]].
Qed.

Lemma remove_first_NoDup a l :
  NoDup l -> NoDup (remove_first a l) /\ ~ In a (remove_first a l).
Proof.
  induction 1 as [|y l Hy Hl IH]; simpl.
  - split; [constructor | tauto].
  - destruct (String.eqb_spec y a) as [->|Hya].
    + split; assumption.
    + destruct IH as [IH1 IH2]. split.
      * constructor; [|assumption].
        rewrite remove_first_In_neq; [assumption | congruence].
      * simpl. intros [H|H]; [congruence | tauto].
Qed.

Lemma toggle_NoDup a l : NoDup l -> NoDup (toggle a l).
Proof.
  intros H. unfold toggle. destruct (in_list a l) eqn:E.
  - apply remove_first_NoDup. assumption.
  - apply in_list_false in E.
    apply NoDup_rev in H. rewrite <- (rev_involutive (l ++ [a])).
    apply NoDup_rev. rewrite rev_app_distr. simpl. constructor; [|assumption].
    rewrite <- in_rev. assumption.
Qed.

Lemma toggle_in_list a x l :
  NoDup l ->
  in_list x (toggle a l) = xorb (in_list x l) (String.eqb x a).
Proof.
  intros H. unfold toggle.
  destruct (String.eqb_spec x a) as [->|Hne].
  - destruct (in_list a l) eqn:E; simpl.
    + apply in_list_false. apply remove_first_NoDup. assumption.
    + apply in_list_In. apply in_or_app. right. left. reflexivity.
  - rewrite xorb_false_r. destruct (in_list a l) eqn:E.
    + destruct (in_list x l) eqn:Ex.
      * apply in_list_In. apply remove_first_In_neq; [assumption|]. now apply in_list_In.
      * apply in_list_false. rewrite remove_first_In_neq; [|assumption]. now apply in_list_false.
    + destruct (in_list x l) eqn:Ex.
      * apply in_list_In. apply in_or_app. left. now apply in_list_In.
      * apply in_list_false. intros Hin. apply in_app_or in Hin.
        destruct Hin as [Hin|[Hin|[]]]; [|congruence].
        apply in_list_false in Ex. tauto.
Qed.

Definition toggles (names : list string) (l : list string) : list string :=
  fold_left (fun l n => toggle n l) names l.

Lemma toggles_NoDup names : forall l, NoDup l -> NoDup (toggles names l).
Proof.
  induction names as [|n names IH]; intros l H; simpl; [assumption|].
  apply IH. apply toggle_NoDup. assumption.
Qed.

Lemma toggles_in_list names x : forall l,
  NoDup l ->
  in_list x (toggles names l)
  = xorb (in_list x l) (Nat.odd (count_occ string_dec names x)).
Proof.
  induction names as [|n names IH]; intros l H; simpl.
  - now rewrite xorb_false_r.
  - unfold toggles in IH. rewrite IH by (apply toggle_NoDup; assumption).
    rewrite toggle_in_list by assumption.
    destruct (string_dec n x) as [->|Hne].
    + rewrite String.eqb_refl, Nat.odd_succ, <- Nat.negb_odd.
      destruct (in_list x l), (Nat.odd (count_occ string_dec names x)); reflexivity.
    + destruct (String.eqb_spec x n) as [->|_]; [congruence|].
      now rewrite xorb_false_r.
Qed.

Lemma toggle_selection u d w :
  selection (snd (toggle_batch_product_selection (CallbackQuery u d) w))
  = toggle (keyboards.clean_and_format_for_display
              (PyStr.replace config.CB_CREATE_BATCH_PRODUCT_TOGGLE_PREFIX "" d))
           (selection w).
Proof.
  unfold toggle_batch_product_selection, ask_batch_products_selection, selection.
  cbn -[toggle in_list].
  destruct (batch_common_location (user_data w)); reflexivity.
Qed.

Lemma resolve_toggle from slug :
  resolve create_conv_handler (Some config.CREATE_BATCH_TOGGLE_PRODUCTS)
          (CallbackQuery from (config.CB_CREATE_BATCH_PRODUCT_TOGGLE_PREFIX ++ slug)%string)
  = Some cb_toggle_batch_product_selection.
Proof.
  cbn -[after_prefix]. now rewrite after_prefix_app.
Qed.

Lemma toggle_press_step w x :
  let sw := handle_update_at create_conv_handler
              (Some config.CREATE_BATCH_TOGGLE_PRODUCTS, w) (toggle_press x) in
  fst sw = Some config.CREATE_BATCH_TOGGLE_PRODUCTS
  /\ selection (snd sw) = toggle (toggled_name (snd x)) (selection w).
Proof.
  destruct x as [[t from] slug].
  unfold handle_update_at, handle_update, toggle_press. cbn [fst snd].
  rewrite resolve_toggle. cbn [run].
  pose proof (toggle_selection from
                (config.CB_CREATE_BATCH_PRODUCT_TOGGLE_PREFIX ++ slug)%string
                (with_clock t w)) as E.
  assert (R : forall st w', toggle_batch_product_selection
                 (CallbackQuery from (config.CB_CREATE_BATCH_PRODUCT_TOGGLE_PREFIX ++ slug)%string)
                 (with_clock t w) = (Return st, w') ->
               st = config.CREATE_BATCH_TOGGLE_PRODUCTS).
  { unfold toggle_batch_product_selection, ask_batch_products_selection.
    cbn -[toggle in_list].
    destruct (batch_common_location (user_data w)); intros st w' H;
      inversion H; reflexivity. }
  destruct (toggle_batch_product_selection _ _) as [[st|e] w'] eqn:Er.
  - rewrite (R st w' eq_refl). split; [reflexivity|]. exact E.
  - split; [reflexivity|]. exact E.
Qed.

Lemma selection_after_toggles presses : forall w,
  fst (handle_updates create_conv_handler
         (Some config.CREATE_BATCH_TOGGLE_PRODUCTS, w) (map toggle_press presses))
  = Some config.CREATE_BATCH_TOGGLE_PRODUCTS
  /\ selection_after w presses
     = toggles (map (fun x => toggled_name (snd x)) presses) (selection w).
Proof.
  unfold selection_after, handle_updates.
  induction presses as [|x presses IH]; intros w; [split; reflexivity|].
  cbn [map fold_left].
  destruct (toggle_press_step w x) as [Hs Hsel].
  destruct (handle_update_at _ _ (toggle_press x)) as [st w1]. cbn [fst snd] in *.
  subst st. destruct (IH w1) as [IH1 IH2]. split; [exact IH1|].
  rewrite IH2, Hsel. reflexivity.
Qed.

(** C9.  On the batch checklist, for every selection without repetition:
    two presses on the same product button leave a selection with exactly
    the original members, and after any presses the members of the
    selection do not depend on the order of the presses. *)
Theorem batch_toggle_twice_restores_and_order_is_irrelevant :
  forall (w : world),
    NoDup (selection w) ->
    (forall t1 t2 from1 from2 slug,
        Permutation (selection_after w [(t1, from1, slug); (t2, from2, slug)])
                    (selection w))
    /\ (forall presses presses',
           Permutation (map snd presses) (map snd presses') ->
           forall name,
             In name (selection_after w presses) <-> In name (selection_after w presses')).
Proof.
  intros w Hnd. split.
  - intros t1 t2 from1 from2 slug.
    destruct (selection_after_toggles [(t1, from1, slug); (t2, from2, slug)] w) as [_ ->].
    cbn [map snd toggles fold_left].
    apply NoDup_Permutation.
    + apply toggle_NoDup, toggle_NoDup, Hnd.
    + exact Hnd.
    + intros x. rewrite <- !in_list_In.
      rewrite !toggle_in_list by (try apply toggle_NoDup; exact Hnd).
      destruct (in_list x (selection w)), (String.eqb x (toggled_name slug)); simpl; tauto.
  - intros presses presses' Hp name.
    destruct (selection_after_toggles presses w) as [_ ->].
    destruct (selection_after_toggles presses' w) as [_ ->].
    rewrite <- !in_list_In, !toggles_in_list by exact Hnd.
    assert (Hc : count_occ string_dec (map (fun x : datetime * User * string => toggled_name (snd x)) presses) name
                 = count_occ string_dec (map (fun x : datetime * User * string => toggled_name (snd x)) presses') name).
    { apply Permutation_count_occ.
      rewrite <- (map_map snd toggled_name presses), <- (map_map snd toggled_name presses').
      apply Permutation_map. exact Hp. }
    rewrite Hc. tauto.
Qed.

(** The checklist starts empty and the presses keep it free of
    repetitions, so the hypothesis of the theorem holds in every session. *)
Lemma selection_never_repeats w presses :
  NoDup (selection w) -> NoDup (selection_after w presses).
Proof.
  intros H. destruct (selection_after_toggles presses w) as [_ ->].
  apply toggles_NoDup. exact H.
Qed.

Lemma batch_toggle_twice_witness :
  NoDup (selection checklist_world)
  /\ Permutation
       (selection_after checklist_world
          [(at_time 1, abebe, "carrot"); (at_time 2, abebe, "carrot")])
       (selection checklist_world).
Proof.
  assert (H : NoDup (selection checklist_world)).
  { repeat constructor; simpl; intuition discriminate. }
  split; [exact H|].
  exact (proj1 (batch_toggle_twice_restores_and_order_is_irrelevant checklist_world H)
               (at_time 1) (at_time 2) abebe abebe "carrot").
Defined.

End BatchSelection.

(* ------------------------------------------------------------------ *)
(** ** The hand-over from the post-action keyboard to the create dialog *)

Module Handoff.

Lemma handlers_of_none u s : forall l,
  forallb (fun shs => match first_match (snd shs) u with
                      | None => true
                      | Some _ => false
                      end) l = true ->
  first_match (handlers_of s l) u = None.
Proof.
  induction l as [|[s' hs] l IH]; intros H; [reflexivity|].
  simpl in H. apply andb_true_iff in H. destruct H as [H1 H2].
  simpl. destruct (s' =? s)%Z.
  - destruct (first_match hs u); [discriminate | reflexivity].
  - apply IH. exact H2.
Qed.

Lemma resolve_new_entry c s from :
  In c dialogs ->
  resolve c (Some s) (new_entry_press from) = Some cb_post_conversation_callback_handler.
Proof.
  intros Hc. unfold resolve.
  assert (H : no_state_handler_accepts c (new_entry_press from) = true
              /\ first_match (fallbacks c) (new_entry_press from)
                 = Some cb_post_conversation_callback_handler).
  { unfold dialogs in Hc. simpl in Hc.
    destruct Hc as [<-|[<-|[<-|[<-|[<-|[]]]]]]; split; reflexivity. }
  destruct H as [H1 H2].
  rewrite (handlers_of_none _ s _ H1). exact H2.
Qed.

Lemma post_conversation_new_entry from w :
  post_conversation_callback_handler (new_entry_press from) w
  = start_new_entry (new_entry_press from)
      (with_user_data empty_user_data (with_outbox (outbox w ++ [answer None false]) w)).
Proof. reflexivity. Qed.

Lemma start_new_entry_press from w :
  start_new_entry (new_entry_press from) w
  = (Return config.CREATE_CHOOSE_ENTRY_TYPE,
     with_outbox (outbox w ++ [create_first_prompt]) (with_user_data empty_user_data w)).
Proof. reflexivity. Qed.

Lemma resolve_new_entry_idle from :
  resolve create_conv_handler None (new_entry_press from) = Some cb_start_new_entry.
Proof. reflexivity. Qed.

Lemma create_takes_new_entry create_state from :
  resolve create_conv_handler create_state (new_entry_press from)
  = Some (taker_of_new_entry create_state).
Proof.
  destruct create_state as [s|]; [|apply resolve_new_entry_idle].
  apply resolve_new_entry. left. reflexivity.
Qed.

(** C3, as amended.  The dialogs are registered in one group with the
    create dialog first, and an update goes to the first handler that
    accepts it.  Whatever states the five dialogs are in, the press on
    the "new entry" button of the post-action keyboard is taken by the
    create dialog: by its entry point [start_new_entry] when it is idle,
    by the shared fallback [post_conversation_callback_handler] when it is
    in a state; the fallback empties the session, hands over to
    [start_new_entry] and returns its state instead of [END].  Either way
    the session is emptied, the create dialog is in its first state, which
    is not [END], and what is rendered is the first prompt of the create
    dialog, not the main menu.  The other four dialogs do not get the
    press and stay as they are. *)
Theorem new_entry_press_goes_to_the_create_dialog :
  forall (create_state read_state update_state delete_state insights_state
            : option config.state) (from : User) (w : world),
    exists w',
      process_update (new_entry_press from)
        ([create_state; read_state; update_state; delete_state; insights_state], w)
      = ([Some config.CREATE_CHOOSE_ENTRY_TYPE;
          read_state; update_state; delete_state; insights_state], w')
      /\ config.CREATE_CHOOSE_ENTRY_TYPE <> END
      /\ taken_by (new_entry_press from)
           [create_state; read_state; update_state; delete_state; insights_state]
         = Some (0, taker_of_new_entry create_state)
      /\ user_data w' = empty_user_data
      /\ outbox w' = outbox w ++ new_entry_outputs create_state
      /\ run (taker_of_new_entry create_state) (new_entry_press from) w
         = (Return config.CREATE_CHOOSE_ENTRY_TYPE, w')
      /\ exists w1,
           user_data w1 = empty_user_data
           /\ run cb_post_conversation_callback_handler (new_entry_press from) w
              = start_new_entry (new_entry_press from) w1.
Proof.
  intros create_state read_state update_state delete_state insights_state from w.
  pose proof (create_takes_new_entry create_state from) as Hr.
  assert (Hrun : exists w',
             run (taker_of_new_entry create_state) (new_entry_press from) w
             = (Return config.CREATE_CHOOSE_ENTRY_TYPE, w')
             /\ user_data w' = empty_user_data
             /\ outbox w' = outbox w ++ new_entry_outputs create_state).
  { destruct create_state as [s|]; cbn [taker_of_new_entry run new_entry_outputs].
    - rewrite post_conversation_new_entry, start_new_entry_press.
      eexists. split; [reflexivity|]. split; [reflexivity|].
      cbn [outbox with_outbox with_user_data]. rewrite <- app_assoc. reflexivity.
    - rewrite start_new_entry_press. eexists. split; [reflexivity|].
      split; reflexivity. }
  destruct Hrun as (w' & E & U & O). exists w'.
  split; [|split; [discriminate|split; [|split; [exact U|split; [exact O|split]]]]].
  - unfold process_update, dialogs. cbn [process_in]. rewrite Hr.
    unfold handle_update. rewrite Hr, E. reflexivity.
  - unfold taken_by, dialogs. cbn [taken_in]. rewrite Hr. reflexivity.
  - exact E.
  - eexists. split; [|cbn [run]; apply post_conversation_new_entry]. reflexivity.
Qed.

(** C3 as stated fails: with the update dialog waiting for an identifier
    and the create dialog idle, the press on "new entry" is taken by the
    entry point of the create dialog, not by the shared fallback; the
    press is not answered, and the update dialog, which never gets the
    press, is still waiting for the identifier. *)
Lemma new_entry_press_is_not_for_the_shared_fallback :
  taken_by (new_entry_press abebe) update_asks_id = Some (0, cb_start_new_entry)
  /\ cb_start_new_entry <> cb_post_conversation_callback_handler
  /\ resolve update_conv_handler (Some config.UPDATE_ASK_ID) (new_entry_press abebe)
     = Some cb_post_conversation_callback_handler
  /\ fst (process_update (new_entry_press abebe) (update_asks_id, mid_update_world))
     = [Some config.CREATE_CHOOSE_ENTRY_TYPE; None; Some config.UPDATE_ASK_ID; None; None]
  /\ outbox (snd (process_update (new_entry_press abebe)
                    (update_asks_id, mid_update_world)))
     = [create_first_prompt]
  /\ fst (handle_update update_conv_handler (new_entry_press abebe)
            (Some config.UPDATE_ASK_ID, mid_update_world))
     = Some config.CREATE_CHOOSE_ENTRY_TYPE.
Proof.
  split; [reflexivity|]. split; [discriminate|]. split; [reflexivity|].
  split; [reflexivity|]. split; reflexivity.
Qed.

End Handoff.

(* ------------------------------------------------------------------ *)
(** ** The price prompts *)

Module PricePrompts.

#[local] Opaque String.append PyStr.replace PyStr.lower PyStr.title PyStr.join
  PyStr.strip PyStr.str_of_int PyFloat.repr PyFloat.of_string PyFloat.leb
  keyboards.build_keyboard keyboards.clean_and_format_for_display
  config.PRODUCTS config.LOCATIONS String.eqb.

(** The test [price <= 0] of the handlers is false for the value that is
    not a number, as it is for the positive numbers. *)
Lemma not_greater_than_zero x :
  PyFloat.ltb PyFloat.zero x = false ->
  x <> not_a_number ->
  PyFloat.leb x PyFloat.zero = true.
Proof.
  unfold not_a_number.
  destruct x as [s|s| |s m e]; try destruct s; cbn; intros H Hn;
    try reflexivity; try discriminate; congruence.
Qed.

Lemma parse_price_rejects text :
  not_a_positive_number text ->
  PyFloat.of_string text <> Some not_a_number ->
  parse_price text = None.
Proof.
  unfold parse_price, not_a_positive_number.
  destruct (PyFloat.of_string text) as [x|]; [|reflexivity].
  intros H Hn. rewrite (not_greater_than_zero x H); [reflexivity | congruence].
Qed.

Lemma parse_price_rejected_is_not_positive text :
  parse_price text = None -> not_a_positive_number text.
Proof.
  unfold parse_price, not_a_positive_number.
  destruct (PyFloat.of_string text) as [x|]; [|constructor].
  destruct x as [s|s| |s m e]; try destruct s; cbn; intros H;
    try reflexivity; discriminate.
Qed.

(** A text that is accepted is a number that is not [<= 0]. *)
Lemma parse_price_accepts text x :
  parse_price text = Some x <->
  PyFloat.of_string text = Some x /\ PyFloat.leb x PyFloat.zero = false.
Proof.
  unfold parse_price. destruct (PyFloat.of_string text) as [y|].
  - destruct (PyFloat.leb y PyFloat.zero) eqn:E; split.
    + discriminate.
    + intros [H1 H2]. inversion H1; subst. congruence.
    + intros H. inversion H; subst. split; [reflexivity | assumption].
    + intros [H1 _]. exact H1.
  - split; [discriminate | intros [H _]; discriminate].
Qed.

Lemma single_price_rejected from text w :
  parse_price text = None ->
  current_entry (user_data w) <> None ->
  single_entry_price_entry (Message from text) w
  = (Return config.CREATE_SINGLE_ENTER_PRICE, after_output single_price_reprompt w).
Proof.
  intros Hp He. destruct (current_entry (user_data w)) as [e|] eqn:E; [|congruence].
  unfold single_entry_price_entry. exec. rewrite E, Hp. reflexivity.
Qed.

Lemma batch_price_rejected from text w :
  parse_price text = None ->
  batch_price_entry (Message from text) w
  = (Return config.CREATE_BATCH_ENTER_PRICE, after_output batch_price_reprompt w).
Proof.
  intros Hp. unfold batch_price_entry. exec. rewrite Hp. reflexivity.
Qed.

Lemma update_price_rejected from text w :
  parse_price text = None ->
  current_field_being_updated_key (user_data w) = Some "price" ->
  new_value_for_text_field_received (Message from text) w
  = (Return config.UPDATE_ENTER_MULTIPLE_VALUES, after_output update_price_reprompt w).
Proof.
  intros Hp Hk. unfold new_value_for_text_field_received. exec.
  rewrite Hk. exec. rewrite Hp. reflexivity.
Qed.

(** The step before the single price prompt leaves a [current_entry]. *)
Lemma product_selection_opens_price_prompt from data w :
  exists w',
    single_entry_product_selection (CallbackQuery from data) w
    = (Return config.CREATE_SINGLE_ENTER_PRICE, w')
    /\ current_entry (user_data w') <> None.
Proof.
  unfold single_entry_product_selection. exec.
  destruct (current_entry (user_data w)); exec;
    eexists; (split; [reflexivity | cbn; discriminate]).
Qed.

(** In each of the three price-entry states (the single-entry price,
    the price of a product of a batch, the new price of an update), a text
    that is not a positive number, the text [nan] and its spellings
    apart, goes to the handler of that state, which returns the same state
    and leaves the world as it was but for the one re-prompt it sends: the
    session data are unchanged.  (The single-entry handler fetches
    [current_entry] before it looks at the text, which adds an empty one
    to a session that has none.) *)
Lemma rejected_price_is_asked_again :
  forall (from : User) (text : string) (w : world),
    not_a_positive_number text ->
    PyFloat.of_string text <> Some not_a_number ->
    (current_entry (user_data w) <> None ->
     run cb_single_entry_price_entry (Message from text) w
     = (Return config.CREATE_SINGLE_ENTER_PRICE, after_output single_price_reprompt w)
     /\ handle_update create_conv_handler (Message from text)
          (Some config.CREATE_SINGLE_ENTER_PRICE, w)
        = (Some config.CREATE_SINGLE_ENTER_PRICE, after_output single_price_reprompt w))
    /\ (run cb_batch_price_entry (Message from text) w
        = (Return config.CREATE_BATCH_ENTER_PRICE, after_output batch_price_reprompt w)
        /\ handle_update create_conv_handler (Message from text)
             (Some config.CREATE_BATCH_ENTER_PRICE, w)
           = (Some config.CREATE_BATCH_ENTER_PRICE, after_output batch_price_reprompt w))
    /\ (current_field_being_updated_key (user_data w) = Some "price" ->
        run cb_new_value_for_text_field_received (Message from text) w
        = (Return config.UPDATE_ENTER_MULTIPLE_VALUES, after_output update_price_reprompt w)
        /\ handle_update update_conv_handler (Message from text)
             (Some config.UPDATE_ENTER_MULTIPLE_VALUES, w)
           = (Some config.UPDATE_ENTER_MULTIPLE_VALUES,
              after_output update_price_reprompt w))
    /\ user_data (after_output single_price_reprompt w) = user_data w
    /\ user_data (after_output batch_price_reprompt w) = user_data w
    /\ user_data (after_output update_price_reprompt w) = user_data w.
Proof.
  intros from text w Hbad Hn. apply parse_price_rejects in Hbad; [|exact Hn].
  split; [|split; [|split; [|repeat split]]].
  - intros He. pose proof (single_price_rejected from text w Hbad He) as H.
    split; [exact H|].
    change (handle_update create_conv_handler (Message from text)
              (Some config.CREATE_SINGLE_ENTER_PRICE, w))
      with (match single_entry_price_entry (Message from text) w with
            | (Return new_state, w') => (next_state new_state, w')
            | (Raise _, w') => (Some config.CREATE_SINGLE_ENTER_PRICE, w')
            end).
    rewrite H. reflexivity.
  - pose proof (batch_price_rejected from text w Hbad) as H.
    split; [exact H|].
    change (handle_update create_conv_handler (Message from text)
              (Some config.CREATE_BATCH_ENTER_PRICE, w))
      with (match batch_price_entry (Message from text) w with
            | (Return new_state, w') => (next_state new_state, w')
            | (Raise _, w') => (Some config.CREATE_BATCH_ENTER_PRICE, w')
            end).
    rewrite H. reflexivity.
  - intros Hk. pose proof (update_price_rejected from text w Hbad Hk) as H.
    split; [exact H|].
    change (handle_update update_conv_handler (Message from text)
              (Some config.UPDATE_ENTER_MULTIPLE_VALUES, w))
      with (match new_value_for_text_field_received (Message from text) w with
            | (Return new_state, w') => (next_state new_state, w')
            | (Raise _, w') => (Some config.UPDATE_ENTER_MULTIPLE_VALUES, w')
            end).
    rewrite H. reflexivity.
Qed.

Lemma rejected_price_example :
  not_a_positive_number "-3.5"
  /\ handle_update create_conv_handler (Message abebe "-3.5")
       (Some config.CREATE_SINGLE_ENTER_PRICE, single_price_world)
     = (Some config.CREATE_SINGLE_ENTER_PRICE,
        after_output single_price_reprompt single_price_world).
Proof.
  assert (H : not_a_positive_number "-3.5") by (vm_compute; reflexivity).
  assert (Hn : PyFloat.of_string "-3.5" <> Some not_a_number)
    by (vm_compute; discriminate).
  assert (E : current_entry (user_data single_price_world) <> None)
    by (simpl; discriminate).
  split; [exact H|].
  exact (proj2 (proj1 (rejected_price_is_asked_again
                         abebe "-3.5" single_price_world H Hn) E)).
Qed.

(** Without a [current_entry] in the session, the single-entry handler
    answers a rejected text in the same way, after it has put an empty
    [current_entry] into the session. *)
Lemma single_price_rejected_without_an_entry from text w :
  parse_price text = None ->
  current_entry (user_data w) = None ->
  single_entry_price_entry (Message from text) w
  = (Return config.CREATE_SINGLE_ENTER_PRICE,
     after_output single_price_reprompt
       (with_user_data (set_current_entry (Some empty_entry) (user_data w)) w)).
Proof.
  intros Hp He. unfold single_entry_price_entry. exec. rewrite He. exec.
  rewrite Hp. reflexivity.
Qed.

(** C2, the code against the claim.  The text [nan] is not a positive
    number, yet each of the three price prompts takes it for a price:
    [float] parses it and the test [price <= 0] is false for it.  The
    single-entry dialog stores it and goes on to the location; the batch
    dialog adds the entry of the product with it and asks for the next
    product; the update dialog stores it as the new price and asks for the
    next field.  In each case the session has changed, and no re-prompt
    was sent.  (The update goes through the dispatch of the application,
    with the other dialogs idle.) *)
Theorem nan_is_taken_for_a_price :
  not_a_positive_number "nan"
  /\ parse_price "nan" = Some not_a_number
  /\ (let r := process_update (Message abebe "nan")
                 ([Some config.CREATE_SINGLE_ENTER_PRICE; None; None; None; None],
                  single_price_world) in
      fst r = [Some config.CREATE_SINGLE_SELECT_LOCATION; None; None; None; None]
      /\ current_entry (user_data (snd r))
         = Some {| product := Some "Carrot"; price := Some not_a_number;
                   location := None; remark := None |}
      /\ ~ In single_price_reprompt (outbox (snd r)))
  /\ (let r := process_update (Message abebe "nan")
                 ([Some config.CREATE_BATCH_ENTER_PRICE; None; None; None; None],
                  batch_price_world) in
      fst r = [Some config.CREATE_BATCH_ENTER_PRICE; None; None; None; None]
      /\ batch_entries (user_data (snd r))
         = Some [{| product := Some "Corn"; price := Some not_a_number;
                    location := Some "Distribution Center 3 02";
                    remark := Some "" |}]
      /\ batch_price_queue (user_data (snd r)) = Some ["Garlic"]
      /\ batch_current_product_for_price (user_data (snd r)) = Some "Garlic"
      /\ ~ In batch_price_reprompt (outbox (snd r)))
  /\ (let r := process_update (Message abebe "nan")
                 ([None; None; Some config.UPDATE_ENTER_MULTIPLE_VALUES; None; None],
                  update_price_world) in
      fst r = [None; None; Some config.UPDATE_ENTER_MULTIPLE_VALUES; None; None]
      /\ new_values_for_update_map (user_data (snd r))
         = Some [(config.PRICE_FIELD, PyFloat not_a_number)]
      /\ update_fields_queue (user_data (snd r)) = Some ["location"]
      /\ current_field_being_updated_key (user_data (snd r)) = Some "location"
      /\ ~ In update_price_reprompt (outbox (snd r))).
Proof.
  split; [vm_compute; reflexivity|]. split; [vm_compute; reflexivity|].
  split; [|split].
  - cbv zeta. split; [vm_compute; reflexivity|]. split; [vm_compute; reflexivity|].
    vm_compute. intros [H|[]]. discriminate H.
  - cbv zeta. split; [vm_compute; reflexivity|]. split; [vm_compute; reflexivity|].
    split; [vm_compute; reflexivity|]. split; [vm_compute; reflexivity|].
    vm_compute. intros [H|[]]. discriminate H.
  - cbv zeta. split; [vm_compute; reflexivity|]. split; [vm_compute; reflexivity|].
    split; [vm_compute; reflexivity|]. split; [vm_compute; reflexivity|].
    vm_compute. intros [H|[]]. discriminate H.
Qed.

End PricePrompts.

(* ------------------------------------------------------------------ *)
(** ** The single-entry dialog *)

Module SingleEntry.

#[local] Opaque String.append PyStr.replace PyStr.lower PyStr.title PyStr.join
  PyStr.strip PyStr.str_of_int PyFloat.repr PyFloat.of_string PyFloat.leb
  keyboards.build_keyboard keyboards.clean_and_format_for_display
  config.PRODUCTS config.LOCATIONS String.eqb.

Lemma resolve_product_press from P :
  resolve create_conv_handler (Some config.CREATE_SINGLE_SELECT_PRODUCT)
          (product_press from P) = Some cb_single_entry_product_selection.
Proof.
  unfold product_press. cbn -[after_prefix]. now rewrite after_prefix_app.
Qed.

Lemma resolve_location_press from L :
  resolve create_conv_handler (Some config.CREATE_SINGLE_SELECT_LOCATION)
          (location_press from L) = Some cb_single_entry_location_selection.
Proof.
  unfold location_press. cbn -[after_prefix]. now rewrite after_prefix_app.
Qed.

(** One step of the dialog, unfolded up to the handler. *)
Ltac dispatch H :=
  unfold handle_update_at, handle_update; cbn [fst snd];
  rewrite H; cbn [run].

Ltac done_step :=
  eexists; split; [reflexivity|]; exec; split; [reflexivity | repeat split].

Lemma step_new w t from :
  exists w',
    handle_update_at create_conv_handler (None, w) (t, Command from "new")
    = (Some config.CREATE_CHOOSE_ENTRY_TYPE, w')
    /\ user_data w' = empty_user_data /\ same_sheet w w'.
Proof.
  dispatch (eq_refl : resolve create_conv_handler None (Command from "new")
                      = Some cb_start_new_entry).
  unfold start_new_entry. exec. done_step.
Qed.

Lemma step_single w t from :
  user_data w = empty_user_data ->
  exists w',
    handle_update_at create_conv_handler (Some config.CREATE_CHOOSE_ENTRY_TYPE, w)
      (t, CallbackQuery from config.CB_CREATE_CHOOSE_TYPE_SINGLE)
    = (Some config.CREATE_SINGLE_SELECT_PRODUCT, w')
    /\ user_data w' = empty_user_data /\ same_sheet w w'.
Proof.
  intros Hud.
  assert (R : resolve create_conv_handler (Some config.CREATE_CHOOSE_ENTRY_TYPE)
                (CallbackQuery from config.CB_CREATE_CHOOSE_TYPE_SINGLE)
              = Some cb_handle_entry_type_selection) by (vm_compute; reflexivity).
  dispatch R.
  unfold handle_entry_type_selection, ask_single_entry_product. exec. eval_eqb.
  exec_with Hud. done_step.
Qed.

Lemma step_product w t from P :
  user_data w = empty_user_data ->
  exists w',
    handle_update_at create_conv_handler (Some config.CREATE_SINGLE_SELECT_PRODUCT, w)
      (t, product_press from P)
    = (Some config.CREATE_SINGLE_ENTER_PRICE, w')
    /\ user_data w'
       = set_current_entry
           (Some {| product := Some (stored_product P); price := None;
                    location := None; remark := None |}) empty_user_data
    /\ same_sheet w w'.
Proof.
  intros Hud. dispatch (resolve_product_press from P).
  unfold single_entry_product_selection, product_press. exec_with Hud. done_step.
Qed.

Lemma step_price w t from price_text x p :
  parse_price price_text = Some x ->
  user_data w
  = set_current_entry
      (Some {| product := Some p; price := None; location := None; remark := None |})
      empty_user_data ->
  exists w',
    handle_update_at create_conv_handler (Some config.CREATE_SINGLE_ENTER_PRICE, w)
      (t, Message from price_text)
    = (Some config.CREATE_SINGLE_SELECT_LOCATION, w')
    /\ user_data w'
       = set_current_entry
           (Some {| product := Some p; price := Some x;
                    location := None; remark := None |}) empty_user_data
    /\ same_sheet w w'.
Proof.
  intros Hp Hud.
  dispatch (eq_refl : resolve create_conv_handler (Some config.CREATE_SINGLE_ENTER_PRICE)
                        (Message from price_text)
                      = Some cb_single_entry_price_entry).
  unfold single_entry_price_entry. exec_with Hud. rewrite Hp. exec_with Hud.
  done_step.
Qed.

Lemma step_location w t from L x p :
  user_data w
  = set_current_entry
      (Some {| product := Some p; price := Some x; location := None; remark := None |})
      empty_user_data ->
  exists w',
    handle_update_at create_conv_handler (Some config.CREATE_SINGLE_SELECT_LOCATION, w)
      (t, location_press from L)
    = (Some config.CREATE_SINGLE_ENTER_REMARK, w')
    /\ user_data w'
       = set_current_entry
           (Some {| product := Some p; price := Some x;
                    location := Some (stored_location L); remark := None |})
           empty_user_data
    /\ same_sheet w w'.
Proof.
  intros Hud. dispatch (resolve_location_press from L).
  unfold single_entry_location_selection, location_press. exec_with Hud. done_step.
Qed.

Lemma step_remark w t from R x p l :
  user_data w
  = set_current_entry
      (Some {| product := Some p; price := Some x; location := Some l; remark := None |})
      empty_user_data ->
  exists w',
    handle_update_at create_conv_handler (Some config.CREATE_SINGLE_ENTER_REMARK, w)
      (t, Message from R)
    = (Some config.CREATE_SINGLE_CONFIRM_SUBMISSION, w')
    /\ user_data w'
       = set_current_entry
           (Some {| product := Some p; price := Some x;
                    location := Some l; remark := Some R |}) empty_user_data
    /\ same_sheet w w'.
Proof.
  intros Hud.
  dispatch (eq_refl : resolve create_conv_handler (Some config.CREATE_SINGLE_ENTER_REMARK)
                        (Message from R)
                      = Some cb_single_entry_remark_entry).
  unfold single_entry_remark_entry, show_single_entry_confirmation. exec_with Hud.
  done_step.
Qed.

Lemma resolve_submit from :
  resolve create_conv_handler (Some config.CREATE_SINGLE_CONFIRM_SUBMISSION)
          (CallbackQuery from config.CB_CREATE_SINGLE_SUBMIT_FINAL)
  = Some cb_submit_single_entry_data.
Proof. vm_compute. reflexivity. Qed.

(** The submit handler on a ready sheet: one row more. *)
Lemma step_submit w t from R x p l g :
  GSHEET_CONNECTED w = true ->
  worksheet w = Some {| grid := g; reachable := true |} ->
  user_data w
  = set_current_entry
      (Some {| product := Some p; price := Some x; location := Some l; remark := Some R |})
      empty_user_data ->
  exists w',
    handle_update_at create_conv_handler (Some config.CREATE_SINGLE_CONFIRM_SUBMISSION, w)
      (t, CallbackQuery from config.CB_CREATE_SINGLE_SUBMIT_FINAL)
    = (None, w')
    /\ user_data w' = empty_user_data
    /\ worksheet w'
       = Some {| grid := g ++ [row_of (committed_record (uuid4 w (uuid_calls w)) t from p x l R)
                                      (HEADERS w)];
                 reachable := true |}
    /\ uuid_calls w' = S (uuid_calls w).
Proof.
  intros Hc Hw Hud. dispatch (resolve_submit from).
  unfold submit_single_entry_data, gsheet_utils.append_rows_to_sheet,
    gsheet_utils.connected, gsheet_utils.worksheet_append_rows,
    gsheet_utils.call_worksheet, gsheet_utils.is_some.
  exec_with Hud. rewrite Hc, Hw. exec_with Hud.
  eexists; split; [reflexivity|]. exec. repeat split.
Qed.

(** The submit handler when the readiness test fails or the service does
    not answer: the sheet is left as it is. *)
Lemma step_submit_fails w t from :
  gsheet_utils.connected w = false
  \/ (exists g, worksheet w = Some {| grid := g; reachable := false |}) ->
  exists w',
    handle_update_at create_conv_handler (Some config.CREATE_SINGLE_CONFIRM_SUBMISSION, w)
      (t, CallbackQuery from config.CB_CREATE_SINGLE_SUBMIT_FINAL)
    = (None, w')
    /\ user_data w' = empty_user_data
    /\ worksheet w' = worksheet w.
Proof.
  intros H. dispatch (resolve_submit from).
  unfold submit_single_entry_data, gsheet_utils.append_rows_to_sheet,
    gsheet_utils.worksheet_append_rows, gsheet_utils.call_worksheet,
    gsheet_utils.connected in *.
  exec.
  destruct (current_entry (user_data w)); exec;
    (destruct H as [H|[g H]];
     [ rewrite H; exec; eexists; repeat split
     | rewrite H; exec; destruct (GSHEET_CONNECTED w); exec; eexists;
       repeat split; exec; exact H ]).
Qed.


(** The first six steps, whatever the sheet. *)
Lemma steps_to_confirmation w0 from ts P price_text L R x :
  parse_price price_text = Some x ->
  exists w6,
    handle_updates create_conv_handler (None, w0)
      (firstn 6 (single_entry_dialog from ts P price_text L R))
    = (Some config.CREATE_SINGLE_CONFIRM_SUBMISSION, w6)
    /\ user_data w6
       = set_current_entry
           (Some {| product := Some (stored_product P); price := Some x;
                    location := Some (stored_location L); remark := Some R |})
           empty_user_data
    /\ same_sheet w0 w6.
Proof.
  intros Hp. unfold handle_updates, single_entry_dialog. cbn [firstn fold_left].
  destruct (step_new w0 (t_start ts) from) as (w1 & E1 & U1 & S1). rewrite E1.
  destruct (step_single w1 (t_type ts) from U1) as (w2 & E2 & U2 & S2). rewrite E2.
  destruct (step_product w2 (t_product ts) from P U2) as (w3 & E3 & U3 & S3). rewrite E3.
  destruct (step_price w3 (t_price ts) from price_text x _ Hp U3) as (w4 & E4 & U4 & S4).
  rewrite E4.
  destruct (step_location w4 (t_location ts) from L x _ U4) as (w5 & E5 & U5 & S5).
  rewrite E5.
  destruct (step_remark w5 (t_remark ts) from R x _ _ U5) as (w6 & E6 & U6 & S6).
  rewrite E6.
  exists w6. split; [reflexivity|]. split; [exact U6|].
  repeat (eapply same_sheet_trans; [eassumption|]). apply same_sheet_refl.
Qed.

Lemma dialog_split from ts P price_text L R sw :
  handle_updates create_conv_handler sw (single_entry_dialog from ts P price_text L R)
  = handle_update_at create_conv_handler
      (handle_updates create_conv_handler sw
         (firstn 6 (single_entry_dialog from ts P price_text L R)))
      (t_submit ts, CallbackQuery from config.CB_CREATE_SINGLE_SUBMIT_FINAL).
Proof. reflexivity. Qed.

(** What the two selection handlers store for the buttons of the
    configuration: the title-cased name, which is the text of the button
    except for two products. *)
Lemma stored_names_of_the_configuration :
  (forall P, In P config.PRODUCTS ->
     stored_product P = keyboards.clean_and_format_for_display P
     /\ (P <> "Red Onion Grade A Restaurant quality" -> P <> "Beet root" ->
         stored_product P = P))
  /\ stored_product "Red Onion Grade A Restaurant quality"
     = "Red Onion Grade A Restaurant Quality"
  /\ stored_product "Beet root" = "Beet Root"
  /\ (forall L, In L config.LOCATIONS -> stored_location L = L).
Proof.
  Transparent config.PRODUCTS config.LOCATIONS.
  split; [|split; [|split]].
  - intros P HP. unfold config.PRODUCTS in HP.
    repeat (destruct HP as [<-|HP];
            [split; [vm_compute; reflexivity
                    | intros H1 H2; try (vm_compute; reflexivity); congruence]|]).
    destruct HP.
  - vm_compute. reflexivity.
  - vm_compute. reflexivity.
  - intros L HL. unfold config.LOCATIONS in HL.
    repeat (destruct HL as [<-|HL]; [vm_compute; reflexivity|]).
    destruct HL.
  Opaque config.PRODUCTS config.LOCATIONS.
Qed.

(** Every product and every location of the configuration has its button,
    with the text of the item and the slug as callback data. *)
Lemma build_rows_one prefix n : forall items i,
  keyboards.build_rows prefix 1 n i [] items
  = map (fun item_text =>
           [{| label := item_text;
               callback_data := (prefix ++ slug_of item_text)%string |}]) items.
Proof.
  induction items as [|a items IH]; intros i; [reflexivity|].
  cbn [keyboards.build_rows map app List.length Nat.eqb orb]. rewrite IH. reflexivity.
Qed.

Lemma button_of_item items prefix item_text :
  In item_text items ->
  In [{| label := item_text; callback_data := (prefix ++ slug_of item_text)%string |}]
     (keyboards.build_keyboard items prefix).
Proof.
  Transparent keyboards.build_keyboard.
  intros H. unfold keyboards.build_keyboard. rewrite build_rows_one.
  apply (in_map (fun item_text =>
                   [{| label := item_text;
                       callback_data := (prefix ++ slug_of item_text)%string |}])).
  exact H.
  Opaque keyboards.build_keyboard.
Qed.

(** C1, as amended.  A complete single-entry dialog (product button [P], a
    price text that parses to a number [x] that is not [<= 0], such as
    12.5, location button [L], remark [R], submit) ends the dialog and
    empties the session.  When the sheet is connected and the service
    answers, it appends exactly one row: the record whose id is the
    identifier drawn from uuid4 during the submit (different from every
    identifier drawn before, when uuid4 does not repeat), whose timestamp
    is the time of the submit (not before the start of the dialog when the
    clock does not go back), whose price is [x], whose remark is [R], and
    whose product and location are the names the handlers derive from the
    slugs of the buttons, that is, the title-cased names.  When the
    readiness test fails or the service does not answer, the sheet is left
    as it was. *)
Theorem single_entry_dialog_commits_the_formatted_record :
  forall (w0 : world) (from : User) (ts : single_times)
         (P price_text L R : string) (x : PyFloat.float),
    PyFloat.of_string price_text = Some x ->
    PyFloat.leb x PyFloat.zero = false ->
    in_order ts ->
    exists w',
      handle_updates create_conv_handler (None, w0)
        (single_entry_dialog from ts P price_text L R) = (None, w')
      /\ user_data w' = empty_user_data
      /\ (forall g,
             GSHEET_CONNECTED w0 = true ->
             worksheet w0 = Some {| grid := g; reachable := true |} ->
             sheet_rows w'
             = g ++ [row_of (committed_record (uuid4 w0 (uuid_calls w0)) (t_submit ts)
                               from (stored_product P) x (stored_location L) R)
                            (HEADERS w0)]
             /\ uuid_calls w' = S (uuid_calls w0)
             /\ ((forall i j, uuid4 w0 i = uuid4 w0 j -> i = j) ->
                 forall n, n < uuid_calls w0 ->
                           uuid4 w0 n <> uuid4 w0 (uuid_calls w0))
             /\ (instant (t_start ts) <= instant (t_submit ts))%Z)
      /\ (gsheet_utils.connected w0 = false
          \/ (exists g, worksheet w0 = Some {| grid := g; reachable := false |}) ->
          worksheet w' = worksheet w0).
Proof.
  intros w0 from ts P price_text L R x Hparse Hpos Hord.
  assert (Hp : parse_price price_text = Some x).
  { unfold parse_price. now rewrite Hparse, Hpos. }
  destruct (steps_to_confirmation w0 from ts P price_text L R x Hp)
    as (w6 & E6 & U6 & (S1 & S2 & S3 & S4 & S5)).
  rewrite dialog_split, E6.
  destruct (GSHEET_CONNECTED w0) eqn:Hc.
  - destruct (worksheet w0) as [[g r]|] eqn:Hw.
    + destruct r.
      * destruct (step_submit w6 (t_submit ts) from R x _ _ g S1 S2 U6)
          as (w' & E & U & W & C).
        exists w'. split; [exact E|]. split; [exact U|]. split.
        -- intros g' _ Hg. inversion Hg; subst g'. split; [|split; [|split]].
           ++ unfold sheet_rows. rewrite W, S3, S4, S5. reflexivity.
           ++ rewrite C, S5. reflexivity.
           ++ intros Hinj n Hn Heq. apply Hinj in Heq. lia.
           ++ unfold in_order in Hord. lia.
        -- intros [H|[g' H]]; [|discriminate].
           unfold gsheet_utils.connected in H. rewrite Hc, Hw in H. discriminate.
      * destruct (step_submit_fails w6 (t_submit ts) from) as (w' & E & U & W).
        { right. exists g. exact S2. }
        exists w'. split; [exact E|]. split; [exact U|]. split.
        -- intros g' _ Hg. discriminate.
        -- intros _. rewrite W. exact S2.
    + destruct (step_submit_fails w6 (t_submit ts) from) as (w' & E & U & W).
      { left. unfold gsheet_utils.connected. rewrite S2. cbn. apply andb_false_r. }
      exists w'. split; [exact E|]. split; [exact U|]. split.
      * intros g' _ Hg. discriminate.
      * intros _. rewrite W. exact S2.
  - destruct (step_submit_fails w6 (t_submit ts) from) as (w' & E & U & W).
    { left. unfold gsheet_utils.connected. rewrite S1. reflexivity. }
    exists w'. split; [exact E|]. split; [exact U|]. split.
    + intros g' Hg. discriminate.
    + intros _. rewrite W. exact S2.
Qed.

Lemma twelve_and_a_half_is_accepted :
  PyFloat.of_string "12.5" = Some twelve_and_a_half
  /\ PyFloat.leb twelve_and_a_half PyFloat.zero = false.
Proof. split; vm_compute; reflexivity. Qed.

Lemma single_entry_dialog_witness :
  PyFloat.of_string "12.5" = Some twelve_and_a_half
  /\ PyFloat.leb twelve_and_a_half PyFloat.zero = false
  /\ in_order sample_times
  /\ exists w',
       handle_updates create_conv_handler (None, sample_world)
         (single_entry_dialog sara sample_times "Garlic" "12.5"
            "Distribution Center 3 02" "second harvest") = (None, w')
       /\ user_data w' = empty_user_data.
Proof.
  assert (H1 : PyFloat.of_string "12.5" = Some twelve_and_a_half)
    by (vm_compute; reflexivity).
  assert (H2 : PyFloat.leb twelve_and_a_half PyFloat.zero = false)
    by (vm_compute; reflexivity).
  assert (H3 : in_order sample_times) by (vm_compute; intuition discriminate).
  split; [exact H1|]. split; [exact H2|]. split; [exact H3|].
  destruct (single_entry_dialog_commits_the_formatted_record
              sample_world sara sample_times "Garlic" "12.5"
              "Distribution Center 3 02" "second harvest" twelve_and_a_half H1 H2 H3)
    as (w' & E & U & _).
  exists w'. split; [exact E | exact U].
Defined.

(** C1 as stated fails: the button "Beet root" of the configuration leads
    to a committed record whose product is "Beet Root"; and when the bot
    has no connection to the sheet the completed dialog commits nothing. *)
Lemma single_entry_record_differs_from_the_selection :
  In "Beet root" config.PRODUCTS
  /\ (exists row,
         sheet_rows (snd (handle_updates create_conv_handler (None, sample_world)
                            (single_entry_dialog abebe sample_times "Beet root" "12.5"
                               "Distribution Center 3 02" "fresh")))
         = sample_grid ++ [row]
         /\ dict_get config.PRODUCT_FIELD (combine config.DEFAULT_HEADERS row)
            = Some (PyStr "Beet Root")
         /\ PyStr "Beet Root" <> PyStr "Beet root")
  /\ handle_updates create_conv_handler (None, offline_world)
       (single_entry_dialog abebe sample_times "Beet root" "12.5"
          "Distribution Center 3 02" "fresh")
     = (None,
        snd (handle_updates create_conv_handler (None, offline_world)
               (single_entry_dialog abebe sample_times "Beet root" "12.5"
                  "Distribution Center 3 02" "fresh")))
  /\ sheet_rows (snd (handle_updates create_conv_handler (None, offline_world)
                        (single_entry_dialog abebe sample_times "Beet root" "12.5"
                           "Distribution Center 3 02" "fresh")))
     = sheet_rows offline_world.
Proof.
  split; [vm_compute; tauto|]. split; [|split].
  - eexists. split; [vm_compute; reflexivity|]. split; [vm_compute; reflexivity|].
    discriminate.
  - vm_compute. reflexivity.
  - vm_compute. reflexivity.
Qed.

End SingleEntry.

(* ------------------------------------------------------------------ *)
(** ** The boundaries of the pagination *)

Module Pagination.

#[local] Opaque String.append PyStr.replace PyStr.lower PyStr.title PyStr.join
  PyStr.strip PyStr.str_of_int PyFloat.repr PyFloat.of_string PyFloat.leb
  keyboards.build_keyboard keyboards.clean_and_format_for_display
  keyboards.format_entry_details_markdown escape_markdown_v2
  config.PRODUCTS config.LOCATIONS String.eqb.

Lemma all_values_length g : List.length (gsheet_utils.all_values g) = List.length g.
Proof. unfold gsheet_utils.all_values. apply length_map. Qed.

Lemma slice_empty {A} (l : list A) start_index end_index :
  List.length l <= start_index -> slice start_index end_index l = [].
Proof.
  intros H. unfold slice. rewrite skipn_all2 by exact H. apply firstn_nil.
Qed.

Lemma view_last_on_empty_sheet from data page w g :
  worksheet w = Some {| grid := g; reachable := true |} ->
  page_of data = ret page ->
  List.length g <= 1 ->
  exists w',
    view_last_entries_callback (CallbackQuery from data) w = (Return END, w')
    /\ outbox w' = outbox w ++ [answer None false; fetching_notice; no_entries_render]
    /\ user_data w' = user_data w
    /\ worksheet w' = worksheet w.
Proof.
  intros Hw Hpage Hlen.
  unfold view_last_entries_callback, gsheet_utils.worksheet_get_all_values,
    gsheet_utils.call_worksheet.
  exec. rewrite Hpage. exec. rewrite Hw. exec.
  rewrite all_values_length.
  apply Nat.leb_le in Hlen. rewrite Hlen. exec.
  eexists. split; [reflexivity|]. exec. split; [|split; [reflexivity|]].
  - rewrite <- !app_assoc. reflexivity.
  - reflexivity.
Qed.

Lemma view_last_beyond_last_page from data page w g :
  worksheet w = Some {| grid := g; reachable := true |} ->
  page_of data = ret page ->
  1 < List.length g ->
  entries g <= page * config.DEFAULT_ENTRIES_PER_PAGE_VIEW ->
  exists w',
    view_last_entries_callback (CallbackQuery from data) w
    = (Return config.VIEW_PAGINATING_ENTRIES, w')
    /\ outbox w' = outbox w ++ [answer None false; fetching_notice; no_more_entries_alert]
    /\ user_data w' = user_data w
    /\ worksheet w' = worksheet w.
Proof.
  intros Hw Hpage Hlen Hbeyond.
  unfold view_last_entries_callback, gsheet_utils.worksheet_get_all_values,
    gsheet_utils.call_worksheet.
  exec. rewrite Hpage. exec. rewrite Hw. exec.
  rewrite all_values_length.
  assert (E : (List.length g <=? 1) = false) by (apply Nat.leb_gt; exact Hlen).
  rewrite E. exec.
  rewrite slice_empty.
  - exec. eexists. split; [reflexivity|]. exec. split; [|split; [reflexivity|]].
    + rewrite <- !app_assoc. reflexivity.
    + reflexivity.
  - rewrite length_rev.
    assert (L : List.length (tl (gsheet_utils.all_values g)) = entries g).
    { unfold entries. rewrite <- all_values_length.
      destruct (gsheet_utils.all_values g); simpl; lia. }
    rewrite L. exact Hbeyond.
Qed.

(** C5, as amended.  When the sheet answers: on a sheet without entries the
    handler renders the "no data entries" message with the post-action
    keyboard and ends the dialog, and it does not render the error message;
    on a sheet with entries, a page index whose slice is empty gets the
    answer "No more entries to display", which is shown as an alert, and
    the handler returns the pagination state with the session and the
    sheet unchanged. *)
Theorem view_last_boundaries :
  forall (from : User) (data : string) (page : nat) (w : world)
         (g : list (list pyval)),
    worksheet w = Some {| grid := g; reachable := true |} ->
    page_of data = ret page ->
    (entries g = 0 ->
     exists w',
       view_last_entries_callback (CallbackQuery from data) w = (Return END, w')
       /\ outbox w' = outbox w ++ [answer None false; fetching_notice; no_entries_render]
       /\ ~ In fetch_error_render [answer None false; fetching_notice; no_entries_render]
       /\ user_data w' = user_data w)
    /\ (0 < entries g ->
        entries g <= page * config.DEFAULT_ENTRIES_PER_PAGE_VIEW ->
        exists w',
          view_last_entries_callback (CallbackQuery from data) w
          = (Return config.VIEW_PAGINATING_ENTRIES, w')
          /\ outbox w'
             = outbox w ++ [answer None false; fetching_notice; no_more_entries_alert]
          /\ is_alert no_more_entries_alert = true
          /\ user_data w' = user_data w
          /\ worksheet w' = worksheet w
          /\ (pattern_matches (digits_after config.CB_VIEW_LAST_N_PREFIX) data = true ->
              handle_update read_conv_handler (CallbackQuery from data)
                (Some config.VIEW_PAGINATING_ENTRIES, w)
              = (Some config.VIEW_PAGINATING_ENTRIES, w'))).
Proof.
  intros from data page w g Hw Hpage. split.
  - intros He.
    destruct (view_last_on_empty_sheet from data page w g Hw Hpage)
      as (w' & E & O & U & _).
    { unfold entries in He. lia. }
    exists w'. split; [exact E|]. split; [exact O|]. split; [|exact U].
    vm_compute. intros [H|[H|[H|[]]]]; discriminate.
  - intros Hpos Hbeyond.
    destruct (view_last_beyond_last_page from data page w g Hw Hpage)
      as (w' & E & O & U & W); [unfold entries in Hpos; lia | exact Hbeyond |].
    exists w'. split; [exact E|]. split; [exact O|]. split; [reflexivity|].
    split; [exact U|]. split; [exact W|].
    intros Hm. unfold handle_update, resolve.
    cbn [handlers_of states read_conv_handler].
    change (config.VIEW_AWAITING_MENU_CHOICE =? config.VIEW_PAGINATING_ENTRIES)%Z with false.
    change (config.VIEW_AWAITING_ID_INPUT =? config.VIEW_PAGINATING_ENTRIES)%Z with false.
    change (config.VIEW_PAGINATING_ENTRIES =? config.VIEW_PAGINATING_ENTRIES)%Z with true.
    cbn [first_match check_update]. rewrite Hm. cbn [run]. rewrite E. reflexivity.
Qed.

Lemma view_last_boundaries_witness :
  worksheet sample_world = Some {| grid := sample_grid; reachable := true |}
  /\ page_of "view_last_3" = ret 3
  /\ 0 < entries sample_grid
  /\ entries sample_grid <= 3 * config.DEFAULT_ENTRIES_PER_PAGE_VIEW
  /\ exists w',
       view_last_entries_callback (CallbackQuery sara "view_last_3") sample_world
       = (Return config.VIEW_PAGINATING_ENTRIES, w')
       /\ outbox w'
          = outbox sample_world
            ++ [answer None false; fetching_notice; no_more_entries_alert].
Proof.
  assert (H1 : worksheet sample_world
               = Some {| grid := sample_grid; reachable := true |}) by reflexivity.
  assert (H2 : page_of "view_last_3" = ret 3) by reflexivity.
  assert (H3 : 0 < entries sample_grid) by (vm_compute; lia).
  assert (H4 : entries sample_grid <= 3 * config.DEFAULT_ENTRIES_PER_PAGE_VIEW)
    by (vm_compute; lia).
  split; [exact H1|]. split; [exact H2|]. split; [exact H3|]. split; [exact H4|].
  destruct (proj2 (view_last_boundaries sara "view_last_3" 3 sample_world sample_grid
                     H1 H2) H3 H4) as (w' & E & O & _).
  exists w'. split; [exact E | exact O].
Defined.

(** C5 as stated fails: beyond the last page the answer is an alert. *)
Lemma no_more_entries_is_an_alert :
  0 < entries sample_grid
  /\ slice (1 * config.DEFAULT_ENTRIES_PER_PAGE_VIEW)
           ((1 + 1) * config.DEFAULT_ENTRIES_PER_PAGE_VIEW)
           (List.rev (tl (gsheet_utils.all_values sample_grid))) = []
  /\ handle_update read_conv_handler (CallbackQuery sara "view_last_1")
       (Some config.VIEW_PAGINATING_ENTRIES, sample_world)
     = (Some config.VIEW_PAGINATING_ENTRIES,
        after_output no_more_entries_alert
          (after_output fetching_notice
             (after_output (answer None false) sample_world)))
  /\ is_alert no_more_entries_alert = true.
Proof.
  split; [vm_compute; lia|]. split; [vm_compute; reflexivity|].
  split; vm_compute; reflexivity.
Qed.

End Pagination.

(* ------------------------------------------------------------------ *)
(** ** The write of the update dialog *)

Module UpdateWrite.

(** *** Cells *)

Lemma set_nth_same v : forall i row,
  nth i (gsheet_utils.set_nth i v row) gsheet_utils.empty_cell = v.
Proof.
  induction i as [|i IH]; intros [|x row]; simpl; auto.
Qed.

Lemma set_nth_other v : forall i j row,
  i <> j ->
  nth j (gsheet_utils.set_nth i v row) gsheet_utils.empty_cell
  = nth j row gsheet_utils.empty_cell.
Proof.
  induction i as [|i IH]; intros [|j] [|x row] H; simpl; try congruence; auto.
  - destruct j; reflexivity.
  - rewrite IH by congruence. destruct j; reflexivity.
Qed.

Lemma set_cell_from_same col v : forall i g,
  nth i (gsheet_utils.set_cell_from i col v g) []
  = gsheet_utils.set_nth (col - 1) v (nth i g []).
Proof.
  induction i as [|i IH]; intros [|row g]; simpl; auto.
  rewrite IH. destruct i; reflexivity.
Qed.

Lemma set_cell_from_other col v : forall i j g,
  i <> j ->
  nth j (gsheet_utils.set_cell_from i col v g) [] = nth j g [].
Proof.
  induction i as [|i IH]; intros [|j] [|row g] H; simpl; try congruence; auto.
  - destruct j; reflexivity.
  - rewrite IH by congruence. destruct j; reflexivity.
Qed.

Lemma get_set_cell_same r c v g :
  get_cell r c (gsheet_utils.set_cell r c v g) = v.
Proof.
  unfold get_cell, gsheet_utils.set_cell, gsheet_utils.cell_at.
  rewrite set_cell_from_same. apply set_nth_same.
Qed.

Lemma get_set_cell_other r c r' c' v g :
  1 <= r -> 1 <= c -> 1 <= r' -> 1 <= c' ->
  (r', c') <> (r, c) ->
  get_cell r' c' (gsheet_utils.set_cell r c v g) = get_cell r' c' g.
Proof.
  intros Hr Hc Hr' Hc' Hne.
  unfold get_cell, gsheet_utils.set_cell, gsheet_utils.cell_at.
  destruct (Nat.eq_dec (r - 1) (r' - 1)) as [E|E].
  - rewrite <- E, set_cell_from_same. apply set_nth_other.
    intros Ec. apply Hne. f_equal; lia.
  - rewrite set_cell_from_other by exact E. reflexivity.
Qed.

(** The rows that a write does not name are the rows they were. *)
Lemma set_cell_other_row r c r' v g :
  1 <= r -> 1 <= r' -> r' <> r ->
  nth (r' - 1) (gsheet_utils.set_cell r c v g) [] = nth (r' - 1) g [].
Proof.
  intros Hr Hr' Hne. unfold gsheet_utils.set_cell.
  apply set_cell_from_other. lia.
Qed.

(** *** Headers *)

Lemma index_nth_error field : forall l i,
  gsheet_utils.index field l = Some i -> nth_error l i = Some field.
Proof.
  induction l as [|h l IH]; intros i H; simpl in H; [discriminate|].
  destruct (String.eqb_spec h field) as [->|Hne].
  - inversion H. reflexivity.
  - destruct (gsheet_utils.index field l) as [k|]; [|discriminate].
    inversion H. simpl. apply IH. reflexivity.
Qed.

Lemma index_distinct f1 f2 l i1 i2 :
  f1 <> f2 ->
  gsheet_utils.index f1 l = Some i1 -> gsheet_utils.index f2 l = Some i2 ->
  i1 <> i2.
Proof.
  intros Hne H1 H2 E. subst i2.
  apply index_nth_error in H1. apply index_nth_error in H2. congruence.
Qed.


(** *** The steps of the dialog *)

Ltac dispatch H :=
  unfold handle_update_at, handle_update; cbn [fst snd];
  rewrite H; cbn [run].

Ltac done_step :=
  eexists; split; [reflexivity|]; exec; split; [reflexivity | repeat split].

Lemma resolve_field_press from key :
  resolve update_conv_handler (Some config.UPDATE_SELECT_FIELDS_TOGGLE)
          (field_press from key) = Some cb_toggle_field_selection_callback.
Proof.
  unfold field_press, resolve.
  cbn [handlers_of states update_conv_handler first_match check_update
       pattern_matches existsb].
  change (config.UPDATE_ASK_ID =? config.UPDATE_SELECT_FIELDS_TOGGLE)%Z with false.
  change (config.UPDATE_SELECT_FIELDS_TOGGLE =? config.UPDATE_SELECT_FIELDS_TOGGLE)%Z
    with true.
  cbn [first_match check_update pattern_matches existsb].
  now rewrite after_prefix_app.
Qed.

Lemma resolve_new_location_press from L :
  resolve update_conv_handler (Some config.UPDATE_ENTER_MULTIPLE_VALUES)
          (new_location_press from L)
  = Some cb_new_value_for_product_or_location_callback.
Proof.
  unfold new_location_press, resolve.
  cbn [handlers_of states update_conv_handler first_match check_update
       pattern_matches existsb].
  change (config.UPDATE_ASK_ID =? config.UPDATE_ENTER_MULTIPLE_VALUES)%Z with false.
  change (config.UPDATE_SELECT_FIELDS_TOGGLE =? config.UPDATE_ENTER_MULTIPLE_VALUES)%Z
    with false.
  change (config.UPDATE_ENTER_MULTIPLE_VALUES =? config.UPDATE_ENTER_MULTIPLE_VALUES)%Z
    with true.
  cbn [first_match check_update pattern_matches existsb].
  rewrite after_prefix_app.
  destruct (after_prefix config.CB_UPDATE_NEWVAL_PRODUCT_PREFIX _); reflexivity.
Qed.

Section Steps.

Variables (from : User) (entry_id : string) (row_num : nat)
          (original_data : list (string * pyval)) (ud0 : UserData).

Let looked_up := session_after_lookup entry_id row_num original_data ud0.

Lemma step_toggle w t key sel :
  key = "price" \/ key = "location" ->
  user_data w = set_fields_to_update_selected_keys (Some sel) looked_up ->
  exists w',
    handle_update_at update_conv_handler (Some config.UPDATE_SELECT_FIELDS_TOGGLE, w)
      (t, field_press from key)
    = (Some config.UPDATE_SELECT_FIELDS_TOGGLE, w')
    /\ user_data w' = set_fields_to_update_selected_keys (Some (toggle key sel)) looked_up
    /\ same_sheet w w'.
Proof.
  intros Hk Hud. dispatch (resolve_field_press from key).
  unfold toggle_field_selection_callback, show_field_selection_for_update, field_press,
    looked_up, session_after_lookup in *.
  assert (E : PyStr.replace config.CB_UPDATE_FIELD_TOGGLE_PREFIX ""
                (config.CB_UPDATE_FIELD_TOGGLE_PREFIX ++ key)%string = key).
  { destruct Hk as [->| ->]; vm_compute; reflexivity. }
  exec. rewrite E.
  exec; rewrite ?Hud; exec.
  cbn [for_each UPDATABLE_FIELDS_DISPLAY_ORDER UPDATABLE_FIELDS_MAP dict_get].
  eval_eqb. exec. done_step.
Qed.

Lemma step_proceed w t sel :
  sel <> [] ->
  filter (fun key => in_list key sel) UPDATABLE_FIELDS_DISPLAY_ORDER
  = ["price"; "location"] ->
  user_data w = set_fields_to_update_selected_keys (Some sel) looked_up ->
  exists w',
    handle_update_at update_conv_handler (Some config.UPDATE_SELECT_FIELDS_TOGGLE, w)
      (t, CallbackQuery from config.CB_UPDATE_PROCEED_WITH_SELECTION)
    = (Some config.UPDATE_ENTER_MULTIPLE_VALUES, w')
    /\ user_data w'
       = set_current_field_being_updated_key (Some "price")
           (set_update_fields_queue (Some ["price"; "location"])
              (set_fields_to_update_selected_keys (Some sel) looked_up))
    /\ same_sheet w w'.
Proof.
  intros Hne Hq Hud.
  assert (R : resolve update_conv_handler (Some config.UPDATE_SELECT_FIELDS_TOGGLE)
                (CallbackQuery from config.CB_UPDATE_PROCEED_WITH_SELECTION)
              = Some cb_proceed_with_selected_fields_callback) by (vm_compute; reflexivity).
  dispatch R.
  unfold proceed_with_selected_fields_callback, ask_for_next_field_value,
    looked_up, session_after_lookup in *.
  exec; rewrite ?Hud; exec.
  destruct sel as [|k sel]; [congruence|].
  exec. rewrite Hq. exec; rewrite ?Hud; exec.
  cbn [dict_get UPDATABLE_FIELDS_MAP]. eval_eqb. exec.
  done_step.
Qed.

Lemma step_new_price w t sel price_text x :
  parse_price price_text = Some x ->
  user_data w
  = set_current_field_being_updated_key (Some "price")
      (set_update_fields_queue (Some ["price"; "location"])
         (set_fields_to_update_selected_keys (Some sel) looked_up)) ->
  exists w',
    handle_update_at update_conv_handler (Some config.UPDATE_ENTER_MULTIPLE_VALUES, w)
      (t, Message from price_text)
    = (Some config.UPDATE_ENTER_MULTIPLE_VALUES, w')
    /\ user_data w'
       = set_current_field_being_updated_key (Some "location")
           (set_update_fields_queue (Some ["location"])
              (set_new_values_for_update_map (Some [(config.PRICE_FIELD, PyFloat x)])
                 (set_fields_to_update_selected_keys (Some sel) looked_up)))
    /\ same_sheet w w'.
Proof.
  intros Hp Hud.
  assert (R : resolve update_conv_handler (Some config.UPDATE_ENTER_MULTIPLE_VALUES)
                (Message from price_text)
              = Some cb_new_value_for_text_field_received) by (vm_compute; reflexivity).
  dispatch R.
  unfold new_value_for_text_field_received, store_new_value, ask_for_next_field_value,
    looked_up, session_after_lookup in *.
  exec; rewrite ?Hud; exec. eval_eqb. rewrite Hp.
  go_with Hud. done_step.
Qed.

Lemma step_new_location w t sel L x :
  user_data w
  = set_current_field_being_updated_key (Some "location")
      (set_update_fields_queue (Some ["location"])
         (set_new_values_for_update_map (Some [(config.PRICE_FIELD, PyFloat x)])
            (set_fields_to_update_selected_keys (Some sel) looked_up))) ->
  exists w',
    handle_update_at update_conv_handler (Some config.UPDATE_ENTER_MULTIPLE_VALUES, w)
      (t, new_location_press from L)
    = (Some config.UPDATE_CONFIRM_MULTIPLE, w')
    /\ new_values_for_update_map (user_data w')
       = Some [(config.PRICE_FIELD, PyFloat x);
               (config.LOCATION_FIELD, PyStr (updated_location L))]
    /\ update_row_num (user_data w') = Some row_num
    /\ update_entry_id (user_data w') = Some entry_id
    /\ same_sheet w w'.
Proof.
  intros Hud. dispatch (resolve_new_location_press from L).
  unfold new_value_for_product_or_location_callback, store_new_value,
    ask_for_next_field_value, confirm_multiple_changes, new_location_press,
    looked_up, session_after_lookup in *.
  go_with Hud.
  eexists. split; [reflexivity|]. exec. unfold updated_location. repeat split.
Qed.

End Steps.

Lemma step_execute w t from x name row_num entry_id ip il it g :
  worksheet w = Some {| grid := g; reachable := true |} ->
  gsheet_utils.index config.PRICE_FIELD (HEADERS w) = Some ip ->
  gsheet_utils.index config.LOCATION_FIELD (HEADERS w) = Some il ->
  gsheet_utils.index config.TIMESTAMP_FIELD (HEADERS w) = Some it ->
  new_values_for_update_map (user_data w)
  = Some [(config.PRICE_FIELD, PyFloat x); (config.LOCATION_FIELD, PyStr name)] ->
  update_row_num (user_data w) = Some row_num ->
  update_entry_id (user_data w) = Some entry_id ->
  exists w',
    handle_update_at update_conv_handler (Some config.UPDATE_CONFIRM_MULTIPLE, w)
      (t, CallbackQuery from config.CB_UPDATE_EXECUTE_CONFIRMED)
    = (None, w')
    /\ user_data w' = empty_user_data
    /\ worksheet w'
       = Some {| grid :=
                   gsheet_utils.set_cell row_num (it + 1) (PyStr (isoformat t))
                     (gsheet_utils.set_cell row_num (il + 1) (PyStr name)
                        (gsheet_utils.set_cell row_num (ip + 1) (PyFloat x) g));
                 reachable := true |}.
Proof.
  intros Hw Hip Hil Hit Hnv Hr He.
  assert (R : resolve update_conv_handler (Some config.UPDATE_CONFIRM_MULTIPLE)
                (CallbackQuery from config.CB_UPDATE_EXECUTE_CONFIRMED)
              = Some cb_execute_multiple_updates) by (vm_compute; reflexivity).
  dispatch R.
  unfold execute_multiple_updates, gsheet_utils.worksheet_batch_update,
    gsheet_utils.call_worksheet.
  exec. rewrite Hr. exec. rewrite Hnv. exec.
  cbn [gsheet_utils.filter_map fst snd]. rewrite Hip, Hil, Hit.
  cbn [app]. exec. rewrite Hw. exec. rewrite He. exec.
  eexists. split; [reflexivity|]. exec. split; reflexivity.
Qed.


(** The lookup that opens the checklist: when the sheet is ready and holds
    the id, [ask_id_received] leaves the session of [session_after_lookup]
    with the number of the row that [find] returned. *)
Lemma ask_id_received_found w from id_text g i r :
  GSHEET_CONNECTED w = true ->
  worksheet w = Some {| grid := g; reachable := true |} ->
  gsheet_utils.index config.ID_FIELD (HEADERS w) = Some i ->
  PyStr.strip id_text <> "" ->
  gsheet_utils.find (PyStr.strip id_text) (i + 1) g = Some r ->
  gsheet_utils.row_values r g <> [] ->
  update_original_data (user_data w) = None ->
  exists w',
    ask_id_received (Message from id_text) w
    = (Return config.UPDATE_SELECT_FIELDS_TOGGLE, w')
    /\ user_data w'
       = session_after_lookup (PyStr.strip id_text) r
           (dict_of (combine (HEADERS w) (gsheet_utils.row_values r g))) (user_data w)
    /\ worksheet w' = worksheet w.
Proof.
  intros Hc Hw Hi Hne Hf Hrow Hod.
  unfold ask_id_received, gsheet_utils.find_row_by_id, gsheet_utils.initialized,
    gsheet_utils.connected, gsheet_utils.worksheet_find,
    gsheet_utils.worksheet_row_values, gsheet_utils.call_worksheet,
    show_field_selection_for_update, session_after_lookup.
  exec. rewrite Hc, Hw. exec.
  destruct (HEADERS w) as [|h hs] eqn:Hh; [discriminate|].
  cbn [List.length Nat.eqb negb].
  destruct (String.eqb_spec (PyStr.strip id_text) "") as [E|_]; [contradiction|].
  rewrite Hi. exec. rewrite Hf. exec.
  destruct (gsheet_utils.row_values r g) as [|c cs] eqn:Hrv; [contradiction|].
  exec. rewrite Hh. exec.
  cbn [for_each UPDATABLE_FIELDS_DISPLAY_ORDER UPDATABLE_FIELDS_MAP dict_get].
  eval_eqb. exec.
  eexists. split; [reflexivity|]. exec. split; reflexivity.
Qed.

(** C6.  In the update dialog, for a user who ticks exactly the fields
    price and location (in either order), proceeds, types a valid new
    price and chooses a new location, and confirms: the write that the
    sheet receives sets the price cell, the location cell and the
    timestamp cell of the row found at the lookup, and every other cell of
    the sheet, in particular the product cell and the remark cell of that
    row and every other row, is what it was. *)
Theorem update_of_price_and_location_writes_three_cells :
  forall (w0 : world) (from : User) (times : nat -> datetime)
         (first second price_text L entry_id : string) (x : PyFloat.float)
         (row_num : nat) (original_data : list (string * pyval)) (ud0 : UserData)
         (g : list (list pyval)) (ip il it : nat),
    (first = "price" /\ second = "location")
    \/ (first = "location" /\ second = "price") ->
    PyFloat.of_string price_text = Some x ->
    PyFloat.leb x PyFloat.zero = false ->
    1 <= row_num ->
    user_data w0 = session_after_lookup entry_id row_num original_data ud0 ->
    worksheet w0 = Some {| grid := g; reachable := true |} ->
    gsheet_utils.index config.PRICE_FIELD (HEADERS w0) = Some ip ->
    gsheet_utils.index config.LOCATION_FIELD (HEADERS w0) = Some il ->
    gsheet_utils.index config.TIMESTAMP_FIELD (HEADERS w0) = Some it ->
    exists w',
      handle_updates update_conv_handler (Some config.UPDATE_SELECT_FIELDS_TOGGLE, w0)
        (price_and_location_update from times first second price_text L)
      = (None, w')
      /\ get_cell row_num (ip + 1) (sheet_rows w') = PyFloat x
      /\ get_cell row_num (il + 1) (sheet_rows w') = PyStr (updated_location L)
      /\ get_cell row_num (it + 1) (sheet_rows w') = PyStr (isoformat (times 5))
      /\ (forall r c,
             1 <= r -> 1 <= c ->
             (r, c) <> (row_num, ip + 1) ->
             (r, c) <> (row_num, il + 1) ->
             (r, c) <> (row_num, it + 1) ->
             get_cell r c (sheet_rows w') = get_cell r c g)
      /\ (forall i,
             gsheet_utils.index config.PRODUCT_FIELD (HEADERS w0) = Some i ->
             get_cell row_num (i + 1) (sheet_rows w') = get_cell row_num (i + 1) g)
      /\ (forall i,
             gsheet_utils.index config.REMARK_FIELD (HEADERS w0) = Some i ->
             get_cell row_num (i + 1) (sheet_rows w') = get_cell row_num (i + 1) g)
      /\ (forall r, 1 <= r -> r <> row_num ->
                    nth (r - 1) (sheet_rows w') [] = nth (r - 1) g []).
Proof.
  intros w0 from times first second price_text L entry_id x row_num original_data ud0
         g ip il it Horder Hparse Hpos Hrow Hud Hw Hip Hil Hit.
  assert (Hp : parse_price price_text = Some x).
  { unfold parse_price. now rewrite Hparse, Hpos. }
  unfold handle_updates, price_and_location_update. cbn [fold_left].
  assert (Hk1 : first = "price" \/ first = "location") by tauto.
  assert (Hk2 : second = "price" \/ second = "location") by tauto.
  destruct (step_toggle from entry_id row_num original_data ud0 w0 (times 0) first []
              Hk1 Hud) as (w1 & E1 & U1 & S1). rewrite E1.
  destruct (step_toggle from entry_id row_num original_data ud0 w1 (times 1) second _
              Hk2 U1) as (w2 & E2 & U2 & S2). rewrite E2.
  assert (Hsel : toggle second (toggle first []) <> []
                 /\ filter (fun key => in_list key (toggle second (toggle first [])))
                           UPDATABLE_FIELDS_DISPLAY_ORDER = ["price"; "location"]).
  { destruct Horder as [[-> ->]|[-> ->]]; split; vm_compute; congruence. }
  destruct Hsel as [Hne Hq].
  destruct (step_proceed from entry_id row_num original_data ud0 w2 (times 2) _
              Hne Hq U2) as (w3 & E3 & U3 & S3). rewrite E3.
  destruct (step_new_price from entry_id row_num original_data ud0 w3 (times 3) _
              price_text x Hp U3) as (w4 & E4 & U4 & S4). rewrite E4.
  destruct (step_new_location from entry_id row_num original_data ud0 w4 (times 4) _
              L x U4) as (w5 & E5 & N5 & R5 & I5 & S5). rewrite E5.
  assert (S : same_sheet w0 w5).
  { repeat (eapply same_sheet_trans; [eassumption|]). apply same_sheet_refl. }
  destruct S as (_ & Sw & Sh & _ & _).
  rewrite <- Sh in Hip, Hil, Hit. rewrite <- Sw in Hw.
  destruct (step_execute w5 (times 5) from x _ row_num entry_id ip il it g
              Hw Hip Hil Hit N5 R5 I5) as (w' & E & U & W).
  exists w'. split; [exact E|].
  unfold sheet_rows. rewrite W. cbn [grid].
  rewrite Sh in Hip, Hil, Hit.
  assert (Dpl : ip <> il).
  { eapply index_distinct; [|exact Hip|exact Hil]. discriminate. }
  assert (Dpt : ip <> it).
  { eapply index_distinct; [|exact Hip|exact Hit]. discriminate. }
  assert (Dlt : il <> it).
  { eapply index_distinct; [|exact Hil|exact Hit]. discriminate. }
  assert (Frame : forall r c,
             1 <= r -> 1 <= c ->
             (r, c) <> (row_num, ip + 1) ->
             (r, c) <> (row_num, il + 1) ->
             (r, c) <> (row_num, it + 1) ->
             get_cell r c
               (gsheet_utils.set_cell row_num (it + 1) (PyStr (isoformat (times 5)))
                  (gsheet_utils.set_cell row_num (il + 1) (PyStr (updated_location L))
                     (gsheet_utils.set_cell row_num (ip + 1) (PyFloat x) g)))
             = get_cell r c g).
  { intros r c Hr Hc N1 N2 N3.
    rewrite !get_set_cell_other by (try assumption; lia). reflexivity. }
  split; [|split; [|split; [|split; [|split; [|split]]]]].
  - rewrite !get_set_cell_other
      by (try lia; intros Heq; inversion Heq; lia).
    apply get_set_cell_same.
  - rewrite get_set_cell_other by (try lia; intros Heq; inversion Heq; lia).
    apply get_set_cell_same.
  - apply get_set_cell_same.
  - exact Frame.
  - intros i Hi. apply Frame; try lia; intros Heq; inversion Heq.
    + assert (i <> ip) by (eapply index_distinct; [|exact Hi|exact Hip]; discriminate).
      lia.
    + assert (i <> il) by (eapply index_distinct; [|exact Hi|exact Hil]; discriminate).
      lia.
    + assert (i <> it) by (eapply index_distinct; [|exact Hi|exact Hit]; discriminate).
      lia.
  - intros i Hi. apply Frame; try lia; intros Heq; inversion Heq.
    + assert (i <> ip) by (eapply index_distinct; [|exact Hi|exact Hip]; discriminate).
      lia.
    + assert (i <> il) by (eapply index_distinct; [|exact Hi|exact Hil]; discriminate).
      lia.
    + assert (i <> it) by (eapply index_distinct; [|exact Hi|exact Hit]; discriminate).
      lia.
  - intros r Hr Hne'. rewrite !set_cell_other_row by assumption. reflexivity.
Qed.

Lemma update_of_price_and_location_witness :
  (("location" = "price" /\ "price" = "location")
   \/ ("location" = "location" /\ "price" = "price"))
  /\ PyFloat.of_string "135" = Some new_price
  /\ PyFloat.leb new_price PyFloat.zero = false
  /\ 1 <= 3
  /\ exists w',
       handle_updates update_conv_handler
         (Some config.UPDATE_SELECT_FIELDS_TOGGLE, update_world)
         (price_and_location_update sara at_time_of "location" "price" "135"
            "Distribution Center 2 Garment")
       = (None, w')
       /\ get_cell 3 5 (sheet_rows w') = PyFloat new_price
       /\ get_cell 3 4 (sheet_rows w') = get_cell 3 4 sample_grid.
Proof.
  assert (H0 : ("location" = "price" /\ "price" = "location")
               \/ ("location" = "location" /\ "price" = "price")) by (right; split; reflexivity).
  assert (H1 : PyFloat.of_string "135" = Some new_price) by (vm_compute; reflexivity).
  assert (H2 : PyFloat.leb new_price PyFloat.zero = false) by (vm_compute; reflexivity).
  assert (H3 : 1 <= 3) by lia.
  split; [exact H0|]. split; [exact H1|]. split; [exact H2|]. split; [exact H3|].
  destruct (update_of_price_and_location_writes_three_cells
              update_world sara at_time_of "location" "price" "135"
              "Distribution Center 2 Garment" "e-2" new_price 3
              (dict_of (combine config.DEFAULT_HEADERS (nth 2 sample_grid [])))
              empty_user_data sample_grid 4 5 1
              H0 H1 H2 H3 eq_refl eq_refl eq_refl eq_refl eq_refl)
    as (w' & E & C1 & _ & _ & _ & C5 & _).
  exists w'. split; [exact E|]. split; [exact C1|].
  exact (C5 3 eq_refl).
Defined.

End UpdateWrite.

(* ------------------------------------------------------------------ *)
(** ** The commit handlers and a write that fails *)

Module CommitStage.

Lemma for_each_returns {A B} (f : A -> M B) :
  (forall a w, exists b w', f a w = (Return b, w')) ->
  forall l w, exists bs w', for_each f l w = (Return bs, w').
Proof.
  intros Hf; induction l as [|a l IH]; intros w; cbn [for_each]; [exec; eauto|].
  unfold bind at 1. destruct (Hf a w) as (b & w1 & E); rewrite E.
  unfold bind. destruct (IH w1) as (bs & w2 & E2); rewrite E2. exec. eauto.
Qed.

Lemma append_rows_to_sheet_returns rows w :
  exists b w', gsheet_utils.append_rows_to_sheet rows w = (Return b, w').
Proof.
  unfold gsheet_utils.append_rows_to_sheet, gsheet_utils.worksheet_append_rows,
    gsheet_utils.call_worksheet.
  destruct (gsheet_utils.connected w); exec; [|eauto].
  destruct rows as [|row rows]; [eauto|]. exec.
  destruct (worksheet w) as [[g r]|]; exec; [destruct r; exec|]; eauto.
Qed.

Lemma delete_row_from_sheet_returns r w :
  exists b w', gsheet_utils.delete_row_from_sheet r w = (Return b, w').
Proof.
  unfold gsheet_utils.delete_row_from_sheet, gsheet_utils.worksheet_delete_rows,
    gsheet_utils.call_worksheet.
  destruct (gsheet_utils.connected w); exec; [|eauto].
  destruct (worksheet w) as [[g b]|]; exec; [destruct b; exec|]; eauto.
Qed.

(** Whatever the append reports, the single submit ends and clears. *)
Lemma submit_single_ends_and_clears from data w :
  ends_and_clears (submit_single_entry_data (CallbackQuery from data) w).
Proof.
  unfold ends_and_clears, submit_single_entry_data. exec.
  destruct (current_entry (user_data w)); exec;
    match goal with
    | |- context [gsheet_utils.append_rows_to_sheet ?rows ?w1] =>
        destruct (append_rows_to_sheet_returns rows w1) as (b & w' & E);
        rewrite E
    end; exec; split; reflexivity.
Qed.

(** So does the batch submit. *)
Lemma submit_batch_ends_and_clears from data w :
  ends_and_clears (submit_batch_data (CallbackQuery from data) w).
Proof.
  unfold ends_and_clears, submit_batch_data. exec.
  match goal with
  | |- context [for_each ?f ?l ?w1] =>
      let Hf := fresh in
      assert (Hf : forall a w0, exists b w', f a w0 = (Return b, w')) by (intros; eauto);
      destruct (for_each_returns f Hf l w1) as (rows & w2 & E); clear Hf; rewrite E
  end.
  exec.
  destruct (append_rows_to_sheet_returns rows w2) as (b & w' & E'); rewrite E'.
  exec. split; reflexivity.
Qed.

(** And the confirmation of a delete, whose session holds the row and the
    identifier since the lookup. *)
Lemma confirm_delete_ends_and_clears from data w row_num entry_id :
  delete_row_num (user_data w) = Some row_num ->
  delete_entry_id (user_data w) = Some entry_id ->
  ends_and_clears (confirm_delete_callback (CallbackQuery from data) w).
Proof.
  intros Hr Hi. unfold ends_and_clears, confirm_delete_callback. exec.
  destruct (data =? config.CB_DELETE_CONFIRM_YES)%string; exec;
    [|split; reflexivity].
  rewrite Hr; exec. rewrite Hi; exec.
  match goal with
  | |- context [gsheet_utils.delete_row_from_sheet ?r ?w1] =>
      destruct (delete_row_from_sheet_returns r w1) as (b & w' & E); rewrite E
  end.
  destruct b; exec; split; reflexivity.
Qed.

(** The update confirmation ends and clears when the sheet answers. *)
Lemma execute_ends_and_clears_when_the_sheet_answers from data w g row_num new_values entry_id :
  worksheet w = Some {| grid := g; reachable := true |} ->
  update_row_num (user_data w) = Some row_num ->
  new_values_for_update_map (user_data w) = Some new_values ->
  update_entry_id (user_data w) = Some entry_id ->
  ends_and_clears (execute_multiple_updates (CallbackQuery from data) w).
Proof.
  intros Hw Hr Hn Hi. unfold ends_and_clears, execute_multiple_updates. exec.
  rewrite Hr; exec. rewrite Hn; exec.
  match goal with
  | |- context [gsheet_utils.worksheet_batch_update ?ops] => destruct ops
  end; exec; rewrite ?Hi; exec; [split; reflexivity|].
  unfold gsheet_utils.worksheet_batch_update, gsheet_utils.call_worksheet.
  exec. rewrite Hw. exec. split; reflexivity.
Qed.

(** C7, the code against the claim.  At the final confirmation of an
    update, with a new price and a new location pending and a sheet service
    that does not answer the write, [execute_multiple_updates] raises the
    error of the write: the session is still the pending one, the dialog
    stays at the confirmation, and the last thing the user saw is the
    notice that the updates are being applied.  (The submit of a single
    entry in the same world ends the dialog and clears the session.) *)
Theorem update_confirmation_escapes_on_a_failed_write :
  let r := execute_multiple_updates execute_press failing_write_world in
  fst r = Raise APIError
  /\ user_data (snd r) = pending_update
  /\ pending_update <> empty_user_data
  /\ last_text (snd r) = Some (pic ++ " Applying updates...")%string
  /\ fst (handle_update update_conv_handler execute_press
            (Some config.UPDATE_CONFIRM_MULTIPLE, failing_write_world))
     = Some config.UPDATE_CONFIRM_MULTIPLE
  /\ ends_and_clears
       (submit_single_entry_data
          (CallbackQuery sara config.CB_CREATE_SINGLE_SUBMIT_FINAL) failing_write_world).
Proof.
  cbv zeta. split; [|split; [|split; [|split; [|split]]]].
  - vm_compute; reflexivity.
  - vm_compute; reflexivity.
  - vm_compute; discriminate.
  - vm_compute; reflexivity.
  - vm_compute; reflexivity.
  - split; vm_compute; reflexivity.
Qed.

End CommitStage.

(* ------------------------------------------------------------------ *)
(** ** The store is not ready *)

Module Readiness.

#[local] Opaque String.append PyStr.strip PyStr.replace PyStr.str_of_int
  escape_markdown_v2 keyboards._escape_markdown_v2_keyboards
  keyboards.build_post_action_keyboard.

Lemma store_untouched_refl w : store_untouched w w.
Proof. split; reflexivity. Qed.

Lemma store_untouched_trans a b c :
  store_untouched a b -> store_untouched b c -> store_untouched a c.
Proof. intros [? ?] [? ?]; split; congruence. Qed.

Lemma connected_untouched w w' :
  store_untouched w w' -> gsheet_utils.connected w' = gsheet_utils.connected w.
Proof. intros [Hc Hs]. unfold gsheet_utils.connected. rewrite Hc, Hs. reflexivity. Qed.

Lemma not_connected_not_initialized w :
  gsheet_utils.connected w = false -> gsheet_utils.initialized w = false.
Proof. intros H. unfold gsheet_utils.initialized. rewrite H. reflexivity. Qed.

Lemma last_text_after w l o :
  outbox w = l ++ [o] -> last_text w = text_of o.
Proof.
  intros H. unfold last_text. rewrite H.
  destruct l as [|o' l]; [reflexivity|].
  cbn [app]. rewrite app_comm_cons, last_last. reflexivity.
Qed.

(** The rows of a batch are built without touching the store. *)
Lemma for_each_keeps {A B} (f : A -> M B) :
  (forall a w, exists b w', f a w = (Return b, w') /\ store_untouched w w') ->
  forall l w, exists bs w', for_each f l w = (Return bs, w') /\ store_untouched w w'.
Proof.
  intros Hf; induction l as [|a l IH]; intros w; cbn [for_each].
  - exec. eauto using store_untouched_refl.
  - unfold bind at 1. destruct (Hf a w) as (b & w1 & E & U1); rewrite E.
    unfold bind. destruct (IH w1) as (bs & w2 & E2 & U2); rewrite E2. exec.
    eauto using store_untouched_trans.
Qed.

(** *** The operations of [gsheet_utils] *)

Lemma find_row_by_id_not_ready entry_id w :
  gsheet_utils.initialized w = false ->
  gsheet_utils.find_row_by_id entry_id w = (Return (None, None), w).
Proof. intros H. unfold gsheet_utils.find_row_by_id. rewrite H. reflexivity. Qed.

Lemma get_all_data_for_insights_not_ready w :
  gsheet_utils.initialized w = false ->
  gsheet_utils.get_all_data_for_insights w = (Return [], w).
Proof. intros H. unfold gsheet_utils.get_all_data_for_insights. rewrite H. reflexivity. Qed.

Lemma append_rows_to_sheet_not_ready rows w :
  gsheet_utils.connected w = false ->
  gsheet_utils.append_rows_to_sheet rows w = (Return false, w).
Proof. intros H. unfold gsheet_utils.append_rows_to_sheet. rewrite H. reflexivity. Qed.

Lemma update_cell_in_sheet_not_ready r c v w :
  gsheet_utils.connected w = false ->
  gsheet_utils.update_cell_in_sheet r c v w = (Return false, w).
Proof. intros H. unfold gsheet_utils.update_cell_in_sheet. rewrite H. reflexivity. Qed.

Lemma delete_row_from_sheet_not_ready r w :
  gsheet_utils.connected w = false ->
  gsheet_utils.delete_row_from_sheet r w = (Return false, w).
Proof. intros H. unfold gsheet_utils.delete_row_from_sheet. rewrite H. reflexivity. Qed.

(** *** The handlers built on them *)

Ltac finish :=
  unfold ends_with; cbn [fst snd]; exec;
  split; [reflexivity|]; split; [reflexivity|];
  split; [first [apply store_untouched_refl | assumption | split; reflexivity]|];
  erewrite last_text_after by (exec; reflexivity); reflexivity.

Lemma handle_id_for_view_not_ready from text w :
  gsheet_utils.initialized w = false ->
  ends_with (view_not_found (PyStr.strip text)) w (handle_id_for_view (Message from text) w).
Proof.
  intros H. unfold handle_id_for_view. exec.
  rewrite (find_row_by_id_not_ready _ _ H). finish.
Qed.

Lemma ask_id_received_not_ready from text w :
  gsheet_utils.initialized w = false ->
  ask_id_received (Message from text) w
  = (Return config.UPDATE_ASK_ID, after_output (update_not_found (PyStr.strip text)) w).
Proof.
  intros H. unfold ask_id_received. exec.
  rewrite (find_row_by_id_not_ready _ _ H). reflexivity.
Qed.

Lemma ask_id_received_for_delete_not_ready from text w :
  gsheet_utils.initialized w = false ->
  ask_id_received_for_delete (Message from text) w
  = (Return config.DELETE_ASK_ID, after_output (delete_not_found (PyStr.strip text)) w).
Proof.
  intros H. unfold ask_id_received_for_delete. exec.
  rewrite (find_row_by_id_not_ready _ _ H). reflexivity.
Qed.

Lemma insights_not_ready from data w :
  gsheet_utils.initialized w = false ->
  (PyStr.replace config.CB_INSIGHTS_PREFIX "" data =? "cancel")%string = false ->
  ends_with no_insights_data w (insights_menu_callback (CallbackQuery from data) w).
Proof.
  intros H Hc. unfold insights_menu_callback. exec. rewrite Hc. exec.
  match goal with
  | |- context [gsheet_utils.get_all_data_for_insights ?w1] =>
      rewrite (get_all_data_for_insights_not_ready w1) by exact H
  end.
  finish.
Qed.

Lemma submit_single_not_ready from data w :
  gsheet_utils.connected w = false ->
  ends_with single_submit_failed w (submit_single_entry_data (CallbackQuery from data) w).
Proof.
  intros H. unfold submit_single_entry_data. exec.
  destruct (current_entry (user_data w)); exec;
    match goal with
    | |- context [gsheet_utils.append_rows_to_sheet ?rows ?w1] =>
        rewrite (append_rows_to_sheet_not_ready rows w1) by exact H
    end; finish.
Qed.

Lemma submit_batch_not_ready from data w :
  gsheet_utils.connected w = false ->
  ends_with batch_submit_failed w (submit_batch_data (CallbackQuery from data) w).
Proof.
  intros H. unfold submit_batch_data. exec.
  match goal with
  | |- context [for_each ?f ?l ?w1] =>
      let Hf := fresh in
      assert (Hf : forall a w0, exists b w',
                 f a w0 = (Return b, w') /\ store_untouched w0 w')
        by (intros; eexists; eexists; split; [reflexivity | split; reflexivity]);
      destruct (for_each_keeps f Hf l w1) as (rows & w2 & E & U); clear Hf; rewrite E
  end.
  exec.
  assert (U' : store_untouched w w2)
    by (eapply store_untouched_trans; [|exact U]; split; reflexivity).
  rewrite (append_rows_to_sheet_not_ready rows w2)
    by (rewrite (connected_untouched _ _ U'); exact H).
  finish.
Qed.

Lemma confirm_delete_not_ready from w row_num entry_id :
  gsheet_utils.connected w = false ->
  delete_row_num (user_data w) = Some row_num ->
  delete_entry_id (user_data w) = Some entry_id ->
  ends_with delete_failed w
    (confirm_delete_callback (CallbackQuery from config.CB_DELETE_CONFIRM_YES) w).
Proof.
  intros H Hr Hi. unfold confirm_delete_callback. exec.
  rewrite String.eqb_refl. exec. rewrite Hr; exec. rewrite Hi; exec.
  match goal with
  | |- context [gsheet_utils.delete_row_from_sheet ?r ?w1] =>
      rewrite (delete_row_from_sheet_not_ready r w1) by exact H
  end.
  finish.
Qed.

(** C8, as the code has it.  Each operation of [gsheet_utils] tests its
    readiness first and, when the test fails, returns its failure value
    with the world as it was: the store is not invoked and nothing is
    raised.  The handlers built on them then render a message and raise
    nothing: the view by id, the insights report, the two submits and the
    confirmed delete end the dialog with an empty session, while the id
    lookups of the update and delete dialogs report that no entry was found
    and return their own ask-id state. *)
Theorem readiness_failure_is_reported_without_raising
    (w : world) (from : User) (text data : string) :
  (gsheet_utils.initialized w = false ->
     (forall entry_id, gsheet_utils.find_row_by_id entry_id w = (Return (None, None), w))
     /\ gsheet_utils.get_all_data_for_insights w = (Return [], w)
     /\ ends_with (view_not_found (PyStr.strip text)) w
          (handle_id_for_view (Message from text) w)
     /\ ((PyStr.replace config.CB_INSIGHTS_PREFIX "" data =? "cancel")%string = false ->
         ends_with no_insights_data w (insights_menu_callback (CallbackQuery from data) w))
     /\ ask_id_received (Message from text) w
        = (Return config.UPDATE_ASK_ID,
           after_output (update_not_found (PyStr.strip text)) w)
     /\ ask_id_received_for_delete (Message from text) w
        = (Return config.DELETE_ASK_ID,
           after_output (delete_not_found (PyStr.strip text)) w))
  /\ (gsheet_utils.connected w = false ->
     (forall rows, gsheet_utils.append_rows_to_sheet rows w = (Return false, w))
     /\ (forall r c v, gsheet_utils.update_cell_in_sheet r c v w = (Return false, w))
     /\ (forall r, gsheet_utils.delete_row_from_sheet r w = (Return false, w))
     /\ ends_with single_submit_failed w
          (submit_single_entry_data (CallbackQuery from data) w)
     /\ ends_with batch_submit_failed w
          (submit_batch_data (CallbackQuery from data) w)
     /\ (forall row_num entry_id,
           delete_row_num (user_data w) = Some row_num ->
           delete_entry_id (user_data w) = Some entry_id ->
           ends_with delete_failed w
             (confirm_delete_callback (CallbackQuery from config.CB_DELETE_CONFIRM_YES) w))).
Proof.
  split; intros H.
  - split; [intros; apply find_row_by_id_not_ready, H|].
    split; [apply get_all_data_for_insights_not_ready, H|].
    split; [apply handle_id_for_view_not_ready, H|].
    split; [intros Hc; apply insights_not_ready; assumption|].
    split; [apply ask_id_received_not_ready, H|].
    apply ask_id_received_for_delete_not_ready, H.
  - split; [intros; apply append_rows_to_sheet_not_ready, H|].
    split; [intros; apply update_cell_in_sheet_not_ready, H|].
    split; [intros; apply delete_row_from_sheet_not_ready, H|].
    split; [apply submit_single_not_ready, H|].
    split; [apply submit_batch_not_ready, H|].
    intros; eapply confirm_delete_not_ready; eassumption.
Qed.

(** The theorem at the bot whose connection failed at start-up, for the
    text [e-1] and the press on the submit of a single entry. *)
Lemma readiness_failure_witness :
  gsheet_utils.initialized offline_world = false
  /\ gsheet_utils.connected offline_world = false
  /\ ask_id_received (Message abebe " e-1 ") offline_world
     = (Return config.UPDATE_ASK_ID,
        after_output (update_not_found (PyStr.strip " e-1 ")) offline_world)
  /\ ends_with single_submit_failed offline_world
       (submit_single_entry_data
          (CallbackQuery abebe config.CB_CREATE_SINGLE_SUBMIT_FINAL) offline_world).
Proof.
  pose proof (readiness_failure_is_reported_without_raising offline_world abebe " e-1 "
                config.CB_CREATE_SINGLE_SUBMIT_FINAL) as [Hi Hc].
  split; [reflexivity|]. split; [reflexivity|].
  split.
  - apply Hi. reflexivity.
  - apply Hc. reflexivity.
Defined.

(** C8, the claim as worded against the code: with the store absent, the
    id that the user sends in the update dialog is answered by the request
    to try again, and the dialog is still at its ask-id state; it has not
    ended. *)
Lemma update_lookup_asks_again_when_the_store_is_absent :
  gsheet_utils.initialized offline_world = false
  /\ fst (ask_id_received (Message abebe "e-1") offline_world) = Return config.UPDATE_ASK_ID
  /\ config.UPDATE_ASK_ID <> END
  /\ handle_update update_conv_handler (Message abebe "e-1")
       (Some config.UPDATE_ASK_ID, offline_world)
     = (Some config.UPDATE_ASK_ID,
        after_output (update_not_found "e-1") offline_world).
Proof.
  split; [reflexivity|]. split; [vm_compute; reflexivity|].
  split; [discriminate|]. vm_compute; reflexivity.
Qed.

End Readiness.

(* ------------------------------------------------------------------ *)
(** ** The insights computation *)

Module Insights.

Import gsheet_utils.

(** *** The filter *)

(** The test [price_float <= 0] lets through the strictly positive values
    and the value that is not a number, and nothing else. *)
Lemma passes_the_price_test x :
  PyFloat.leb x PyFloat.zero = false
  <-> PyFloat.ltb PyFloat.zero x = true \/ x = S754_nan.
Proof.
  destruct x as [s|s| |s m e]; try destruct s; cbn;
    split; intros H; try discriminate; auto;
    destruct H; discriminate.
Qed.

(** A record is kept exactly when it has a product and a location that are
    not empty and a price that is not [None], parses, and passes the test;
    the names of the kept item are the cleaned ones. *)
Lemma process_record_keeps record it :
  process_record record = Some it
  <-> exists p l raw x,
        dict_get config.PRODUCT_FIELD record = Some p
        /\ dict_get config.LOCATION_FIELD record = Some l
        /\ dict_get config.PRICE_FIELD record = Some raw
        /\ truthy p = true /\ truthy l = true /\ raw <> PyNone
        /\ price_of_raw raw = Some x
        /\ PyFloat.leb x PyFloat.zero = false
        /\ it = {| item_product := _clean_and_capitalize_text p;
                   item_location := _clean_and_capitalize_text l;
                   item_price := x |}.
Proof.
  unfold process_record. split.
  - destruct (dict_get config.PRODUCT_FIELD record) as [p|]; [|discriminate].
    destruct (dict_get config.LOCATION_FIELD record) as [l|]; [|discriminate].
    destruct (dict_get config.PRICE_FIELD record) as [raw|]; [|discriminate].
    destruct (truthy p) eqn:Hp; [|discriminate].
    destruct (truthy l) eqn:Hl; [|discriminate]. cbn [negb orb].
    destruct (match raw with PyNone => true | _ => false end) eqn:Hraw; [discriminate|].
    destruct (price_of_raw raw) as [x|] eqn:Hparse; [|discriminate].
    destruct (PyFloat.leb x PyFloat.zero) eqn:Hx; [discriminate|].
    intros [= <-]. exists p, l, raw, x.
    repeat (split; [first [reflexivity | assumption]|]).
    split; [intros ->; discriminate|]. auto.
  - intros (p & l & raw & x & -> & -> & -> & -> & -> & Hraw & -> & -> & ->).
    cbn [negb orb]. destruct raw; try reflexivity. contradiction.
Qed.

(** *** The groups *)

Lemma list_eqb_eq l1 l2 : list_eqb l1 l2 = true <-> l1 = l2.
Proof.
  revert l2; induction l1 as [|a l1 IH]; intros [|b l2]; cbn; split;
    try discriminate; try reflexivity.
  - intros H. apply andb_prop in H as [Ha Hl].
    apply String.eqb_eq in Ha. apply IH in Hl. congruence.
  - intros [= -> ->]. rewrite String.eqb_refl. apply IH. reflexivity.
Qed.

Lemma group_key_eqb_eq a b : group_key_eqb a b = true <-> a = b.
Proof.
  destruct a as [s|p], b as [t|q]; cbn; split; try discriminate.
  - intros H. apply String.eqb_eq in H. congruence.
  - intros [= ->]. apply String.eqb_refl.
  - intros H. apply list_eqb_eq in H. congruence.
  - intros [= ->]. apply list_eqb_eq. reflexivity.
Qed.

Lemma group_key_eqb_refl a : group_key_eqb a a = true.
Proof. apply group_key_eqb_eq. reflexivity. Qed.

Lemma float_sum_snoc ps p : float_sum (ps ++ [p]) = PyFloat.add (float_sum ps) p.
Proof. unfold float_sum. rewrite fold_left_app. reflexivity. Qed.

Lemma lookup_accumulate k k' p acc :
  lookup k (accumulate k' p acc)
  = if group_key_eqb k' k
    then Some match lookup k acc with
              | Some d => {| total_price := PyFloat.add (total_price d) p;
                             count := count d + 1 |}
              | None => {| total_price := PyFloat.add PyFloat.zero p; count := 0 + 1 |}
              end
    else lookup k acc.
Proof.
  induction acc as [|[k0 d] acc IH]; cbn [accumulate lookup].
  - destruct (group_key_eqb k' k); reflexivity.
  - destruct (group_key_eqb k0 k') eqn:E0; cbn [lookup].
    + apply group_key_eqb_eq in E0; subst k0.
      destruct (group_key_eqb k' k); reflexivity.
    + destruct (group_key_eqb k0 k) eqn:E1; [|exact IH].
      apply group_key_eqb_eq in E1; subst k0.
      destruct (group_key_eqb k' k) eqn:E2; [|reflexivity].
      apply group_key_eqb_eq in E2; subst k'.
      rewrite group_key_eqb_refl in E0. discriminate.
Qed.

Lemma counts_positive_accumulate k p acc :
  Forall (fun kd => 0 < count (snd kd)) acc ->
  Forall (fun kd => 0 < count (snd kd)) (accumulate k p acc).
Proof.
  induction 1 as [|[k0 d] acc H0 H IH]; cbn [accumulate].
  - constructor; [cbn; lia | constructor].
  - destruct (group_key_eqb k0 k); constructor; cbn in *; auto; lia.
Qed.

Lemma accumulator_after g data :
  let acc := fold_left (fun acc it => accumulate (composite_key g it) (item_price it) acc)
                       data [] in
  Forall (fun kd => 0 < count (snd kd)) acc
  /\ forall k, lookup k acc = accumulated (prices_of g k data).
Proof.
  induction data as [|it data IH] using rev_ind; cbn zeta.
  - split; [constructor | reflexivity].
  - rewrite fold_left_app. cbn [fold_left]. destruct IH as [Hpos Hlook]. split.
    + apply counts_positive_accumulate, Hpos.
    + intros k. rewrite lookup_accumulate, Hlook.
      unfold prices_of. rewrite filter_app, map_app. cbn [filter].
      destruct (group_key_eqb (composite_key g it) k); cbn [map].
      * fold (prices_of g k data).
        destruct (prices_of g k data) as [|p ps] eqn:E; cbn [accumulated app].
        -- reflexivity.
        -- change (p :: ps ++ [item_price it]) with ((p :: ps) ++ [item_price it]).
           rewrite float_sum_snoc, length_app. reflexivity.
      * rewrite app_nil_r. reflexivity.
Qed.

Lemma lookup_finalize k acc :
  Forall (fun kd => 0 < count (snd kd)) acc ->
  lookup k (filter_map finalize acc)
  = match lookup k acc with
    | Some d =>
        Some {| avg_total_price := total_price d;
                avg_count := count d;
                average := PyFloat.round2
                             (PyFloat.div (total_price d)
                                          (PyFloat.of_int (Z.of_nat (count d)))) |}
    | None => None
    end.
Proof.
  induction 1 as [|[k0 d] acc H0 H IH]; [reflexivity|].
  cbn [filter_map finalize]. cbn in H0.
  apply Nat.ltb_lt in H0. rewrite H0. cbn [lookup].
  destruct (group_key_eqb k0 k); [reflexivity | exact IH].
Qed.

(** Grouping: the result holds, for each key, the summary of the prices of
    the records with that key, and nothing for a key that no record has. *)
Lemma calculate_average_prices_groups data g k :
  lookup k (calculate_average_prices data g)
  = match prices_of g k data with
    | [] => None
    | ps => Some (summary ps)
    end.
Proof.
  unfold calculate_average_prices.
  destruct data as [|it data]; [reflexivity|].
  destruct (accumulator_after g (it :: data)) as [Hpos Hlook].
  rewrite lookup_finalize by exact Hpos. rewrite Hlook.
  destruct (prices_of g k (it :: data)); reflexivity.
Qed.

(** The example of the claim: P1 with count 2 and average 15.0, P2 with
    count 1 and average 5.0. *)
Lemma example_by_product :
  calculate_average_prices example_records (by_key "product")
  = [(key_str "P1",
      {| avg_total_price := PyFloat.of_int 30; avg_count := 2;
         average := PyFloat.of_int 15 |});
     (key_str "P2",
      {| avg_total_price := PyFloat.of_int 5; avg_count := 1;
         average := PyFloat.of_int 5 |})]
  /\ PyFloat.repr (PyFloat.of_int 15) = "15.0"
  /\ PyFloat.repr (PyFloat.of_int 5) = "5.0".
Proof. repeat split; vm_compute; reflexivity. Qed.

(** C4, the code against the claim.  The entry of the sheet whose price
    cell reads [nan] has a price that parses to the value that is not a
    number, which is not strictly positive and still passes the test
    [price_float <= 0]: the record is kept, and the carrots, whose other
    entry costs 40, get a total and an average that are not numbers. *)
Theorem a_price_that_is_not_a_number_is_kept :
  price_of_raw (PyStr "nan") = Some S754_nan
  /\ PyFloat.ltb PyFloat.zero S754_nan = false
  /\ process_record nan_record
     = Some {| item_product := "Carrot";
               item_location := "Distribution Center 1 Gerji";
               item_price := S754_nan |}
  /\ (exists data,
        get_all_data_for_insights nan_world = (Return data, nan_world)
        /\ List.length data = 3
        /\ calculate_average_prices data (by_key "product")
           = [(key_str "Carrot",
               {| avg_total_price := S754_nan; avg_count := 2; average := S754_nan |});
              (key_str "Garlic",
               summary [PyFloat.of_decimal false 1205 (-1)])]).
Proof.
  split; [vm_compute; reflexivity|].
  split; [reflexivity|].
  split; [vm_compute; reflexivity|].
  eexists. split; [vm_compute; reflexivity|].
  split; vm_compute; reflexivity.
Qed.

End Insights.

(* ------------------------------------------------------------------ *)
(** ** The names of the insights *)

Module Normalization.

Import PyStr gsheet_utils.

(** *** Characters *)

Ltac each_ascii c :=
  destruct c as [[] [] [] [] [] [] [] []]; vm_compute; intros;
  first [reflexivity | discriminate].

Lemma to_lower_to_lower c : to_lower (to_lower c) = to_lower c.
Proof. each_ascii c. Qed.

Lemma to_upper_to_lower c : to_upper (to_lower c) = to_upper c.
Proof. each_ascii c. Qed.

Lemma is_alpha_to_lower c : is_alpha (to_lower c) = is_alpha c.
Proof. each_ascii c. Qed.

Lemma keep_char_to_lower c : keep_char (to_lower c) = keep_char c.
Proof. each_ascii c. Qed.

Lemma keep_char_to_upper c : keep_char (to_upper c) = keep_char c.
Proof. each_ascii c. Qed.

Lemma to_upper_to_upper c : to_upper (to_upper c) = to_upper c.
Proof. each_ascii c. Qed.

Lemma is_alpha_to_upper c : is_alpha (to_upper c) = is_alpha c.
Proof. each_ascii c. Qed.

Lemma space_not_alpha c : is_space c = true -> is_alpha c = false.
Proof. each_ascii c. Qed.

Lemma alnum_not_space c : alnum c = true -> is_space c = false.
Proof. each_ascii c. Qed.

Lemma alnum_not_the_space c : alnum c = true -> Ascii.eqb c " " = false.
Proof. each_ascii c. Qed.

Lemma alnum_not_escaped c : alnum c = true -> char_in c escape_chars = false.
Proof. each_ascii c. Qed.

Lemma kept_not_space_alnum c :
  keep_char c = true -> is_space c = false -> alnum c = true.
Proof.
  unfold keep_char, alnum. intros H Hs. rewrite Hs, orb_false_r in H. exact H.
Qed.

(** *** Strings *)

Lemma all_chars_app P a b :
  all_chars P (a ++ b)%string = all_chars P a && all_chars P b.
Proof.
  induction a as [|c a IH]; cbn [String.append all_chars]; [reflexivity|].
  rewrite IH, andb_assoc. reflexivity.
Qed.

Lemma append_nil_r (s : string) : (s ++ "")%string = s.
Proof. induction s as [|c s IH]; cbn; [reflexivity | rewrite IH; reflexivity]. Qed.

Lemma append_assoc (a b c : string) : ((a ++ b) ++ c = a ++ (b ++ c))%string.
Proof. induction a as [|x a IH]; cbn; [reflexivity | rewrite IH; reflexivity]. Qed.

Lemma all_chars_filter P s : all_chars P (filter_chars P s) = true.
Proof.
  induction s as [|c s IH]; cbn [filter_chars all_chars]; [reflexivity|].
  destruct (P c) eqn:E; cbn [all_chars]; [rewrite E|]; exact IH.
Qed.

Lemma all_chars_title s : forall b,
  all_chars keep_char s = true -> all_chars keep_char (title_from b s) = true.
Proof.
  induction s as [|c s IH]; intros b; cbn [title_from all_chars]; [reflexivity|].
  intros H. apply andb_prop in H as [Hc Hs].
  rewrite (IH _ Hs), andb_true_r.
  destruct b; [rewrite keep_char_to_lower | rewrite keep_char_to_upper]; exact Hc.
Qed.

Lemma title_from_lower s : forall b, title_from b (lower s) = title_from b s.
Proof.
  unfold lower.
  induction s as [|c s IH]; intros b; cbn [map_chars title_from]; [reflexivity|].
  rewrite is_alpha_to_lower, IH.
  destruct b; [rewrite to_lower_to_lower | rewrite to_upper_to_lower]; reflexivity.
Qed.

(** The words of a text of letters, digits and whitespace. *)
Lemma split_ws_words s : forall cur,
  all_chars alnum cur = true ->
  all_chars keep_char s = true ->
  Forall word (split_ws cur s).
Proof.
  induction s as [|c s IH]; intros cur Hcur Hs; cbn [split_ws].
  - destruct cur; constructor; [|constructor]. split; [discriminate | exact Hcur].
  - cbn [all_chars] in Hs. apply andb_prop in Hs as [Hc Hs].
    destruct (is_space c) eqn:Hsp.
    + destruct cur; [apply IH; [reflexivity | exact Hs]|].
      constructor; [split; [discriminate | exact Hcur]|].
      apply IH; [reflexivity | exact Hs].
    + apply IH; [|exact Hs].
      rewrite all_chars_app, Hcur. cbn [all_chars andb].
      rewrite (kept_not_space_alnum c Hc Hsp). reflexivity.
Qed.

Lemma join_cons sep w w' ws :
  join sep (w :: w' :: ws) = (w ++ sep ++ join sep (w' :: ws))%string.
Proof. reflexivity. Qed.

Lemma join_one sep w : join sep [w] = w.
Proof. reflexivity. Qed.

(** *** A line of words *)

Lemma single_spaced_word w rest : forall b,
  word w -> single_spaced b (w ++ rest)%string = single_spaced false rest.
Proof.
  induction w as [|c w IH]; intros b [Hne Hall]; [contradiction|].
  cbn [all_chars] in Hall. apply andb_prop in Hall as [Hc Hw].
  cbn [String.append single_spaced].
  rewrite (alnum_not_the_space c Hc), Hc. cbn [andb].
  destruct w as [|c' w]; [reflexivity|].
  apply IH. split; [discriminate | exact Hw].
Qed.

Lemma single_spaced_join ws :
  Forall word ws -> ws <> [] -> single_spaced true (join " " ws) = true.
Proof.
  induction 1 as [|w ws Hw Hws IH]; intros Hne; [contradiction|].
  destruct ws as [|w' ws].
  - rewrite join_one, <- (append_nil_r w), single_spaced_word by exact Hw. reflexivity.
  - rewrite join_cons, single_spaced_word by exact Hw.
    cbn [String.append single_spaced Ascii.eqb Bool.eqb negb andb].
    apply IH. discriminate.
Qed.

Lemma clean_name_join ws : Forall word ws -> clean_name (join " " ws) = true.
Proof.
  intros H. unfold clean_name.
  destruct (join " " ws) eqn:E; [reflexivity|]. rewrite <- E.
  apply single_spaced_join; [exact H|]. intros ->. discriminate.
Qed.

Lemma escape_app a b :
  escape_markdown_v2 (a ++ b)%string
  = (escape_markdown_v2 a ++ escape_markdown_v2 b)%string.
Proof.
  induction a as [|c a IH]; cbn [String.append escape_markdown_v2]; [reflexivity|].
  rewrite IH. destruct (char_in c escape_chars); reflexivity.
Qed.

Lemma escape_word w : all_chars alnum w = true -> escape_markdown_v2 w = w.
Proof.
  induction w as [|c w IH]; intros H; cbn [escape_markdown_v2]; [reflexivity|].
  cbn [all_chars] in H. apply andb_prop in H as [Hc Hw].
  rewrite (alnum_not_escaped c Hc), (IH Hw). reflexivity.
Qed.

Lemma escape_join ws :
  Forall word ws -> escape_markdown_v2 (join " " ws) = join " " ws.
Proof.
  induction 1 as [|w ws [_ Hw] Hws IH]; [reflexivity|].
  destruct ws as [|w' ws]; [rewrite join_one; apply escape_word, Hw|].
  rewrite join_cons, !escape_app, IH, (escape_word w Hw). reflexivity.
Qed.

(** *** Title case *)

Lemma titled_snoc cur b c :
  titled cur b ->
  titled (cur ++ String (if b then to_lower c else to_upper c) "") (is_alpha c).
Proof.
  intros H rest. rewrite !append_assoc. cbn [String.append].
  rewrite H. cbn [title_from]. f_equal.
  destruct b.
  - rewrite to_lower_to_lower, is_alpha_to_lower. reflexivity.
  - rewrite to_upper_to_upper, is_alpha_to_upper. reflexivity.
Qed.

Lemma split_ws_titled s : forall cur b,
  titled cur b ->
  Forall (fun w => exists b', titled w b') (split_ws cur (title_from b s)).
Proof.
  induction s as [|c s IH]; intros cur b H; cbn [title_from split_ws].
  - destruct cur; constructor; eauto.
  - set (c' := if b then to_lower c else to_upper c).
    destruct (is_space c') eqn:Hsp.
    + assert (Ha : is_alpha c = false).
      { apply space_not_alpha in Hsp. subst c'.
        destruct b; [rewrite is_alpha_to_lower in Hsp | rewrite is_alpha_to_upper in Hsp];
          exact Hsp. }
      rewrite Ha.
      assert (H0 : titled "" false) by (intros rest; reflexivity).
      destruct cur; [apply IH, H0|].
      constructor; [eauto | apply IH, H0].
    + apply IH. apply titled_snoc, H.
Qed.

Lemma title_join ws :
  Forall (fun w => exists b, titled w b) ws ->
  title (join " " ws) = join " " ws.
Proof.
  unfold title.
  induction 1 as [|w ws [b Hw] Hws IH]; [reflexivity|].
  destruct ws as [|w' ws].
  - rewrite !join_one. rewrite <- (append_nil_r w) at 1. rewrite Hw.
    cbn [title_from]. apply append_nil_r.
  - rewrite join_cons, Hw. cbn [String.append title_from].
    change (is_alpha " ") with false. rewrite IH.
    destruct b; reflexivity.
Qed.

(** *** [strip] *)

Lemma list_ascii_of_string_app a b :
  list_ascii_of_string (a ++ b)
  = (list_ascii_of_string a ++ list_ascii_of_string b)%list.
Proof. induction a as [|c a IH]; cbn; [reflexivity | rewrite IH; reflexivity]. Qed.

Lemma string_of_list_ascii_app a b :
  string_of_list_ascii (a ++ b)%list
  = (string_of_list_ascii a ++ string_of_list_ascii b)%string.
Proof. induction a as [|c a IH]; cbn; [reflexivity | rewrite IH; reflexivity]. Qed.

Lemma rev_snoc s c : rev (s ++ String c "") = String c (rev s).
Proof.
  unfold rev. rewrite list_ascii_of_string_app. cbn [list_ascii_of_string].
  rewrite List.rev_app_distr. reflexivity.
Qed.

Lemma rev_rev s : rev (rev s) = s.
Proof.
  unfold rev. rewrite list_ascii_of_string_of_list_ascii, List.rev_involutive.
  apply string_of_list_ascii_of_string.
Qed.

Lemma strip_tight s c1 s1 s0 c2 :
  s = String c1 s1 -> is_space c1 = false ->
  s = (s0 ++ String c2 "")%string -> is_space c2 = false ->
  strip s = s.
Proof.
  intros E1 H1 E2 H2. unfold strip.
  assert (L : lstrip s = s) by (rewrite E1; cbn [lstrip]; rewrite H1; reflexivity).
  rewrite L. rewrite E2 at 1. rewrite rev_snoc. cbn [lstrip]. rewrite H2.
  rewrite <- rev_snoc, <- E2. apply rev_rev.
Qed.

Lemma word_first w :
  word w -> exists c w', w = String c w' /\ is_space c = false.
Proof.
  intros [Hne Hall]. destruct w as [|c w]; [contradiction|].
  cbn [all_chars] in Hall. apply andb_prop in Hall as [Hc _].
  exists c, w. split; [reflexivity | apply alnum_not_space, Hc].
Qed.

Lemma word_last w :
  word w -> exists w0 c, w = (w0 ++ String c "")%string /\ is_space c = false.
Proof.
  induction w as [|c w IH]; intros [Hne Hall]; [contradiction|].
  cbn [all_chars] in Hall. apply andb_prop in Hall as [Hc Hw].
  destruct w as [|c' w].
  - exists "", c. split; [reflexivity | apply alnum_not_space, Hc].
  - destruct IH as (w0 & c0 & E & H0); [split; [discriminate | exact Hw]|].
    exists (String c w0), c0. split; [cbn [String.append]; rewrite <- E; reflexivity | exact H0].
Qed.

Lemma join_first ws :
  Forall word ws -> ws <> [] ->
  exists c s', join " " ws = String c s' /\ is_space c = false.
Proof.
  intros H Hne. destruct H as [|w ws Hw Hws]; [contradiction|].
  destruct (word_first w Hw) as (c & w' & -> & Hc).
  destruct ws as [|w2 ws]; [exists c, w'; split; [reflexivity | exact Hc]|].
  rewrite join_cons. cbn [String.append]. eauto.
Qed.

Lemma join_last ws :
  Forall word ws -> ws <> [] ->
  exists s0 c, join " " ws = (s0 ++ String c "")%string /\ is_space c = false.
Proof.
  induction 1 as [|w ws Hw Hws IH]; intros Hne; [contradiction|].
  destruct ws as [|w2 ws]; [rewrite join_one; apply word_last, Hw|].
  destruct IH as (s0 & c & E & Hc); [discriminate|].
  exists (w ++ " " ++ s0)%string, c. split; [|exact Hc].
  rewrite join_cons, E, !append_assoc. reflexivity.
Qed.

Lemma strip_join ws : Forall word ws -> strip (join " " ws) = join " " ws.
Proof.
  intros H. destruct ws as [|w ws]; [reflexivity|].
  destruct (join_first _ H) as (c1 & s1 & E1 & H1); [discriminate|].
  destruct (join_last _ H) as (s0 & c2 & E2 & H2); [discriminate|].
  exact (strip_tight _ _ _ _ _ E1 H1 E2 H2).
Qed.

(** *** [_clean_and_capitalize_text] *)

Lemma clean_and_capitalize_recipe v :
  _clean_and_capitalize_text v
  = join " " (split (title (filter_chars keep_char (name_text v)))).
Proof. destruct v; reflexivity. Qed.

Lemma clean_and_capitalize_words v :
  exists ws, _clean_and_capitalize_text v = join " " ws /\ Forall word ws.
Proof.
  rewrite clean_and_capitalize_recipe. eexists. split; [reflexivity|].
  apply split_ws_words; [reflexivity|].
  apply all_chars_title, all_chars_filter.
Qed.

Lemma clean_and_capitalize_same a b :
  same_up_to_case_and_punctuation (name_text a) (name_text b) ->
  _clean_and_capitalize_text a = _clean_and_capitalize_text b.
Proof.
  intros H. rewrite !clean_and_capitalize_recipe. unfold title.
  rewrite <- (title_from_lower (filter_chars keep_char (name_text a))).
  rewrite <- (title_from_lower (filter_chars keep_char (name_text b))).
  rewrite H. reflexivity.
Qed.

(** The result is in title case already. *)
Lemma title_clean v : title (_clean_and_capitalize_text v) = _clean_and_capitalize_text v.
Proof.
  rewrite clean_and_capitalize_recipe. apply title_join.
  apply split_ws_titled. intros rest. reflexivity.
Qed.

Lemma strip_clean v :
  strip (_clean_and_capitalize_text v) = _clean_and_capitalize_text v.
Proof.
  destruct (clean_and_capitalize_words v) as (ws & -> & H). apply strip_join, H.
Qed.

Lemma escape_clean v :
  escape_markdown_v2 (_clean_and_capitalize_text v) = _clean_and_capitalize_text v.
Proof.
  destruct (clean_and_capitalize_words v) as (ws & -> & H). apply escape_join, H.
Qed.

Lemma clean_name_clean v : clean_name (_clean_and_capitalize_text v) = true.
Proof.
  destruct (clean_and_capitalize_words v) as (ws & -> & H). apply clean_name_join, H.
Qed.

(** *** The pipeline *)

Lemma kept_names record it p l :
  process_record record = Some it ->
  dict_get config.PRODUCT_FIELD record = Some p ->
  dict_get config.LOCATION_FIELD record = Some l ->
  item_product it = _clean_and_capitalize_text p
  /\ item_location it = _clean_and_capitalize_text l.
Proof.
  intros H Hp Hl. apply Insights.process_record_keeps in H.
  destruct H as (p' & l' & raw & x & Hp' & Hl' & _ & _ & _ & _ & _ & _ & ->).
  rewrite Hp in Hp'. rewrite Hl in Hl'. injection Hp' as <-. injection Hl' as <-.
  split; reflexivity.
Qed.

Lemma item_get_product it : item_get "product" it = strip (item_product it).
Proof. reflexivity. Qed.

Lemma item_get_location it : item_get "location" it = strip (item_location it).
Proof. reflexivity. Qed.

Lemma price_in_its_group g data it :
  In it data -> In (item_price it) (prices_of g (composite_key g it) data).
Proof.
  intros H. unfold prices_of. apply in_map, filter_In.
  split; [exact H | apply Insights.group_key_eqb_refl].
Qed.

(** C10.  The product and the location of every record that the pipeline
    keeps are the stored names with every character that is not a letter
    [a-zA-Z], a digit or whitespace deleted, the result put in title case
    and its words joined by single spaces; they consist of words of
    letters and digits separated by one space and are in title case.  Two
    kept records whose product names (location names) differ only in case
    or punctuation get the same key under the grouping by product (by
    location; by both when both names do), and records with the same key
    are summarized in one group that holds the prices of both.  The keys
    are these names as they are, and escaping leaves them as they are, so
    the label of a line of the report is the normalized name. *)
Theorem names_are_normalized_before_grouping
    (record1 record2 : list (string * pyval)) (it1 it2 : InsightItem)
    (p1 l1 p2 l2 : pyval) :
  process_record record1 = Some it1 ->
  process_record record2 = Some it2 ->
  dict_get config.PRODUCT_FIELD record1 = Some p1 ->
  dict_get config.LOCATION_FIELD record1 = Some l1 ->
  dict_get config.PRODUCT_FIELD record2 = Some p2 ->
  dict_get config.LOCATION_FIELD record2 = Some l2 ->
  (item_product it1
   = join " " (split (title (filter_chars keep_char (name_text p1))))
   /\ item_location it1
      = join " " (split (title (filter_chars keep_char (name_text l1))))
   /\ clean_name (item_product it1) = true
   /\ clean_name (item_location it1) = true
   /\ title (item_product it1) = item_product it1
   /\ title (item_location it1) = item_location it1)
  /\ (same_up_to_case_and_punctuation (name_text p1) (name_text p2) ->
      composite_key (by_key "product") it1 = composite_key (by_key "product") it2)
  /\ (same_up_to_case_and_punctuation (name_text l1) (name_text l2) ->
      composite_key (by_key "location") it1 = composite_key (by_key "location") it2)
  /\ (same_up_to_case_and_punctuation (name_text p1) (name_text p2) ->
      same_up_to_case_and_punctuation (name_text l1) (name_text l2) ->
      composite_key (by_keys ["product"; "location"]) it1
      = composite_key (by_keys ["product"; "location"]) it2)
  /\ (forall g data,
        composite_key g it1 = composite_key g it2 ->
        In it1 data -> In it2 data ->
        let prices := prices_of g (composite_key g it1) data in
        lookup (composite_key g it1) (calculate_average_prices data g)
        = Some (summary prices)
        /\ In (item_price it1) prices
        /\ In (item_price it2) prices)
  /\ (composite_key (by_key "product") it1 = key_str (item_product it1)
      /\ composite_key (by_key "location") it1 = key_str (item_location it1)
      /\ composite_key (by_keys ["product"; "location"]) it1
         = key_tuple [item_product it1; item_location it1]
      /\ _escape_markdown_v2_insights (item_product it1) = item_product it1
      /\ _escape_markdown_v2_insights (item_location it1) = item_location it1
      /\ forall avg,
           average_line (composite_key (by_key "product") it1) avg
           = ("  " ++ pic ++ " *" ++ item_product it1 ++ ":* `"
                ++ PyFloat.format_2f (average avg) ++ "` \(from "
                ++ str_of_int (Z.of_nat (avg_count avg)) ++ " entries\)")%string).
Proof.
  intros H1 H2 Hp1 Hl1 Hp2 Hl2.
  destruct (kept_names _ _ _ _ H1 Hp1 Hl1) as [Ep1 El1].
  destruct (kept_names _ _ _ _ H2 Hp2 Hl2) as [Ep2 El2].
  assert (Kp : forall it p, item_product it = _clean_and_capitalize_text p ->
                 composite_key (by_key "product") it = key_str (item_product it)).
  { intros it p E. unfold composite_key. rewrite item_get_product, E, strip_clean.
    reflexivity. }
  assert (Kl : forall it l, item_location it = _clean_and_capitalize_text l ->
                 composite_key (by_key "location") it = key_str (item_location it)).
  { intros it l E. unfold composite_key. rewrite item_get_location, E, strip_clean.
    reflexivity. }
  assert (Kb : forall it p l,
                 item_product it = _clean_and_capitalize_text p ->
                 item_location it = _clean_and_capitalize_text l ->
                 composite_key (by_keys ["product"; "location"]) it
                 = key_tuple [item_product it; item_location it]).
  { intros it p l E E'. unfold composite_key. cbn [map].
    rewrite item_get_product, item_get_location, E, E', !strip_clean. reflexivity. }
  split; [|split; [|split; [|split; [|split]]]].
  - rewrite Ep1, El1. rewrite <- !clean_and_capitalize_recipe.
    rewrite !clean_name_clean, !title_clean. repeat split.
  - intros Hs. rewrite (Kp _ _ Ep1), (Kp _ _ Ep2), Ep1, Ep2.
    rewrite (clean_and_capitalize_same _ _ Hs). reflexivity.
  - intros Hs. rewrite (Kl _ _ El1), (Kl _ _ El2), El1, El2.
    rewrite (clean_and_capitalize_same _ _ Hs). reflexivity.
  - intros Hs Hs'. rewrite (Kb _ _ _ Ep1 El1), (Kb _ _ _ Ep2 El2), Ep1, Ep2, El1, El2.
    rewrite (clean_and_capitalize_same _ _ Hs), (clean_and_capitalize_same _ _ Hs').
    reflexivity.
  - intros g data Hk Hin1 Hin2. cbv zeta.
    pose proof (price_in_its_group g data it1 Hin1) as P1.
    pose proof (price_in_its_group g data it2 Hin2) as P2.
    rewrite <- Hk in P2.
    rewrite Insights.calculate_average_prices_groups.
    destruct (prices_of g (composite_key g it1) data); [contradiction|].
    repeat split; assumption.
  - split; [exact (Kp _ _ Ep1)|]. split; [exact (Kl _ _ El1)|].
    split; [exact (Kb _ _ _ Ep1 El1)|].
    unfold _escape_markdown_v2_insights.
    split; [rewrite Ep1; apply escape_clean|].
    split; [rewrite El1; apply escape_clean|].
    intros avg. unfold average_line, _escape_markdown_v2_insights.
    rewrite (Kp _ _ Ep1). cbn [key_text]. rewrite Ep1, escape_clean. reflexivity.
Qed.

(** The theorem at the two entries of fresh carrots. *)
Lemma names_are_normalized_witness :
  process_record fresh_carrots_1 = Some (fresh_carrots 40)
  /\ process_record fresh_carrots_2 = Some (fresh_carrots 50)
  /\ composite_key (by_key "product") (fresh_carrots 40)
     = composite_key (by_key "product") (fresh_carrots 50)
  /\ composite_key (by_key "product") (fresh_carrots 40) = key_str "Carrot Fresh".
Proof.
  assert (H1 : process_record fresh_carrots_1 = Some (fresh_carrots 40))
    by (vm_compute; reflexivity).
  assert (H2 : process_record fresh_carrots_2 = Some (fresh_carrots 50))
    by (vm_compute; reflexivity).
  destruct (names_are_normalized_before_grouping
              fresh_carrots_1 fresh_carrots_2 (fresh_carrots 40) (fresh_carrots 50)
              (PyStr "carrot (fresh)!") (PyStr "distribution center-1, gerji")
              (PyStr "Carrot Fresh") (PyStr "Distribution Center1 Gerji")
              H1 H2 eq_refl eq_refl eq_refl eq_refl)
    as (_ & Hp & _ & _ & _ & Hk & _).
  split; [exact H1|]. split; [exact H2|].
  split; [apply Hp; vm_compute; reflexivity | exact Hk].
Defined.

(** The report by product on these two entries has one line, labelled
    with the normalized name. *)
Lemma fresh_carrots_report :
  report_lines "by_product" [fresh_carrots 40; fresh_carrots 50]
  = Some [("  " ++ pic ++ " *Carrot Fresh:* `45.00` \(from 2 entries\)")%string].
Proof. vm_compute. reflexivity. Qed.

End Normalization.

(* ------------------------------------------------------------------ *)
(** ** Leaving a dialog, and the states a dialog can be in *)

Module Navigation.

#[local] Opaque String.append.

Lemma state_handlers_pass c s u :
  no_state_handler_accepts c u = true ->
  first_match (handlers_of s (states c)) u = None.
Proof.
  unfold no_state_handler_accepts.
  induction (states c) as [|[s' hs] l IH]; intros H; [reflexivity|].
  cbn [forallb snd] in H. apply andb_true_iff in H as [H1 H2].
  cbn [handlers_of]. destruct (s' =? s)%Z; [|exact (IH H2)].
  destruct (first_match hs u); [discriminate | reflexivity].
Qed.

Lemma resolve_by_fallback c s u h :
  no_state_handler_accepts c u = true ->
  first_match (fallbacks c) u = Some h ->
  resolve c (Some s) u = Some h.
Proof.
  intros H1 H2. unfold resolve. rewrite (state_handlers_pass c s u H1). exact H2.
Qed.

Ltac each_dialog H :=
  unfold dialogs in H; cbn [In] in H;
  destruct H as [<-|[<-|[<-|[<-|[<-|[]]]]]].

Lemma resolve_cancel_command c s from :
  In c dialogs ->
  resolve c (Some s) (cancel_command from) = Some cb_cancel_conversation.
Proof.
  intros Hc. apply resolve_by_fallback; each_dialog Hc; reflexivity.
Qed.

Lemma resolve_main_menu_press c s from :
  In c dialogs ->
  resolve c (Some s) (main_menu_press from) = Some cb_post_conversation_callback_handler.
Proof.
  intros Hc. apply resolve_by_fallback; each_dialog Hc; reflexivity.
Qed.

(** In whatever state a dialog is, the command [/cancel] goes to
    [cancel_conversation]: the dialog ends, the session is emptied, the
    user gets the reply with the post-action keyboard, and nothing else
    changes (the sheet is not touched). *)
Theorem cancel_command_ends_every_dialog :
  forall (c : ConversationHandler) (s : config.state) (from : User) (w : world),
    In c dialogs ->
    handle_update c (cancel_command from) (Some s, w)
    = (None, cleared_after [canceled_reply] w).
Proof.
  intros c s from w Hc. unfold handle_update.
  rewrite (resolve_cancel_command c s from Hc). reflexivity.
Qed.

Lemma cancel_command_witness :
  handle_update update_conv_handler (cancel_command abebe)
    (Some config.UPDATE_ENTER_MULTIPLE_VALUES, update_world)
  = (None, cleared_after [canceled_reply] update_world).
Proof.
  apply cancel_command_ends_every_dialog. cbn [dialogs In]. tauto.
Defined.

(** In whatever state a dialog is, the press on the "main menu" button of
    a post-action keyboard is taken by the shared fallback: the press is
    answered, the session is emptied, the main menu replaces the message
    of the button, and the dialog ends. *)
Theorem main_menu_press_ends_every_dialog :
  forall (c : ConversationHandler) (s : config.state) (from : User) (w : world),
    In c dialogs ->
    handle_update c (main_menu_press from) (Some s, w)
    = (None,
       cleared_after [answer None false; answer None false; main_menu_render] w).
Proof.
  intros c s from w Hc. unfold handle_update.
  rewrite (resolve_main_menu_press c s from Hc).
  cbn [run]. unfold post_conversation_callback_handler, main_menu_press,
    main_menu_command_simple. exec. rewrite String.eqb_refl. exec.
  unfold cleared_after, main_menu_render. exec. rewrite <- !app_assoc. reflexivity.
Qed.

Lemma main_menu_press_witness :
  handle_update read_conv_handler (main_menu_press sara)
    (Some config.VIEW_PAGINATING_ENTRIES, sample_world)
  = (None,
     cleared_after [answer None false; answer None false; main_menu_render] sample_world).
Proof.
  apply main_menu_press_ends_every_dialog. cbn [dialogs In]. tauto.
Defined.

(** A press that reaches the shared fallback with data that is neither of
    the two buttons of the post-action keyboard (a button of an earlier
    message, say) is answered and ends the dialog with the session
    emptied: nothing is rendered. *)
Theorem unknown_press_ends_the_dialog :
  forall (c : ConversationHandler) (s : config.state) (from : User) (data : string)
         (w : world),
    resolve c (Some s) (CallbackQuery from data)
    = Some cb_post_conversation_callback_handler ->
    data <> (config.CB_MAIN_MENU_PREFIX ++ "menu")%string ->
    data <> (config.CB_MAIN_MENU_PREFIX ++ "new")%string ->
    handle_update c (CallbackQuery from data) (Some s, w)
    = (None, cleared_after [answer None false] w).
Proof.
  intros c s from data w Hr Hm Hn. unfold handle_update. rewrite Hr.
  cbn [run]. unfold post_conversation_callback_handler. exec.
  apply String.eqb_neq in Hm, Hn. rewrite Hm, Hn. reflexivity.
Qed.

Lemma unknown_press_witness :
  handle_update update_conv_handler (stale_press abebe)
    (Some config.UPDATE_ENTER_MULTIPLE_VALUES, update_world)
  = (None, cleared_after [answer None false] update_world).
Proof.
  apply unknown_press_ends_the_dialog; [reflexivity | discriminate | discriminate].
Defined.

(** *** What the handlers return *)

Lemma returns_ret {A} (P : A -> Prop) a : P a -> returns P (ret a).
Proof. intros H w a' w' [= <- _]. exact H. Qed.

Lemma returns_raise {A} (P : A -> Prop) e : returns P (raise e).
Proof. intros w a w' [=]. Qed.

Lemma returns_bind {A B} (P : B -> Prop) (m : M A) (k : A -> M B) :
  (forall a, returns P (k a)) -> returns P (bind m k).
Proof.
  intros H w b w'. unfold bind. destruct (m w) as [[a|e] w1]; [apply H | discriminate].
Qed.

Lemma returns_try_except {A} (P : A -> Prop) (m : M A) (h : exn -> M A) :
  returns P m -> (forall e, returns P (h e)) -> returns P (try_except m h).
Proof.
  intros Hm Hh w a w'. unfold try_except. destruct (m w) as [[a'|e] w1] eqn:E.
  - intros [= <- <-]. exact (Hm _ _ _ E).
  - apply Hh.
Qed.

Lemma returns_incl (l l' : list config.state) (m : M config.state) :
  returns (fun s => In s l) m -> incl l l' -> returns (fun s => In s l') m.
Proof. intros H Hi w a w' E. apply Hi. exact (H _ _ _ E). Qed.

Create HintDb returns.

Ltac in_states := solve [repeat first [left; reflexivity | right]].

Ltac incl_states :=
  let s := fresh "s" in
  let H := fresh "H" in
  intros s H; cbn [In] in H;
  repeat (destruct H as [<-|H]; [in_states|]); contradiction.

Ltac returns_step :=
  lazymatch goal with
  | |- returns _ (bind _ _) => apply returns_bind; intros
  | |- returns _ (ret _) => apply returns_ret; in_states
  | |- returns _ (raise _) => apply returns_raise
  | |- returns _ (try_except _ _) => apply returns_try_except; intros
  | |- returns _ (match ?x with _ => _ end) => destruct x
  | |- returns _ (_ _) =>
      eapply returns_incl; [solve [auto 1 with returns nocore] | incl_states]
  end.

Ltac returns_of h := intros; unfold h; cbv beta zeta; repeat returns_step.

Lemma cancel_conversation_returns u :
  returns (fun s => In s [END]) (cancel_conversation u).
Proof. returns_of cancel_conversation. Qed.
#[local] Hint Resolve cancel_conversation_returns : returns.

Lemma start_new_entry_returns u :
  returns (fun s => In s [config.CREATE_CHOOSE_ENTRY_TYPE]) (start_new_entry u).
Proof. returns_of start_new_entry. Qed.
#[local] Hint Resolve start_new_entry_returns : returns.

Lemma ask_batch_common_location_returns u :
  returns (fun s => In s [config.CREATE_BATCH_SELECT_LOCATION])
          (ask_batch_common_location u).
Proof. returns_of ask_batch_common_location. Qed.
#[local] Hint Resolve ask_batch_common_location_returns : returns.

Lemma ask_single_entry_product_returns u :
  returns (fun s => In s [config.CREATE_SINGLE_SELECT_PRODUCT])
          (ask_single_entry_product u).
Proof. returns_of ask_single_entry_product. Qed.
#[local] Hint Resolve ask_single_entry_product_returns : returns.

Lemma handle_entry_type_selection_returns u :
  returns (fun s => In s (may_return cb_handle_entry_type_selection))
          (handle_entry_type_selection u).
Proof. returns_of handle_entry_type_selection. Qed.

Lemma batch_common_location_selection_returns u :
  returns (fun s => In s (may_return cb_batch_common_location_selection))
          (batch_common_location_selection u).
Proof. returns_of batch_common_location_selection. Qed.

Lemma ask_batch_products_selection_returns u :
  returns (fun s => In s [config.CREATE_BATCH_TOGGLE_PRODUCTS])
          (ask_batch_products_selection u).
Proof. returns_of ask_batch_products_selection. Qed.
#[local] Hint Resolve ask_batch_products_selection_returns : returns.

Lemma batch_common_remark_entry_returns u :
  returns (fun s => In s (may_return cb_batch_common_remark_entry))
          (batch_common_remark_entry u).
Proof. returns_of batch_common_remark_entry. Qed.

Lemma batch_skip_common_remark_returns u :
  returns (fun s => In s (may_return cb_batch_skip_common_remark))
          (batch_skip_common_remark u).
Proof. returns_of batch_skip_common_remark. Qed.

Lemma toggle_batch_product_selection_returns u :
  returns (fun s => In s (may_return cb_toggle_batch_product_selection))
          (toggle_batch_product_selection u).
Proof. returns_of toggle_batch_product_selection. Qed.

Lemma cancel_no_entries_returns u :
  returns (fun s => In s [END]) (cancel_no_entries u).
Proof. returns_of cancel_no_entries. Qed.
#[local] Hint Resolve cancel_no_entries_returns : returns.

Lemma show_batch_confirmation_returns u :
  returns (fun s => In s [config.CREATE_BATCH_CONFIRM_SUBMISSION; END])
          (show_batch_confirmation u).
Proof. returns_of show_batch_confirmation. Qed.
#[local] Hint Resolve show_batch_confirmation_returns : returns.

Lemma ask_next_price_for_batch_returns u :
  returns (fun s => In s [config.CREATE_BATCH_ENTER_PRICE;
                          config.CREATE_BATCH_CONFIRM_SUBMISSION; END])
          (ask_next_price_for_batch u).
Proof. returns_of ask_next_price_for_batch. Qed.
#[local] Hint Resolve ask_next_price_for_batch_returns : returns.

Lemma batch_products_selection_done_returns u :
  returns (fun s => In s (may_return cb_batch_products_selection_done))
          (batch_products_selection_done u).
Proof. returns_of batch_products_selection_done. Qed.

Lemma batch_price_entry_returns u :
  returns (fun s => In s (may_return cb_batch_price_entry)) (batch_price_entry u).
Proof. returns_of batch_price_entry. Qed.

Lemma submit_batch_data_returns u :
  returns (fun s => In s (may_return cb_submit_batch_data)) (submit_batch_data u).
Proof. returns_of submit_batch_data. Qed.

Lemma single_entry_product_selection_returns u :
  returns (fun s => In s (may_return cb_single_entry_product_selection))
          (single_entry_product_selection u).
Proof. returns_of single_entry_product_selection. Qed.

Lemma single_entry_price_entry_returns u :
  returns (fun s => In s (may_return cb_single_entry_price_entry))
          (single_entry_price_entry u).
Proof. returns_of single_entry_price_entry. Qed.

Lemma single_entry_location_selection_returns u :
  returns (fun s => In s (may_return cb_single_entry_location_selection))
          (single_entry_location_selection u).
Proof. returns_of single_entry_location_selection. Qed.

Lemma show_single_entry_confirmation_returns u :
  returns (fun s => In s [config.CREATE_SINGLE_CONFIRM_SUBMISSION])
          (show_single_entry_confirmation u).
Proof. returns_of show_single_entry_confirmation. Qed.
#[local] Hint Resolve show_single_entry_confirmation_returns : returns.

Lemma single_entry_remark_entry_returns u :
  returns (fun s => In s (may_return cb_single_entry_remark_entry))
          (single_entry_remark_entry u).
Proof. returns_of single_entry_remark_entry. Qed.

Lemma single_skip_remark_entry_returns u :
  returns (fun s => In s (may_return cb_single_skip_remark_entry))
          (single_skip_remark_entry u).
Proof. returns_of single_skip_remark_entry. Qed.

Lemma submit_single_entry_data_returns u :
  returns (fun s => In s (may_return cb_submit_single_entry_data))
          (submit_single_entry_data u).
Proof. returns_of submit_single_entry_data. Qed.

Lemma post_conversation_callback_handler_returns u :
  returns (fun s => In s (may_return cb_post_conversation_callback_handler))
          (post_conversation_callback_handler u).
Proof. returns_of post_conversation_callback_handler. Qed.

Lemma view_entries_command_returns u :
  returns (fun s => In s [config.VIEW_AWAITING_MENU_CHOICE]) (view_entries_command u).
Proof. returns_of view_entries_command. Qed.
#[local] Hint Resolve view_entries_command_returns : returns.

Lemma prompt_for_id_callback_returns u :
  returns (fun s => In s (may_return cb_prompt_for_id_callback))
          (prompt_for_id_callback u).
Proof. returns_of prompt_for_id_callback. Qed.

Lemma handle_id_for_view_returns u :
  returns (fun s => In s (may_return cb_handle_id_for_view)) (handle_id_for_view u).
Proof. returns_of handle_id_for_view. Qed.

Lemma view_last_entries_callback_returns u :
  returns (fun s => In s (may_return cb_view_last_entries_callback))
          (view_last_entries_callback u).
Proof. returns_of view_last_entries_callback. Qed.

Lemma navigate_back_to_view_menu_returns u :
  returns (fun s => In s (may_return cb_navigate_back_to_view_menu))
          (navigate_back_to_view_menu u).
Proof. returns_of navigate_back_to_view_menu. Qed.

Lemma cancel_view_callback_returns u :
  returns (fun s => In s (may_return cb_cancel_view_callback)) (cancel_view_callback u).
Proof. returns_of cancel_view_callback. Qed.

Lemma start_update_entry_returns u :
  returns (fun s => In s (may_return cb_start_update_entry)) (start_update_entry u).
Proof. returns_of start_update_entry. Qed.

Lemma show_field_selection_for_update_returns u :
  returns (fun s => In s [config.UPDATE_SELECT_FIELDS_TOGGLE])
          (show_field_selection_for_update u).
Proof. returns_of show_field_selection_for_update. Qed.
#[local] Hint Resolve show_field_selection_for_update_returns : returns.

Lemma ask_id_received_returns u :
  returns (fun s => In s (may_return cb_ask_id_received)) (ask_id_received u).
Proof. returns_of ask_id_received. Qed.

Lemma toggle_field_selection_callback_returns u :
  returns (fun s => In s (may_return cb_toggle_field_selection_callback))
          (toggle_field_selection_callback u).
Proof. returns_of toggle_field_selection_callback. Qed.

Lemma confirm_multiple_changes_returns u :
  returns (fun s => In s [END; config.UPDATE_CONFIRM_MULTIPLE])
          (confirm_multiple_changes u).
Proof. returns_of confirm_multiple_changes. Qed.
#[local] Hint Resolve confirm_multiple_changes_returns : returns.

Lemma ask_for_next_field_value_returns u :
  returns (fun s => In s [END; config.UPDATE_CONFIRM_MULTIPLE;
                          config.UPDATE_ENTER_MULTIPLE_VALUES])
          (ask_for_next_field_value u).
Proof. returns_of ask_for_next_field_value. Qed.
#[local] Hint Resolve ask_for_next_field_value_returns : returns.

Lemma proceed_with_selected_fields_callback_returns u :
  returns (fun s => In s (may_return cb_proceed_with_selected_fields_callback))
          (proceed_with_selected_fields_callback u).
Proof. returns_of proceed_with_selected_fields_callback. Qed.

Lemma new_value_for_product_or_location_callback_returns u :
  returns (fun s => In s (may_return cb_new_value_for_product_or_location_callback))
          (new_value_for_product_or_location_callback u).
Proof. returns_of new_value_for_product_or_location_callback. Qed.

Lemma new_value_for_text_field_received_returns u :
  returns (fun s => In s (may_return cb_new_value_for_text_field_received))
          (new_value_for_text_field_received u).
Proof. returns_of new_value_for_text_field_received. Qed.

Lemma skip_remark_update_command_returns u :
  returns (fun s => In s (may_return cb_skip_remark_update_command))
          (skip_remark_update_command u).
Proof. returns_of skip_remark_update_command. Qed.

Lemma execute_multiple_updates_returns u :
  returns (fun s => In s (may_return cb_execute_multiple_updates))
          (execute_multiple_updates u).
Proof. returns_of execute_multiple_updates. Qed.

Lemma cancel_update_operation_callback_returns u :
  returns (fun s => In s (may_return cb_cancel_update_operation_callback))
          (cancel_update_operation_callback u).
Proof. returns_of cancel_update_operation_callback. Qed.

Lemma start_delete_entry_returns u :
  returns (fun s => In s (may_return cb_start_delete_entry)) (start_delete_entry u).
Proof. returns_of start_delete_entry. Qed.

Lemma ask_id_received_for_delete_returns u :
  returns (fun s => In s (may_return cb_ask_id_received_for_delete))
          (ask_id_received_for_delete u).
Proof. returns_of ask_id_received_for_delete. Qed.

Lemma confirm_delete_callback_returns u :
  returns (fun s => In s (may_return cb_confirm_delete_callback))
          (confirm_delete_callback u).
Proof. returns_of confirm_delete_callback. Qed.

Lemma start_insights_menu_returns u :
  returns (fun s => In s (may_return cb_start_insights_menu)) (start_insights_menu u).
Proof. returns_of start_insights_menu. Qed.

Lemma insights_menu_callback_returns u :
  returns (fun s => In s (may_return cb_insights_menu_callback))
          (insights_menu_callback u).
Proof. returns_of insights_menu_callback. Qed.

Lemma run_returns h u : returns (fun s => In s (may_return h)) (run h u).
Proof.
  destruct h; cbn [run];
    first
      [ apply start_new_entry_returns
      | apply handle_entry_type_selection_returns
      | apply batch_common_location_selection_returns
      | apply batch_skip_common_remark_returns
      | apply batch_common_remark_entry_returns
      | apply toggle_batch_product_selection_returns
      | apply batch_products_selection_done_returns
      | apply batch_price_entry_returns
      | apply submit_batch_data_returns
      | apply single_entry_product_selection_returns
      | apply single_entry_price_entry_returns
      | apply single_entry_location_selection_returns
      | apply single_skip_remark_entry_returns
      | apply single_entry_remark_entry_returns
      | apply submit_single_entry_data_returns
      | apply cancel_conversation_returns
      | apply post_conversation_callback_handler_returns
      | apply view_entries_command_returns
      | apply prompt_for_id_callback_returns
      | apply view_last_entries_callback_returns
      | apply cancel_view_callback_returns
      | apply handle_id_for_view_returns
      | apply navigate_back_to_view_menu_returns
      | apply start_update_entry_returns
      | apply ask_id_received_returns
      | apply toggle_field_selection_callback_returns
      | apply proceed_with_selected_fields_callback_returns
      | apply cancel_update_operation_callback_returns
      | apply new_value_for_product_or_location_callback_returns
      | apply skip_remark_update_command_returns
      | apply new_value_for_text_field_received_returns
      | apply execute_multiple_updates_returns
      | apply start_delete_entry_returns
      | apply ask_id_received_for_delete_returns
      | apply confirm_delete_callback_returns
      | apply start_insights_menu_returns
      | apply insights_menu_callback_returns ].
Qed.

(** *** The states of a dialog *)

Lemma first_match_In l u h : first_match l u = Some h -> In h (map snd l).
Proof.
  induction l as [|[t c] l IH]; [discriminate|]. cbn [first_match map snd].
  destruct (check_update t u); [intros [= ->]; left; reflexivity | right; auto].
Qed.

Lemma handlers_of_In s l h :
  In h (map snd (handlers_of s l)) ->
  In h (flat_map (fun shs => map snd (snd shs)) l).
Proof.
  induction l as [|[s' hs] l IH]; [intros []|]. cbn [handlers_of flat_map snd].
  rewrite in_app_iff. destruct (s' =? s)%Z; auto.
Qed.

Lemma resolve_In c st u h : resolve c st u = Some h -> In h (callbacks_of c).
Proof.
  unfold resolve, callbacks_of. rewrite !in_app_iff. destruct st as [s|].
  - destruct (first_match (handlers_of s (states c)) u) as [h'|] eqn:E.
    + intros [= ->]. right; left. eapply handlers_of_In, first_match_In, E.
    + intros H. right; right. eapply first_match_In, H.
  - intros H. left. eapply first_match_In, H.
Qed.

Lemma dialogs_closed c :
  In c dialogs -> forallb (stays_within c) (callbacks_of c) = true.
Proof. intros Hc. each_dialog Hc; vm_compute; reflexivity. Qed.

Lemma within_next c s :
  ((s =? END)%Z || registered c s || (s =? config.CREATE_CHOOSE_ENTRY_TYPE)%Z) = true ->
  within c (next_state s).
Proof.
  unfold next_state. destruct (s =? END)%Z; [exact (fun _ => I)|].
  cbn [orb within]. intros H. apply orb_true_iff in H as [H|H]; [left; exact H|].
  right. apply Z.eqb_eq, H.
Qed.

Lemma handle_update_within c u st w :
  In c dialogs -> within c st -> within c (fst (handle_update c u (st, w))).
Proof.
  intros Hc Hst. unfold handle_update.
  destruct (resolve c st u) as [h|] eqn:Hr; [|exact Hst].
  destruct (run h u w) as [[s|e] w'] eqn:Hrun; [|exact Hst]. cbn [fst].
  apply within_next.
  pose proof (dialogs_closed c Hc) as Hall. rewrite forallb_forall in Hall.
  specialize (Hall h (resolve_In _ _ _ _ Hr)). unfold stays_within in Hall.
  rewrite forallb_forall in Hall. apply Hall.
  exact (run_returns h u _ _ _ Hrun).
Qed.

(** Whatever updates arrive at a dialog that starts inactive, the dialog
    is afterwards inactive or in a state for which it registers handlers,
    or in the first state of the create dialog, which the hand-over of the
    "new entry" button returns in every dialog: no handler ever returns a
    state that the dialog could not leave again. *)
Theorem dialogs_stay_within_their_states :
  forall (c : ConversationHandler) (timeline : list (datetime * Update)) (w : world),
    In c dialogs ->
    within c (fst (handle_updates c (None, w) timeline)).
Proof.
  intros c timeline w Hc. unfold handle_updates.
  assert (H : forall sw, within c (fst sw) ->
                within c (fst (fold_left (handle_update_at c) timeline sw))).
  { induction timeline as [|tu timeline IH]; intros sw Hsw; [exact Hsw|].
    cbn [fold_left]. apply IH. unfold handle_update_at.
    apply handle_update_within; assumption. }
  apply H. exact I.
Qed.

Lemma dialogs_stay_within_witness :
  within read_conv_handler (fst (handle_updates read_conv_handler (None, sample_world)
                                   view_session)).
Proof.
  apply dialogs_stay_within_their_states. cbn [dialogs In]. tauto.
Defined.

End Navigation.

(* ------------------------------------------------------------------ *)
(** ** The operations on the sheet *)

Module SheetOps.

Import gsheet_utils.

Lemma find_from_some q col : forall g k n,
  find_from q col k g = Some n ->
  k <= n < k + List.length g
  /\ shows col q (nth (n - k) g []) = true
  /\ forall m, k <= m < n -> shows col q (nth (m - k) g []) = false.
Proof.
  induction g as [|row g IH]; intros k n H; [discriminate|].
  cbn [find_from] in H. fold (shows col q row) in H.
  destruct (shows col q row) eqn:E.
  - injection H as <-. rewrite Nat.sub_diag. cbn [nth List.length].
    split; [lia|]. split; [exact E|]. intros m Hm. lia.
  - apply IH in H as (Hn & Hs & Hb). cbn [List.length].
    split; [lia|]. split.
    + replace (n - k) with (S (n - S k)) by lia. exact Hs.
    + intros m Hm. destruct (Nat.eq_dec m k) as [->|Hne].
      * rewrite Nat.sub_diag. exact E.
      * replace (m - k) with (S (m - S k)) by lia. apply Hb. lia.
Qed.

Lemma find_from_none q col : forall g k,
  find_from q col k g = None <-> Forall (fun row => shows col q row = false) g.
Proof.
  induction g as [|row g IH]; intros k; cbn [find_from];
    [split; [constructor | reflexivity]|].
  fold (shows col q row). destruct (shows col q row) eqn:E; split.
  - discriminate.
  - intros H. inversion H; congruence.
  - intros H. constructor; [exact E | apply (IH (S k)), H].
  - intros H. inversion H; subst. apply IH. assumption.
Qed.

Lemma call_unchanged w g :
  worksheet w = Some {| grid := g; reachable := true |} ->
  with_worksheet (Some {| grid := g; reachable := true |}) w = w.
Proof. destruct w; cbn. intros ->. reflexivity. Qed.

(** A call that reads. *)
Lemma call_worksheet_reads {A} (f : list (list pyval) -> A) w g :
  worksheet w = Some {| grid := g; reachable := true |} ->
  call_worksheet (fun g => (f g, g)) w = (Return (f g), w).
Proof.
  intros Hw. unfold call_worksheet. rewrite Hw. cbn [reachable grid].
  rewrite (call_unchanged w g Hw). reflexivity.
Qed.

(** A call on a service that does not answer. *)
Lemma call_worksheet_fails {A} (f : list (list pyval) -> A * list (list pyval)) w g :
  worksheet w = Some {| grid := g; reachable := false |} ->
  call_worksheet f w = (Raise APIError, w).
Proof. intros Hw. unfold call_worksheet. rewrite Hw. reflexivity. Qed.

Lemma find_row_by_id_unchanged entry_id w :
  snd (find_row_by_id entry_id w) = w.
Proof.
  unfold find_row_by_id.
  destruct (negb (initialized w)); [reflexivity|].
  destruct (entry_id =? "")%string; [reflexivity|].
  destruct (index config.ID_FIELD (HEADERS w)) as [i|]; [|reflexivity].
  unfold try_except, bind, worksheet_find, worksheet_row_values,
    gspread_exceptions_CellNotFound.
  destruct (worksheet w) as [[g r]|] eqn:Hw.
  - destruct r.
    + rewrite (call_worksheet_reads (find entry_id (i + 1)) w g Hw).
      destruct (find entry_id (i + 1) g) as [n|]; [|reflexivity].
      rewrite (call_worksheet_reads (row_values n) w g Hw). reflexivity.
    + rewrite (call_worksheet_fails _ w g Hw).
      destruct (cell_not_found_defined w); reflexivity.
  - unfold call_worksheet. rewrite Hw.
    destruct (cell_not_found_defined w); reflexivity.
Qed.

(** [find_row_by_id] leaves the world as it is.  When it reports a row,
    the sheet is ready, the row is the first one whose id cell shows the
    identifier, and the values are those of that row without its trailing
    empty cells.  It raises in one case only: the readiness test has
    passed, the identifier is not empty, the headers have the id column,
    the service does not answer the lookup, and the installed gspread has
    no [CellNotFound]; the error is then the [AttributeError] of the
    [except] clause that names it.  In that case it does raise, and with
    a library that has the name, or a service that answers, it returns. *)
Theorem find_row_by_id_reports_the_first_match :
  forall (entry_id : string) (w : world),
    snd (find_row_by_id entry_id w) = w
    /\ match fst (find_row_by_id entry_id w) with
       | Return (None, data) => data = None
       | Return (Some n, data) =>
           exists g i,
             ready_with g w
             /\ entry_id <> ""
             /\ index config.ID_FIELD (HEADERS w) = Some i
             /\ 1 <= n <= List.length g
             /\ shows (i + 1) entry_id (nth (n - 1) g []) = true
             /\ (forall m, 1 <= m < n -> shows (i + 1) entry_id (nth (m - 1) g []) = false)
             /\ data = Some (drop_trailing_empty (nth (n - 1) g []))
       | Raise e =>
           e = AttributeError
           /\ cell_not_found_defined w = false
           /\ initialized w = true
           /\ answers w = false
           /\ entry_id <> ""
           /\ index config.ID_FIELD (HEADERS w) <> None
       end
    /\ (initialized w = true -> answers w = false -> entry_id <> "" ->
        index config.ID_FIELD (HEADERS w) <> None ->
        fst (find_row_by_id entry_id w)
        = if cell_not_found_defined w then Return (None, None) else Raise AttributeError).
Proof.
  intros entry_id w. split; [apply find_row_by_id_unchanged|].
  unfold find_row_by_id, initialized, connected, answers.
  destruct (GSHEET_CONNECTED w) eqn:Hc; cbn [andb negb fst];
    [|split; [reflexivity | discriminate]].
  destruct (worksheet w) as [[g r]|] eqn:Hw; cbn [is_some andb negb fst];
    [|split; [reflexivity | discriminate]].
  destruct (HEADERS w) as [|h hs] eqn:Hh; cbn [List.length Nat.eqb negb fst];
    [split; [reflexivity | discriminate]|].
  destruct (String.eqb_spec entry_id "") as [He|He];
    [split; [reflexivity | intros _ _ H; contradiction]|].
  rewrite <- Hh. destruct (index config.ID_FIELD (HEADERS w)) as [i|] eqn:Hi;
    [|split; [reflexivity | intros _ _ _ H; contradiction]].
  unfold try_except, bind, worksheet_find, worksheet_row_values,
    gspread_exceptions_CellNotFound.
  cbn [reachable]. destruct r.
  - rewrite (call_worksheet_reads (find entry_id (i + 1)) w g Hw).
    split; [|discriminate].
    destruct (find entry_id (i + 1) g) as [n|] eqn:Hf; [|reflexivity].
    rewrite (call_worksheet_reads (row_values n) w g Hw). cbn [fst].
    apply find_from_some in Hf as (Hn & Hs & Hb).
    exists g, i. split; [repeat split; [exact Hc | exact Hw | congruence]|].
    repeat split; try assumption; try lia.
  - rewrite (call_worksheet_fails _ w g Hw).
    destruct (cell_not_found_defined w) eqn:Hd; cbn [fst ret].
    + split; reflexivity.
    + split; [|reflexivity].
      repeat split; try assumption; try reflexivity; discriminate.
Qed.

(** On the sample sheet with a service that has stopped answering and a
    gspread without [CellNotFound], the lookup of an entry raises. *)
Lemma find_row_by_id_raises_on_the_silent_sheet :
  find_row_by_id "e-1" silent_world = (Raise AttributeError, silent_world)
  /\ cell_not_found_defined silent_world = false.
Proof. split; reflexivity. Qed.

Lemma find_from_app q col : forall g g' k,
  find_from q col k (g ++ g')
  = match find_from q col k g with
    | Some n => Some n
    | None => find_from q col (k + List.length g) g'
    end.
Proof.
  induction g as [|row g IH]; intros g' k; cbn [app find_from List.length].
  - rewrite Nat.add_0_r. reflexivity.
  - destruct (cell_text (cell_at col row) =? q)%string; [reflexivity|].
    rewrite IH. replace (S k + List.length g) with (k + S (List.length g)) by lia.
    reflexivity.
Qed.

Lemma find_row_by_id_ready entry_id w g i :
  ready_with g w ->
  entry_id <> "" ->
  index config.ID_FIELD (HEADERS w) = Some i ->
  find_row_by_id entry_id w
  = (Return match find entry_id (i + 1) g with
            | Some n => (Some n, Some (row_values n g))
            | None => (None, None)
            end, w).
Proof.
  intros (Hc & Hw & Hh) He Hi. unfold find_row_by_id, initialized, connected.
  rewrite Hc, Hw. cbn [is_some andb].
  destruct (HEADERS w) as [|h hs] eqn:Hh'; [contradiction|].
  cbn [List.length Nat.eqb negb].
  destruct (String.eqb_spec entry_id "") as [E|_]; [contradiction|].
  rewrite Hi.
  unfold try_except, bind, worksheet_find, worksheet_row_values.
  rewrite (call_worksheet_reads (find entry_id (i + 1)) w g Hw).
  destruct (find entry_id (i + 1) g) as [n|]; [|reflexivity].
  rewrite (call_worksheet_reads (row_values n) w g Hw). reflexivity.
Qed.

Lemma ready_with_grid g g' w : ready_with g w -> ready_with g' (with_grid g' w).
Proof. intros (Hc & Hw & Hh). repeat split; assumption. Qed.

Lemma append_rows_ready rows w g :
  ready_with g w -> rows <> [] ->
  append_rows_to_sheet rows w = (Return true, with_grid (g ++ rows) w).
Proof.
  intros (Hc & Hw & Hh) Hne. unfold append_rows_to_sheet, connected.
  rewrite Hc, Hw. cbn [is_some andb negb].
  destruct rows as [|row rows]; [contradiction|].
  unfold try_except, bind, worksheet_append_rows, call_worksheet. rewrite Hw.
  reflexivity.
Qed.

(** On a sheet that is ready, a row appended with an identifier that no
    row shows yet is found by [find_row_by_id] right after, at the row
    where it was put and with its values; and every identifier that was
    found before is still found at the same row with the same values. *)
Theorem appended_row_is_found :
  forall (w : world) (g : list (list pyval)) (i : nat)
         (before after : list (list pyval)) (row : list pyval) (entry_id : string),
    ready_with g w ->
    index config.ID_FIELD (HEADERS w) = Some i ->
    entry_id <> "" ->
    shows (i + 1) entry_id row = true ->
    Forall (fun r => shows (i + 1) entry_id r = false) (g ++ before) ->
    let rows := before ++ row :: after in
    let w' := with_grid (g ++ rows) w in
    append_rows_to_sheet rows w = (Return true, w')
    /\ find_row_by_id entry_id w'
       = (Return (Some (List.length g + List.length before + 1),
                  Some (drop_trailing_empty row)), w')
    /\ forall other n data,
         find_row_by_id other w = (Return (Some n, data), w) ->
         find_row_by_id other w' = (Return (Some n, data), w').
Proof.
  intros w g i before after row entry_id Hr Hi He Hrow Hnone rows w'.
  assert (Hr' : ready_with (g ++ rows) w') by exact (ready_with_grid g _ w Hr).
  split; [apply append_rows_ready; [exact Hr | subst rows; destruct before; discriminate]|].
  split.
  - rewrite (find_row_by_id_ready entry_id w' (g ++ rows) i Hr' He Hi).
    unfold find, rows. rewrite app_assoc, find_from_app.
    apply (find_from_none entry_id (i + 1) (g ++ before) 1) in Hnone. rewrite Hnone.
    cbn [find_from]. fold (shows (i + 1) entry_id row). rewrite Hrow.
    rewrite length_app. unfold row_values.
    replace (1 + (List.length g + List.length before)) with
      (List.length g + List.length before + 1) by lia.
    replace (List.length g + List.length before + 1 - 1) with
      (List.length (g ++ before) + 0) by (rewrite length_app; lia).
    rewrite <- app_assoc, (app_assoc g before), app_nth2_plus. reflexivity.
  - intros other n data Hfound.
    destruct (String.eqb_spec other "") as [->|Ho].
    { unfold find_row_by_id in Hfound.
      destruct (negb (initialized w)); cbn in Hfound; discriminate. }
    rewrite (find_row_by_id_ready other w g i Hr Ho Hi) in Hfound.
    rewrite (find_row_by_id_ready other w' (g ++ rows) i Hr' Ho Hi).
    unfold find in *. rewrite find_from_app.
    destruct (find_from other (i + 1) 1 g) as [m|] eqn:Hm; [|discriminate].
    injection Hfound as <- <-.
    apply find_from_some in Hm as (Hn & _ & _).
    unfold row_values. rewrite app_nth1 by lia. reflexivity.
Qed.

Lemma appended_row_is_found_witness :
  find_row_by_id "e-9" (with_grid (sample_grid ++ [new_row]) sample_world)
  = (Return (Some 4, Some (drop_trailing_empty new_row)),
     with_grid (sample_grid ++ [new_row]) sample_world).
Proof.
  refine (proj1 (proj2 (appended_row_is_found sample_world sample_grid 0 [] [] new_row
                          "e-9" _ eq_refl _ eq_refl _))).
  - repeat split; discriminate.
  - discriminate.
  - repeat constructor.
Defined.

(** *** Deleting *)

Lemma find_from_shift q col : forall g k,
  find_from q col (S k) g = option_map S (find_from q col k g).
Proof.
  induction g as [|row g IH]; intros k; cbn [find_from]; [reflexivity|].
  destruct (cell_text (cell_at col row) =? q)%string; [reflexivity | apply IH].
Qed.

Lemma find_from_remove_other q col : forall g k j m,
  find_from q col k g = Some m ->
  m <> k + j ->
  find_from q col k (remove_nth j g) = Some (if m <? k + j then m else m - 1).
Proof.
  induction g as [|row g IH]; intros k j m H Hne; [discriminate|].
  cbn [find_from] in H. destruct j as [|j]; cbn [remove_nth].
  - destruct (cell_text (cell_at col row) =? q)%string; [injection H as <-; lia|].
    rewrite find_from_shift in H.
    destruct (find_from q col k g) as [m'|] eqn:Hm'; [|discriminate].
    injection H as <-. rewrite Nat.add_0_r.
    destruct (Nat.ltb_spec (S m') k); [|f_equal; lia].
    apply find_from_some in Hm'. lia.
  - cbn [find_from]. destruct (cell_text (cell_at col row) =? q)%string.
    + injection H as <-. destruct (Nat.ltb_spec k (k + S j)); [reflexivity | lia].
    + replace (k + S j) with (S k + j) in * by lia. apply IH; assumption.
Qed.

Lemma nth_remove_nth {A} (d : A) : forall l j a,
  nth a (remove_nth j l) d = if a <? j then nth a l d else nth (S a) l d.
Proof.
  induction l as [|x l IH]; intros j a.
  - destruct j; cbn [remove_nth]; destruct (a <? _); destruct a; reflexivity.
  - destruct j as [|j]; cbn [remove_nth]; [reflexivity|].
    destruct a as [|a]; [reflexivity|]. cbn [nth]. rewrite IH.
    change (S a <? S j) with (a <? j). reflexivity.
Qed.

Lemma length_remove_nth {A} : forall (l : list A) j,
  j < List.length l -> List.length (remove_nth j l) = List.length l - 1.
Proof.
  induction l as [|x l IH]; intros j H; [cbn in H; lia|].
  destruct j as [|j]; cbn [remove_nth List.length]; [lia|].
  rewrite IH by (cbn in H; lia). cbn in H. lia.
Qed.

Lemma remove_nth_none q col : forall g j,
  (forall a, a < List.length g -> a <> j -> shows col q (nth a g []) = false) ->
  Forall (fun row => shows col q row = false) (remove_nth j g).
Proof.
  induction g as [|row g IH]; intros j H; [destruct j; constructor|].
  destruct j as [|j]; cbn [remove_nth].
  - apply Forall_forall. intros r Hr. apply (In_nth _ _ []) in Hr as (a & Ha & <-).
    apply (H (S a)); cbn [List.length]; lia.
  - constructor.
    + apply (H 0); cbn [List.length]; lia.
    + apply IH. intros a Ha Hne. apply (H (S a)); cbn [List.length]; lia.
Qed.

Lemma drop_trailing_empty_nil row :
  drop_trailing_empty row = [] -> Forall (fun v => cell_text v = "") row.
Proof.
  induction row as [|v row IH]; [constructor|]. cbn [drop_trailing_empty].
  destruct (drop_trailing_empty row); [|discriminate].
  destruct (String.eqb_spec (cell_text v) ""); [|discriminate].
  intros _. constructor; [assumption | apply IH; reflexivity].
Qed.

Lemma shown_row_has_values col q row :
  q <> "" -> shows col q row = true -> drop_trailing_empty row <> [].
Proof.
  intros Hq Hs Hnil. apply drop_trailing_empty_nil in Hnil.
  unfold shows in Hs. apply String.eqb_eq in Hs. unfold cell_at in Hs.
  destruct (nth_in_or_default (col - 1) row empty_cell) as [Hin|Hd].
  - rewrite Forall_forall in Hnil. apply Hnil in Hin. congruence.
  - rewrite Hd in Hs. cbn in Hs. congruence.
Qed.

Lemma delete_row_ready r w g :
  GSHEET_CONNECTED w = true ->
  worksheet w = Some {| grid := g; reachable := true |} ->
  delete_row_from_sheet r w = (Return true, with_grid (remove_nth (r - 1) g) w).
Proof.
  intros Hc Hw. unfold delete_row_from_sheet, connected. rewrite Hc, Hw.
  cbn [is_some andb negb].
  unfold try_except, bind, worksheet_delete_rows, call_worksheet. rewrite Hw.
  reflexivity.
Qed.

Lemma delete_lookup_step w g i n from id_text t :
  ready_with g w ->
  index config.ID_FIELD (HEADERS w) = Some i ->
  PyStr.strip id_text <> "" ->
  find (PyStr.strip id_text) (i + 1) g = Some n ->
  exists w1,
    handle_update_at delete_conv_handler (Some config.DELETE_ASK_ID, w)
      (t, Message from id_text)
    = (Some config.DELETE_CONFIRM, w1)
    /\ delete_row_num (user_data w1) = Some n
    /\ delete_entry_id (user_data w1) = Some (PyStr.strip id_text)
    /\ GSHEET_CONNECTED w1 = GSHEET_CONNECTED w
    /\ worksheet w1 = worksheet w
    /\ HEADERS w1 = HEADERS w.
Proof.
  intros Hr Hi He Hf.
  pose proof Hr as (Hc & Hw & Hh).
  pose proof (find_from_some _ _ _ _ _ Hf) as (Hn & Hs & Hb).
  pose proof (shown_row_has_values _ _ _ He Hs) as Hvals.
  unfold handle_update_at, handle_update. cbn [fst snd].
  change (resolve delete_conv_handler (Some config.DELETE_ASK_ID) (Message from id_text))
    with (Some cb_ask_id_received_for_delete).
  cbn [run]. unfold ask_id_received_for_delete. exec.
  rewrite (find_row_by_id_ready (PyStr.strip id_text) (with_clock t w) g i)
    by (try assumption; repeat split; assumption).
  rewrite Hf. unfold row_values.
  destruct (drop_trailing_empty (nth (n - 1) g [])) as [|v vs] eqn:Hrow; [contradiction|].
  exec. eexists. split; [reflexivity|]. exec. repeat split.
Qed.

Lemma delete_confirm_step w g n entry_id from t :
  GSHEET_CONNECTED w = true ->
  worksheet w = Some {| grid := g; reachable := true |} ->
  delete_row_num (user_data w) = Some n ->
  delete_entry_id (user_data w) = Some entry_id ->
  exists w2,
    handle_update_at delete_conv_handler (Some config.DELETE_CONFIRM, w)
      (t, CallbackQuery from config.CB_DELETE_CONFIRM_YES)
    = (None, w2)
    /\ user_data w2 = empty_user_data
    /\ GSHEET_CONNECTED w2 = true
    /\ worksheet w2 = Some {| grid := remove_nth (n - 1) g; reachable := true |}
    /\ HEADERS w2 = HEADERS w.
Proof.
  intros Hc Hw Hn Hid.
  unfold handle_update_at, handle_update. cbn [fst snd].
  change (resolve delete_conv_handler (Some config.DELETE_CONFIRM)
            (CallbackQuery from config.CB_DELETE_CONFIRM_YES))
    with (Some cb_confirm_delete_callback).
  cbn [run]. unfold confirm_delete_callback. exec.
  rewrite String.eqb_refl. exec. rewrite Hn. exec. rewrite Hid. exec.
  match goal with
  | |- context [delete_row_from_sheet n ?w1] =>
      rewrite (delete_row_ready n w1 g) by (exec; assumption)
  end.
  exec. eexists. split; [reflexivity|]. exec. repeat split; assumption.
Qed.

(** The delete dialog, from the prompt for the identifier: the user sends
    an identifier that the sheet holds in row [n] and confirms.  The dialog
    ends with the session emptied and the sheet is the one it was without
    row [n]; every other entry is still found, one row up when it stood
    below, with the same values; and when no other row showed the
    identifier, it is not found any more. *)
Theorem delete_dialog_removes_the_row :
  forall (w : world) (g : list (list pyval)) (i n : nat) (from : User)
         (id_text : string) (t1 t2 : datetime),
    ready_with g w ->
    index config.ID_FIELD (HEADERS w) = Some i ->
    PyStr.strip id_text <> "" ->
    find (PyStr.strip id_text) (i + 1) g = Some n ->
    exists w',
      handle_updates delete_conv_handler (Some config.DELETE_ASK_ID, w)
        [(t1, Message from id_text);
         (t2, CallbackQuery from config.CB_DELETE_CONFIRM_YES)]
      = (None, w')
      /\ user_data w' = empty_user_data
      /\ ready_with (remove_nth (n - 1) g) w'
      /\ HEADERS w' = HEADERS w
      /\ List.length (remove_nth (n - 1) g) = List.length g - 1
      /\ (forall other m data,
            m <> n ->
            find_row_by_id other w = (Return (Some m, data), w) ->
            find_row_by_id other w'
            = (Return (Some (if m <? n then m else m - 1), data), w'))
      /\ ((forall m, 1 <= m <= List.length g -> m <> n ->
             shows (i + 1) (PyStr.strip id_text) (nth (m - 1) g []) = false) ->
          find_row_by_id (PyStr.strip id_text) w' = (Return (None, None), w')).
Proof.
  intros w g i n from id_text t1 t2 Hr Hi He Hf.
  pose proof Hr as (Hc & Hw & Hh).
  pose proof (find_from_some _ _ _ _ _ Hf) as (Hn & Hs & Hb).
  pose proof (shown_row_has_values _ _ _ He Hs) as Hvals.
  destruct (delete_lookup_step w g i n from id_text t1 Hr Hi He Hf)
    as (w1 & E1 & Hn1 & Hid1 & Hc1 & Hw1 & Hh1).
  rewrite Hc in Hc1. rewrite Hw in Hw1.
  destruct (delete_confirm_step w1 g n _ from t2 Hc1 Hw1 Hn1 Hid1)
    as (w2 & E2 & Hud2 & Hc2 & Hw2 & Hh2).
  exists w2. unfold handle_updates. cbn [fold_left]. rewrite E1, E2.
  split; [reflexivity|].
  set (g' := remove_nth (n - 1) g) in *.
  assert (Hr' : ready_with g' w2)
    by (repeat split; [assumption | assumption | congruence]).
  assert (Hi' : index config.ID_FIELD (HEADERS w2) = Some i) by congruence.
  split; [exact Hud2|]. split; [exact Hr'|]. split; [congruence|].
  split; [apply length_remove_nth; lia|]. split.
  - intros other m data Hm Hfound.
    destruct (String.eqb_spec other "") as [->|Ho].
    { unfold find_row_by_id in Hfound.
      destruct (negb (initialized w)); cbn in Hfound; discriminate. }
    rewrite (find_row_by_id_ready other w g i Hr Ho Hi) in Hfound.
    rewrite (find_row_by_id_ready other _ g' i Hr' Ho Hi').
    unfold find in *.
    destruct (find_from other (i + 1) 1 g) as [m'|] eqn:Hm'; [|discriminate].
    injection Hfound as -> <-.
    pose proof (find_from_some _ _ _ _ _ Hm') as (Hm1 & _ & _).
    subst g'. rewrite (find_from_remove_other other (i + 1) g 1 (n - 1) m Hm') by lia.
    replace (1 + (n - 1)) with n by lia.
    unfold row_values. rewrite nth_remove_nth.
    destruct (Nat.ltb_spec m n) as [Hlt|Hge].
    + destruct (Nat.ltb_spec (m - 1) (n - 1)); [reflexivity | lia].
    + destruct (Nat.ltb_spec (m - 1 - 1) (n - 1)); [lia|].
      replace (S (m - 1 - 1)) with (m - 1) by lia. reflexivity.
  - intros Huniq.
    rewrite (find_row_by_id_ready (PyStr.strip id_text) _ g' i Hr' He Hi').
    assert (Hnone : find (PyStr.strip id_text) (i + 1) g' = None).
    { apply find_from_none, remove_nth_none. intros a Ha Hne.
      replace a with (S a - 1) by lia. apply Huniq; lia. }
    rewrite Hnone. reflexivity.
Qed.

Lemma delete_dialog_witness :
  exists w',
    handle_updates delete_conv_handler (Some config.DELETE_ASK_ID, sample_world)
      [(at_time 1, Message abebe " e-1 ");
       (at_time 2, CallbackQuery abebe config.CB_DELETE_CONFIRM_YES)]
    = (None, w')
    /\ ready_with [header_row; nth 2 sample_grid []] w'.
Proof.
  destruct (delete_dialog_removes_the_row sample_world sample_grid 0 2 abebe " e-1 "
              (at_time 1) (at_time 2))
    as (w' & E & _ & Hr & _).
  - repeat split; discriminate.
  - reflexivity.
  - vm_compute. discriminate.
  - vm_compute. reflexivity.
  - exists w'. split; [exact E | exact Hr].
Defined.

(** *** Who writes to the sheet *)

Lemma keeps_ret {A} (a : A) : keeps_sheet (ret a).
Proof. intros w. apply same_sheet_refl. Qed.

Lemma keeps_raise {A} e : keeps_sheet (@raise A e).
Proof. intros w. apply same_sheet_refl. Qed.

Lemma keeps_bind {A B} (m : M A) (k : A -> M B) :
  keeps_sheet m -> (forall a, keeps_sheet (k a)) -> keeps_sheet (bind m k).
Proof.
  intros Hm Hk w. unfold bind. specialize (Hm w).
  destruct (m w) as [[a|e] w1]; cbn [snd] in *; [|exact Hm].
  eapply same_sheet_trans; [exact Hm | apply Hk].
Qed.

Lemma keeps_try_except {A} (m : M A) (h : exn -> M A) :
  keeps_sheet m -> (forall e, keeps_sheet (h e)) -> keeps_sheet (try_except m h).
Proof.
  intros Hm Hh w. unfold try_except. specialize (Hm w).
  destruct (m w) as [[a|e] w1]; cbn [snd] in *; [exact Hm|].
  eapply same_sheet_trans; [exact Hm | apply Hh].
Qed.

Lemma keeps_for_each {A B} (f : A -> M B) l :
  (forall a, keeps_sheet (f a)) -> keeps_sheet (for_each f l).
Proof.
  intros Hf. induction l as [|a l IH]; cbn [for_each]; [apply keeps_ret|].
  apply keeps_bind; [apply Hf|]. intros b.
  apply keeps_bind; [exact IH|]. intros bs. apply keeps_ret.
Qed.

Lemma keeps_send o : keeps_sheet (send o).
Proof. intros w. repeat split. Qed.

Lemma keeps_modify_user_data f : keeps_sheet (modify_user_data f).
Proof. intros w. repeat split. Qed.

Lemma keeps_clear_user_data : keeps_sheet clear_user_data.
Proof. intros w. repeat split. Qed.

Lemma keeps_get_user_data : keeps_sheet get_user_data.
Proof. intros w. repeat split. Qed.

Lemma keeps_get_HEADERS : keeps_sheet get_HEADERS.
Proof. intros w. repeat split. Qed.

Lemma keeps_datetime_now : keeps_sheet datetime_now.
Proof. intros w. repeat split. Qed.

Lemma keeps_item {A} key (v : option A) : keeps_sheet (item key v).
Proof. destruct v; [apply keeps_ret | apply keeps_raise]. Qed.

Lemma keeps_attr {A} (o : option A) : keeps_sheet (attr o).
Proof. destruct o; [apply keeps_ret | apply keeps_raise]. Qed.

Lemma keeps_call_reads {A} (f : list (list pyval) -> A) :
  keeps_sheet (call_worksheet (fun g => (f g, g))).
Proof.
  intros w. unfold call_worksheet.
  destruct (worksheet w) as [[g r]|] eqn:Hw; [|apply same_sheet_refl].
  destruct r; [|apply same_sheet_refl]. cbn [reachable grid snd].
  rewrite (call_unchanged w g Hw). apply same_sheet_refl.
Qed.

Lemma keeps_find_row_by_id entry_id : keeps_sheet (find_row_by_id entry_id).
Proof.
  intros w.
  rewrite find_row_by_id_unchanged. apply same_sheet_refl.
Qed.

Lemma keeps_get_all_values : keeps_sheet worksheet_get_all_values.
Proof. apply keeps_call_reads. Qed.

Lemma keeps_get_all_data_for_insights : keeps_sheet get_all_data_for_insights.
Proof.
  intros w. unfold get_all_data_for_insights.
  destruct (negb (initialized w)); [apply same_sheet_refl|].
  destruct (negb _); [apply same_sheet_refl|].
  apply keeps_try_except.
  - apply keeps_bind; [apply keeps_call_reads | intros; apply keeps_ret].
  - intros; apply keeps_ret.
Qed.

Lemma keeps_page_of data : keeps_sheet (page_of data).
Proof.
  unfold page_of. cbv zeta. destruct (_ && _); [|apply keeps_ret].
  destruct (PyStr.int_of_digits _); [apply keeps_ret | apply keeps_raise].
Qed.

Create HintDb keeps.
#[local] Hint Resolve keeps_ret keeps_raise keeps_send keeps_modify_user_data
  keeps_clear_user_data keeps_get_user_data keeps_get_HEADERS keeps_datetime_now
  keeps_item keeps_attr keeps_find_row_by_id keeps_get_all_values
  keeps_get_all_data_for_insights keeps_page_of : keeps.

Ltac keeps_step :=
  lazymatch goal with
  | |- keeps_sheet (bind _ _) => apply keeps_bind; [|intros]
  | |- keeps_sheet (try_except _ _) => apply keeps_try_except; [|intros]
  | |- keeps_sheet (for_each _ _) => apply keeps_for_each; intros
  | |- keeps_sheet (match ?x with _ => _ end) => destruct x
  | |- keeps_sheet _ => solve [auto 2 with keeps nocore]
  end.

Ltac keeps_of h := intros; unfold h; cbv beta zeta; repeat keeps_step.

Lemma _send_or_edit_keeps u text markup : keeps_sheet (_send_or_edit u text markup).
Proof. keeps_of _send_or_edit. Qed.

Lemma _send_or_edit_update_keeps u text markup mode :
  keeps_sheet (_send_or_edit_update u text markup mode).
Proof. keeps_of _send_or_edit_update. Qed.

Lemma _send_or_edit_read_keeps u text markup :
  keeps_sheet (_send_or_edit_read u text markup).
Proof. keeps_of _send_or_edit_read. Qed.

Lemma _send_or_edit_insights_keeps u text markup :
  keeps_sheet (_send_or_edit_insights u text markup).
Proof. keeps_of _send_or_edit_insights. Qed.

Lemma _get_current_entry_data_keeps : keeps_sheet _get_current_entry_data.
Proof. keeps_of _get_current_entry_data. Qed.

Lemma set_current_entry_item_keeps f : keeps_sheet (set_current_entry_item f).
Proof. keeps_of set_current_entry_item. Qed.

Lemma _clear_current_entry_data_keeps : keeps_sheet _clear_current_entry_data.
Proof. keeps_of _clear_current_entry_data. Qed.

Lemma main_menu_command_simple_keeps u : keeps_sheet (main_menu_command_simple u).
Proof. keeps_of main_menu_command_simple. Qed.

#[local] Hint Resolve _send_or_edit_keeps _send_or_edit_update_keeps
  _send_or_edit_read_keeps _send_or_edit_insights_keeps _get_current_entry_data_keeps
  set_current_entry_item_keeps _clear_current_entry_data_keeps
  main_menu_command_simple_keeps : keeps.

Lemma store_new_value_keeps field v :
  keeps_sheet field -> keeps_sheet (store_new_value field v).
Proof. intros Hf. unfold store_new_value. repeat keeps_step. Qed.
#[local] Hint Resolve store_new_value_keeps : keeps.

Lemma cancel_conversation_keeps u : keeps_sheet (cancel_conversation u).
Proof. keeps_of cancel_conversation. Qed.
#[local] Hint Resolve cancel_conversation_keeps : keeps.

Lemma start_new_entry_keeps u : keeps_sheet (start_new_entry u).
Proof. keeps_of start_new_entry. Qed.
#[local] Hint Resolve start_new_entry_keeps : keeps.

Lemma ask_batch_common_location_keeps u : keeps_sheet (ask_batch_common_location u).
Proof. keeps_of ask_batch_common_location. Qed.
#[local] Hint Resolve ask_batch_common_location_keeps : keeps.

Lemma ask_single_entry_product_keeps u : keeps_sheet (ask_single_entry_product u).
Proof. keeps_of ask_single_entry_product. Qed.
#[local] Hint Resolve ask_single_entry_product_keeps : keeps.

Lemma handle_entry_type_selection_keeps u : keeps_sheet (handle_entry_type_selection u).
Proof. keeps_of handle_entry_type_selection. Qed.
#[local] Hint Resolve handle_entry_type_selection_keeps : keeps.

Lemma batch_common_location_selection_keeps u : keeps_sheet (batch_common_location_selection u).
Proof. keeps_of batch_common_location_selection. Qed.
#[local] Hint Resolve batch_common_location_selection_keeps : keeps.

Lemma ask_batch_products_selection_keeps u : keeps_sheet (ask_batch_products_selection u).
Proof. keeps_of ask_batch_products_selection. Qed.
#[local] Hint Resolve ask_batch_products_selection_keeps : keeps.

Lemma batch_common_remark_entry_keeps u : keeps_sheet (batch_common_remark_entry u).
Proof. keeps_of batch_common_remark_entry. Qed.
#[local] Hint Resolve batch_common_remark_entry_keeps : keeps.

Lemma batch_skip_common_remark_keeps u : keeps_sheet (batch_skip_common_remark u).
Proof. keeps_of batch_skip_common_remark. Qed.
#[local] Hint Resolve batch_skip_common_remark_keeps : keeps.

Lemma toggle_batch_product_selection_keeps u : keeps_sheet (toggle_batch_product_selection u).
Proof. keeps_of toggle_batch_product_selection. Qed.
#[local] Hint Resolve toggle_batch_product_selection_keeps : keeps.

Lemma cancel_no_entries_keeps u : keeps_sheet (cancel_no_entries u).
Proof. keeps_of cancel_no_entries. Qed.
#[local] Hint Resolve cancel_no_entries_keeps : keeps.

Lemma show_batch_confirmation_keeps u : keeps_sheet (show_batch_confirmation u).
Proof. keeps_of show_batch_confirmation. Qed.
#[local] Hint Resolve show_batch_confirmation_keeps : keeps.

Lemma ask_next_price_for_batch_keeps u : keeps_sheet (ask_next_price_for_batch u).
Proof. keeps_of ask_next_price_for_batch. Qed.
#[local] Hint Resolve ask_next_price_for_batch_keeps : keeps.

Lemma batch_products_selection_done_keeps u : keeps_sheet (batch_products_selection_done u).
Proof. keeps_of batch_products_selection_done. Qed.
#[local] Hint Resolve batch_products_selection_done_keeps : keeps.

Lemma batch_price_entry_keeps u : keeps_sheet (batch_price_entry u).
Proof. keeps_of batch_price_entry. Qed.
#[local] Hint Resolve batch_price_entry_keeps : keeps.

Lemma single_entry_product_selection_keeps u : keeps_sheet (single_entry_product_selection u).
Proof. keeps_of single_entry_product_selection. Qed.
#[local] Hint Resolve single_entry_product_selection_keeps : keeps.

Lemma single_entry_price_entry_keeps u : keeps_sheet (single_entry_price_entry u).
Proof. keeps_of single_entry_price_entry. Qed.
#[local] Hint Resolve single_entry_price_entry_keeps : keeps.

Lemma single_entry_location_selection_keeps u : keeps_sheet (single_entry_location_selection u).
Proof. keeps_of single_entry_location_selection. Qed.
#[local] Hint Resolve single_entry_location_selection_keeps : keeps.

Lemma show_single_entry_confirmation_keeps u : keeps_sheet (show_single_entry_confirmation u).
Proof. keeps_of show_single_entry_confirmation. Qed.
#[local] Hint Resolve show_single_entry_confirmation_keeps : keeps.

Lemma single_entry_remark_entry_keeps u : keeps_sheet (single_entry_remark_entry u).
Proof. keeps_of single_entry_remark_entry. Qed.
#[local] Hint Resolve single_entry_remark_entry_keeps : keeps.

Lemma single_skip_remark_entry_keeps u : keeps_sheet (single_skip_remark_entry u).
Proof. keeps_of single_skip_remark_entry. Qed.
#[local] Hint Resolve single_skip_remark_entry_keeps : keeps.

Lemma post_conversation_callback_handler_keeps u : keeps_sheet (post_conversation_callback_handler u).
Proof. keeps_of post_conversation_callback_handler. Qed.
#[local] Hint Resolve post_conversation_callback_handler_keeps : keeps.

Lemma view_entries_command_keeps u : keeps_sheet (view_entries_command u).
Proof. keeps_of view_entries_command. Qed.
#[local] Hint Resolve view_entries_command_keeps : keeps.

Lemma prompt_for_id_callback_keeps u : keeps_sheet (prompt_for_id_callback u).
Proof. keeps_of prompt_for_id_callback. Qed.
#[local] Hint Resolve prompt_for_id_callback_keeps : keeps.

Lemma handle_id_for_view_keeps u : keeps_sheet (handle_id_for_view u).
Proof. keeps_of handle_id_for_view. Qed.
#[local] Hint Resolve handle_id_for_view_keeps : keeps.

Lemma view_last_entries_callback_keeps u : keeps_sheet (view_last_entries_callback u).
Proof. keeps_of view_last_entries_callback. Qed.
#[local] Hint Resolve view_last_entries_callback_keeps : keeps.

Lemma navigate_back_to_view_menu_keeps u : keeps_sheet (navigate_back_to_view_menu u).
Proof. keeps_of navigate_back_to_view_menu. Qed.
#[local] Hint Resolve navigate_back_to_view_menu_keeps : keeps.

Lemma cancel_view_callback_keeps u : keeps_sheet (cancel_view_callback u).
Proof. keeps_of cancel_view_callback. Qed.
#[local] Hint Resolve cancel_view_callback_keeps : keeps.

Lemma start_update_entry_keeps u : keeps_sheet (start_update_entry u).
Proof. keeps_of start_update_entry. Qed.
#[local] Hint Resolve start_update_entry_keeps : keeps.

Lemma show_field_selection_for_update_keeps u : keeps_sheet (show_field_selection_for_update u).
Proof. keeps_of show_field_selection_for_update. Qed.
#[local] Hint Resolve show_field_selection_for_update_keeps : keeps.

Lemma ask_id_received_keeps u : keeps_sheet (ask_id_received u).
Proof. keeps_of ask_id_received. Qed.
#[local] Hint Resolve ask_id_received_keeps : keeps.

Lemma toggle_field_selection_callback_keeps u : keeps_sheet (toggle_field_selection_callback u).
Proof. keeps_of toggle_field_selection_callback. Qed.
#[local] Hint Resolve toggle_field_selection_callback_keeps : keeps.

Lemma confirm_multiple_changes_keeps u : keeps_sheet (confirm_multiple_changes u).
Proof. keeps_of confirm_multiple_changes. Qed.
#[local] Hint Resolve confirm_multiple_changes_keeps : keeps.

Lemma ask_for_next_field_value_keeps u : keeps_sheet (ask_for_next_field_value u).
Proof. keeps_of ask_for_next_field_value. Qed.
#[local] Hint Resolve ask_for_next_field_value_keeps : keeps.

Lemma proceed_with_selected_fields_callback_keeps u : keeps_sheet (proceed_with_selected_fields_callback u).
Proof. keeps_of proceed_with_selected_fields_callback. Qed.
#[local] Hint Resolve proceed_with_selected_fields_callback_keeps : keeps.

Lemma new_value_for_product_or_location_callback_keeps u : keeps_sheet (new_value_for_product_or_location_callback u).
Proof. keeps_of new_value_for_product_or_location_callback. Qed.
#[local] Hint Resolve new_value_for_product_or_location_callback_keeps : keeps.

Lemma new_value_for_text_field_received_keeps u : keeps_sheet (new_value_for_text_field_received u).
Proof. keeps_of new_value_for_text_field_received. Qed.
#[local] Hint Resolve new_value_for_text_field_received_keeps : keeps.

Lemma skip_remark_update_command_keeps u : keeps_sheet (skip_remark_update_command u).
Proof. keeps_of skip_remark_update_command. Qed.
#[local] Hint Resolve skip_remark_update_command_keeps : keeps.

Lemma cancel_update_operation_callback_keeps u : keeps_sheet (cancel_update_operation_callback u).
Proof. keeps_of cancel_update_operation_callback. Qed.
#[local] Hint Resolve cancel_update_operation_callback_keeps : keeps.

Lemma start_delete_entry_keeps u : keeps_sheet (start_delete_entry u).
Proof. keeps_of start_delete_entry. Qed.
#[local] Hint Resolve start_delete_entry_keeps : keeps.

Lemma ask_id_received_for_delete_keeps u : keeps_sheet (ask_id_received_for_delete u).
Proof. keeps_of ask_id_received_for_delete. Qed.
#[local] Hint Resolve ask_id_received_for_delete_keeps : keeps.

Lemma start_insights_menu_keeps u : keeps_sheet (start_insights_menu u).
Proof. keeps_of start_insights_menu. Qed.
#[local] Hint Resolve start_insights_menu_keeps : keeps.

Lemma insights_menu_callback_keeps u : keeps_sheet (insights_menu_callback u).
Proof. keeps_of insights_menu_callback. Qed.
#[local] Hint Resolve insights_menu_callback_keeps : keeps.

Lemma run_keeps h u : commits h = false -> keeps_sheet (run h u).
Proof. destruct h; cbn [commits run]; intros H; try discriminate; auto 1 with keeps nocore. Qed.

(** Only the four commit callbacks (the two submits of the create dialog,
    the confirmation of the update and the confirmation of the delete)
    write to the sheet: an update that a dialog gives to any other callback,
    or that it drops, leaves the sheet, the headers, the connection flag
    and the source of identifiers as they were, whether the callback
    returns or raises; and the confirmation of the delete itself leaves
    them alone unless the press is the one on "yes". *)
Theorem only_the_commit_callbacks_write :
  forall (c : ConversationHandler) (st : option config.state) (u : Update) (w : world),
    (forall h, resolve c st u = Some h -> commits h = false) ->
    same_sheet w (snd (handle_update c u (st, w)))
    /\ forall from data,
         data <> config.CB_DELETE_CONFIRM_YES ->
         same_sheet w (snd (confirm_delete_callback (CallbackQuery from data) w)).
Proof.
  intros c st u w H. split.
  - unfold handle_update. destruct (resolve c st u) as [h|]; [|apply same_sheet_refl].
    pose proof (run_keeps h u (H h eq_refl) w) as Hk.
    destruct (run h u w) as [[s|e] w']; exact Hk.
  - intros from data Hd. unfold confirm_delete_callback. exec.
    apply String.eqb_neq in Hd. rewrite Hd. exec. repeat split.
Qed.

Lemma only_the_commit_callbacks_write_witness :
  same_sheet sample_world
    (snd (handle_update read_conv_handler
            (CallbackQuery sara (config.CB_VIEW_LAST_N_PREFIX ++ "0")%string)
            (Some config.VIEW_AWAITING_MENU_CHOICE, sample_world))).
Proof.
  refine (proj1 (only_the_commit_callbacks_write read_conv_handler
                   (Some config.VIEW_AWAITING_MENU_CHOICE)
                   (CallbackQuery sara (config.CB_VIEW_LAST_N_PREFIX ++ "0")%string)
                   sample_world _)).
  intros h H. vm_compute in H. injection H as <-. reflexivity.
Defined.

(** *** Failures of the service *)

Lemma call_worksheet_result {A} (f : list (list pyval) -> A * list (list pyval)) w :
  (answers w = false /\ exists e, call_worksheet f w = (Raise e, w))
  \/ (answers w = true /\ exists a w', call_worksheet f w = (Return a, w')).
Proof.
  unfold answers, call_worksheet. destruct (worksheet w) as [[g r]|].
  - destruct r; cbn [reachable grid].
    + right. split; [reflexivity|]. destruct (f g). eauto.
    + left. eauto.
  - left. eauto.
Qed.

(** The three writing operations of [gsheet_utils] never raise: they
    return [True] exactly when the readiness test passes and the service
    answers the call (an append of no rows makes no call), and when they
    return [False] the world is as it was. *)
Theorem writes_report_failure_as_false :
  forall (w : world) (rows : list (list pyval)) (r c : nat) (v : pyval),
    (exists w1,
        append_rows_to_sheet rows w
        = (Return (connected w && (match rows with [] => true | _ => answers w end)),
           w1)
        /\ (connected w && (match rows with [] => true | _ => answers w end) = false ->
            w1 = w))
    /\ (exists w2,
           update_cell_in_sheet r c v w = (Return (connected w && answers w), w2)
           /\ (connected w && answers w = false -> w2 = w))
    /\ (exists w3,
           delete_row_from_sheet r w = (Return (connected w && answers w), w3)
           /\ (connected w && answers w = false -> w3 = w)).
Proof.
  intros w rows r c v.
  unfold append_rows_to_sheet, update_cell_in_sheet, delete_row_from_sheet.
  destruct (connected w); cbn [negb andb].
  2: { repeat split; eexists; (split; [reflexivity | reflexivity]). }
  unfold try_except, bind, worksheet_append_rows, worksheet_update_cell,
    worksheet_delete_rows.
  split; [|split].
  - destruct rows as [|row rows]; [eexists; split; [reflexivity | discriminate]|].
    destruct (call_worksheet_result (fun g => (tt, g ++ row :: rows)) w)
      as [(Ha & e & E)|(Ha & a & w' & E)]; rewrite E, Ha;
      eexists; (split; [reflexivity|]); [reflexivity | discriminate].
  - destruct (call_worksheet_result (fun g => (tt, set_cell r c v g)) w)
      as [(Ha & e & E)|(Ha & a & w' & E)]; rewrite E, Ha;
      eexists; (split; [reflexivity|]); [reflexivity | discriminate].
  - destruct (call_worksheet_result (fun g => (tt, remove_nth (r - 1) g)) w)
      as [(Ha & e & E)|(Ha & a & w' & E)]; rewrite E, Ha;
      eexists; (split; [reflexivity|]); [reflexivity | discriminate].
Qed.

End SheetOps.

(* ------------------------------------------------------------------ *)
(** ** The averages and their report *)

Module Averages.

Import gsheet_utils.

(** *** The data *)

Lemma filter_map_length {A B} (f : A -> option B) l :
  List.length (filter_map f l) <= List.length l.
Proof.
  induction l as [|a l IH]; cbn [filter_map List.length]; [lia|].
  destruct (f a); cbn [List.length]; lia.
Qed.

Lemma filter_map_Forall {A B} (f : A -> option B) (P : B -> Prop) l :
  (forall a b, f a = Some b -> P b) -> Forall P (filter_map f l).
Proof.
  intros H. induction l as [|a l IH]; cbn [filter_map]; [constructor|].
  destruct (f a) as [b|] eqn:E; [constructor; [exact (H a b E) | exact IH] | exact IH].
Qed.

Lemma process_record_valid record it :
  process_record record = Some it -> valid_item it = true.
Proof.
  intros H. apply Insights.process_record_keeps in H.
  destruct H as (p & l & raw & x & _ & _ & _ & _ & _ & _ & _ & Hx & ->).
  unfold valid_item. cbn [item_price item_product item_location].
  rewrite Hx, !Normalization.clean_name_clean. reflexivity.
Qed.

Lemma all_records_length g : List.length (all_records g) = List.length g - 1.
Proof.
  unfold all_records. destruct g as [|h rows]; [reflexivity|].
  rewrite length_map. cbn [List.length]. lia.
Qed.

Ltac no_data :=
  exists []; split; [reflexivity|]; split; [constructor|];
  split; [cbn [List.length]; lia|]; intros H; contradiction H; reflexivity.

(** [get_all_data_for_insights] never raises and leaves the world as it
    is; every item it returns has a price that passed the test and a
    product and a location in normalized form; there are at most as many
    items as the sheet has rows under its header row, and none unless the
    sheet is ready and has the product, price and location columns. *)
Theorem insights_data_is_fetched_clean :
  forall w : world,
    exists data,
      get_all_data_for_insights w = (Return data, w)
      /\ Forall (fun it => valid_item it = true) data
      /\ List.length data <= List.length (sheet_rows w) - 1
      /\ (data <> [] ->
          initialized w = true
          /\ answers w = true
          /\ forall h, In h [config.PRODUCT_FIELD; config.PRICE_FIELD; config.LOCATION_FIELD] ->
                       In h (HEADERS w)).
Proof.
  intros w. unfold get_all_data_for_insights.
  destruct (initialized w) eqn:Hi; cbn [negb];
    [|no_data].
  destruct (forallb _ _) eqn:Hh; cbn [negb];
    [|no_data].
  unfold try_except, bind, worksheet_get_all_records.
  unfold answers, sheet_rows.
  destruct (worksheet w) as [[g r]|] eqn:Hw.
  - destruct r.
    + rewrite (SheetOps.call_worksheet_reads all_records w g Hw).
      exists (filter_map process_record (all_records g)). cbn [grid reachable].
      split; [reflexivity|]. split; [apply filter_map_Forall, process_record_valid|].
      split; [rewrite <- all_records_length; apply filter_map_length|].
      intros _. split; [reflexivity|]. split; [reflexivity|].
      intros h Hin. rewrite forallb_forall in Hh. specialize (Hh h Hin).
      destruct (index h (HEADERS w)) as [i|] eqn:E; [|discriminate].
      apply UpdateWrite.index_nth_error in E. eapply nth_error_In, E.
    + rewrite (SheetOps.call_worksheet_fails _ w g Hw).
      no_data.
  - unfold call_worksheet. rewrite Hw.
    no_data.
Qed.

(** *** The groups *)

Lemma lookup_none_not_in {A} k (d : list (group_key * A)) :
  lookup k d = None <-> ~ In k (map fst d).
Proof.
  induction d as [|[k' a] d IH]; cbn [lookup map fst In]; [tauto|].
  destruct (group_key_eqb k' k) eqn:E.
  - apply Insights.group_key_eqb_eq in E. split; [discriminate | tauto].
  - rewrite IH. split; [|tauto]. intros H [->|H']; [|tauto].
    rewrite Insights.group_key_eqb_refl in E. discriminate.
Qed.

Lemma keys_accumulate k p acc :
  map fst (accumulate k p acc)
  = match lookup k acc with
    | Some _ => map fst acc
    | None => map fst acc ++ [k]
    end.
Proof.
  induction acc as [|[k' d] acc IH]; cbn [accumulate lookup map fst app]; [reflexivity|].
  destruct (group_key_eqb k' k); cbn [map fst]; [reflexivity|].
  rewrite IH. destruct (lookup k acc); reflexivity.
Qed.

Lemma NoDup_accumulate k p acc :
  NoDup (map fst acc) -> NoDup (map fst (accumulate k p acc)).
Proof.
  intros H. rewrite keys_accumulate. destruct (lookup k acc) eqn:E; [exact H|].
  apply lookup_none_not_in in E.
  apply NoDup_app; [exact H | repeat constructor; intros [] |].
  intros x Hx [<-|[]]. contradiction.
Qed.

Lemma counts_accumulate k p acc :
  list_sum (map (fun kd => count (snd kd)) (accumulate k p acc))
  = list_sum (map (fun kd => count (snd kd)) acc) + 1.
Proof.
  induction acc as [|[k' d] acc IH]; cbn [accumulate map list_sum fold_right snd count];
    [lia|].
  destruct (group_key_eqb k' k); cbn [map list_sum fold_right snd count].
  - fold (list_sum (map (fun kd => count (snd kd)) acc)). lia.
  - fold (list_sum (map (fun kd => count (snd kd)) (accumulate k p acc))).
    fold (list_sum (map (fun kd => count (snd kd)) acc)). rewrite IH. lia.
Qed.

Lemma accumulator_keys_and_counts g data :
  let acc := fold_left (fun acc it => accumulate (composite_key g it) (item_price it) acc)
                       data [] in
  NoDup (map fst acc)
  /\ list_sum (map (fun kd => count (snd kd)) acc) = List.length data.
Proof.
  induction data as [|it data IH] using rev_ind; cbn zeta.
  - split; [constructor | reflexivity].
  - rewrite fold_left_app. cbn [fold_left]. destruct IH as [Hn Hc]. split.
    + apply NoDup_accumulate, Hn.
    + rewrite counts_accumulate, Hc, length_app. reflexivity.
Qed.

Lemma finalize_all acc :
  Forall (fun kd => 0 < count (snd kd)) acc ->
  map fst (filter_map finalize acc) = map fst acc
  /\ counts_total (filter_map finalize acc)
     = list_sum (map (fun kd => count (snd kd)) acc).
Proof.
  unfold counts_total.
  induction 1 as [|[k d] acc H0 H [IH1 IH2]]; [split; reflexivity|].
  cbn [filter_map finalize]. cbn in H0. apply Nat.ltb_lt in H0. rewrite H0.
  cbn [map fst snd avg_count list_sum fold_right count].
  fold (list_sum (map (fun kv => avg_count (snd kv)) (filter_map finalize acc))).
  fold (list_sum (map (fun kd => count (snd kd)) acc)).
  rewrite IH1, IH2. split; reflexivity.
Qed.

(** The result of [calculate_average_prices] is a dictionary over the
    keys of the records: its keys are pairwise distinct, a key is present
    exactly when some record has it, its entry is the total, the count and
    the rounded mean of the prices of these records in the order of the
    data, and the counts of all groups add up to the number of records. *)
Theorem averages_partition_the_records :
  forall (data : list InsightItem) (g : group_by),
    let r := calculate_average_prices data g in
    NoDup (map fst r)
    /\ (forall k, lookup k r = match prices_of g k data with
                               | [] => None
                               | ps => Some (summary ps)
                               end)
    /\ (forall k, In k (map fst r) <-> exists it, In it data /\ composite_key g it = k)
    /\ counts_total r = List.length data.
Proof.
  intros data g r.
  assert (Hl : forall k, lookup k r = match prices_of g k data with
                                      | [] => None
                                      | ps => Some (summary ps)
                                      end)
    by (intros k; apply Insights.calculate_average_prices_groups).
  assert (Hkc : NoDup (map fst r) /\ counts_total r = List.length data).
  { subst r. unfold calculate_average_prices.
    destruct data as [|it data]; [split; [constructor | reflexivity]|].
    destruct (Insights.accumulator_after g (it :: data)) as [Hpos _].
    destruct (accumulator_keys_and_counts g (it :: data)) as [Hn Hc].
    destruct (finalize_all _ Hpos) as [E1 E2].
    rewrite E1, E2. split; assumption. }
  destruct Hkc as [Hn Hc].
  split; [exact Hn|]. split; [exact Hl|]. split; [|exact Hc].
  intros k. split.
  - intros Hin. destruct (lookup k r) eqn:E.
    + rewrite Hl in E. unfold prices_of in E.
      destruct (filter _ data) as [|it l] eqn:Ef; [discriminate|].
      assert (Hit : In it (filter (fun it => group_key_eqb (composite_key g it) k) data))
        by (rewrite Ef; left; reflexivity).
      apply filter_In in Hit as [Hd Hk]. apply Insights.group_key_eqb_eq in Hk. eauto.
    + apply lookup_none_not_in in E. contradiction.
  - intros (it & Hd & <-).
    destruct (in_dec (fun a b => match Bool.bool_dec (group_key_eqb a b) true with
                                 | left e => left (proj1 (Insights.group_key_eqb_eq a b) e)
                                 | right n =>
                                     right (fun e => n (proj2 (Insights.group_key_eqb_eq a b) e))
                                 end)
                     (composite_key g it) (map fst r)) as [H|H]; [exact H|].
    apply lookup_none_not_in in H. rewrite Hl in H.
    pose proof (Normalization.price_in_its_group g data it Hd) as Hp.
    destruct (prices_of g (composite_key g it) data); [contradiction | discriminate].
Qed.

(** *** The order of the report *)

Lemma list_leb_total : forall l1 l2, list_leb l1 l2 = true \/ list_leb l2 l1 = true.
Proof.
  induction l1 as [|a l1 IH]; intros [|b l2]; cbn [list_leb]; auto.
  rewrite (String.compare_antisym b a).
  destruct (String.compare a b); cbn [CompOpp]; auto.
Qed.

Lemma group_key_leb_total a b :
  group_key_leb a b = true \/ group_key_leb b a = true.
Proof.
  destruct a as [s|p], b as [t|q]; cbn [group_key_leb]; auto.
  - apply String.leb_total.
  - apply list_leb_total.
Qed.

Lemma insert_sorted_in_order {V} (kv : group_key * V) l :
  in_key_order l = true -> in_key_order (insert_sorted kv l) = true.
Proof.
  induction l as [|a l IH]; intros H; [reflexivity|].
  cbn [insert_sorted]. destruct (group_key_leb (fst kv) (fst a)) eqn:E.
  - cbn [in_key_order]. rewrite E. exact H.
  - assert (Ha : group_key_leb (fst a) (fst kv) = true)
      by (destruct (group_key_leb_total (fst kv) (fst a)); congruence).
    destruct l as [|b l]; [cbn [insert_sorted in_key_order]; rewrite Ha; reflexivity|].
    cbn [in_key_order] in H. apply andb_prop in H as [Hab Hl].
    specialize (IH Hl). cbn [insert_sorted] in IH |- *.
    destruct (group_key_leb (fst kv) (fst b)).
    + cbn [in_key_order] in IH |- *. rewrite Ha. exact IH.
    + cbn [in_key_order] in IH |- *. rewrite Hab. exact IH.
Qed.

Lemma insert_sorted_perm {V} (kv : group_key * V) l :
  Permutation (kv :: l) (insert_sorted kv l).
Proof.
  induction l as [|a l IH]; cbn [insert_sorted]; [reflexivity|].
  destruct (group_key_leb (fst kv) (fst a)); [reflexivity|].
  rewrite perm_swap. apply perm_skip, IH.
Qed.

(** [sorted(calculated_averages.items())], which gives the report its
    order, keeps every group once and puts the groups in ascending order
    of their keys (code point by code point, tuples part by part). *)
Theorem report_groups_are_in_key_order :
  forall (r : list (group_key * Average)),
    Permutation r (sorted_items r) /\ in_key_order (sorted_items r) = true.
Proof.
  intros r. unfold sorted_items. induction r as [|kv r [IHp IHs]]; [split; reflexivity|].
  cbn [fold_right]. split.
  - rewrite <- insert_sorted_perm. apply perm_skip, IHp.
  - apply insert_sorted_in_order, IHs.
Qed.

End Averages.

(* ------------------------------------------------------------------ *)
(** ** Keyboards and escaping *)

Module KeyboardLayout.

Import PyStr.

Section Rows.

Variables (prefix : string) (items_per_row : Z) (suffix_from_item : bool)
          (custom_callback_data : option (list string)) (n : nat).


Lemma buttons_from_cons i item rest :
  buttons_from prefix suffix_from_item custom_callback_data i (item :: rest)
  = button_of prefix suffix_from_item custom_callback_data i item :: buttons_from prefix suffix_from_item custom_callback_data (S i) rest.
Proof. reflexivity. Qed.

Lemma rows_from_layout : forall items i cur,
  i + List.length items = n ->
  (items = [] -> cur = []) ->
  List.concat (rows_from prefix items_per_row suffix_from_item custom_callback_data n i cur items) = cur ++ buttons_from prefix suffix_from_item custom_callback_data i items
  /\ Forall (fun row => row <> []) (rows_from prefix items_per_row suffix_from_item custom_callback_data n i cur items)
  /\ ((1 <= items_per_row)%Z -> (Z.of_nat (List.length cur) < items_per_row)%Z ->
      Forall (fun row => (Z.of_nat (List.length row) <= items_per_row)%Z) (rows_from prefix items_per_row suffix_from_item custom_callback_data n i cur items)
      /\ Forall (fun row => Z.of_nat (List.length row) = items_per_row)
                (removelast (rows_from prefix items_per_row suffix_from_item custom_callback_data n i cur items)))
  /\ ((items_per_row <= 0)%Z -> List.length (rows_from prefix items_per_row suffix_from_item custom_callback_data n i cur items) <= 1).
Proof.
  induction items as [|item rest IH]; intros i cur Hn Hcur.
  - rewrite (Hcur eq_refl). cbn. repeat split; try constructor; lia.
  - cbn [rows_from].
    set (b := button_of prefix suffix_from_item custom_callback_data i item).
    rewrite buttons_from_cons. fold b.
    assert (Hlen : List.length (cur ++ [b]) = List.length cur + 1)
      by (rewrite length_app; reflexivity).
    cbn [List.length] in Hn.
    destruct ((Z.of_nat (List.length (cur ++ [b])) =? items_per_row)%Z || (i =? n - 1))
      eqn:Hcond.
    + destruct (IH (S i) [] ltac:(lia) ltac:(reflexivity)) as (Hc & Hne & Hsz & Hz).
      assert (Hlast : rest = [] ->
                rows_from prefix items_per_row suffix_from_item custom_callback_data
                          n (S i) [] rest = []) by (intros ->; reflexivity).
      split; [cbn [List.concat]; rewrite Hc, <- app_assoc; reflexivity|].
      split; [constructor; [destruct cur; discriminate | exact Hne]|].
      split.
      * intros H1 Hlt. destruct (Hsz H1 ltac:(cbn; lia)) as [Hle Heq]. split.
        -- constructor; [lia | exact Hle].
        -- cbn [removelast].
           destruct (rows_from prefix items_per_row suffix_from_item custom_callback_data
                               n (S i) [] rest) as [|r rs] eqn:Er; [constructor|].
           constructor; [|exact Heq].
           apply orb_true_iff in Hcond as [Hc1|Hc2]; [apply Z.eqb_eq, Hc1|].
           apply Nat.eqb_eq in Hc2. destruct rest; [discriminate|]. cbn in Hn. lia.
      * intros H0. cbn [List.length].
        apply orb_true_iff in Hcond as [Hc1|Hc2]; [apply Z.eqb_eq in Hc1; lia|].
        apply Nat.eqb_eq in Hc2. rewrite Hlast; [cbn; lia|].
        destruct rest; [reflexivity | cbn in Hn; lia].
    + apply orb_false_iff in Hcond as [Hc1 Hc2].
      apply Z.eqb_neq in Hc1. apply Nat.eqb_neq in Hc2.
      assert (Hrest : rest <> []) by (intros ->; cbn in Hn; lia).
      destruct (IH (S i) (cur ++ [b]) ltac:(lia) ltac:(intros; contradiction))
        as (Hc & Hne & Hsz & Hz).
      split; [rewrite Hc, <- app_assoc; reflexivity|]. split; [exact Hne|].
      split; [intros H1 Hlt; apply Hsz; lia | exact Hz].
Qed.

End Rows.

Lemma build_rows_is_rows_from prefix n : forall items i cur,
  keyboards.build_rows prefix 1 n i cur items
  = rows_from prefix 1 true None n i cur items.
Proof.
  induction items as [|item rest IH]; intros i cur; [reflexivity|].
  cbn [keyboards.build_rows rows_from]. unfold button_of, callback_val.
  replace (Z.of_nat (List.length (cur ++ [{| label := item;
             callback_data := (prefix ++ lower (replace " " "_" item))%string |}])) =? 1)%Z
    with (List.length (cur ++ [{| label := item;
             callback_data := (prefix ++ lower (replace " " "_" item))%string |}]) =? 1).
  2: { destruct (Nat.eqb_spec (List.length (cur ++ [{| label := item;
             callback_data := (prefix ++ lower (replace " " "_" item))%string |}])) 1)
         as [E|E]; symmetry; [apply Z.eqb_eq | apply Z.eqb_neq]; lia. }
  rewrite !IH. reflexivity.
Qed.

(** [build_keyboard] raises [ValueError] exactly when a non-empty list of
    custom callback data has not the length of the items.  Otherwise the
    buttons, read row after row, are those of the items in their order,
    each labelled with its item; no row is empty; with [items_per_row] at
    least 1 no row is longer than that and every row but the last has
    exactly that length; with [items_per_row] below 1 all buttons stand in
    one row.  The keyboards of the dialogs are the case of one item per
    row with the slug of the item after the prefix. *)
Theorem build_keyboard_lays_out_the_items :
  forall (items : list string) (prefix : string) (items_per_row : Z)
         (suffix_from_item : bool) (custom_callback_data : option (list string)),
    (build_keyboard_general items prefix items_per_row suffix_from_item
                            custom_callback_data = Raise ValueError
     <-> exists custom,
           custom_callback_data = Some custom /\ custom <> []
           /\ List.length custom <> List.length items)
    /\ (forall rows,
          build_keyboard_general items prefix items_per_row suffix_from_item
                                 custom_callback_data = Return rows ->
          List.concat rows
          = buttons_from prefix suffix_from_item custom_callback_data 0 items
          /\ map label (List.concat rows) = items
          /\ Forall (fun row => row <> []) rows
          /\ ((1 <= items_per_row)%Z ->
              Forall (fun row => (Z.of_nat (List.length row) <= items_per_row)%Z) rows
              /\ Forall (fun row => Z.of_nat (List.length row) = items_per_row)
                        (removelast rows))
          /\ ((items_per_row <= 0)%Z -> List.length rows <= 1))
    /\ build_keyboard_general items prefix 1 true None
       = Return (keyboards.build_keyboard items prefix).
Proof.
  intros items prefix ipr suffix custom.
  destruct (rows_from_layout prefix ipr suffix custom (List.length items) items 0 []
              eq_refl (fun _ => eq_refl)) as (Hc & Hne & Hsz & Hz).
  assert (Hlabels : forall i l,
             map label (buttons_from prefix suffix custom i l) = l).
  { intros i l. revert i. induction l as [|x l IH]; intros i; [reflexivity|].
    unfold buttons_from in *. cbn [List.length seq combine map fst snd button_of label].
    rewrite IH. reflexivity. }
  split; [|split].
  - unfold build_keyboard_general. split.
    + destruct custom as [[|c cs]|]; try discriminate.
      destruct (Nat.eqb_spec (List.length (c :: cs)) (List.length items)) as [E|E];
        cbn [negb]; [discriminate|].
      intros _. exists (c :: cs). repeat split; [discriminate | exact E].
    + intros (c & -> & Hc0 & Hl). destruct c as [|c cs]; [contradiction|].
      apply Nat.eqb_neq in Hl. rewrite Hl. reflexivity.
  - intros rows Hr.
    assert (E : rows = rows_from prefix ipr suffix custom (List.length items) 0 [] items).
    { unfold build_keyboard_general in Hr. destruct custom as [[|c cs]|];
        try (injection Hr as <-; reflexivity).
      destruct (negb _); [discriminate | injection Hr as <-; reflexivity]. }
    subst rows. split; [exact Hc|]. split; [rewrite Hc; apply Hlabels|].
    split; [exact Hne|]. split; [intros H1; apply Hsz; [exact H1 | cbn; lia] | exact Hz].
  - unfold build_keyboard_general, keyboards.build_keyboard.
    rewrite build_rows_is_rows_from. reflexivity.
Qed.

Lemma build_keyboard_witness :
  build_keyboard_general ["Carrot"; "Beet root"; "Corn"] "p_" 2 true None
  = Return [[{| label := "Carrot"; callback_data := "p_carrot" |};
             {| label := "Beet root"; callback_data := "p_beet_root" |}];
            [{| label := "Corn"; callback_data := "p_corn" |}]]
  /\ map label
       (List.concat [[{| label := "Carrot"; callback_data := "p_carrot" |};
                      {| label := "Beet root"; callback_data := "p_beet_root" |}];
                     [{| label := "Corn"; callback_data := "p_corn" |}]])
     = ["Carrot"; "Beet root"; "Corn"].
Proof.
  assert (E : build_keyboard_general ["Carrot"; "Beet root"; "Corn"] "p_" 2 true None
              = Return [[{| label := "Carrot"; callback_data := "p_carrot" |};
                         {| label := "Beet root"; callback_data := "p_beet_root" |}];
                        [{| label := "Corn"; callback_data := "p_corn" |}]])
    by (vm_compute; reflexivity).
  split; [exact E|].
  exact (proj1 (proj2 (proj1 (proj2 (build_keyboard_lays_out_the_items
                                       ["Carrot"; "Beet root"; "Corn"] "p_" 2 true None))
                             _ E))).
Defined.

(** *** Escaping *)

Lemma escape_head_not_reserved s c r :
  escape_markdown_v2 s = String c r -> char_in c escape_chars = false.
Proof.
  destruct s as [|d s]; [discriminate|]. cbn [escape_markdown_v2].
  destruct (char_in d escape_chars) eqn:E.
  - intros [= <- _]. reflexivity.
  - intros [= <- _]. exact E.
Qed.

Lemma escape_injective : forall a b,
  escape_markdown_v2 a = escape_markdown_v2 b -> a = b.
Proof.
  induction a as [|c a IH]; intros [|d b]; cbn [escape_markdown_v2].
  - reflexivity.
  - destruct (char_in d escape_chars); discriminate.
  - destruct (char_in c escape_chars); discriminate.
  - destruct (char_in c escape_chars) eqn:Ec, (char_in d escape_chars) eqn:Ed.
    + intros [= -> H]. f_equal. apply IH, H.
    + intros [= <- H]. symmetry in H. apply escape_head_not_reserved in H. congruence.
    + intros [= -> H]. apply escape_head_not_reserved in H. congruence.
    + intros [= -> H]. f_equal. apply IH, H.
Qed.

Lemma escape_length s :
  String.length (escape_markdown_v2 s) = String.length s + reserved_count s.
Proof.
  induction s as [|c s IH]; [reflexivity|]. cbn [escape_markdown_v2 reserved_count].
  destruct (char_in c escape_chars); cbn [String.length]; rewrite IH; lia.
Qed.

Lemma escape_plain s : reserved_count s = 0 -> escape_markdown_v2 s = s.
Proof.
  induction s as [|c s IH]; [reflexivity|]. cbn [escape_markdown_v2 reserved_count].
  destruct (char_in c escape_chars); [discriminate|].
  intros H. rewrite (IH H). reflexivity.
Qed.

(** The MarkdownV2 escape of the handlers loses nothing and adds one
    backslash for each reserved character: two texts with the same escape
    are the same text, the escape of a concatenation is the concatenation
    of the escapes, its length is the length of the text plus the number of
    its reserved characters, and a text is left as it is exactly when it
    has none. *)
Theorem escape_adds_one_backslash_per_reserved_character :
  forall a b : string,
    (escape_markdown_v2 a = escape_markdown_v2 b -> a = b)
    /\ escape_markdown_v2 (a ++ b) = (escape_markdown_v2 a ++ escape_markdown_v2 b)%string
    /\ String.length (escape_markdown_v2 a) = String.length a + reserved_count a
    /\ (escape_markdown_v2 a = a <-> reserved_count a = 0).
Proof.
  intros a b. split; [apply escape_injective|].
  split; [apply Normalization.escape_app|]. split; [apply escape_length|].
  split; [|apply escape_plain].
  intros H. pose proof (escape_length a) as Hl. rewrite H in Hl. lia.
Qed.

(** *** From a button back to the name *)

Lemma replace_one_char (a b : ascii) : forall s,
  replace (String a "") (String b "") s
  = map_chars (fun c => if Ascii.eqb c a then b else c) s.
Proof.
  unfold replace.
  induction s as [|c s IH]; [reflexivity|]. cbn [replace_from map_chars].
  cbn [prefix]. destruct (ascii_dec a c) as [<-|Hne].
  - rewrite Ascii.eqb_refl. cbn [String.length Nat.sub String.append].
    replace (prefix "" s) with true by (destruct s; reflexivity).
    cbn [String.append]. rewrite IH. reflexivity.
  - assert (E : Ascii.eqb c a = false) by (apply Ascii.eqb_neq; congruence).
    rewrite E, IH. reflexivity.
Qed.

Lemma lower_spaces_to_underscores s :
  replace "_" " " (lower (replace " " "_" s)) = lower (replace "_" " " s).
Proof.
  rewrite !replace_one_char. unfold lower.
  induction s as [|c s IH]; [reflexivity|]. cbn [map_chars]. rewrite IH. f_equal.
  destruct c as [[] [] [] [] [] [] [] []]; vm_compute; reflexivity.
Qed.

Lemma replace_from_skip old new : forall a s,
  replace_from old new (String.length a) (a ++ s) = replace_from old new 0 s.
Proof.
  induction a as [|c a IH]; intros s; [reflexivity|].
  cbn [String.length String.append replace_from]. apply IH.
Qed.

Lemma prefix_append p s : prefix p (p ++ s) = true.
Proof.
  apply prefix_correct. revert s. induction p as [|c p IH]; intros s.
  - destruct s; reflexivity.
  - cbn [String.length String.append substring]. rewrite IH. reflexivity.
Qed.

Lemma replace_leading_prefix c p s :
  replace (String c p) "" (String c p ++ s) = replace (String c p) "" s.
Proof.
  unfold replace. cbn [String.append replace_from].
  change (String c (p ++ s)) with (String c p ++ s)%string.
  rewrite prefix_append. cbn [String.length Nat.sub String.append].
  rewrite Nat.sub_0_r. apply replace_from_skip.
Qed.

(** The name that a handler reads back from the callback data of a button
    that [build_keyboard] made for an item, when the prefix does not come
    up again in the slug: it is the item with its underscores turned into
    spaces and put in title case, so it is the item itself exactly when
    the item is in that form already. *)
Theorem name_read_back_from_a_button :
  forall (prefix_text item_text : string),
    prefix_text <> "" ->
    replace prefix_text "" (slug item_text) = slug item_text ->
    keyboards.clean_and_format_for_display
      (replace prefix_text "" (prefix_text ++ slug item_text))
    = title (replace "_" " " item_text)
    /\ (keyboards.clean_and_format_for_display
          (replace prefix_text "" (prefix_text ++ slug item_text)) = item_text
        <-> title (replace "_" " " item_text) = item_text).
Proof.
  intros p item Hp Hfree.
  assert (E : keyboards.clean_and_format_for_display (replace p "" (p ++ slug item))
              = title (replace "_" " " item)).
  { destruct p as [|c p]; [contradiction|].
    rewrite replace_leading_prefix, Hfree.
    unfold keyboards.clean_and_format_for_display, slug.
    rewrite lower_spaces_to_underscores. unfold title.
    apply Normalization.title_from_lower. }
  split; [exact E|]. rewrite E. tauto.
Qed.

Lemma name_read_back_witness :
  keyboards.clean_and_format_for_display
    (replace config.CB_CREATE_SINGLE_PRODUCT_PREFIX ""
       (config.CB_CREATE_SINGLE_PRODUCT_PREFIX ++ slug "Beet root"))
  = title (replace "_" " " "Beet root")
  /\ title (replace "_" " " "Beet root") = "Beet Root".
Proof.
  split; [|vm_compute; reflexivity].
  apply name_read_back_from_a_button; [discriminate | vm_compute; reflexivity].
Defined.

End KeyboardLayout.

(* ------------------------------------------------------------------ *)
(** ** The pages of the last entries *)

Module Pages.

Import PyStr.

(** *** The page number in the callback data *)

Lemma digits_value_acc : forall d p,
  digits_value (Z.pos p) (NilEmpty.string_of_uint d) = Z.pos (Pos.of_uint_acc d p).
Proof.
  induction d as [|d IH|d IH|d IH|d IH|d IH|d IH|d IH|d IH|d IH|d IH]; intros p;
    cbn [NilEmpty.string_of_uint digits_value Pos.of_uint_acc]; [reflexivity|..];
    rewrite <- IH; f_equal;
    match goal with
    | |- context [digit_value ?c] =>
        let v := eval vm_compute in (digit_value c) in change (digit_value c) with v
    end; lia.
Qed.

Lemma digits_value_uint : forall d,
  digits_value 0 (NilEmpty.string_of_uint d) = Z.of_N (Pos.of_uint d).
Proof.
  induction d as [|d IH|d IH|d IH|d IH|d IH|d IH|d IH|d IH|d IH|d IH];
    cbn [NilEmpty.string_of_uint digits_value Pos.of_uint]; [reflexivity|exact IH|..];
    apply digits_value_acc.
Qed.

Lemma all_digits_uint : forall d, all_chars is_digit (NilEmpty.string_of_uint d) = true.
Proof.
  induction d as [|d IH|d IH|d IH|d IH|d IH|d IH|d IH|d IH|d IH|d IH];
    cbn [NilEmpty.string_of_uint all_chars]; [reflexivity|..]; exact IH.
Qed.

Lemma str_of_nat n :
  str_of_int (Z.of_nat n) <> ""
  /\ all_chars is_digit (str_of_int (Z.of_nat n)) = true
  /\ digits_value 0 (str_of_int (Z.of_nat n)) = Z.of_nat n.
Proof.
  unfold str_of_int. destruct (Z.of_nat n) as [|p|p] eqn:E; [| |lia].
  - repeat split. discriminate.
  - cbn [Z.to_int NilZero.string_of_int]. unfold NilZero.string_of_uint.
    pose proof (DecimalPos.Unsigned.to_uint_nonnil p) as Hnil.
    destruct (Pos.to_uint p) eqn:Ed; [contradiction|..]; rewrite <- Ed;
      (split; [rewrite Ed; discriminate|]);
      (split; [apply all_digits_uint|]);
      rewrite digits_value_uint, DecimalPos.Unsigned.of_to; reflexivity.
Qed.

Lemma digit_is_digit_char s : all_chars is_digit s = true -> all_chars is_digit_char s = true.
Proof.
  induction s as [|c s IH]; [reflexivity|]. cbn [all_chars]. intros H.
  apply andb_prop in H as [Hc Hs]. rewrite (IH Hs), andb_true_r.
  unfold is_digit_char. rewrite Hc. reflexivity.
Qed.

Lemma digit_not_underscore c : is_digit c = true -> Ascii.eqb c "_" = false.
Proof. destruct c as [[] [] [] [] [] [] [] []]; vm_compute; intros; congruence. Qed.

Lemma split_on_digits s : forall cur,
  all_chars is_digit s = true -> split_on "_" cur s = [(cur ++ s)%string].
Proof.
  induction s as [|c s IH]; intros cur H; cbn [split_on].
  - rewrite Normalization.append_nil_r. reflexivity.
  - cbn [all_chars] in H. apply andb_prop in H as [Hc Hs].
    rewrite (digit_not_underscore c Hc), (IH _ Hs), Normalization.append_assoc.
    reflexivity.
Qed.

Lemma span_digits_all s :
  all_chars is_digit s = true -> PyFloat.span_digits s = (s, "").
Proof.
  induction s as [|c s IH]; [reflexivity|]. cbn [all_chars PyFloat.span_digits].
  intros H. apply andb_prop in H as [Hc Hs]. rewrite Hc, (IH Hs). reflexivity.
Qed.

(** *** A page and its buttons *)

Lemma entries_rows g :
  List.length (List.rev (tl (gsheet_utils.all_values g))) = entries g.
Proof.
  rewrite length_rev. unfold entries.
  rewrite <- Pagination.all_values_length.
  destruct (gsheet_utils.all_values g); simpl; lia.
Qed.

Lemma page_rows_length g page :
  List.length (page_rows g page)
  = Nat.min config.DEFAULT_ENTRIES_PER_PAGE_VIEW
      (entries g - page * config.DEFAULT_ENTRIES_PER_PAGE_VIEW).
Proof.
  unfold page_rows, slice. rewrite length_firstn, length_skipn, entries_rows.
  f_equal. lia.
Qed.

Lemma page_button_is_routed n :
  page_of (page_data n) = ret n
  /\ pattern_matches (digits_after config.CB_VIEW_LAST_N_PREFIX) (page_data n) = true.
Proof.
  destruct (str_of_nat n) as (Hne & Hd & Hv).
  unfold page_data. split.
  - unfold page_of. cbv zeta.
    assert (E : split_on "_" "" (config.CB_VIEW_LAST_N_PREFIX ++ str_of_int (Z.of_nat n))
                = ["view"; "last"; str_of_int (Z.of_nat n)]).
    { cbn -[str_of_int]. rewrite (split_on_digits _ "" Hd). reflexivity. }
    rewrite E. cbn [last List.length Nat.leb andb].
    unfold isdigit, int_of_digits.
    destruct (str_of_int (Z.of_nat n)) as [|c s] eqn:Es; [contradiction|].
    rewrite (digit_is_digit_char _ Hd), Hd, Hv, Nat2Z.id. reflexivity.
  - unfold pattern_matches. rewrite after_prefix_app, (span_digits_all _ Hd).
    destruct (str_of_int (Z.of_nat n)); [contradiction | reflexivity].
Qed.

(** The page number that a page button carries is read back as it was
    written, and the data of the button is of the form that the view
    dialog routes to [view_last_entries_callback]. *)
Theorem page_number_round_trip :
  forall n : nat,
    page_of (page_data n) = ret n
    /\ pattern_matches (digits_after config.CB_VIEW_LAST_N_PREFIX) (page_data n) = true.
Proof. exact page_button_is_routed. Qed.

(** A page that has entries is rendered with its rows, five at most, and
    stays in the pagination state.  [Prev] is offered on every page but
    the first, [Next] exactly when entries are left after the page, and
    each offered button carries a page that has entries: following the
    buttons never runs past the last page. *)
Theorem page_buttons_lead_to_pages_with_entries :
  forall (from : User) (data : string) (page : nat) (w : world)
         (g : list (list pyval)),
    worksheet w = Some {| grid := g; reachable := true |} ->
    page_of data = ret page ->
    page * config.DEFAULT_ENTRIES_PER_PAGE_VIEW < entries g ->
    exists w' text nav,
      view_last_entries_callback (CallbackQuery from data) w
      = (Return config.VIEW_PAGINATING_ENTRIES, w')
      /\ outbox w'
         = outbox w
           ++ [answer None false; fetching_notice;
               edit_message_text text (Some [nav; [back_button]]) (Some MARKDOWN_V2)]
      /\ user_data w' = user_data w
      /\ worksheet w' = worksheet w
      /\ nav
         = (if 0 <? page then [prev_button page] else [])
           ++ (if (page + 1) * config.DEFAULT_ENTRIES_PER_PAGE_VIEW
                  <? entries g
               then [next_button page] else [])
      /\ List.length (page_rows g page)
         = Nat.min config.DEFAULT_ENTRIES_PER_PAGE_VIEW
             (entries g - page * config.DEFAULT_ENTRIES_PER_PAGE_VIEW)
      /\ (forall b, In b nav ->
          exists p,
            page_of (callback_data b) = ret p
            /\ p * config.DEFAULT_ENTRIES_PER_PAGE_VIEW < entries g
            /\ pattern_matches (digits_after config.CB_VIEW_LAST_N_PREFIX)
                 (callback_data b) = true).
Proof.
  intros from data page w g Hw Hpage Hin.
  pose proof (page_rows_length g page) as Hlen.
  unfold view_last_entries_callback, gsheet_utils.worksheet_get_all_values,
    gsheet_utils.call_worksheet.
  exec. rewrite Hpage. exec. rewrite Hw. exec.
  rewrite Pagination.all_values_length.
  assert (E : (List.length g <=? 1) = false).
  { apply Nat.leb_gt. unfold entries in Hin. lia. }
  rewrite E. exec. rewrite entries_rows.
  fold (page_rows g page).
  destruct (page_rows g page) as [|row rows] eqn:Erows.
  { exfalso. cbn [List.length] in Hlen.
    change config.DEFAULT_ENTRIES_PER_PAGE_VIEW with 5 in *. lia. }
  exec. eexists. eexists. eexists. split; [reflexivity|]. exec.
  split; [|split; [|split; [|split; [|split]]]].
  - rewrite <- !app_assoc. reflexivity.
  - reflexivity.
  - reflexivity.
  - reflexivity.
  - exact Hlen.
  - intros b Hb. apply in_app_or in Hb as [Hb|Hb].
    + destruct (0 <? page) eqn:Ep; [|contradiction]. destruct Hb as [<-|[]].
      apply Nat.ltb_lt in Ep. exists (page - 1). cbn [callback_data prev_button].
      destruct (page_button_is_routed (page - 1)) as [P R].
      split; [exact P|]. split; [|exact R].
      change config.DEFAULT_ENTRIES_PER_PAGE_VIEW with 5 in *. lia.
    + destruct ((page + 1) * config.DEFAULT_ENTRIES_PER_PAGE_VIEW
                <? entries g) eqn:En; [|contradiction].
      destruct Hb as [<-|[]]. apply Nat.ltb_lt in En.
      exists (page + 1). cbn [callback_data next_button].
      destruct (page_button_is_routed (page + 1)) as [P R].
      split; [exact P|]. split; [exact En | exact R].
Qed.

Lemma page_buttons_witness :
  exists w' text,
    view_last_entries_callback (CallbackQuery sara (page_data 1)) long_world
    = (Return config.VIEW_PAGINATING_ENTRIES, w')
    /\ outbox w'
       = outbox long_world
         ++ [answer None false; fetching_notice;
             edit_message_text text
               (Some [[prev_button 1; next_button 1]; [back_button]])
               (Some MARKDOWN_V2)]
    /\ List.length (page_rows long_grid 1) = 5.
Proof.
  destruct (page_buttons_lead_to_pages_with_entries sara (page_data 1) 1 long_world
              long_grid)
    as (w' & text & nav & E & O & _ & _ & N & L & _);
    [reflexivity | reflexivity | vm_compute; lia |].
  exists w', text. split; [exact E|]. split; [|exact L].
  rewrite O, N. reflexivity.
Defined.

End Pages.

(* ------------------------------------------------------------------ *)
(** ** The batch dialog: from the checklist to the sheet *)

Module Batch.

#[local] Opaque String.append PyStr.str_of_int PyFloat.repr PyStr.join
  keyboards.build_post_action_keyboard.

(** *** The summary *)

Lemma summary_lines_return (entries : list Entry) :
  Forall complete entries ->
  forall (k : nat),
  exists lines, forall w,
    for_each (fun ie : nat * Entry =>
                p <- item "product" (product (snd ie)) ;;
                x <- item "price" (price (snd ie)) ;;
                ret (PyStr.str_of_int (Z.of_nat (fst ie + 1)) ++ ". " ++ p
                       ++ ": **" ++ PyFloat.repr x ++ "**")%string)
             (combine (seq k (List.length entries)) entries) w
    = (Return lines, w).
Proof.
  induction 1 as [|e entries [Hp Hx] _ IH]; intros k.
  - exists []. reflexivity.
  - destruct (IH (S k)) as [lines E].
    destruct (product e) as [p|] eqn:Ep; [|contradiction].
    destruct (price e) as [x|] eqn:Ex; [|contradiction].
    eexists. intros w. cbn [List.length seq combine for_each].
    exec. rewrite Ep, Ex. exec. rewrite E. reflexivity.
Qed.

Lemma show_batch_confirmation_shows update w made batch_location :
  batch_entries (user_data w) = Some made ->
  made <> [] ->
  Forall complete made ->
  batch_common_location (user_data w) = Some batch_location ->
  exists o,
    show_batch_confirmation update w
    = (Return config.CREATE_BATCH_CONFIRM_SUBMISSION, after_output o w).
Proof.
  intros He Hne Hc Hl. destruct (summary_lines_return made Hc 0) as [lines E].
  destruct made as [|e made]; [contradiction|].
  unfold show_batch_confirmation. exec. rewrite He, Hl. exec.
  rewrite E. destruct update; exec; eexists; reflexivity.
Qed.

(** *** One price *)

Lemma ask_next_price_opens_the_next update w p rest made batch_location :
  batch_price_queue (user_data w) = Some (p :: rest) ->
  batch_entries (user_data w) = Some made ->
  batch_common_location (user_data w) = Some batch_location ->
  exists w',
    ask_next_price_for_batch update w = (Return config.CREATE_BATCH_ENTER_PRICE, w')
    /\ pricing w' (p :: rest) made batch_location
    /\ common_remark w' = common_remark w
    /\ same_sheet w w'.
Proof.
  intros Hq He Hl. unfold ask_next_price_for_batch. exec. rewrite Hq. exec.
  destruct update; exec; eexists; (split; [reflexivity|]); unfold pricing, common_remark;
    exec; repeat split; assumption.
Qed.

Lemma ask_next_price_closes update w made batch_location :
  batch_price_queue (user_data w) = Some [] ->
  batch_current_product_for_price (user_data w) = None ->
  batch_entries (user_data w) = Some made ->
  batch_common_location (user_data w) = Some batch_location ->
  made <> [] ->
  Forall complete made ->
  exists w',
    ask_next_price_for_batch update w
    = (Return config.CREATE_BATCH_CONFIRM_SUBMISSION, w')
    /\ pricing w' [] made batch_location
    /\ common_remark w' = common_remark w
    /\ same_sheet w w'.
Proof.
  intros Hq Hc He Hl Hne Hall. unfold ask_next_price_for_batch. exec. rewrite Hq.
  destruct (show_batch_confirmation_shows update w made batch_location He Hne Hall Hl)
    as [o E].
  rewrite E. eexists. split; [reflexivity|].
  unfold pricing, common_remark, after_output. exec. repeat split; assumption.
Qed.

Lemma priced_complete batch_location batch_remark px :
  complete (priced batch_location batch_remark px).
Proof. split; discriminate. Qed.

(** A valid price for the product that is asked for: the entry is added
    to the ones made, and the dialog asks for the next product, or shows
    the summary when none is left. *)
Lemma price_step from text x w p rest made batch_location :
  parse_price text = Some x ->
  p <> "" ->
  pricing w (p :: rest) made batch_location ->
  Forall complete made ->
  exists w',
    batch_price_entry (Message from text) w
    = (Return match rest with
              | [] => config.CREATE_BATCH_CONFIRM_SUBMISSION
              | _ => config.CREATE_BATCH_ENTER_PRICE
              end, w')
    /\ pricing w' rest (made ++ [priced batch_location (common_remark w) (p, x)])
         batch_location
    /\ common_remark w' = common_remark w
    /\ same_sheet w w'.
Proof.
  intros Hx Hp (Hq & Hc & He & Hl) Hall. cbn [hd_error] in Hc.
  unfold batch_price_entry. exec. rewrite Hx. exec. rewrite Hc.
  destruct p as [|c p]; [contradiction|]. exec. rewrite Hq. exec. rewrite Hl. exec.
  rewrite He. exec.
  pose (w1 := with_user_data
                (set_batch_entries
                   (Some (made ++ [priced batch_location (common_remark w)
                                     (String c p, x)]))
                   (set_batch_price_queue (Some rest)
                      (set_batch_current_product_for_price None (user_data w)))) w).
  assert (R : common_remark w1 = common_remark w) by reflexivity.
  assert (S1 : same_sheet w w1) by (repeat split).
  destruct rest as [|q rest].
  - destruct (ask_next_price_closes (Message from text) w1
                (made ++ [priced batch_location (common_remark w) (String c p, x)])
                batch_location)
      as (w' & E & P & R' & S'); try reflexivity; try exact Hl.
    { intros Hnil. apply app_eq_nil in Hnil as [_ Hnil]. discriminate Hnil. }
    { apply Forall_app. split; [exact Hall|].
      constructor; [apply priced_complete | constructor]. }
    exists w'. split; [exact E|]. split; [exact P|]. split; [congruence|].
    apply (same_sheet_trans _ _ _ S1 S').
  - destruct (ask_next_price_opens_the_next (Message from text) w1 q rest
                (made ++ [priced batch_location (common_remark w) (String c p, x)])
                batch_location)
      as (w' & E & P & R' & S'); try reflexivity; try exact Hl.
    exists w'. split; [exact E|]. split; [exact P|]. split; [congruence|].
    apply (same_sheet_trans _ _ _ S1 S').
Qed.

(** *** The prices of a batch *)

Lemma price_message_is_routed from text :
  resolve create_conv_handler (Some config.CREATE_BATCH_ENTER_PRICE) (Message from text)
  = Some cb_batch_price_entry.
Proof. reflexivity. Qed.

Lemma timeline_cons c sw tu timeline :
  handle_updates c sw (tu :: timeline)
  = handle_updates c (handle_update_at c sw tu) timeline.
Proof. reflexivity. Qed.

Lemma pricing_at t w queue made batch_location :
  pricing w queue made batch_location ->
  pricing (with_clock t w) queue made batch_location.
Proof. intros H. exact H. Qed.

Lemma price_loop from : forall texts prices,
  Forall2 (fun (ts : datetime * string) x => parse_price (snd ts) = Some x) texts prices ->
  forall products w made batch_location,
  List.length prices <= List.length products ->
  products <> [] ->
  Forall (fun p => p <> "") products ->
  pricing w products made batch_location ->
  Forall complete made ->
  exists w',
    handle_updates create_conv_handler (Some config.CREATE_BATCH_ENTER_PRICE, w)
      (map (price_message from) texts)
    = (Some (asked_after products prices), w')
    /\ pricing w' (skipn (List.length prices) products)
         (made ++ map (priced batch_location (common_remark w)) (combine products prices))
         batch_location
    /\ common_remark w' = common_remark w
    /\ same_sheet w w'.
Proof.
  induction 1 as [|[t text] x texts prices Hx Hxs IH];
    intros products w made batch_location Hlen Hne Hp Hw Hall.
  - exists w. destruct products as [|p products]; [contradiction|].
    split; [reflexivity|]. cbn [List.length skipn combine map].
    rewrite app_nil_r. split; [exact Hw|]. split; [reflexivity | apply same_sheet_refl].
  - destruct products as [|p products]; [contradiction|].
    cbn [snd] in Hx. inversion Hp as [|? ? Hp1 Hps]; subst.
    destruct (price_step from text x (with_clock t w) p products made batch_location
                Hx Hp1 (pricing_at t w _ _ _ Hw) Hall)
      as (w1 & E & P & R & S1).
    change (common_remark (with_clock t w)) with (common_remark w) in *.
    assert (S0 : same_sheet w w1).
    { apply (same_sheet_trans _ (with_clock t w)); [repeat split | exact S1]. }
    cbn [map]. rewrite timeline_cons. unfold handle_update_at, price_message.
    cbn [fst snd]. unfold handle_update. rewrite price_message_is_routed. cbn [run].
    rewrite E. cbn [List.length] in Hlen.
    destruct products as [|q products].
    + destruct prices; [|cbn [List.length] in Hlen; lia]. inversion Hxs; subst.
      exists w1. split; [reflexivity|]. split; [exact P|]. split; [exact R | exact S0].
    + change (next_state config.CREATE_BATCH_ENTER_PRICE)
        with (Some config.CREATE_BATCH_ENTER_PRICE).
      destruct (IH (q :: products) w1
                  (made ++ [priced batch_location (common_remark w) (p, x)])
                  batch_location)
        as (w' & E' & P' & R' & S'); try assumption.
      * lia.
      * discriminate.
      * apply Forall_app. split; [exact Hall|].
        constructor; [apply priced_complete | constructor].
      * exists w'. split; [exact E'|]. rewrite R in P'.
        split; [|split; [congruence | apply (same_sheet_trans _ _ _ S0 S')]].
        cbn [combine map List.length skipn]. rewrite <- app_assoc in P'. exact P'.
Qed.

Lemma done_press_is_routed from :
  resolve create_conv_handler (Some config.CREATE_BATCH_TOGGLE_PRODUCTS) (done_press from)
  = Some cb_batch_products_selection_done.
Proof. reflexivity. Qed.

Lemma selection_done_opens_the_prices from w p products batch_location :
  batch_selected_products (user_data w) = Some (p :: products) ->
  batch_common_location (user_data w) = Some batch_location ->
  exists w',
    batch_products_selection_done (done_press from) w
    = (Return config.CREATE_BATCH_ENTER_PRICE, w')
    /\ pricing w' (p :: products) [] batch_location
    /\ common_remark w' = common_remark w
    /\ same_sheet w w'.
Proof.
  intros Hs Hl. unfold batch_products_selection_done. exec. rewrite Hs. exec.
  pose (w1 := with_user_data
                (set_batch_entries (Some [])
                   (set_batch_price_queue (Some (p :: products)) (user_data w))) w).
  destruct (ask_next_price_opens_the_next (done_press from) w1 p products []
              batch_location)
    as (w' & E & P & R & S'); try reflexivity; try exact Hl.
  exists w'. split; [exact E|]. split; [exact P|]. split; [exact R|].
  apply (same_sheet_trans _ w1); [repeat split | exact S'].
Qed.

Lemma batch_dialog_prices from t0 texts prices products w batch_location :
  batch_selected_products (user_data w) = Some products ->
  batch_common_location (user_data w) = Some batch_location ->
  products <> [] ->
  Forall (fun p => p <> "") products ->
  Forall2 (fun (ts : datetime * string) x => parse_price (snd ts) = Some x) texts prices ->
  List.length prices <= List.length products ->
  exists w',
    handle_updates create_conv_handler (Some config.CREATE_BATCH_TOGGLE_PRODUCTS, w)
      ((t0, done_press from) :: map (price_message from) texts)
    = (Some (asked_after products prices), w')
    /\ pricing w' (skipn (List.length prices) products)
         (map (priced batch_location (common_remark w)) (combine products prices))
         batch_location
    /\ common_remark w' = common_remark w
    /\ same_sheet w w'.
Proof.
  intros Hs Hl Hne Hp Hx Hlen. destruct products as [|p products]; [contradiction|].
  destruct (selection_done_opens_the_prices from (with_clock t0 w) p products
              batch_location Hs Hl)
    as (w1 & E & P & R & S1).
  change (common_remark (with_clock t0 w)) with (common_remark w) in *.
  rewrite timeline_cons. unfold handle_update_at. cbn [fst snd].
  unfold handle_update. rewrite done_press_is_routed. cbn [run]. rewrite E.
  change (next_state config.CREATE_BATCH_ENTER_PRICE)
    with (Some config.CREATE_BATCH_ENTER_PRICE).
  destruct (price_loop from texts prices Hx (p :: products) w1 [] batch_location
              Hlen Hne Hp P (Forall_nil _))
    as (w' & E' & P' & R' & S').
  exists w'. split; [exact E'|]. rewrite R in P'. split; [exact P'|].
  split; [congruence|].
  apply (same_sheet_trans _ w1); [|exact S'].
  apply (same_sheet_trans _ (with_clock t0 w)); [repeat split | exact S1].
Qed.

(** In a batch, after "Done Selecting Products" the prices that the user
    types are taken for the products in the order of the selection: after
    [k] valid prices the session holds the first [k] products with their
    prices, each with the common location and remark; the dialog asks for
    the next product while one is left and shows the summary after the
    last; the sheet and the source of identifiers are not touched. *)
Theorem prices_are_taken_in_the_order_of_the_selection :
  forall (from : User) (t0 : datetime) (texts : list (datetime * string))
         (prices : list PyFloat.float) (products : list string) (w : world)
         (batch_location : string),
    batch_selected_products (user_data w) = Some products ->
    batch_common_location (user_data w) = Some batch_location ->
    products <> [] ->
    Forall (fun p => p <> "") products ->
    Forall2 (fun (ts : datetime * string) x => parse_price (snd ts) = Some x)
            texts prices ->
    List.length prices <= List.length products ->
    exists w',
      handle_updates create_conv_handler (Some config.CREATE_BATCH_TOGGLE_PRODUCTS, w)
        ((t0, done_press from) :: map (price_message from) texts)
      = (Some (asked_after products prices), w')
      /\ pending_entries w'
         = map (priced batch_location (common_remark w)) (combine products prices)
      /\ batch_current_product_for_price (user_data w')
         = nth_error products (List.length prices)
      /\ same_sheet w w'.
Proof.
  intros from t0 texts prices products w batch_location Hs Hl Hne Hp Hx Hlen.
  destruct (batch_dialog_prices from t0 texts prices products w batch_location
              Hs Hl Hne Hp Hx Hlen)
    as (w' & E & (Hq & Hc & He & _) & _ & S').
  exists w'. split; [exact E|]. unfold pending_entries. rewrite He.
  split; [reflexivity|]. split; [|exact S'].
  rewrite Hc. clear. generalize (List.length prices) as k.
  induction products as [|p products IH]; intros [|k]; try reflexivity. apply IH.
Qed.

Lemma prices_witness :
  exists w',
    handle_updates create_conv_handler
      (Some config.CREATE_BATCH_TOGGLE_PRODUCTS, three_ticked)
      ((at_time 1, done_press sara) :: map (price_message sara) three_prices)
    = (Some config.CREATE_BATCH_CONFIRM_SUBMISSION, w')
    /\ pending_entries w'
       = map (priced "Distribution Center 3 02" "morning market")
             (combine ["Carrot"; "Beet Root"; "Corn"] three_values)
    /\ sheet_rows w' = sample_grid.
Proof.
  destruct (prices_are_taken_in_the_order_of_the_selection sara (at_time 1)
              three_prices three_values ["Carrot"; "Beet Root"; "Corn"] three_ticked
              "Distribution Center 3 02")
    as (w' & E & P & _ & (_ & W & _)).
  - reflexivity.
  - reflexivity.
  - discriminate.
  - repeat (constructor; [discriminate|]). constructor.
  - repeat (constructor; [vm_compute; reflexivity|]). constructor.
  - vm_compute. lia.
  - exists w'. split; [exact E|]. split; [exact P|].
    unfold sheet_rows. rewrite W. reflexivity.
Defined.

(** *** The submit of a batch *)

Lemma rows_of_the_entries {B} (f : Entry -> M B)
    (row : string -> datetime -> list string -> Entry -> B) :
  (forall e w,
      f e w = (Return (row (uuid4 w (uuid_calls w)) (clock w) (HEADERS w) e),
               with_uuid_calls (S (uuid_calls w)) w)) ->
  forall (entries : list Entry) (w : world),
    for_each f entries w
    = (Return (map (fun x : string * datetime * Entry =>
                      row (fst (fst x)) (snd (fst x)) (HEADERS w) (snd x))
                   (combine (combine (drawn_ids w (List.length entries))
                                     (repeat (clock w) (List.length entries)))
                            entries)),
       with_uuid_calls (uuid_calls w + List.length entries) w).
Proof.
  intros Hf pending. induction pending as [|e pending IH]; intros w.
  - destruct w. unfold with_uuid_calls. cbn. rewrite Nat.add_0_r. reflexivity.
  - cbn [for_each]. unfold bind at 1. rewrite Hf. unfold bind at 1. rewrite IH.
    unfold ret, drawn_ids.
    destruct w. unfold with_uuid_calls. cbn. rewrite Nat.add_succ_r. reflexivity.
Qed.

Lemma batch_submit_is_routed from :
  resolve create_conv_handler (Some config.CREATE_BATCH_CONFIRM_SUBMISSION)
    (batch_submit_press from)
  = Some cb_submit_batch_data.
Proof. reflexivity. Qed.

Lemma append_rows_answers rows w g :
  GSHEET_CONNECTED w = true ->
  worksheet w = Some {| grid := g; reachable := true |} ->
  exists w',
    gsheet_utils.append_rows_to_sheet rows w = (Return true, w')
    /\ worksheet w' = Some {| grid := g ++ rows; reachable := true |}
    /\ user_data w' = user_data w
    /\ outbox w' = outbox w
    /\ uuid_calls w' = uuid_calls w.
Proof.
  intros Hc Hw. unfold gsheet_utils.append_rows_to_sheet, gsheet_utils.connected.
  rewrite Hc, Hw. cbn [gsheet_utils.is_some andb negb].
  destruct rows as [|row rows].
  - exists w. rewrite app_nil_r. repeat split. exact Hw.
  - unfold try_except, bind, gsheet_utils.worksheet_append_rows,
      gsheet_utils.call_worksheet, ret.
    rewrite Hw. cbn [reachable grid]. eexists. split; [reflexivity|]. repeat split.
Qed.

Lemma rows_length {B} (f : string * datetime * Entry -> B) w t (entries : list Entry) :
  List.length (map f (combine (combine (drawn_ids w (List.length entries))
                                       (repeat t (List.length entries))) entries))
  = List.length entries.
Proof.
  unfold drawn_ids.
  rewrite length_map, !length_combine, repeat_length, length_map, length_seq, !Nat.min_id.
  reflexivity.
Qed.

Lemma submit_batch_data_appends from w g :
  GSHEET_CONNECTED w = true ->
  worksheet w = Some {| grid := g; reachable := true |} ->
  exists w',
    submit_batch_data (batch_submit_press from) w = (Return END, w')
    /\ sheet_rows w'
       = g ++ map (batch_row w from)
                  (combine (combine (drawn_ids w (List.length (pending_entries w)))
                                    (repeat (clock w) (List.length (pending_entries w))))
                           (pending_entries w))
    /\ uuid_calls w' = uuid_calls w + List.length (pending_entries w)
    /\ user_data w' = empty_user_data
    /\ outbox w'
       = outbox w ++ [answer None false; submitting_notice;
                        batch_submitted (List.length (pending_entries w))].
Proof.
  intros Hc Hw. unfold submit_batch_data, batch_submit_press. exec.
  fold (pending_entries w).
  match goal with
  | |- context [for_each ?f ?l ?w0] =>
      rewrite (rows_of_the_entries f
                 (fun entry_id now headers entry_data =>
                    row_of (make_row_data entry_id now (user_identifier_of from) PyNone
                              entry_data) headers)
                 (fun e w1 => eq_refl) l w0)
  end.
  exec.
  match goal with
  | |- context [gsheet_utils.append_rows_to_sheet ?rows ?w1] =>
      destruct (append_rows_answers rows w1 g Hc Hw) as (w2 & E & W & U & O & C);
      rewrite E
  end.
  exec. eexists. split; [reflexivity|]. exec. unfold sheet_rows. exec.
  rewrite W, O, C. exec.
  split; [reflexivity|]. split; [reflexivity|]. split; [reflexivity|].
  unfold batch_submitted, submitting_notice.
  rewrite (rows_length _ _ (clock w) (pending_entries w)).
  rewrite <- !app_assoc. reflexivity.
Qed.

(** The submit of a batch, when the sheet answers, appends one row for
    each entry of the session, in their order and after the rows that
    were there; the identifiers of the rows are the next results of
    uuid4, one for each entry; the user is told how many entries were
    submitted, the session is emptied and the dialog ends.  With no entry
    in the session nothing is appended, and the message counts 0
    entries. *)
Theorem batch_submit_appends_a_row_for_each_entry :
  forall (from : User) (w : world) (g : list (list pyval)),
    GSHEET_CONNECTED w = true ->
    worksheet w = Some {| grid := g; reachable := true |} ->
    exists w' stamps,
      handle_update create_conv_handler (batch_submit_press from)
        (Some config.CREATE_BATCH_CONFIRM_SUBMISSION, w)
      = (None, w')
      /\ List.length stamps = List.length (pending_entries w)
      /\ sheet_rows w'
         = g ++ map (batch_row w from)
                    (combine (combine (drawn_ids w (List.length (pending_entries w)))
                                      stamps)
                             (pending_entries w))
      /\ uuid_calls w' = uuid_calls w + List.length (pending_entries w)
      /\ user_data w' = empty_user_data
      /\ outbox w'
         = outbox w ++ [answer None false; submitting_notice;
                          batch_submitted (List.length (pending_entries w))]
      /\ (pending_entries w = [] -> sheet_rows w' = g).
Proof.
  intros from w g Hc Hw.
  destruct (submit_batch_data_appends from w g Hc Hw) as (w' & E & R & C & U & O).
  exists w', (repeat (clock w) (List.length (pending_entries w))).
  unfold handle_update. rewrite batch_submit_is_routed. cbn [run]. rewrite E.
  split; [reflexivity|]. split; [apply repeat_length|]. split; [exact R|].
  split; [exact C|]. split; [exact U|]. split; [exact O|].
  intros Hnil. rewrite R, Hnil. cbn. apply app_nil_r.
Qed.

Lemma batch_submit_witness :
  exists w' stamps,
    handle_update create_conv_handler (batch_submit_press sara)
      (Some config.CREATE_BATCH_CONFIRM_SUBMISSION, three_priced)
    = (None, w')
    /\ sheet_rows w'
       = sample_grid
         ++ map (batch_row three_priced sara)
                (combine (combine [sample_uuid4 0; sample_uuid4 1; sample_uuid4 2] stamps)
                         (pending_entries three_priced))
    /\ List.length (sheet_rows w') = 6.
Proof.
  destruct (batch_submit_appends_a_row_for_each_entry sara three_priced sample_grid)
    as (w' & stamps & E & L & R & _); [reflexivity | reflexivity |].
  exists w', stamps. split; [exact E|]. split; [exact R|].
  rewrite R, length_app, length_map, !length_combine, L. reflexivity.
Defined.

End Batch.

(* ------------------------------------------------------------------ *)
(** ** The update dialog: the checklist of fields *)

Module FieldChecklist.

#[local] Opaque String.append PyStr.title keyboards.format_entry_details_markdown
  keyboards.build_keyboard escape_markdown_v2 py_str substring String.length
  config.PRODUCTS config.LOCATIONS.

(** *** The fields *)

Lemma field_key_read_back key :
  In key UPDATABLE_FIELDS_DISPLAY_ORDER ->
  PyStr.replace config.CB_UPDATE_FIELD_TOGGLE_PREFIX ""
    (config.CB_UPDATE_FIELD_TOGGLE_PREFIX ++ key)%string = key.
Proof.
  intros [<-|[<-|[<-|[<-|[]]]]]; vm_compute; reflexivity.
Qed.

Lemma ticked_no_repetition keys : NoDup (ticked keys).
Proof. apply BatchSelection.toggles_NoDup. constructor. Qed.

Lemma ticked_by_parity keys key :
  in_list key (ticked keys) = Nat.odd (count_occ string_dec keys key).
Proof.
  unfold ticked. change (toggles keys []) with (BatchSelection.toggles keys []).
  rewrite (BatchSelection.toggles_in_list keys key []) by constructor. reflexivity.
Qed.

Lemma ticked_was_pressed keys key : In key (ticked keys) -> In key keys.
Proof.
  intros H. apply in_list_In in H. rewrite ticked_by_parity in H.
  apply (count_occ_In string_dec).
  destruct (count_occ string_dec keys key); [discriminate | lia].
Qed.

Lemma queue_empty_iff keys :
  Forall (fun key => In key UPDATABLE_FIELDS_DISPLAY_ORDER) keys ->
  fields_queue keys = [] -> ticked keys = [].
Proof.
  intros Hk Hq. destruct (ticked keys) as [|key rest] eqn:E; [reflexivity|].
  exfalso.
  assert (Hin : In key (ticked keys)) by (rewrite E; left; reflexivity).
  assert (Hd : In key UPDATABLE_FIELDS_DISPLAY_ORDER).
  { rewrite Forall_forall in Hk. apply Hk. apply ticked_was_pressed. exact Hin. }
  assert (Hf : In key (fields_queue keys)).
  { unfold fields_queue. apply filter_In. split; [exact Hd|].
    apply in_list_In. exact Hin. }
  rewrite Hq in Hf. exact Hf.
Qed.

(** *** The steps *)

Lemma checklist_is_shown update w selected :
  selecting w selected ->
  exists o,
    show_field_selection_for_update update w
    = (Return config.UPDATE_SELECT_FIELDS_TOGGLE, after_output o w).
Proof.
  intros (Hs & Ho & Hi).
  destruct (update_original_data (user_data w)) as [od|] eqn:Eo; [|contradiction].
  destruct (update_entry_id (user_data w)) as [entry_id|] eqn:Ei; [|contradiction].
  unfold show_field_selection_for_update. exec. rewrite Eo. exec.
  cbn [for_each UPDATABLE_FIELDS_DISPLAY_ORDER UPDATABLE_FIELDS_MAP dict_get].
  eval_eqb. exec. rewrite Ei. exec.
  destruct update; exec; eexists; reflexivity.
Qed.

Lemma tick_step from t key w selected :
  In key UPDATABLE_FIELDS_DISPLAY_ORDER ->
  selecting w selected ->
  exists w',
    handle_update_at update_conv_handler (Some config.UPDATE_SELECT_FIELDS_TOGGLE, w)
      (field_press_at from (t, key))
    = (Some config.UPDATE_SELECT_FIELDS_TOGGLE, w')
    /\ selecting w' (toggle key selected)
    /\ same_sheet w w'.
Proof.
  intros Hk (Hs & Ho & Hi).
  unfold handle_update_at, field_press_at, handle_update. cbn [fst snd].
  rewrite UpdateWrite.resolve_field_press. cbn [run].
  unfold toggle_field_selection_callback, field_press. exec.
  rewrite (field_key_read_back key Hk), Hs.
  pose (w1 := with_user_data
                (set_fields_to_update_selected_keys (Some (toggle key selected))
                   (user_data w))
                (after_output (answer None false) (with_clock t w))).
  assert (S1 : selecting w1 (toggle key selected)) by (repeat split; assumption).
  destruct (checklist_is_shown
              (CallbackQuery from (config.CB_UPDATE_FIELD_TOGGLE_PREFIX ++ key)%string)
              w1 (toggle key selected) S1) as [o E].
  exists (after_output o w1). split.
  - match goal with
    | |- context [show_field_selection_for_update ?u ?w0] =>
        change (show_field_selection_for_update u w0)
          with (show_field_selection_for_update u w1)
    end.
    rewrite E. reflexivity.
  - split; [exact S1 | repeat split].
Qed.

Lemma ticks_loop from : forall presses w selected,
  Forall (fun tk : datetime * string => In (snd tk) UPDATABLE_FIELDS_DISPLAY_ORDER)
         presses ->
  selecting w selected ->
  exists w',
    handle_updates update_conv_handler (Some config.UPDATE_SELECT_FIELDS_TOGGLE, w)
      (map (field_press_at from) presses)
    = (Some config.UPDATE_SELECT_FIELDS_TOGGLE, w')
    /\ selecting w' (toggles (map snd presses) selected)
    /\ same_sheet w w'.
Proof.
  induction presses as [|[t key] presses IH]; intros w selected Hk Hs.
  - exists w. split; [reflexivity|]. split; [exact Hs | apply same_sheet_refl].
  - inversion Hk as [|? ? Hk1 Hks]; subst. cbn [snd] in Hk1.
    destruct (tick_step from t key w selected Hk1 Hs) as (w1 & E1 & S1 & Sh1).
    destruct (IH w1 (toggle key selected) Hks S1) as (w' & E & S' & Sh).
    exists w'. cbn [map]. rewrite Batch.timeline_cons, E1.
    split; [exact E|]. split; [exact S' | apply (same_sheet_trans _ _ _ Sh1 Sh)].
Qed.

Lemma proceed_is_routed from :
  resolve update_conv_handler (Some config.UPDATE_SELECT_FIELDS_TOGGLE)
    (proceed_press from)
  = Some cb_proceed_with_selected_fields_callback.
Proof. reflexivity. Qed.

Lemma proceed_without_a_field from w :
  selecting w [] ->
  proceed_with_selected_fields_callback (proceed_press from) w
  = (Return config.UPDATE_SELECT_FIELDS_TOGGLE,
     after_output select_a_field_alert (after_output (answer None false) w)).
Proof.
  intros (Hs & _). unfold proceed_with_selected_fields_callback, proceed_press.
  exec. rewrite Hs. exec. reflexivity.
Qed.

Lemma proceed_opens_the_first_field from w selected key rest :
  selecting w selected ->
  selected <> [] ->
  filter (fun key => in_list key selected) UPDATABLE_FIELDS_DISPLAY_ORDER = key :: rest ->
  exists w',
    proceed_with_selected_fields_callback (proceed_press from) w
    = (Return config.UPDATE_ENTER_MULTIPLE_VALUES, w')
    /\ update_fields_queue (user_data w') = Some (key :: rest)
    /\ current_field_being_updated_key (user_data w') = Some key
    /\ fields_to_update_selected_keys (user_data w') = Some selected
    /\ same_sheet w w'.
Proof.
  intros (Hs & Ho & _) Hne Hq.
  assert (Hk : In key UPDATABLE_FIELDS_DISPLAY_ORDER).
  { apply (proj1 (filter_In (fun key => in_list key selected) key
                    UPDATABLE_FIELDS_DISPLAY_ORDER)).
    rewrite Hq. left. reflexivity. }
  destruct (update_original_data (user_data w)) as [od|] eqn:Eo; [|contradiction].
  unfold proceed_with_selected_fields_callback, ask_for_next_field_value, proceed_press.
  exec. rewrite Hs. destruct selected as [|k selected]; [contradiction|].
  exec. rewrite Hq. exec. rewrite Eo. exec.
  destruct Hk as [<-|[<-|[<-|[<-|[]]]]];
    cbn [dict_get UPDATABLE_FIELDS_MAP]; eval_eqb; exec;
    (eexists; split; [reflexivity|]); exec; repeat split; exact Hs.
Qed.

(** However the fields were ticked, "Proceed" asks for them in the order
    product, price, location, remark: the queue holds, in that order, the
    fields whose button was pressed an odd number of times, and the first
    of them is the one asked for.  When no field is left ticked the user
    is alerted and the dialog stays at the checklist.  The sheet is not
    touched. *)
Theorem fields_are_asked_in_the_display_order :
  forall (from : User) (presses : list (datetime * string)) (t : datetime) (w : world),
    selecting w [] ->
    Forall (fun tk : datetime * string => In (snd tk) UPDATABLE_FIELDS_DISPLAY_ORDER)
           presses ->
    exists w',
      handle_updates update_conv_handler (Some config.UPDATE_SELECT_FIELDS_TOGGLE, w)
        (map (field_press_at from) presses ++ [(t, proceed_press from)])
      = (Some (asked_first (fields_queue (map snd presses))), w')
      /\ (fields_queue (map snd presses) <> [] ->
          update_fields_queue (user_data w') = Some (fields_queue (map snd presses))
          /\ current_field_being_updated_key (user_data w')
             = hd_error (fields_queue (map snd presses)))
      /\ (fields_queue (map snd presses) = [] ->
          exists o, outbox w' = o ++ [select_a_field_alert])
      /\ (forall key,
             In key (fields_queue (map snd presses))
             <-> In key UPDATABLE_FIELDS_DISPLAY_ORDER
                 /\ Nat.odd (count_occ string_dec (map snd presses) key) = true)
      /\ same_sheet w w'.
Proof.
  intros from presses t w Hs Hk.
  destruct (ticks_loop from presses w [] Hk Hs) as (w1 & E1 & S1 & Sh1).
  fold (ticked (map snd presses)) in S1.
  assert (Hkeys : Forall (fun key => In key UPDATABLE_FIELDS_DISPLAY_ORDER)
                         (map snd presses)).
  { rewrite Forall_map. exact Hk. }
  unfold handle_updates in *. rewrite fold_left_app, E1. cbn [fold_left].
  unfold handle_update_at, handle_update. cbn [fst snd].
  rewrite proceed_is_routed. cbn [run].
  assert (Hq : forall key,
             In key (fields_queue (map snd presses))
             <-> In key UPDATABLE_FIELDS_DISPLAY_ORDER
                 /\ Nat.odd (count_occ string_dec (map snd presses) key) = true).
  { intros key. unfold fields_queue. rewrite filter_In, ticked_by_parity. reflexivity. }
  destruct (fields_queue (map snd presses)) as [|key rest] eqn:Eq.
  - pose proof (queue_empty_iff _ Hkeys Eq) as Et. rewrite Et in S1.
    rewrite (proceed_without_a_field from (with_clock t w1) S1).
    eexists. split; [reflexivity|]. split; [intros H; contradiction|].
    split; [|split; [exact Hq|]].
    + intros _. eexists. reflexivity.
    + apply (same_sheet_trans _ _ _ Sh1). repeat split.
  - assert (Hne : ticked (map snd presses) <> []).
    { intros Et. unfold fields_queue in Eq. rewrite Et in Eq. discriminate Eq. }
    destruct (proceed_opens_the_first_field from (with_clock t w1)
                (ticked (map snd presses)) key rest S1 Hne Eq)
      as (w' & E & Q & C & _ & Sh).
    rewrite E. exists w'. split; [reflexivity|].
    split; [intros _; split; [exact Q | exact C]|].
    split; [intros H; discriminate H|]. split; [exact Hq|].
    apply (same_sheet_trans _ _ _ Sh1).
    apply (same_sheet_trans _ (with_clock t w1)); [repeat split | exact Sh].
Qed.

Lemma fields_are_asked_witness :
  exists w',
    handle_updates update_conv_handler (Some config.UPDATE_SELECT_FIELDS_TOGGLE, update_world)
      (map (field_press_at sara) sample_ticks ++ [(at_time 7, proceed_press sara)])
    = (Some config.UPDATE_ENTER_MULTIPLE_VALUES, w')
    /\ update_fields_queue (user_data w') = Some ["product"; "location"]
    /\ current_field_being_updated_key (user_data w') = Some "product".
Proof.
  destruct (fields_are_asked_in_the_display_order sara sample_ticks (at_time 7)
              update_world)
    as (w' & E & Q & _).
  - repeat split; discriminate.
  - repeat (constructor; [vm_compute; tauto|]). constructor.
  - exists w'. split; [exact E|]. apply Q. discriminate.
Defined.

(** *** The new values *)

Lemma for_each_pure {A B} (f : A -> M B) (g : A -> B) :
  (forall a w, f a w = (Return (g a), w)) ->
  forall l w, for_each f l w = (Return (map g l), w).
Proof.
  intros Hf. induction l as [|a l IH]; intros w; [reflexivity|].
  cbn [for_each map]. unfold bind. rewrite Hf, IH. reflexivity.
Qed.

Lemma dict_set_not_empty {V} k (v : V) d : dict_set k v d <> [].
Proof.
  destruct d as [|[k' v'] d]; cbn [dict_set]; [discriminate|].
  destruct (k' =? k)%string; discriminate.
Qed.

Lemma changes_are_summed_up update w new_values :
  new_values_for_update_map (user_data w) = Some new_values ->
  new_values <> [] ->
  update_original_data (user_data w) <> None ->
  exists o,
    confirm_multiple_changes update w
    = (Return config.UPDATE_CONFIRM_MULTIPLE, after_output o w).
Proof.
  intros Hn Hne Ho.
  destruct (update_original_data (user_data w)) as [od|] eqn:Eo; [|contradiction].
  unfold confirm_multiple_changes. exec. rewrite Hn. exec.
  destruct new_values as [|fv new_values]; [contradiction|].
  rewrite Eo.
  match goal with
  | |- context [for_each ?f ?l ?w0] =>
      rewrite (for_each_pure f
                 (fun fv : string * pyval =>
                    ("  - *" ++ keyboards.clean_and_format_for_display (fst fv) ++ ":* `"
                       ++ _escape_markdown (py_str (get_or_na (fst fv) od))
                       ++ "` " ++ pic ++ " `" ++ _escape_markdown (py_str (snd fv))
                       ++ "`")%string)
                 (fun a w1 => eq_refl) l w0)
  end.
  destruct update; exec; eexists; reflexivity.
Qed.

Lemma next_field_is_asked update w queue new_values :
  update_fields_queue (user_data w) = Some queue ->
  Forall (fun key => In key UPDATABLE_FIELDS_DISPLAY_ORDER) queue ->
  new_values_for_update_map (user_data w) = Some new_values ->
  new_values <> [] ->
  update_original_data (user_data w) <> None ->
  exists w',
    ask_for_next_field_value update w = (Return (asked_next queue), w')
    /\ update_fields_queue (user_data w') = Some queue
    /\ new_values_for_update_map (user_data w') = Some new_values
    /\ (queue <> [] -> current_field_being_updated_key (user_data w') = hd_error queue)
    /\ same_sheet w w'.
Proof.
  intros Hq Hk Hn Hne Ho. unfold ask_for_next_field_value. exec. rewrite Hq.
  destruct queue as [|key rest].
  - destruct (changes_are_summed_up update w new_values Hn Hne Ho) as [o E].
    rewrite E. eexists. split; [reflexivity|]. unfold after_output. exec.
    split; [exact Hq|]. split; [exact Hn|]. split; [intros H; contradiction|].
    repeat split.
  - destruct (update_original_data (user_data w)) as [od|] eqn:Eo; [|contradiction].
    inversion Hk as [|? ? Hk1 _]; subst.
    exec.
    destruct Hk1 as [<-|[<-|[<-|[<-|[]]]]];
      cbn [dict_get UPDATABLE_FIELDS_MAP]; eval_eqb; exec;
      destruct update; exec;
      (eexists; split; [reflexivity|]); exec;
      (split; [exact Hq|]); (split; [exact Hn|]); (split; [reflexivity|]);
      repeat split.
Qed.

Lemma typed_text_is_routed from text :
  resolve update_conv_handler (Some config.UPDATE_ENTER_MULTIPLE_VALUES)
    (Message from text)
  = Some cb_new_value_for_text_field_received.
Proof. reflexivity. Qed.

Lemma typed_text_is_stored from text w key rest new_values v :
  entering w (key :: rest) new_values ->
  Forall (fun key => In key UPDATABLE_FIELDS_DISPLAY_ORDER) (key :: rest) ->
  typed_value key text = Some v ->
  exists w' field,
    dict_get key UPDATABLE_FIELDS_MAP = Some field
    /\ new_value_for_text_field_received (Message from text) w
       = (Return (asked_next rest), w')
    /\ new_values_for_update_map (user_data w') = Some (dict_set field v new_values)
    /\ update_fields_queue (user_data w') = Some rest
    /\ (rest <> [] -> current_field_being_updated_key (user_data w') = hd_error rest)
    /\ same_sheet w w'.
Proof.
  intros (Hq & Hc & Hn & Ho) Hk Hv. cbn [hd_error] in Hc.
  inversion Hk as [|? ? Hk1 Hks]; subst.
  assert (Hf : exists field, dict_get key UPDATABLE_FIELDS_MAP = Some field).
  { destruct Hk1 as [<-|[<-|[<-|[<-|[]]]]]; eexists; reflexivity. }
  destruct Hf as [field Hf].
  pose (w1 := with_user_data
                (set_update_fields_queue (Some rest)
                   (set_new_values_for_update_map
                      (Some (dict_set field v new_values)) (user_data w))) w).
  destruct (next_field_is_asked (Message from text) w1 rest
              (dict_set field v new_values))
    as (w' & E & Q & N & C & Sh);
    [reflexivity | exact Hks | reflexivity | apply dict_set_not_empty | exact Ho |].
  exists w', field. split; [exact Hf|].
  split; [|split; [exact N|split; [exact Q|split; [exact C|]]]].
  - unfold new_value_for_text_field_received, store_new_value. exec. rewrite Hc. exec.
    unfold typed_value in Hv.
    destruct (key =? "price")%string.
    + destruct (parse_price text) as [x|]; [|discriminate].
      cbn [option_map] in Hv. injection Hv as <-.
      exec. rewrite Hn. exec. rewrite Hf. exec. rewrite Hq. exec.
      match goal with
      | |- context [ask_for_next_field_value ?u ?w0] =>
          change (ask_for_next_field_value u w0) with (ask_for_next_field_value u w1)
      end.
      rewrite E. reflexivity.
    + injection Hv as <-.
      exec. rewrite Hn. exec. rewrite Hf. exec. rewrite Hq. exec.
      match goal with
      | |- context [ask_for_next_field_value ?u ?w0] =>
          change (ask_for_next_field_value u w0) with (ask_for_next_field_value u w1)
      end.
      rewrite E. reflexivity.
  - apply (same_sheet_trans _ w1); [repeat split | exact Sh].
Qed.

(** While the update dialog asks for the new value of a field, a text
    that the user types is taken for that field, whichever it is: a
    positive number for the price, and the text as typed for the product,
    the location or the remark.  The value is stored under the column of
    the field, the field leaves the queue, and the dialog asks for the
    next field or, after the last, shows the summary of the changes. *)
Theorem typed_text_is_taken_for_the_field_that_is_asked :
  forall (from : User) (text : string) (w : world) (key : string) (rest : list string)
         (new_values : list (string * pyval)) (v : pyval),
    entering w (key :: rest) new_values ->
    Forall (fun key => In key UPDATABLE_FIELDS_DISPLAY_ORDER) (key :: rest) ->
    typed_value key text = Some v ->
    exists w' field,
      dict_get key UPDATABLE_FIELDS_MAP = Some field
      /\ handle_update update_conv_handler (Message from text)
           (Some config.UPDATE_ENTER_MULTIPLE_VALUES, w)
         = (Some (asked_next rest), w')
      /\ new_values_for_update_map (user_data w') = Some (dict_set field v new_values)
      /\ update_fields_queue (user_data w') = Some rest
      /\ (rest <> [] -> current_field_being_updated_key (user_data w') = hd_error rest)
      /\ same_sheet w w'.
Proof.
  intros from text w key rest new_values v He Hk Hv.
  destruct (typed_text_is_stored from text w key rest new_values v He Hk Hv)
    as (w' & field & Hf & E & N & Q & C & Sh).
  exists w', field. split; [exact Hf|]. split; [|auto].
  unfold handle_update. rewrite typed_text_is_routed. cbn [run]. rewrite E.
  destruct rest; reflexivity.
Qed.

Lemma typed_text_witness :
  exists w',
    handle_update update_conv_handler (Message sara "red onions")
      (Some config.UPDATE_ENTER_MULTIPLE_VALUES, product_asked)
    = (Some config.UPDATE_ENTER_MULTIPLE_VALUES, w')
    /\ new_values_for_update_map (user_data w')
       = Some [(config.PRODUCT_FIELD, PyStr "red onions")]
    /\ current_field_being_updated_key (user_data w') = Some "location".
Proof.
  destruct (typed_text_is_taken_for_the_field_that_is_asked sara "red onions"
              product_asked "product" ["location"] [] (PyStr "red onions"))
    as (w' & field & Hf & E & N & _ & C & _).
  - repeat split; discriminate.
  - repeat (constructor; [vm_compute; tauto|]). constructor.
  - reflexivity.
  - injection Hf as <-. exists w'. split; [exact E|]. split; [exact N|].
    apply C. discriminate.
Defined.

End FieldChecklist.

(* ------------------------------------------------------------------ *)
(** ** The states of the dialogs *)

Module States.

Lemma states_from counter : forall count start,
  NoDup (map (fun i => (counter + Z.of_nat i)%Z) (seq start count)).
Proof.
  induction count as [|count IH]; intros start; cbn [seq map]; constructor.
  - intros H. apply in_map_iff in H as (i & E & Hi). apply in_seq in Hi. lia.
  - apply IH.
Qed.

Lemma states_shift_from counter count start : forall k,
  map (fun i => (counter + Z.of_nat start + Z.of_nat i)%Z) (seq k count)
  = map (fun i => (counter + Z.of_nat i)%Z) (seq (start + k) count).
Proof.
  induction count as [|count IH]; intros k; [reflexivity|].
  cbn [seq map]. f_equal; [lia|]. rewrite IH, Nat.add_succ_r. reflexivity.
Qed.

(** Each call of [_generate_unique_states] gives as many states as asked
    for, all of them at or above the counter and below the counter that
    it leaves; so the states of a call are different from each other and
    from the states of the call that follows it, and with a counter that
    starts at 0 or above none of them is [ConversationHandler.END]. *)
Theorem generated_states_are_fresh :
  forall (count count' : nat) (counter : Z),
    let first := config._generate_unique_states count counter in
    let second := config._generate_unique_states count' (snd first) in
    List.length (fst first) = count
    /\ snd first = (counter + Z.of_nat count)%Z
    /\ (forall s, In s (fst first) -> (counter <= s < snd first)%Z)
    /\ NoDup (fst first ++ fst second)
    /\ ((0 <= counter)%Z -> ~ In END (fst first ++ fst second)).
Proof.
  intros count count' counter. cbv zeta. unfold config._generate_unique_states.
  cbn [fst snd].
  assert (E : map (fun i => (counter + Z.of_nat i)%Z) (seq 0 count)
              ++ map (fun i => (counter + Z.of_nat count + Z.of_nat i)%Z) (seq 0 count')
              = map (fun i => (counter + Z.of_nat i)%Z) (seq 0 (count + count'))).
  { rewrite states_shift_from, seq_app, map_app, Nat.add_0_r. reflexivity. }
  split; [rewrite length_map; apply length_seq|]. split; [reflexivity|].
  split; [|split].
  - intros s H. apply in_map_iff in H as (i & <- & Hi). apply in_seq in Hi. lia.
  - pose proof (states_from counter (count + count') 0) as H.
    rewrite <- E in H. exact H.
  - intros Hc H.
    assert (H' : In END (map (fun i => (counter + Z.of_nat i)%Z)
                             (seq 0 (count + count'))))
      by (rewrite <- E; exact H).
    apply in_map_iff in H' as (i & Hi & _). unfold END in Hi. lia.
Qed.

End States.
